(** * TempDairyBackend: billing and record reconciliation engine

    A shallow embedding of the Express/Mongoose handlers that expand a
    customer's standing delivery schedule into daily records, stage
    quantity adjustments, aggregate records into monthly invoices and keep
    the customer's advance (credit) balance.

    Conventions of the embedding.
    - A JavaScript [Number] that carries money or a quantity is a [Z]
      (smallest currency unit, smallest quantity unit).  The program
      holds these numbers as IEEE-754 doubles, whose sums and differences
      are those of [Z] exactly when every amount is a whole number of
      magnitude below 2^53.  A statement meant for amounts with a
      fractional part as well names the operations in the order in which
      the source performs them, or an order between amounts that rounding
      preserves; a statement that rests on exact arithmetic says that it
      is about whole-number amounts.  [Module Double] at the end gives
      the payment path on doubles.
    - A [Date] is a [Z]: milliseconds on the server's local time line.
    - A Mongo collection is a list of documents in natural order;
      [findOne] returns the first match.
    - A handler is a function from the clock reading and the database to
      the new database and the HTTP response; an exception caught by the
      handler's [try/catch] is the 500 response of that handler.
    - String enumerations guarded by a schema [enum] are inductive types.
    - Identity and credential fields of a customer (name, phone, username,
      password) and their hooks are left out; no modelled handler reads
      them except [customerNo] and [name]. *)

From Stdlib Require Import ZArith List String Ascii Bool Lia DecimalString.
From Stdlib Require Import DecimalPos Sorted PrimFloat.
Import ListNotations.
Open Scope string_scope.
Open Scope Z_scope.

(** ** JavaScript runtime pieces used by the handlers *)

Module Js.

Definition Number := Z.
Definition Date := Z.
Definition ObjectId := N.

(** *** Strings *)

(** [n.toString()] for an integer. *)
Definition toString (n : Z) : string :=
NilZero.string_of_int (Z.to_int n).

Fixpoint repeat_char (c : ascii) (n : nat) : string :=
match n with
| O => EmptyString
| S k => String c (repeat_char c k)
end.

(** [s.padStart(n, '0')]. *)
Definition padStart (s : string) (n : nat) : string :=
String.append (repeat_char "0"%char (n - String.length s)) s.

(** [s.slice(-n)]: the last [n] characters. *)
Definition sliceLast (s : string) (n : nat) : string :=
substring (String.length s - n) n s.

(** [s.startsWith(p)]. *)
Definition startsWith (s p : string) : bool := String.prefix p s.

(** [s.split(sep)] for a one-character separator. *)
Fixpoint split_aux (sep : ascii) (acc : string) (s : string) : list string :=
match s with
| EmptyString => [acc]
| String c rest =>
    if Ascii.eqb c sep then acc :: split_aux sep EmptyString rest
    else split_aux sep (String.append acc (String c EmptyString)) rest
end.

Definition split (s : string) (sep : ascii) : list string :=
split_aux sep EmptyString s.

Definition is_space (c : ascii) : bool :=
let n := nat_of_ascii c in
(Nat.eqb n 32 || Nat.eqb n 9 || Nat.eqb n 10 || Nat.eqb n 11 || Nat.eqb n 12 || Nat.eqb n 13)%bool.

Definition digit_of (c : ascii) : option Z :=
let n := nat_of_ascii c in
if (Nat.leb 48 n && Nat.leb n 57)%bool then Some (Z.of_nat n - 48) else None.

Fixpoint skip_spaces (s : string) : string :=
match s with
| String c rest => if is_space c then skip_spaces rest else s
| EmptyString => s
end.

Fixpoint read_digits (acc : option Z) (s : string) : option Z :=
match s with
| EmptyString => acc
| String c rest =>
    match digit_of c with
    | Some d =>
        read_digits (Some (10 * match acc with Some a => a | None => 0 end + d)) rest
    | None => acc
    end
end.

(** [parseInt(s)]: leading white space, an optional sign, then the longest
    run of decimal digits; [None] stands for [NaN]. *)
Definition parseInt (s : string) : option Z :=
match skip_spaces s with
| String "-"%char rest => option_map Z.opp (read_digits None rest)
| String "+"%char rest => read_digits None rest
| t => read_digits None t
end.

(** [parseInt(parts[i])]; a missing element is [undefined], which parses
    to [NaN]. *)
Definition parseIntAt (parts : list string) (i : nat) : option Z :=
match nth_error parts i with
| Some p => parseInt p
| None => None
end.

(** [s.trim()] for a string of ASCII characters: the white space removed
    is tab, line feed, vertical tab, form feed, carriage return and space.
    The white space of JavaScript outside ASCII (no-break space, byte
    order mark, line and paragraph separators, the other space separators)
    is not removed. *)
Fixpoint trimEnd (s : string) : string :=
match s with
| EmptyString => EmptyString
| String c rest =>
    match trimEnd rest with
    | EmptyString => if is_space c then EmptyString else String c EmptyString
    | kept => String c kept
    end
end.

Definition trim (s : string) : string := trimEnd (skip_spaces s).

(** *** Arrays *)

(** [xs.isAccept] on an [Array]: arrays carry no such property, so the
    read gives [undefined], here [None], whatever the elements are. *)
Definition Array_isAccept {A : Type} (xs : list A) : option bool := None.

(** [v === false]. *)
Definition strictlyFalse (v : option bool) : bool :=
match v with
| Some false => true
| _ => false
end.

(** *** Dates *)

Definition msPerDay : Z := 86400000.

(** Day number and time within the day of a time value. *)
Definition Day (t : Date) : Z := t / msPerDay.
Definition TimeWithinDay (t : Date) : Z := t mod msPerDay.

(** Day number of a proleptic Gregorian date; [m] is 1-based. *)
Definition days_from_civil (y m d : Z) : Z :=
let y' := if m <=? 2 then y - 1 else y in
let era := y' / 400 in
let yoe := y' - era * 400 in
let mp := if 2 <? m then m - 3 else m + 9 in
let doy := (153 * mp + 2) / 5 + d - 1 in
let doe := yoe * 365 + yoe / 4 - yoe / 100 + doy in
era * 146097 + doe - 719468.

(** Year, month (1-based) and day of month of a day number. *)
Definition civil_from_days (z : Z) : Z * Z * Z :=
let z' := z + 719468 in
let era := z' / 146097 in
let doe := z' - era * 146097 in
let yoe := (doe - doe / 1460 + doe / 36524 - doe / 146096) / 365 in
let doy := doe - (365 * yoe + yoe / 4 - yoe / 100) in
let mp := (5 * doy + 2) / 153 in
let d := doy - (153 * mp + 2) / 5 + 1 in
let m := if mp <? 10 then mp + 3 else mp - 9 in
let y := yoe + era * 400 in
((if m <=? 2 then y + 1 else y), m, d).

Definition getFullYear (t : Date) : Z := fst (fst (civil_from_days (Day t))).
(** [getMonth] is 0-based. *)
Definition getMonth (t : Date) : Z := snd (fst (civil_from_days (Day t))) - 1.
Definition getDate (t : Date) : Z := snd (civil_from_days (Day t)).

(** [MakeDay(year, month, date)] of ECMAScript: the month index may lie
    outside 0..11 and the day outside the month. *)
Definition MakeDay (year month date : Z) : Z :=
days_from_civil (year + month / 12) (month mod 12 + 1) 1 + date - 1.

(** [new Date(year, monthIndex, day)]: local midnight; a year in 0..99 is
    taken in the twentieth century. *)
Definition newDate (year monthIndex day : Z) : Date :=
let fullYear := if (0 <=? year) && (year <=? 99) then 1900 + year else year in
MakeDay fullYear monthIndex day * msPerDay.

(** [d.setDate(n)]: same month and time of day, day of month [n]. *)
Definition setDate (t : Date) (n : Z) : Date :=
MakeDay (getFullYear t) (getMonth t) n * msPerDay + TimeWithinDay t.

(** [d.setHours(0, 0, 0, 0)] and [d.setHours(23, 59, 59, 999)]. *)
Definition startOfDay (t : Date) : Date := Day t * msPerDay.
Definition endOfDay (t : Date) : Date := Day t * msPerDay + 86399999.

End Js.

(** ** Schemas (models/) *)

Inductive TimeSlot := morning | evening.

Definition TimeSlot_eq_dec (a b : TimeSlot) : {a = b} + {a <> b}.
Proof. decide equality. Defined.

Definition TimeSlot_eqb (a b : TimeSlot) : bool :=
if TimeSlot_eq_dec a b then true else false.

(** Sum of a numeric field over an array: [xs.reduce((sum, x) => sum + f(x), 0)]. *)
Definition sumBy {A : Type} (f : A -> Z) (xs : list A) : Z :=
fold_left (fun sum x => sum + f x) xs 0.

Module MilkItem.
Record t := mk {
  milkType : Js.ObjectId;
  subcategory : Js.ObjectId;
  quantity : Z;
  pricePerUnit : Z;
  totalPrice : Z }.

(** The [min: 0] validators of the milk item sub-schema. *)
Definition valid (i : t) : bool :=
(0 <=? quantity i) && (0 <=? pricePerUnit i) && (0 <=? totalPrice i).
End MilkItem.

Module DeliveryTime.
Record t := mk {
  time : TimeSlot;
  milkItems : list MilkItem.t;
  totalQuantity : Z;
  totalPrice : Z }.

Definition valid (d : t) : bool := forallb MilkItem.valid (milkItems d).
End DeliveryTime.

Module Customer.
Record t := mk {
  _id : Js.ObjectId;
  customerNo : Z;
  name : string;
  deliverySchedule : list DeliveryTime.t;
  totalDailyQuantity : Z;
  totalDailyPrice : Z;
  isActive : bool;
  advance : Z }.

Definition set_advance (c : t) (a : Z) : t :=
mk (_id c) (customerNo c) (name c) (deliverySchedule c)
   (totalDailyQuantity c) (totalDailyPrice c) (isActive c) a.

(** The recomputation inside [customerSchema.pre('save')]: every item's
    total price, then the totals of the slot. *)
Definition recalc_item (i : MilkItem.t) : MilkItem.t :=
MilkItem.mk (MilkItem.milkType i) (MilkItem.subcategory i) (MilkItem.quantity i)
  (MilkItem.pricePerUnit i) (MilkItem.quantity i * MilkItem.pricePerUnit i).

Definition recalc_delivery (d : DeliveryTime.t) : DeliveryTime.t :=
let items := map recalc_item (DeliveryTime.milkItems d) in
DeliveryTime.mk (DeliveryTime.time d) items
  (sumBy MilkItem.quantity items) (sumBy MilkItem.totalPrice items).

(** [customerSchema.pre('save')]: refuses two deliveries for one slot,
    otherwise recomputes the totals.  [None] is the error passed to [next]. *)
Definition pre_save (c : t) : option t :=
let times := map DeliveryTime.time (deliverySchedule c) in
let uniqueTimes := nodup TimeSlot_eq_dec times in
if negb (Nat.eqb (List.length times) (List.length uniqueTimes)) then None
else
  let schedule := map recalc_delivery (deliverySchedule c) in
  Some (mk (_id c) (customerNo c) (name c) schedule
          (sumBy DeliveryTime.totalQuantity schedule)
          (sumBy DeliveryTime.totalPrice schedule)
          (isActive c) (advance c)).
End Customer.

Module Record_.
Record t := mk {
  _id : Js.ObjectId;
  customer : Js.ObjectId;
  date : Js.Date;
  deliverySchedule : list DeliveryTime.t;
  totalDailyQuantity : Z;
  totalDailyPrice : Z }.

Definition set_id (r : t) (id : Js.ObjectId) : t :=
mk id (customer r) (date r) (deliverySchedule r) (totalDailyQuantity r) (totalDailyPrice r).
End Record_.

Module QuantityUpdate.
Inductive Status := pending | accepted | rejected.

Record t := mk {
  _id : Js.ObjectId;
  customer : Js.ObjectId;
  date : Js.Date;
  time : TimeSlot;
  oldQuantity : Z;
  newQuantity : Z;
  difference : Z;
  reason : string;
  milkType : Js.ObjectId;
  subcategory : Js.ObjectId;
  isAccept : bool;
  status : Status;
  lastQuantity : Z }.
End QuantityUpdate.

Module Holiday.
Record t := mk {
  name : string;
  date : Js.Date;
  isRecurringYearly : bool }.
End Holiday.

Module Payment.
Inductive Method := cash | online | advance.

Record t := mk {
  amount : Z;
  paymentDate : Js.Date;
  paymentMethod : Method;
  transactionId : option string;
  notes : option string }.

Definition set_amount (p : t) (a : Z) : t :=
mk a (paymentDate p) (paymentMethod p) (transactionId p) (notes p).
End Payment.

Module Invoice.
Inductive Status := pending | partially_paid | paid | overdue.

(** One day of the billed period, copied from the daily record. *)
Record Item := mkItem {
  item_date : Js.Date;
  item_deliverySchedule : list DeliveryTime.t;
  item_totalDailyQuantity : Z;
  item_totalDailyPrice : Z }.

Record t := mk {
  _id : Js.ObjectId;
  customer : Js.ObjectId;
  invoiceNumber : string;
  startDate : Js.Date;
  endDate : Js.Date;
  totalQuantity : Z;
  totalAmount : Z;
  amountPaid : Z;
  dueAmount : Z;
  status : Status;
  dueDate : Js.Date;
  items : list Item;
  payments : list Payment.t;
  createdAt : Js.Date }.

Definition set_status (i : t) (s : Status) : t :=
mk (_id i) (customer i) (invoiceNumber i) (startDate i) (endDate i)
   (totalQuantity i) (totalAmount i) (amountPaid i) (dueAmount i) s
   (dueDate i) (items i) (payments i) (createdAt i).

Definition set_dueAmount (i : t) (d : Z) : t :=
mk (_id i) (customer i) (invoiceNumber i) (startDate i) (endDate i)
   (totalQuantity i) (totalAmount i) (amountPaid i) d (status i)
   (dueDate i) (items i) (payments i) (createdAt i).

Definition set_identity (i : t) (id : Js.ObjectId) (created : Js.Date) : t :=
mk id (customer i) (invoiceNumber i) (startDate i) (endDate i)
   (totalQuantity i) (totalAmount i) (amountPaid i) (dueAmount i) (status i)
   (dueDate i) (items i) (payments i) created.

(** [invoiceSchema.pre('save')] (models/Invoice.js, lines 118-135). *)
Definition pre_save (now : Js.Date) (this : t) : t :=
let this := set_dueAmount this (totalAmount this - amountPaid this) in
if dueAmount this <=? 0 then set_status this paid
else if 0 <? amountPaid this then set_status this partially_paid
else if dueDate this <? now then set_status this overdue
else set_status this pending.

(** The in-memory part of [invoiceSchema.methods.addPayment]: push the
    payment and add its amount to [amountPaid]; the caller then saves. *)
Definition pushPayment (this : t) (paymentDetails : Payment.t) : t :=
mk (_id this) (customer this) (invoiceNumber this) (startDate this) (endDate this)
   (totalQuantity this) (totalAmount this)
   (amountPaid this + Payment.amount paymentDetails)
   (dueAmount this) (status this) (dueDate this) (items this)
   (payments this ++ [paymentDetails]) (createdAt this).
End Invoice.

(** ** The document store *)

Record DB := mkDB {
  customers : list Customer.t;
  records : list Record_.t;
  quantityUpdates : list QuantityUpdate.t;
  invoices : list Invoice.t;
  holidays : list Holiday.t;
  categories : list Js.ObjectId;
  subcategories : list Js.ObjectId;
  nextId : Js.ObjectId }.

Definition set_customers (db : DB) (cs : list Customer.t) : DB :=
mkDB cs (records db) (quantityUpdates db) (invoices db) (holidays db)
  (categories db) (subcategories db) (nextId db).

Definition set_invoices (db : DB) (invs : list Invoice.t) : DB :=
mkDB (customers db) (records db) (quantityUpdates db) invs (holidays db)
  (categories db) (subcategories db) (nextId db).

Definition set_quantityUpdates (db : DB) (us : list QuantityUpdate.t) : DB :=
mkDB (customers db) (records db) us (invoices db) (holidays db)
  (categories db) (subcategories db) (nextId db).

(** A new document takes the next identifier of the store. *)
Definition push_record (db : DB) (r : Record_.t) : DB :=
mkDB (customers db) (records db ++ [r]) (quantityUpdates db) (invoices db)
  (holidays db) (categories db) (subcategories db) (N.succ (nextId db)).

Definition push_invoice (db : DB) (i : Invoice.t) : DB :=
mkDB (customers db) (records db) (quantityUpdates db) (invoices db ++ [i])
  (holidays db) (categories db) (subcategories db) (N.succ (nextId db)).

Definition push_quantityUpdate (db : DB) (u : QuantityUpdate.t) : DB :=
mkDB (customers db) (records db) (quantityUpdates db ++ [u]) (invoices db)
  (holidays db) (categories db) (subcategories db) (N.succ (nextId db)).

(** [Model.findById]. *)
Definition Customer_findById (db : DB) (id : Js.ObjectId) : option Customer.t :=
find (fun c => N.eqb (Customer._id c) id) (customers db).

Definition Invoice_findById (db : DB) (id : Js.ObjectId) : option Invoice.t :=
find (fun i => N.eqb (Invoice._id i) id) (invoices db).

(** Writing a loaded document back replaces the stored one with its
    identifier. *)
Definition replace_customer (d : Customer.t) (cs : list Customer.t) : list Customer.t :=
map (fun c => if N.eqb (Customer._id c) (Customer._id d) then d else c) cs.

Definition replace_invoice (d : Invoice.t) (invs : list Invoice.t) : list Invoice.t :=
map (fun i => if N.eqb (Invoice._id i) (Invoice._id d) then d else i) invs.

(** [customer.save()]: runs the pre-save hook, then writes.  [None] is the
    rejection thrown to the caller. *)
Definition Customer_save (db : DB) (c : Customer.t) : option (DB * Customer.t) :=
match Customer.pre_save c with
| None => None
| Some c' => Some (set_customers db (replace_customer c' (customers db)), c')
end.

(** [invoice.save()] on a stored invoice: runs the pre-save hook, then
    writes. *)
Definition Invoice_save (now : Js.Date) (db : DB) (i : Invoice.t) : DB * Invoice.t :=
let i' := Invoice.pre_save now i in
(set_invoices db (replace_invoice i' (invoices db)), i').

(** [Invoice.create(fields)]: a fresh identifier and creation time, the
    pre-save hook, and the unique index on [invoiceNumber]; [None] is the
    duplicate-key error. *)
Definition Invoice_create (now : Js.Date) (db : DB) (fields : Invoice.t) : option (DB * Invoice.t) :=
let i := Invoice.pre_save now (Invoice.set_identity fields (nextId db) now) in
if existsb (fun j => String.eqb (Invoice.invoiceNumber j) (Invoice.invoiceNumber i)) (invoices db)
then None
else Some (push_invoice db i, i).

(** [invoice.addPayment(paymentDetails)] (models/Invoice.js, lines 138-143). *)
Definition addPayment (now : Js.Date) (db : DB) (this : Invoice.t) (paymentDetails : Payment.t)
  : DB * Invoice.t :=
Invoice_save now db (Invoice.pushPayment this paymentDetails).

(** [Record.create(fields)]: a fresh identifier, the [min: 0] validators of
    the schedule and the unique index on (date, customer); [None] is the
    error thrown. *)
Definition Record_create (db : DB) (fields : Record_.t) : option (DB * Record_.t) :=
let r := Record_.set_id fields (nextId db) in
if negb (forallb DeliveryTime.valid (Record_.deliverySchedule r)) then None
else if existsb (fun q => N.eqb (Record_.customer q) (Record_.customer r)
                          && (Record_.date q =? Record_.date r)) (records db)
then None
else Some (push_record db r, r).

(** ** controllers/invoiceController.js *)

Module InvoiceController.

(** What a handler's [catch] can receive. *)
Inductive Error :=
| SlotConflict      (* thrown by the customer pre-save hook *)
| DuplicateKey      (* unique index violated *)
| TypeError.        (* property read on [null] *)

Record FailedEntry := mkFailed {
  failed_customer : Js.ObjectId;
  failed_name : string;
  failed_reason : string + Error;
  failed_invoiceNumber : option string }.

Record BatchEntry := mkEntry {
  entry_customer : Js.ObjectId;
  entry_name : string;
  entry_invoiceId : Js.ObjectId;
  entry_invoiceNumber : string;
  entry_totalAmount : Z;
  entry_advanceUsed : option Z }.

Record BatchResults := mkResults {
  created : list BatchEntry;
  updated : list BatchEntry;
  failed : list FailedEntry }.

Inductive Body :=
| Message (message : string)
| ExistingInvoice (message : string) (invoiceId : Js.ObjectId) (invoiceNumber : string)
| InvoiceResult (invoice : Invoice.t) (advanceUsed : Z) (message : string)
| InvoiceDoc (invoice : Invoice.t)
| StatusResult (success : bool) (invoice : Invoice.t)
| BatchSummary (totalProcessed : nat) (results : BatchResults)
| ServerError (error : Error).

Record Response := mkResponse { status : Z; body : Body }.

(** [!x] for an optional numeric field of the request body. *)
Definition missing (x : option Z) : bool :=
match x with
| None => true
| Some n => n =? 0
end.

(** [parseInt(x)] of a numeric field that passed the [!x] test. *)
Definition numberOf (x : option Z) : Z :=
match x with
| Some n => n
| None => 0
end.

(** [Invoice.findOne({}, {}, { sort: { createdAt: -1 } })]. *)
Definition latestInvoice (db : DB) : option Invoice.t :=
fold_left
  (fun best i =>
     match best with
     | None => Some i
     | Some b => if Invoice.createdAt b <? Invoice.createdAt i then Some i else Some b
     end)
  (invoices db) None.

(** [generateInvoiceNumber] (lines 10-26). *)
Definition generateInvoiceNumber (now : Js.Date) (db : DB) : string :=
let year := Js.sliceLast (Js.toString (Js.getFullYear now)) 2 in
let month := Js.padStart (Js.toString (Js.getMonth now + 1)) 2 in
let counter :=
  match latestInvoice db with
  | Some latest =>
      match Js.parseIntAt (Js.split (Invoice.invoiceNumber latest) "-"%char) 3 with
      | None => 1
      | Some lastCounter => lastCounter + 1
      end
  | None => 1
  end in
String.concat "-" ["INV"; year; month; Js.padStart (Js.toString counter) 4].

(** The overlap query of lines 127-131 and 323-327:
    [{ customer, startDate: { $lte: endDate }, endDate: { $gte: startDate } }]. *)
Definition overlaps (id : Js.ObjectId) (startDate endDate : Js.Date) (i : Invoice.t) : bool :=
N.eqb (Invoice.customer i) id
&& (Invoice.startDate i <=? endDate)
&& (startDate <=? Invoice.endDate i).

Definition findExistingInvoice (db : DB) (id : Js.ObjectId) (startDate endDate : Js.Date)
  : option Invoice.t :=
find (overlaps id startDate endDate) (invoices db).

(** [.sort({ date: 1 })]: stable insertion by date. *)
Fixpoint insertByDate (r : Record_.t) (rs : list Record_.t) : list Record_.t :=
match rs with
| [] => [r]
| q :: rest =>
    if Record_.date r <? Record_.date q then r :: rs else q :: insertByDate r rest
end.

Definition sortByDate (rs : list Record_.t) : list Record_.t :=
fold_left (fun acc r => insertByDate r acc) rs [].

(** The record query of the single-customer handler (lines 142-148):
    from [startDate] up to, but excluding, the first day of the next month. *)
Definition findRecordsBefore (db : DB) (id : Js.ObjectId) (startDate nextMonth : Js.Date)
  : list Record_.t :=
sortByDate
  (filter (fun r => N.eqb (Record_.customer r) id
                    && (startDate <=? Record_.date r)
                    && (Record_.date r <? nextMonth)) (records db)).

(** The record query of the batch handler (lines 340-346): from
    [startDate] up to and including [endDate]. *)
Definition findRecordsUpTo (db : DB) (id : Js.ObjectId) (startDate endDate : Js.Date)
  : list Record_.t :=
sortByDate
  (filter (fun r => N.eqb (Record_.customer r) id
                    && (startDate <=? Record_.date r)
                    && (Record_.date r <=? endDate)) (records db)).

Definition itemOf (record : Record_.t) : Invoice.Item :=
Invoice.mkItem (Record_.date record) (Record_.deliverySchedule record)
  (Record_.totalDailyQuantity record) (Record_.totalDailyPrice record).

(** The outcome of the block "Apply customer advance to new invoice"
    (lines 200-231, again 404-434). *)
Record AdvanceApplied := mkApplied {
  app_dueAmount : Z;
  app_amountPaid : Z;
  app_payments : list Payment.t;
  app_advanceUsed : Z;
  app_customer : Customer.t;
  app_saved : bool }.

Definition advanceNote : string := "Advance applied from previous overpayment".

Definition applyAdvance (now : Js.Date) (customer : Customer.t) (totalAmount : Z) : AdvanceApplied :=
let advance := Customer.advance customer in
if negb (advance =? 0) && (0 <? advance) then
  if totalAmount <=? advance then
    mkApplied 0 totalAmount
      [Payment.mk totalAmount now Payment.advance None (Some advanceNote)]
      totalAmount (Customer.set_advance customer (advance - totalAmount)) true
  else
    mkApplied (totalAmount - advance) advance
      [Payment.mk advance now Payment.advance None (Some advanceNote)]
      advance (Customer.set_advance customer 0) true
else mkApplied totalAmount 0 [] 0 customer false.

(** The branch "Create new invoice" (lines 193-256, again 397-459): number,
    due date, advance, initial status, [Invoice.create], then
    [invoice.save()]. *)
Definition createNewInvoice (now : Js.Date) (db : DB) (customer : Customer.t)
  (customerRef : Js.ObjectId) (startDate endDate : Js.Date)
  (totalQuantity totalAmount : Z) (items : list Invoice.Item)
  : DB * (Error + Invoice.t * Z) :=
let invoiceNumber := generateInvoiceNumber now db in
let dueDate := Js.setDate endDate (Js.getDate endDate + 15) in
let app := applyAdvance now customer totalAmount in
match (if app_saved app then option_map fst (Customer_save db (app_customer app))
       else Some db) with
| None => (db, inl SlotConflict)
| Some db1 =>
    let amountPaid := app_amountPaid app in
    let status :=
      if totalAmount <=? amountPaid then Invoice.paid
      else if 0 <? amountPaid then Invoice.partially_paid
      else Invoice.pending in
    match Invoice_create now db1
            (Invoice.mk 0%N customerRef invoiceNumber startDate endDate
               totalQuantity totalAmount amountPaid (app_dueAmount app) status
               dueDate items (app_payments app) now) with
    | None => (db1, inl DuplicateKey)
    | Some (db2, invoice) =>
        let '(db3, invoice') := Invoice_save now db2 invoice in
        (db3, inr (invoice', app_advanceUsed app))
    end
end.

(** The branch "Update existing invoice" (lines 174-185, again 376-387). *)
Definition updateExistingInvoice (now : Js.Date) (db : DB) (existingInvoice : Invoice.t)
  (endDate : Js.Date) (totalQuantity totalAmount : Z) (items : list Invoice.Item)
  : DB * Invoice.t :=
let i := existingInvoice in
Invoice_save now db
  (Invoice.mk (Invoice._id i) (Invoice.customer i) (Invoice.invoiceNumber i)
     (Invoice.startDate i) endDate totalQuantity totalAmount (Invoice.amountPaid i)
     (totalAmount - (if Invoice.amountPaid i =? 0 then 0 else Invoice.amountPaid i))
     (Invoice.status i) (Invoice.dueDate i) items (Invoice.payments i)
     (Invoice.createdAt i)).

Record GenerateRequest := mkGenerate {
  params_id : Js.ObjectId;
  month : option Z;
  year : option Z;
  updateExisting : bool }.

(** [generateCustomerMonthlyInvoice] (lines 83-267). *)
Definition generateCustomerMonthlyInvoice (now : Js.Date) (db : DB) (req : GenerateRequest)
  : DB * Response :=
let id := params_id req in
if missing (month req) || missing (year req) then
  (db, mkResponse 400 (Message "Month and year are required"))
else
let monthNum := numberOf (month req) in
let yearNum := numberOf (year req) in
if (monthNum <? 1) || (12 <? monthNum) then
  (db, mkResponse 400 (Message "Invalid month"))
else
let startDate := Js.newDate yearNum (monthNum - 1) 1 in
let endDate := Js.newDate yearNum monthNum 0 in
match Customer_findById db id with
| None => (db, mkResponse 404 (Message "Customer not found"))
| Some customer =>
    let existingInvoice := findExistingInvoice db id startDate endDate in
    match existingInvoice, updateExisting req with
    | Some existing, false =>
        (db, mkResponse 400
               (ExistingInvoice "Invoice already exists for this period"
                  (Invoice._id existing) (Invoice.invoiceNumber existing)))
    | _, _ =>
        let records := findRecordsBefore db id startDate (Js.newDate yearNum monthNum 1) in
        if Nat.eqb (List.length records) 0 then
          (db, mkResponse 404 (Message "No records found for this period"))
        else
        let items := map itemOf records in
        let totalQuantity := sumBy Record_.totalDailyQuantity records in
        let totalAmount := sumBy Record_.totalDailyPrice records in
        match existingInvoice with
        | Some existing =>
            let '(db', invoice) :=
              updateExistingInvoice now db existing endDate totalQuantity totalAmount items in
            (db', mkResponse 200 (InvoiceResult invoice 0 "Invoice updated successfully"))
        | None =>
            match createNewInvoice now db customer id startDate endDate
                    totalQuantity totalAmount items with
            | (db', inl e) => (db', mkResponse 500 (ServerError e))
            | (db', inr (invoice, advanceUsed)) =>
                (db', mkResponse 201
                        (InvoiceResult invoice advanceUsed "Invoice created successfully"))
            end
        end
    end
end.

Record BatchRequest := mkBatch {
  batch_month : option Z;
  batch_year : option Z;
  batch_updateExisting : bool }.

(** The body of the loop over the active customers (lines 320-477); an
    exception is caught per customer and recorded in [failed]. *)
Definition batchStep (now startDate endDate : Js.Date) (updateExisting : bool)
  (acc : DB * BatchResults) (customer : Customer.t) : DB * BatchResults :=
let '(db, results) := acc in
let id := Customer._id customer in
let fail reason number :=
  mkResults (created results) (updated results)
    (failed results ++ [mkFailed id (Customer.name customer) reason number]) in
let existingInvoice := findExistingInvoice db id startDate endDate in
match existingInvoice, updateExisting with
| Some existing, false =>
    (db, fail (inl "Invoice already exists for this period")
           (Some (Invoice.invoiceNumber existing)))
| _, _ =>
    let records := findRecordsUpTo db id startDate endDate in
    if Nat.eqb (List.length records) 0 then
      (db, fail (inl "No records found for this period") None)
    else
    let items := map itemOf records in
    let totalQuantity := sumBy Record_.totalDailyQuantity records in
    let totalAmount := sumBy Record_.totalDailyPrice records in
    match existingInvoice with
    | Some existing =>
        let '(db', invoice) :=
          updateExistingInvoice now db existing endDate totalQuantity totalAmount items in
        (db', mkResults (created results)
                (updated results ++
                   [mkEntry id (Customer.name customer) (Invoice._id invoice)
                      (Invoice.invoiceNumber invoice) (Invoice.totalAmount invoice) None])
                (failed results))
    | None =>
        match createNewInvoice now db customer id startDate endDate
                totalQuantity totalAmount items with
        | (db', inl e) => (db', fail (inr e) None)
        | (db', inr (invoice, advanceUsed)) =>
            (db', mkResults
                    (created results ++
                       [mkEntry id (Customer.name customer) (Invoice._id invoice)
                          (Invoice.invoiceNumber invoice) (Invoice.totalAmount invoice)
                          (Some advanceUsed)])
                    (updated results) (failed results))
        end
    end
end.

(** [generateBatchMonthlyInvoices] (lines 272-491). *)
Definition generateBatchMonthlyInvoices (now : Js.Date) (db : DB) (req : BatchRequest)
  : DB * Response :=
if missing (batch_month req) || missing (batch_year req) then
  (db, mkResponse 400 (Message "Month and year are required"))
else
let monthNum := numberOf (batch_month req) in
let yearNum := numberOf (batch_year req) in
let currentMonth := Js.getMonth now + 1 in
let currentYear := Js.getFullYear now in
let isCurrentMonth := (monthNum =? currentMonth) && (yearNum =? currentYear) in
let lastDayOfMonth := Js.getDate (Js.newDate yearNum monthNum 0) in
let currentDay := Js.getDate now in
if isCurrentMonth && (currentDay <? lastDayOfMonth - 2) then
  (db, mkResponse 400
         (Message (String.append
            "Cannot generate invoices for the current month until the end of the month ("
            (String.append (Js.toString (lastDayOfMonth - currentDay))
               " days remaining). This ensures all milk deliveries are included in the invoice."))))
else
if (monthNum <? 1) || (12 <? monthNum) then
  (db, mkResponse 400 (Message "Invalid month"))
else
let startDate := Js.newDate yearNum (monthNum - 1) 1 in
let endDate := Js.newDate yearNum monthNum 0 in
let customers := filter Customer.isActive (customers db) in
let '(db', results) :=
  fold_left (batchStep now startDate endDate (batch_updateExisting req))
    customers (db, mkResults [] [] []) in
(db', mkResponse 200 (BatchSummary (List.length customers) results)).

Record StatusRequest := mkStatusRequest {
  status_params_id : Js.ObjectId;
  status_body : option Invoice.Status }.

(** [updateInvoiceStatus] (lines 597-618).  A body whose [status] is not
    one of the four strings is [None]. *)
Definition updateInvoiceStatus (now : Js.Date) (db : DB) (req : StatusRequest)
  : DB * Response :=
match status_body req with
| None => (db, mkResponse 400 (Message "Invalid status"))
| Some status =>
    match Invoice_findById db (status_params_id req) with
    | None => (db, mkResponse 404 (Message "Invoice not found"))
    | Some invoice =>
        let invoice := Invoice.set_status invoice status in
        let '(db', invoice) := Invoice_save now db invoice in
        (db', mkResponse 200 (StatusResult true invoice))
    end
end.

Record PaymentRequest := mkPaymentRequest {
  pay_params_id : Js.ObjectId;
  pay_amount : option Z;
  pay_paymentMethod : option Payment.Method;
  pay_transactionId : option string;
  pay_notes : option string }.

(** [!s] for an optional string. *)
Definition blank (s : option string) : bool :=
match s with
| None => true
| Some t => String.eqb t ""
end.

(** One round of the scan over the payments (lines 652-662). *)
Definition scanPayment (prefix : string) (maxSequence : Z) (payment : Payment.t) : Z :=
if negb (blank (Payment.transactionId payment)) then
  let transactionId := match Payment.transactionId payment with Some t => t | None => "" end in
  if Js.startsWith transactionId prefix then
    let parts := Js.split transactionId "_"%char in
    if Nat.leb 3 (List.length parts) then
      match Js.parseIntAt parts 2 with
      | Some sequence => if maxSequence <? sequence then sequence else maxSequence
      | None => maxSequence
      end
    else maxSequence
  else maxSequence
else maxSequence.

(** Transaction id generation (lines 640-669) for a populated customer. *)
Definition generateTransactionId (now : Js.Date) (db : DB) (customer : Customer.t) : string :=
let year := Js.getFullYear now in
let customerNo := Customer.customerNo customer in
let prefix := String.concat "_" [Js.toString year; Js.toString customerNo; ""] in
let allInvoices :=
  filter (fun i => N.eqb (Invoice.customer i) (Customer._id customer)) (invoices db) in
let maxSequence :=
  fold_left (fun m inv => fold_left (scanPayment prefix) (Invoice.payments inv) m)
    allInvoices 0 in
String.append prefix (Js.toString (maxSequence + 1)).

(** Lines 680-698 of [addPaymentToInvoice]: the part of [amount] above the
    due amount is kept apart, the invoice receives the rest through
    [addPayment], and the part kept apart goes to the customer's advance. *)
Definition settlePayment (now : Js.Date) (db : DB) (invoice : Invoice.t)
  (populated : option Customer.t) (amount : Z) (payment : Payment.t) : DB * Response :=
let overpaidAmount :=
  if Invoice.dueAmount invoice <? amount then amount - Invoice.dueAmount invoice
  else 0 in
let paymentToApply := Z.min amount (Invoice.dueAmount invoice) in
let payment := Payment.set_amount payment paymentToApply in
let '(db1, updatedInvoice) := addPayment now db invoice payment in
if 0 <? overpaidAmount then
  match populated with
  | None => (db1, mkResponse 500 (ServerError TypeError))
  | Some populatedCustomer =>
      match Customer_findById db1 (Customer._id populatedCustomer) with
      | None => (db1, mkResponse 500 (ServerError TypeError))
      | Some customer =>
          let advance := Customer.advance customer in
          let customer :=
            Customer.set_advance customer
              ((if advance =? 0 then 0 else advance) + overpaidAmount) in
          match Customer_save db1 customer with
          | None => (db1, mkResponse 500 (ServerError SlotConflict))
          | Some (db2, _) => (db2, mkResponse 200 (InvoiceDoc updatedInvoice))
          end
      end
  end
else (db1, mkResponse 200 (InvoiceDoc updatedInvoice)).

(** [addPaymentToInvoice] (lines 623-702).  [populate('customer')] yields
    the stored customer or [null]. *)
Definition addPaymentToInvoice (now : Js.Date) (db : DB) (req : PaymentRequest)
  : DB * Response :=
if missing (pay_amount req) || (numberOf (pay_amount req) <=? 0) then
  (db, mkResponse 400 (Message "Valid payment amount is required"))
else
let amount := numberOf (pay_amount req) in
match Invoice_findById db (pay_params_id req) with
| None => (db, mkResponse 404 (Message "Invoice not found"))
| Some invoice =>
    let populated := Customer_findById db (Invoice.customer invoice) in
    let needsId :=
      blank (pay_transactionId req)
      && negb (match pay_paymentMethod req with Some Payment.cash => true | _ => false end) in
    match needsId, populated with
    | true, None => (db, mkResponse 500 (ServerError TypeError))
    | _, _ =>
        let finalTransactionId :=
          match needsId, populated with
          | true, Some customer => Some (generateTransactionId now db customer)
          | _, _ => pay_transactionId req
          end in
        let payment :=
          Payment.mk amount now
            (match pay_paymentMethod req with Some m => m | None => Payment.cash end)
            finalTransactionId (pay_notes req) in
        settlePayment now db invoice populated amount payment
    end
end.

(** *** Further handlers of the invoice controller *)

Record CheckRequest := mkCheckRequest {
  check_customerId : option Js.ObjectId;
  check_month : option Z;
  check_year : option Z }.

Inductive CheckBody :=
| CheckMessage (message : string)
| CheckFound (exists_ : bool) (invoiceNumber : string) (status : Invoice.Status)
    (totalAmount amountPaid dueAmount : Z) (_id : Js.ObjectId)
| CheckMissing (exists_ : bool).

(** [checkExistingInvoice] (lines 31-75).  The fields come from the query
    string: a field that is present is a numeric string, so [!x] holds for
    an absent field only.  The handler reads and never writes. *)
Definition checkExistingInvoice (db : DB) (req : CheckRequest) : Z * CheckBody :=
match check_customerId req, check_month req, check_year req with
| Some customerId, Some monthNum, Some yearNum =>
    if (monthNum <? 1) || (12 <? monthNum) then (400, CheckMessage "Invalid month")
    else
    let startDate := Js.newDate yearNum (monthNum - 1) 1 in
    let endDate := Js.newDate yearNum monthNum 0 in
    match findExistingInvoice db customerId startDate endDate with
    | Some existingInvoice =>
        (200, CheckFound true (Invoice.invoiceNumber existingInvoice)
                (Invoice.status existingInvoice) (Invoice.totalAmount existingInvoice)
                (Invoice.amountPaid existingInvoice) (Invoice.dueAmount existingInvoice)
                (Invoice._id existingInvoice))
    | None => (404, CheckMissing false)
    end
| _, _, _ => (400, CheckMessage "Customer ID, month, and year are required")
end.

(** [doc.deleteOne()]: the first stored document with the identifier goes. *)
Fixpoint removeInvoice (id : Js.ObjectId) (invs : list Invoice.t) : list Invoice.t :=
match invs with
| [] => []
| i :: rest => if N.eqb (Invoice._id i) id then rest else i :: removeInvoice id rest
end.

(** [deleteInvoice] (lines 707-728). *)
Definition deleteInvoice (db : DB) (id : Js.ObjectId) : DB * Response :=
match Invoice_findById db id with
| None => (db, mkResponse 404 (Message "Invoice not found"))
| Some invoice =>
    if Nat.ltb 0 (List.length (Invoice.payments invoice)) then
      (db, mkResponse 400
             (Message "Cannot delete invoice that has payments or is not in pending status"))
    else
      (set_invoices db (removeInvoice (Invoice._id invoice) (invoices db)),
       mkResponse 200 (Message "Invoice removed"))
end.

(** The [$group] stage of [getCustomerInvoiceSummary] (lines 744-761). *)
Record Summary := mkSummary {
  totalInvoices : nat;
  sum_totalAmount : Z;
  totalPaid : Z;
  totalDue : Z;
  pendingInvoices : nat;
  overdueInvoices : nat }.

Definition isPending (i : Invoice.t) : bool :=
match Invoice.status i with Invoice.pending => true | _ => false end.

Definition isOverdue (i : Invoice.t) : bool :=
match Invoice.status i with Invoice.overdue => true | _ => false end.

Definition groupSummary (invs : list Invoice.t) : Summary :=
mkSummary (List.length invs)
  (sumBy Invoice.totalAmount invs) (sumBy Invoice.amountPaid invs)
  (sumBy Invoice.dueAmount invs)
  (List.length (filter isPending invs)) (List.length (filter isOverdue invs)).

(** [.sort({ createdAt: -1 })]: stable insertion, latest first. *)
Fixpoint insertByCreatedDesc (i : Invoice.t) (invs : list Invoice.t) : list Invoice.t :=
match invs with
| [] => [i]
| j :: rest =>
    if Invoice.createdAt j <? Invoice.createdAt i then i :: invs
    else j :: insertByCreatedDesc i rest
end.

Definition sortByCreatedDesc (invs : list Invoice.t) : list Invoice.t :=
fold_left (fun acc i => insertByCreatedDesc i acc) invs [].

Inductive SummaryBody :=
| SummaryMessage (message : string)
| SummaryResult (summary : Summary) (recentInvoices : list Invoice.t)
    (customer_id : Js.ObjectId) (customer_name : string) (customer_no : Z).

(** [getCustomerInvoiceSummary] (lines 733-788).  An empty aggregate is
    answered with the all-zero summary, which is what grouping the empty
    list gives. *)
Definition getCustomerInvoiceSummary (db : DB) (customerId : Js.ObjectId) : Z * SummaryBody :=
match Customer_findById db customerId with
| None => (404, SummaryMessage "Customer not found")
| Some customer =>
    let own := filter (fun i => N.eqb (Invoice.customer i) customerId) (invoices db) in
    let summary :=
      if Nat.ltb 0 (List.length own) then groupSummary own
      else mkSummary 0 0 0 0 0 0 in
    (200, SummaryResult summary (firstn 5 (sortByCreatedDesc own))
            (Customer._id customer) (Customer.name customer) (Customer.customerNo customer))
end.

(** [x || 0] on a number. *)
Definition orZero (x : Z) : Z := if x =? 0 then 0 else x.

(** What [generateModernInvoicePDF] (lines 1452-1507) hands to the
    renderer, and the summary figures the renderer prints (lines
    1402-1416 of [generateDairyFormPDF]). *)
Record PdfSummary := mkPdfSummary {
  pdf_invoice : Invoice.t;
  pdf_customer : Customer.t;
  pdf_totalCustomerDue : Z;
  pdf_remainingDueExcludingCurrent : Z }.

Definition pdfSummary (invoiceData : Invoice.t) (customer : Customer.t)
  (optionTotalCustomerDue : option Z) : PdfSummary :=
let totalCustomerDue :=
  match optionTotalCustomerDue with
  | Some total => total
  | None => orZero (Invoice.dueAmount invoiceData)
  end in
let currentInvoiceDue := orZero (Invoice.dueAmount invoiceData) in
mkPdfSummary invoiceData customer totalCustomerDue (totalCustomerDue - currentInvoiceDue).

(** [generateModernInvoicePDF] up to the call of the renderer.  The loop
    over [invoice.items] runs before the test [!invoice], and the customer
    is read through [invoice.customer._id] of the populated invoice. *)
Definition generateModernInvoicePDF (db : DB) (id : Js.ObjectId) : Response + PdfSummary :=
match Invoice_findById db id with
| None =>
    (* [invoice.items] on [null] throws before the 404 of line 1469 *)
    inl (mkResponse 500 (ServerError TypeError))
| Some invoice =>
    match Customer_findById db (Invoice.customer invoice) with
    | None =>
        (* [invoice.customer._id] on the unpopulated [null] throws *)
        inl (mkResponse 500 (ServerError TypeError))
    | Some populated =>
        match Customer_findById db (Customer._id populated) with
        | None => inl (mkResponse 404 (Message "Customer not found"))
        | Some customer =>
            let customerAllInvoices :=
              filter (fun i => N.eqb (Invoice.customer i) (Customer._id populated))
                (invoices db) in
            let totalCustomerDue :=
              fold_left (fun sum inv => sum + orZero (Invoice.dueAmount inv))
                customerAllInvoices 0 in
            inr (pdfSummary invoice customer (Some totalCustomerDue))
        end
    end
end.

(** [toGujaratiNumber] (lines 1046-1051) on the decimal string of a
    number.  The table [gujaratiNumerals] holds the ten characters that
    the source file has at that place. *)
Definition gujaratiNumerals : list ascii :=
["0"; "1"; "2"; "3"; "4"; "5"; "6"; "7"; "8"; "9"]%char.

Definition toGujaratiDigit (digit : ascii) : ascii :=
match Js.parseInt (String digit EmptyString) with
| None => digit
| Some n => nth (Z.to_nat n) gujaratiNumerals digit
end.

Fixpoint mapChars (f : ascii -> ascii) (s : string) : string :=
match s with
| EmptyString => EmptyString
| String c rest => String (f c) (mapChars f rest)
end.

Definition toGujaratiNumber (num : Z) : string :=
mapChars toGujaratiDigit (Js.toString num).

(** *** Dashboard and due list *)

(** The first [$group] stage of [getInvoiceDashboard] (lines 796-818) with
    the all-zero answer given for an empty collection (lines 888-897). *)
Record Dashboard := mkDashboard {
  dash_totalAmount : Z;
  dash_totalPaid : Z;
  dash_totalDue : Z;
  dash_totalInvoices : nat;
  pendingCount : nat;
  paidCount : nat;
  partiallyPaidCount : nat;
  overdueCount : nat }.

Definition countStatus (s : Invoice.Status) (invs : list Invoice.t) : nat :=
List.length
  (filter (fun i => match Invoice.status i, s with
                    | Invoice.pending, Invoice.pending => true
                    | Invoice.partially_paid, Invoice.partially_paid => true
                    | Invoice.paid, Invoice.paid => true
                    | Invoice.overdue, Invoice.overdue => true
                    | _, _ => false
                    end) invs).

Definition dashboardSummary (db : DB) : Dashboard :=
let invs := invoices db in
if Nat.ltb 0 (List.length invs) then
  mkDashboard (sumBy Invoice.totalAmount invs) (sumBy Invoice.amountPaid invs)
    (sumBy Invoice.dueAmount invs) (List.length invs)
    (countStatus Invoice.pending invs) (countStatus Invoice.paid invs)
    (countStatus Invoice.partially_paid invs) (countStatus Invoice.overdue invs)
else mkDashboard 0 0 0 0 0 0 0 0.

(** [{ $group: { _id: '$customer', totalDue: { $sum: '$dueAmount' },
    invoiceCount: { $sum: 1 } } }] (lines 920-926): one group per customer,
    here in the order of first appearance. *)
Record DueGroup := mkDueGroup {
  group_customer : Js.ObjectId;
  group_totalDue : Z;
  group_invoiceCount : nat }.

Fixpoint addToGroup (i : Invoice.t) (groups : list DueGroup) : list DueGroup :=
match groups with
| [] => [mkDueGroup (Invoice.customer i) (Invoice.dueAmount i) 1]
| g :: rest =>
    if N.eqb (group_customer g) (Invoice.customer i) then
      mkDueGroup (group_customer g) (group_totalDue g + Invoice.dueAmount i)
        (S (group_invoiceCount g)) :: rest
    else g :: addToGroup i rest
end.

Definition groupDue (invs : list Invoice.t) : list DueGroup :=
fold_left (fun groups i => addToGroup i groups)
  (filter (fun i => 0 <? Invoice.dueAmount i) invs) [].

Record DueCustomer := mkDueCustomer {
  due_customerId : Js.ObjectId;
  due_customerNo : Z;
  due_name : string;
  due_totalDue : Z;
  due_invoiceCount : nat }.

(** [$lookup] on the customers, [$unwind] and [$project] (lines 927-946):
    a group whose customer is not stored is dropped. *)
Definition lookupCustomer (db : DB) (g : DueGroup) : list DueCustomer :=
match Customer_findById db (group_customer g) with
| Some customer =>
    [mkDueCustomer (group_customer g) (Customer.customerNo customer) (Customer.name customer)
       (group_totalDue g) (group_invoiceCount g)]
| None => []
end.

Definition basePipeline (db : DB) : list DueCustomer :=
flat_map (lookupCustomer db) (groupDue (invoices db)).

(** [{ $sort: { totalDue: -1 } }]: stable insertion, largest first. *)
Fixpoint insertByDueDesc (c : DueCustomer) (cs : list DueCustomer) : list DueCustomer :=
match cs with
| [] => [c]
| d :: rest =>
    if due_totalDue d <? due_totalDue c then c :: cs else d :: insertByDueDesc c rest
end.

Definition sortByDueDesc (cs : list DueCustomer) : list DueCustomer :=
fold_left (fun acc c => insertByDueDesc c acc) cs [].

Inductive DueBody :=
| DueError
| DueList (customers : list DueCustomer) (totalCustomers : nat) (grandTotalDue : Z)
    (currentPage totalPages : Z).

(** [getCustomersWithDueAmounts] (lines 912-982).  [page] and [limit] are
    the results of [parseInt]; [None] is [NaN].  The aggregation refuses a
    [$skip] that is not a non-negative number and a [$limit] that is not a
    positive one, which the handler reports as 500. *)
Definition getCustomersWithDueAmounts (db : DB) (page limit : option Z) : Z * DueBody :=
match page, limit with
| Some page, Some limit =>
    let skip := (page - 1) * limit in
    let totals := basePipeline db in
    let totalCustomers := List.length totals in
    let grandTotalDue := sumBy due_totalDue totals in
    if (skip <? 0) || (limit <=? 0) then (500, DueError)
    else
      let aggregated :=
        firstn (Z.to_nat limit) (skipn (Z.to_nat skip) (sortByDueDesc totals)) in
      (200, DueList aggregated totalCustomers grandTotalDue page
              ((Z.of_nat totalCustomers + limit - 1) / limit))
| _, _ => (500, DueError)
end.

End InvoiceController.

(** ** controllers/recordController.js *)

Module RecordController.

Record HolidayCheck := mkCheck {
  isHoliday : bool;
  holidayName : option string;
  holidayDetails : option Holiday.t }.

(** [checkIfHoliday] (lines 375-435): a non-recurring holiday on that
    calendar day, or a recurring one with the same month and day. *)
Definition checkIfHoliday (db : DB) (date : Js.Date) : HolidayCheck :=
let checkDate := Js.startOfDay date in
let currentMonth := Js.getMonth checkDate in
let currentDay := Js.getDate checkDate in
match find (fun h => (checkDate <=? Holiday.date h)
                     && (Holiday.date h <? checkDate + 24 * 60 * 60 * 1000)
                     && negb (Holiday.isRecurringYearly h)) (holidays db) with
| Some nonRecurringHoliday =>
    mkCheck true (Some (Holiday.name nonRecurringHoliday)) (Some nonRecurringHoliday)
| None =>
    match find (fun h => (Js.getMonth (Holiday.date h) =? currentMonth)
                         && (Js.getDate (Holiday.date h) =? currentDay))
               (filter Holiday.isRecurringYearly (holidays db)) with
    | Some holiday =>
        mkCheck true (Some (Holiday.name holiday))
          (Some (Holiday.mk (Holiday.name holiday) checkDate (Holiday.isRecurringYearly holiday)))
    | None => mkCheck false None None
    end
end.

Inductive Body :=
| HolidayNotice (success : bool) (message : string) (holiday : option Holiday.t)
| Created (success : bool) (count : nat) (data : list Record_.t)
| Failure (success : bool).

Record Response := mkResponse { status : Z; body : Body }.

(** [Record.findOne({ customer, date })]. *)
Definition findRecord (db : DB) (customer : Js.ObjectId) (date : Js.Date) : option Record_.t :=
find (fun r => N.eqb (Record_.customer r) customer && (Record_.date r =? date)) (records db).

(** [QuantityUpdate.find({ customer, date: { $gte: startOfDay, $lte: endOfDay } })]. *)
Definition findUpdates (db : DB) (customer : Js.ObjectId) (startOfDay endOfDay : Js.Date)
  : list QuantityUpdate.t :=
filter (fun u => N.eqb (QuantityUpdate.customer u) customer
                 && (startOfDay <=? QuantityUpdate.date u)
                 && (QuantityUpdate.date u <=? endOfDay)) (quantityUpdates db).

(** The lookup of lines 493-497. *)
Definition findUpdate (updates : list QuantityUpdate.t) (time : TimeSlot) (milkItem : MilkItem.t)
  : option QuantityUpdate.t :=
find (fun u => TimeSlot_eqb (QuantityUpdate.time u) time
               && N.eqb (QuantityUpdate.milkType u) (MilkItem.milkType milkItem)
               && N.eqb (QuantityUpdate.subcategory u) (MilkItem.subcategory milkItem))
     updates.

(** Lines 498-508: the quantity written for one line item. *)
Definition effectiveQuantity (updates : list QuantityUpdate.t) (time : TimeSlot)
  (milkItem : MilkItem.t) : Z :=
match findUpdate updates time milkItem with
| Some update => QuantityUpdate.newQuantity update
| None => MilkItem.quantity milkItem
end.

Definition recordMilkItem (updates : list QuantityUpdate.t) (time : TimeSlot)
  (milkItem : MilkItem.t) : MilkItem.t :=
let quantity := effectiveQuantity updates time milkItem in
let pricePerUnit := MilkItem.pricePerUnit milkItem in
let totalPrice := quantity * pricePerUnit in
MilkItem.mk (MilkItem.milkType milkItem) (MilkItem.subcategory milkItem)
  quantity pricePerUnit totalPrice.

(** Lines 486-518: one delivery of the record. *)
Definition recordDelivery (updates : list QuantityUpdate.t) (delivery : DeliveryTime.t)
  : DeliveryTime.t :=
let recordMilkItems :=
  map (recordMilkItem updates (DeliveryTime.time delivery)) (DeliveryTime.milkItems delivery) in
DeliveryTime.mk (DeliveryTime.time delivery) recordMilkItems
  (sumBy MilkItem.quantity recordMilkItems)
  (sumBy MilkItem.totalPrice recordMilkItems).

(** Lines 481-530: the fields handed to [Record.create]. *)
Definition buildRecord (customer : Customer.t) (today : Js.Date)
  (updates : list QuantityUpdate.t) : Record_.t :=
let recordDeliverySchedule := map (recordDelivery updates) (Customer.deliverySchedule customer) in
Record_.mk 0%N (Customer._id customer) today recordDeliverySchedule
  (sumBy DeliveryTime.totalQuantity recordDeliverySchedule)
  (sumBy DeliveryTime.totalPrice recordDeliverySchedule).

(** The loop over the customers (lines 462-534).  The outer [try/catch]
    ends the whole loop at the first exception; [None] in the result is
    that exception, and the store keeps what was created before it. *)
Fixpoint createLoop (today startOfDay endOfDay : Js.Date) (customers : list Customer.t)
  (db : DB) (records : list Record_.t) : DB * option (list Record_.t) :=
match customers with
| [] => (db, Some records)
| customer :: rest =>
    match findRecord db (Customer._id customer) today with
    | Some existingRecord => createLoop today startOfDay endOfDay rest db records
    | None =>
        let updates := findUpdates db (Customer._id customer) startOfDay endOfDay in
        if Js.strictlyFalse (Js.Array_isAccept updates) then
          createLoop today startOfDay endOfDay rest db records
        else
          match Record_create db (buildRecord customer today updates) with
          | None => (db, None)
          | Some (db', record) =>
              createLoop today startOfDay endOfDay rest db' (records ++ [record])
          end
    end
end.

(** [createDailyRecords] (lines 439-547). *)
Definition createDailyRecords (now : Js.Date) (db : DB) : DB * Response :=
let today := Js.startOfDay now in
let isHoliday := checkIfHoliday db today in
if RecordController.isHoliday isHoliday then
  (db, mkResponse 200
         (HolidayNotice false
            (String.append "Records not created because today is a holiday: "
               (match holidayName isHoliday with Some n => n | None => "null" end))
            (holidayDetails isHoliday)))
else
let customers := filter Customer.isActive (customers db) in
let startOfDay := Js.startOfDay today in
let endOfDay := Js.endOfDay today in
match createLoop today startOfDay endOfDay customers db [] with
| (db', Some records) =>
    (db', mkResponse 201 (Created true (List.length records) records))
| (db', None) => (db', mkResponse 500 (Failure false))
end.

End RecordController.

(** ** controllers/customerController.js: the advance ledger *)

Module CustomerController.

Inductive Body :=
| Message (message : string)
| CustomerDoc (customer : Customer.t)
| ServerError.

Record Response := mkResponse { status : Z; body : Body }.

Record AdvancePaymentRequest := mkAdvancePayment {
  customerId : Js.ObjectId;
  amount : Z }.

(** [createAdvancePayment] (lines 477-483), inside the [tryCatch] wrapper:
    a customer that is not found makes the property read throw. *)
Definition createAdvancePayment (db : DB) (req : AdvancePaymentRequest) : DB * Response :=
match Customer_findById db (customerId req) with
| None => (db, mkResponse 500 ServerError)
| Some customer =>
    let customer := Customer.set_advance customer (Customer.advance customer + amount req) in
    match Customer_save db customer with
    | None => (db, mkResponse 500 ServerError)
    | Some (db', customer) => (db', mkResponse 200 (CustomerDoc customer))
    end
end.

Record AdvanceAmountRequest := mkAdvanceAmount {
  params_id : Js.ObjectId;
  (** [Number(amount)]; [None] is [NaN]. *)
  numericAmount : option Z }.

(** [updateAdvanceAmount] (lines 488-504). *)
Definition updateAdvanceAmount (db : DB) (req : AdvanceAmountRequest) : DB * Response :=
match numericAmount req with
| None => (db, mkResponse 400 (Message "Invalid amount"))
| Some numericAmount =>
    if numericAmount <? 0 then (db, mkResponse 400 (Message "Invalid amount"))
    else
    match Customer_findById db (params_id req) with
    | None => (db, mkResponse 404 (Message "Customer not found"))
    | Some customer =>
        let customer := Customer.set_advance customer numericAmount in
        match Customer_save db customer with
        | None => (db, mkResponse 500 ServerError)
        | Some (db', updated) => (db', mkResponse 200 (CustomerDoc updated))
        end
    end
end.

(** [clearAdvanceAmount] (lines 509-517). *)
Definition clearAdvanceAmount (db : DB) (id : Js.ObjectId) : DB * Response :=
match Customer_findById db id with
| None => (db, mkResponse 404 (Message "Customer not found"))
| Some customer =>
    let customer := Customer.set_advance customer 0 in
    match Customer_save db customer with
    | None => (db, mkResponse 500 ServerError)
    | Some (db', updated) => (db', mkResponse 200 (CustomerDoc updated))
    end
end.

(** *** Further handlers of the customer controller *)

(** [calculateMilkItemTotals] (lines 141-150). *)
Definition calculateMilkItemTotals (deliverySchedule : list DeliveryTime.t)
  : list DeliveryTime.t :=
map (fun delivery =>
       DeliveryTime.mk (DeliveryTime.time delivery)
         (map Customer.recalc_item (DeliveryTime.milkItems delivery))
         (DeliveryTime.totalQuantity delivery) (DeliveryTime.totalPrice delivery))
    deliverySchedule.

(** [checkIfHoliday] of this controller (lines 151-192) answers with a
    boolean. *)
Definition checkIfHoliday (db : DB) (date : Js.Date) : bool :=
let checkDate := Js.startOfDay date in
let currentMonth := Js.getMonth checkDate in
let currentDay := Js.getDate checkDate in
match find (fun h => (checkDate <=? Holiday.date h)
                     && (Holiday.date h <? checkDate + 24 * 60 * 60 * 1000)
                     && negb (Holiday.isRecurringYearly h)) (holidays db) with
| Some nonRecurringHoliday => true
| None =>
    match find (fun h => (Js.getMonth (Holiday.date h) =? currentMonth)
                         && (Js.getDate (Holiday.date h) =? currentDay))
               (filter Holiday.isRecurringYearly (holidays db)) with
    | Some holiday => true
    | None => false
    end
end.

(** Lines 239-282: the record of one past day, straight from the
    schedule. *)
Definition historicalRecord (customer : Customer.t) (date : Js.Date) : Record_.t :=
let recordDeliverySchedule :=
  map (fun delivery =>
         let recordMilkItems :=
           map Customer.recalc_item (DeliveryTime.milkItems delivery) in
         DeliveryTime.mk (DeliveryTime.time delivery) recordMilkItems
           (sumBy MilkItem.quantity recordMilkItems)
           (sumBy MilkItem.totalPrice recordMilkItems))
      (Customer.deliverySchedule customer) in
Record_.mk 0%N (Customer._id customer) date recordDeliverySchedule
  (sumBy DeliveryTime.totalQuantity recordDeliverySchedule)
  (sumBy DeliveryTime.totalPrice recordDeliverySchedule).

(** The [while (currentDate <= yesterday)] loop (lines 227-289), one
    round per unit of [fuel].  The outer [None] is a loop cut short by the
    fuel; the inner [None] is the exception of [Record.create]. *)
Fixpoint historicalLoop (fuel : nat) (db : DB) (customer : Customer.t)
  (yesterday currentDate : Js.Date) (createdRecords : list Record_.t)
  : option (DB * option (list Record_.t)) :=
match fuel with
| O => None
| S fuel' =>
    if currentDate <=? yesterday then
      let existingRecord :=
        find (fun r => N.eqb (Record_.customer r) (Customer._id customer)
                       && (Record_.date r =? currentDate)) (records db) in
      let isHoliday := checkIfHoliday db currentDate in
      let next := Js.setDate currentDate (Js.getDate currentDate + 1) in
      match existingRecord, isHoliday with
      | None, false =>
          match Record_create db (historicalRecord customer currentDate) with
          | None => Some (db, None)
          | Some (db', record) =>
              historicalLoop fuel' db' customer yesterday next (createdRecords ++ [record])
          end
      | _, _ => historicalLoop fuel' db customer yesterday next createdRecords
      end
    else Some (db, Some createdRecords)
end.

(** What the [catch] of [createHistoricalRecords] reports, besides the
    format error it returns itself. *)
Inductive HistoricalError :=
| InvalidDateFormat      (* 'Invalid date format' *)
| RecordCreateError      (* the message of the error [Record.create] threw *)
| RoundsExhausted.       (* the loop was cut short by its fuel *)

Inductive HistoricalResult :=
| Historical (success : bool) (count : nat) (message : string)
| HistoricalFailure (success : bool) (error : HistoricalError).

(** [new Date(parseInt(parts[2]), parseInt(parts[1]) - 1, parseInt(parts[0]))]
    followed by [setHours(0, 0, 0, 0)]; [None] is the invalid date that a
    [NaN] component gives. *)
Definition parseJoinedDate (parts : list string) : option Js.Date :=
match Js.parseIntAt parts 2, Js.parseIntAt parts 1, Js.parseIntAt parts 0 with
| Some year, Some month, Some day => Some (Js.startOfDay (Js.newDate year (month - 1) day))
| _, _, _ => None
end.

(** [createHistoricalRecords] (lines 194-300).  The loop runs once per day
    from the join date to yesterday and once more to leave; it is given
    that many rounds. *)
Definition createHistoricalRecords (now : Js.Date) (db : DB) (customer : Customer.t)
  (joinedDate : string) : DB * HistoricalResult :=
let parts := Js.split joinedDate "/"%char in
if negb (Nat.eqb (List.length parts) 3) then
  (db, HistoricalFailure false InvalidDateFormat)
else
let yesterday := Js.endOfDay (Js.setDate now (Js.getDate now - 1)) in
let today := Js.startOfDay now in
match parseJoinedDate parts with
| None =>
    (* comparisons with an invalid date are false: no early return, no round *)
    (db, Historical true 0 "Created 0 historical records")
| Some startDate =>
    if today <? startDate then
      (db, Historical true 0
             (String.append "No historical records created because the joined date ("
                (String.append joinedDate ") is in the future")))
    else
    let rounds := Z.to_nat ((yesterday - startDate) / Js.msPerDay + 2) in
    match historicalLoop rounds db customer yesterday startDate [] with
    | Some (db', Some createdRecords) =>
        (db', Historical true (List.length createdRecords)
                (String.append "Created "
                   (String.append (Js.toString (Z.of_nat (List.length createdRecords)))
                      " historical records")))
    | Some (db', None) => (db', HistoricalFailure false RecordCreateError)
    | None => (db, HistoricalFailure false RoundsExhausted)
    end
end.

(** [Customer.findByIdAndDelete(id)]. *)
Fixpoint removeCustomer (id : Js.ObjectId) (cs : list Customer.t) : list Customer.t :=
match cs with
| [] => []
| c :: rest => if N.eqb (Customer._id c) id then rest else c :: removeCustomer id rest
end.

(** [deleteCustomer] (lines 407-431); [hasAssociatedData] is the constant
    [false] of line 416. *)
Inductive DeleteBody :=
| DeleteMessage (message : string)
| Deleted (message : string) (customerId : Js.ObjectId).

Definition deleteCustomer (db : DB) (id : Js.ObjectId) : DB * (Z * DeleteBody) :=
match Customer_findById db id with
| None => (db, (404, DeleteMessage "Customer not found"))
| Some customer =>
    let hasAssociatedData := false in
    if hasAssociatedData then
      (db, (400, DeleteMessage
                   "Cannot delete customer with associated data. Please remove associated data first."))
    else
      (set_customers db (removeCustomer id (customers db)),
       (200, Deleted "Customer successfully deleted" (Customer._id customer)))
end.

Record Financials := mkFinancials {
  fin_customerId : Js.ObjectId;
  advanceAmount : Z;
  pendingAmount : Z;
  netBalance : Z }.

Definition isUnsettled (i : Invoice.t) : bool :=
match Invoice.status i with
| Invoice.pending | Invoice.partially_paid | Invoice.overdue => true
| Invoice.paid => false
end.

(** [getCustomerFinancials] (lines 522-555); [None] is the 404. *)
Definition getCustomerFinancials (db : DB) (id : Js.ObjectId) : option Financials :=
match Customer_findById db id with
| None => None
| Some customer =>
    let advanceAmount := Customer.advance customer in
    let pendingAmount :=
      sumBy Invoice.dueAmount
        (filter (fun i => N.eqb (Invoice.customer i) (Customer._id customer) && isUnsettled i)
           (invoices db)) in
    Some (mkFinancials (Customer._id customer) advanceAmount pendingAmount
            (advanceAmount - pendingAmount))
end.

End CustomerController.

(** ** controllers/quantityUpdateController.js *)

Module QuantityUpdateController.

Inductive Body :=
| Failure (success : bool) (error : string)
| Staged (success : bool) (data : QuantityUpdate.t) (deliverySchedule : list DeliveryTime.t).

Record Response := mkResponse { status : Z; body : Body }.

Record QuantityRequest := mkQuantityRequest {
  customerId : option Js.ObjectId;
  date : option Js.Date;
  time : option TimeSlot;
  milkType : option Js.ObjectId;
  subcategory : option Js.ObjectId;
  newQuantity : option Z;
  reason : option string;
  isAccept : option bool }.

Definition TimeSlot_toString (t : TimeSlot) : string :=
match t with
| morning => "morning"
| evening => "evening"
end.

(** [populate] leaves [null] where the referenced document is gone. *)
Definition populated (ids : list Js.ObjectId) (id : Js.ObjectId) : bool :=
existsb (N.eqb id) ids.

(** The test of lines 194-197 on a populated milk item. *)
Definition matchesItem (db : DB) (milkType subcategory : Js.ObjectId) (item : MilkItem.t) : bool :=
populated (categories db) (MilkItem.milkType item)
&& N.eqb (MilkItem.milkType item) milkType
&& populated (subcategories db) (MilkItem.subcategory item)
&& N.eqb (MilkItem.subcategory item) subcategory.

(** Assignment through the reference returned by [Array.prototype.find]:
    the first element that satisfies [p] is replaced by [f] of it. *)
Fixpoint updateFirst {A : Type} (p : A -> bool) (f : A -> A) (xs : list A) : list A :=
match xs with
| [] => []
| x :: rest => if p x then f x :: rest else x :: updateFirst p f rest
end.

(** Lines 208-214 on the loaded (in-memory) customer document. *)
Definition stageInMemory (db : DB) (schedule : list DeliveryTime.t) (time : TimeSlot)
  (milkType subcategory : Js.ObjectId) (newQuantity : Z) : list DeliveryTime.t :=
updateFirst (fun d => TimeSlot_eqb (DeliveryTime.time d) time)
  (fun delivery =>
     let milkItems :=
       updateFirst (matchesItem db milkType subcategory)
         (fun milkItem =>
            MilkItem.mk (MilkItem.milkType milkItem) (MilkItem.subcategory milkItem)
              newQuantity (MilkItem.pricePerUnit milkItem)
              (newQuantity * MilkItem.pricePerUnit milkItem))
         (DeliveryTime.milkItems delivery) in
     DeliveryTime.mk (DeliveryTime.time delivery) milkItems
       (sumBy MilkItem.quantity milkItems) (sumBy MilkItem.totalPrice milkItems))
  schedule.

(** The lookup of lines 217-223. *)
Definition findExistingUpdate (db : DB) (customer : Js.ObjectId) (date : Js.Date)
  (time : TimeSlot) (milkType subcategory : Js.ObjectId) : option QuantityUpdate.t :=
find (fun u => N.eqb (QuantityUpdate.customer u) customer
               && (QuantityUpdate.date u =? date)
               && TimeSlot_eqb (QuantityUpdate.time u) time
               && N.eqb (QuantityUpdate.milkType u) milkType
               && N.eqb (QuantityUpdate.subcategory u) subcategory)
     (quantityUpdates db).

Definition replace_update (d : QuantityUpdate.t) (us : list QuantityUpdate.t)
  : list QuantityUpdate.t :=
map (fun u => if N.eqb (QuantityUpdate._id u) (QuantityUpdate._id d) then d else u) us.

(** [updateCustomerQuantity] (lines 162-268). *)
Definition updateCustomerQuantity (db : DB) (req : QuantityRequest) : DB * Response :=
match customerId req, date req, time req, milkType req, subcategory req,
      newQuantity req, reason req with
| Some customerId, Some date, Some time, Some milkType, Some subcategory,
  Some newQuantity, Some reason =>
    if String.eqb reason "" then
      (db, mkResponse 400 (Failure false
        "Please provide all required fields (customerId, date, time, milkType, subcategory, newQuantity, reason)"))
    else
    match Customer_findById db customerId with
    | None => (db, mkResponse 404 (Failure false "Customer not found"))
    | Some customer =>
        match find (fun d => TimeSlot_eqb (DeliveryTime.time d) time)
                (Customer.deliverySchedule customer) with
        | None =>
            (db, mkResponse 404
                   (Failure false (String.append "No delivery schedule found for time: "
                                     (TimeSlot_toString time))))
        | Some delivery =>
            match find (matchesItem db milkType subcategory)
                    (DeliveryTime.milkItems delivery) with
            | None =>
                (db, mkResponse 404
                       (Failure false "Milk item not found for the given type and subcategory"))
            | Some milkItem =>
                let originalQuantity := MilkItem.quantity milkItem in
                let difference := newQuantity - originalQuantity in
                let deliverySchedule :=
                  stageInMemory db (Customer.deliverySchedule customer) time
                    milkType subcategory newQuantity in
                match findExistingUpdate db customerId date time milkType subcategory with
                | Some existingUpdate =>
                    let update :=
                      QuantityUpdate.mk (QuantityUpdate._id existingUpdate)
                        (QuantityUpdate.customer existingUpdate)
                        (QuantityUpdate.date existingUpdate)
                        (QuantityUpdate.time existingUpdate)
                        originalQuantity newQuantity difference reason
                        (QuantityUpdate.milkType existingUpdate)
                        (QuantityUpdate.subcategory existingUpdate)
                        false QuantityUpdate.pending
                        (QuantityUpdate.lastQuantity existingUpdate) in
                    (set_quantityUpdates db (replace_update update (quantityUpdates db)),
                     mkResponse 200 (Staged true update deliverySchedule))
                | None =>
                    let update :=
                      QuantityUpdate.mk (nextId db) customerId date time
                        originalQuantity newQuantity difference reason milkType subcategory
                        (match isAccept req with Some b => b | None => false end)
                        QuantityUpdate.pending 0 in
                    (push_quantityUpdate db update,
                     mkResponse 200 (Staged true update deliverySchedule))
                end
            end
        end
    end
| _, _, _, _, _, _, _ =>
    (db, mkResponse 400 (Failure false
      "Please provide all required fields (customerId, date, time, milkType, subcategory, newQuantity, reason)"))
end.

(** *** Accepting, rejecting and deleting an adjustment *)

Inductive DecisionBody :=
| DecisionFailure (success : bool) (error : string)
| Decided (success : bool) (message : string) (data : option QuantityUpdate.t).

Definition QuantityUpdate_findById (db : DB) (id : Js.ObjectId) : option QuantityUpdate.t :=
find (fun u => N.eqb (QuantityUpdate._id u) id) (quantityUpdates db).

Fixpoint removeUpdate (id : Js.ObjectId) (us : list QuantityUpdate.t) : list QuantityUpdate.t :=
match us with
| [] => []
| u :: rest => if N.eqb (QuantityUpdate._id u) id then rest else u :: removeUpdate id rest
end.

(** [deleteQuantityUpdate] (lines 422-434). *)
Definition deleteQuantityUpdate (db : DB) (id : Js.ObjectId) : DB * (Z * DecisionBody) :=
match QuantityUpdate_findById db id with
| None => (db, (404, DecisionFailure false "Quantity update not found"))
| Some update =>
    (set_quantityUpdates db (removeUpdate (QuantityUpdate._id update) (quantityUpdates db)),
     (200, Decided true "Quantity update deleted successfully" None))
end.

(** [acceptQuantityUpdate] (lines 435-451); [lastUpdated] comes from the
    request body. *)
Definition acceptQuantityUpdate (db : DB) (id : Js.ObjectId) (lastUpdated : Z)
  : DB * (Z * DecisionBody) :=
match QuantityUpdate_findById db id with
| None => (db, (404, DecisionFailure false "Quantity update not found"))
| Some u =>
    let update :=
      QuantityUpdate.mk (QuantityUpdate._id u) (QuantityUpdate.customer u)
        (QuantityUpdate.date u) (QuantityUpdate.time u) (QuantityUpdate.oldQuantity u)
        (QuantityUpdate.newQuantity u) (QuantityUpdate.difference u)
        (QuantityUpdate.reason u) (QuantityUpdate.milkType u)
        (QuantityUpdate.subcategory u) true QuantityUpdate.accepted lastUpdated in
    (set_quantityUpdates db (replace_update update (quantityUpdates db)),
     (200, Decided true "Quantity update accepted successfully" (Some update)))
end.

(** [rejectQuantityUpdate] (lines 453-470); a missing or empty reason
    becomes the placeholder. *)
Definition rejectQuantityUpdate (db : DB) (id : Js.ObjectId) (reason : option string)
  : DB * (Z * DecisionBody) :=
match QuantityUpdate_findById db id with
| None => (db, (404, DecisionFailure false "Quantity update not found"))
| Some u =>
    let reason' :=
      match reason with
      | Some r => if String.eqb r "" then "No reason provided" else r
      | None => "No reason provided"
      end in
    let update :=
      QuantityUpdate.mk (QuantityUpdate._id u) (QuantityUpdate.customer u)
        (QuantityUpdate.date u) (QuantityUpdate.time u) (QuantityUpdate.oldQuantity u)
        (QuantityUpdate.newQuantity u) (QuantityUpdate.difference u)
        reason' (QuantityUpdate.milkType u)
        (QuantityUpdate.subcategory u) false QuantityUpdate.rejected
        (QuantityUpdate.lastQuantity u) in
    (set_quantityUpdates db (replace_update update (quantityUpdates db)),
     (200, Decided true "Quantity update rejected successfully" None))
end.

End QuantityUpdateController.

(** ** controllers/systemConfigController.js *)

Module SystemConfig.

(** [milkmanSchema] (models/SystemConfig.js, lines 3-20). *)
Record Milkman := mkMilkman {
  milkman_id : Js.ObjectId;
  milkman_name : string;
  phoneNumber : string;
  milkman_isActive : bool }.

(** [systemConfigSchema] (lines 22-52). *)
Record t := mk {
  morningTime : string;
  eveningTime : string;
  milkmen : list Milkman;
  companyName : string;
  contactEmail : string;
  address : string }.

Definition set_milkmen (c : t) (ms : list Milkman) : t :=
mk (morningTime c) (eveningTime c) ms (companyName c) (contactEmail c) (address c).

(** The [required] validators of a milkman on save. *)
Definition validMilkman (m : Milkman) : bool :=
negb (String.eqb (milkman_name m) "") && negb (String.eqb (phoneNumber m) "").

End SystemConfig.

Module SystemConfigController.

(** The collection holds at most one configuration; milkmen take their
    identifiers from a counter. *)
Record Store := mkStore {
  config : option SystemConfig.t;
  nextMilkmanId : Js.ObjectId }.

Record Response := mkResponse { status : Z; message : string }.

(** A field of the JSON body as these handlers meet it: absent, a string
    or a whole number.  (The other JSON values are not modelled.) *)
Inductive Field := Absent | Text (s : string) | Num (n : Z).

(** [!v]: an absent field, the empty string and 0 are falsy. *)
Definition blank (v : Field) : bool :=
match v with
| Absent => true
| Text t => String.eqb t ""
| Num n => n =? 0
end.

(** [stored === v] for a stored string: strict equality holds between two
    equal strings and never between a string and a number. *)
Definition strictEq (stored : string) (v : Field) : bool :=
match v with
| Text t => String.eqb stored t
| _ => false
end.

(** A value assigned to a [String] path with [trim: true]: the schema
    casts it to a string and the setter trims it. *)
Definition castString (v : Field) : string :=
match v with
| Text t => Js.trim t
| Num n => Js.trim (Js.toString n)
| Absent => ""
end.

(** The sub-document built from [{ name, phoneNumber }]. *)
Definition newMilkman (id : Js.ObjectId) (name phoneNumber : Field) : SystemConfig.Milkman :=
SystemConfig.mkMilkman id (castString name) (castString phoneNumber) true.

(** [config.save()] and [SystemConfig.create]: every milkman must pass its
    validators; [None] is the validation error. *)
Definition saveConfig (store : Store) (c : SystemConfig.t) (next : Js.ObjectId)
  : option Store :=
if forallb SystemConfig.validMilkman (SystemConfig.milkmen c)
then Some (mkStore (Some c) next)
else None.

(** [addMilkman] (lines 72-111) inside the [tryCatch] wrapper. *)
Definition addMilkman (store : Store) (name phoneNumber : Field) : Store * Response :=
if blank name || blank phoneNumber then
  (store, mkResponse 400 "Name and phone number are required")
else
let fresh := newMilkman (nextMilkmanId store) name phoneNumber in
match config store with
| None =>
    match saveConfig store
            (SystemConfig.mk "06:00" "18:00" [fresh] "Ramdev Dairy Farm"
               "info@ramdevdairy.com" "")
            (N.succ (nextMilkmanId store)) with
    | None => (store, mkResponse 500 "Server Error")
    | Some store' => (store', mkResponse 200 "Milkman added successfully")
    end
| Some c =>
    match find (fun milkman => strictEq (SystemConfig.phoneNumber milkman) phoneNumber)
            (SystemConfig.milkmen c) with
    | Some existingMilkman =>
        (store, mkResponse 400 "Milkman with this phone number already exists")
    | None =>
        match saveConfig store
                (SystemConfig.set_milkmen c (SystemConfig.milkmen c ++ [fresh]))
                (N.succ (nextMilkmanId store)) with
        | None => (store, mkResponse 500 "Server Error")
        | Some store' => (store', mkResponse 200 "Milkman added successfully")
        end
    end
end.

(** Assignment to the sub-document found by [config.milkmen.id(id)]: the
    first milkman with the identifier is replaced. *)
Fixpoint replaceFirst (id : Js.ObjectId) (m : SystemConfig.Milkman)
  (ms : list SystemConfig.Milkman) : list SystemConfig.Milkman :=
match ms with
| [] => []
| x :: rest =>
    if N.eqb (SystemConfig.milkman_id x) id then m :: rest
    else x :: replaceFirst id m rest
end.

(** [updateMilkman] (lines 116-160). *)
Definition updateMilkman (store : Store) (id : Js.ObjectId)
  (name phoneNumber : Field) (isActive : option bool) : Store * Response :=
match config store with
| None => (store, mkResponse 404 "System configuration not found")
| Some c =>
    match find (fun m => N.eqb (SystemConfig.milkman_id m) id) (SystemConfig.milkmen c) with
    | None => (store, mkResponse 404 "Milkman not found")
    | Some milkman =>
        let conflict :=
          if negb (blank phoneNumber)
             && negb (strictEq (SystemConfig.phoneNumber milkman) phoneNumber)
          then
            match find (fun m => strictEq (SystemConfig.phoneNumber m) phoneNumber
                                 && negb (N.eqb (SystemConfig.milkman_id m) id))
                    (SystemConfig.milkmen c) with
            | Some existingMilkman => true
            | None => false
            end
          else false in
        if conflict then
          (store, mkResponse 400 "Phone number already exists for another milkman")
        else
        let updated :=
          SystemConfig.mkMilkman (SystemConfig.milkman_id milkman)
            (if blank name then SystemConfig.milkman_name milkman else castString name)
            (if blank phoneNumber then SystemConfig.phoneNumber milkman
             else castString phoneNumber)
            (match isActive with Some b => b | None => SystemConfig.milkman_isActive milkman end) in
        match saveConfig store
                (SystemConfig.set_milkmen c (replaceFirst id updated (SystemConfig.milkmen c)))
                (nextMilkmanId store) with
        | None => (store, mkResponse 500 "Server Error")
        | Some store' => (store', mkResponse 200 "Milkman updated successfully")
        end
    end
end.

(** [milkman.deleteOne()]: that sub-document leaves the array. *)
Fixpoint removeFirst (id : Js.ObjectId) (ms : list SystemConfig.Milkman)
  : list SystemConfig.Milkman :=
match ms with
| [] => []
| x :: rest =>
    if N.eqb (SystemConfig.milkman_id x) id then rest else x :: removeFirst id rest
end.

(** [deleteMilkman] (lines 165-192). *)
Definition deleteMilkman (store : Store) (id : Js.ObjectId) : Store * Response :=
match config store with
| None => (store, mkResponse 404 "System configuration not found")
| Some c =>
    match find (fun m => N.eqb (SystemConfig.milkman_id m) id) (SystemConfig.milkmen c) with
    | None => (store, mkResponse 404 "Milkman not found")
    | Some milkman =>
        match saveConfig store
                (SystemConfig.set_milkmen c (removeFirst id (SystemConfig.milkmen c)))
                (nextMilkmanId store) with
        | None => (store, mkResponse 500 "Server Error")
        | Some store' => (store', mkResponse 200 "Milkman deleted successfully")
        end
    end
end.

(** [getActiveMilkmen] (lines 197-210). *)
Definition getActiveMilkmen (store : Store) : list SystemConfig.Milkman :=
match config store with
| None => []
| Some c => filter SystemConfig.milkman_isActive (SystemConfig.milkmen c)
end.

End SystemConfigController.

(** ** The payment path on doubles

    The lines of [models/Invoice.js] and of [addPaymentToInvoice] that
    compute with the amounts, on [float]: Rocq's primitive binary64
    numbers, which are the numbers of JavaScript. *)

Module Double.

(** The fields of an invoice that the payment path reads and writes;
    [payments] keeps the amount of each payment. *)
Record t := mk {
  totalAmount : float;
  amountPaid : float;
  dueAmount : float;
  status : Invoice.Status;
  dueDate : Js.Date;
  payments : list float }.

(** [Math.min(x, y)]: [NaN] when an argument is, and [-0] below [+0]. *)
Definition min (x y : float) : float :=
if (PrimFloat.is_nan x || PrimFloat.is_nan y)%bool then PrimFloat.nan
else if PrimFloat.ltb x y then x
else if PrimFloat.ltb y x then y
else if PrimFloat.get_sign x then x else y.

(** [x || 0] on a number: [0] for zero and [NaN]. *)
Definition orZero (x : float) : float :=
if (PrimFloat.is_zero x || PrimFloat.is_nan x)%bool then PrimFloat.zero else x.

(** [invoiceSchema.pre('save')] (models/Invoice.js, lines 118-135). *)
Definition pre_save (now : Js.Date) (this : t) : t :=
let due := PrimFloat.sub (totalAmount this) (amountPaid this) in
let this := mk (totalAmount this) (amountPaid this) due (status this) (dueDate this)
              (payments this) in
let set_status s :=
  mk (totalAmount this) (amountPaid this) (dueAmount this) s (dueDate this)
    (payments this) in
if PrimFloat.leb (dueAmount this) PrimFloat.zero then set_status Invoice.paid
else if PrimFloat.ltb PrimFloat.zero (amountPaid this) then set_status Invoice.partially_paid
else if dueDate this <? now then set_status Invoice.overdue
else set_status Invoice.pending.

(** [invoiceSchema.methods.addPayment] (lines 138-143): push the payment,
    add its amount to [amountPaid], save. *)
Definition addPayment (now : Js.Date) (this : t) (amount : float) : t :=
pre_save now
  (mk (totalAmount this) (PrimFloat.add (amountPaid this) amount) (dueAmount this)
     (status this) (dueDate this) (payments this ++ [amount])).

(** Lines 680-698 of [addPaymentToInvoice] for a stored invoice and the
    advance of its customer: the updated invoice and the advance. *)
Definition settlePayment (now : Js.Date) (invoice : t) (advance amount : float) : t * float :=
let overpaidAmount :=
  if PrimFloat.ltb (dueAmount invoice) amount
  then PrimFloat.sub amount (dueAmount invoice)
  else PrimFloat.zero in
let paymentToApply := min amount (dueAmount invoice) in
let updatedInvoice := addPayment now invoice paymentToApply in
if PrimFloat.ltb PrimFloat.zero overpaidAmount
then (updatedInvoice, PrimFloat.add (orZero advance) overpaidAmount)
else (updatedInvoice, advance).

End Double.
(** * Specification vocabulary and sample data *)

Section Replace.
Context {A : Type} (key : A -> N).

(** The shape shared by [replace_customer] and [replace_invoice]. *)
Definition replaceByKey (d : A) (l : list A) : list A :=
map (fun c => if N.eqb (key c) (key d) then d else c) l.

End Replace.

(** The priority rule of the status, as the specification words it. *)
Definition status_rule (now : Js.Date) (i : Invoice.t) : Prop :=
  (Invoice.dueAmount i <= 0 -> Invoice.status i = Invoice.paid)
  /\ (0 < Invoice.dueAmount i -> 0 < Invoice.amountPaid i ->
      Invoice.status i = Invoice.partially_paid)
  /\ (0 < Invoice.dueAmount i -> Invoice.amountPaid i <= 0 -> Invoice.dueDate i < now ->
      Invoice.status i = Invoice.overdue)
  /\ (0 < Invoice.dueAmount i -> Invoice.amountPaid i <= 0 -> now <= Invoice.dueDate i ->
      Invoice.status i = Invoice.pending).

(** Two periods intersect when some instant lies in both. *)
Definition periods_intersect (s1 e1 s2 e2 : Js.Date) : Prop :=
  exists t, (s1 <= t <= e1) /\ (s2 <= t <= e2).

(** The number of daily records stored for a customer and a date. *)
Definition countRecords (db : DB) (customer : Js.ObjectId) (date : Js.Date) : nat :=
List.length
  (filter (fun r => N.eqb (Record_.customer r) customer && (Record_.date r =? date))
     (records db)).

(** A response of the daily generator reports a customer when one of the
    records it lists belongs to that customer; the response has no other
    per-customer part. *)
Definition reportsCustomer (r : RecordController.Response) (customer : Js.ObjectId) : Prop :=
  match RecordController.body r with
  | RecordController.Created _ _ data =>
      exists record, In record data /\ Record_.customer record = customer
  | RecordController.HolidayNotice _ _ _ => False
  | RecordController.Failure _ => False
  end.

(** A customer whose schedule has no slot twice, which is what the
    customer pre-save hook demands. *)
Definition slotsUnique (c : Customer.t) : Prop :=
  NoDup (map DeliveryTime.time (Customer.deliverySchedule c)).

Module Sample.

(** 15 January 2025, at 06:00. *)
Definition today : Js.Date := Js.newDate 2025 0 15.
Definition clock : Js.Date := today + 6 * 60 * 60 * 1000.

(** 10 January 2025, before the sample invoice falls due. *)
Definition earlier : Js.Date := Js.newDate 2025 0 10.

Definition cowMilk : MilkItem.t := MilkItem.mk 10%N 20%N 2 60 120.

Definition morningDelivery : DeliveryTime.t := DeliveryTime.mk morning [cowMilk] 2 120.

Definition customerWith (advance : Z) : Customer.t :=
Customer.mk 1%N 1 "Customer One" [morningDelivery] 2 120 true advance.

(** An adjustment of the morning item from 2 to 5 that was rejected. *)
Definition rejectedUpdate : QuantityUpdate.t :=
QuantityUpdate.mk 100%N 1%N today morning 2 5 3 "No reason provided" 10%N 20%N
  false QuantityUpdate.rejected 0.

Definition emptyDB : DB := mkDB [] [] [] [] [] [10%N] [20%N] 1000%N.

(** One active customer, no record yet. *)
Definition dbPlain : DB := set_customers emptyDB [customerWith 0].

(** The same with the rejected adjustment in the ledger. *)
Definition dbRejected : DB := set_quantityUpdates dbPlain [rejectedUpdate].

(** December 2024 billed at 3000, nothing paid, due on 15 January. *)
Definition decemberInvoice (total paid : Z) : Invoice.t :=
Invoice.mk 500%N 1%N "INV-25-01-0001" (Js.newDate 2024 11 1) (Js.newDate 2024 12 0)
  50 total paid (total - paid) Invoice.pending (Js.newDate 2025 0 15) [] []
  (Js.newDate 2025 0 1).

Definition dbInvoiced (total paid advance : Z) : DB :=
set_invoices (set_customers emptyDB [customerWith advance]) [decemberInvoice total paid].

(** A record of 3000 on 10 January 2025 for the customer. *)
Definition januaryRecord : Record_.t :=
Record_.mk 700%N 1%N (Js.newDate 2025 0 10) [morningDelivery] 50 3000.

Definition dbRecorded (advance : Z) : DB :=
mkDB [customerWith advance] [januaryRecord] [] [] [] [10%N] [20%N] 1000%N.

End Sample.

(** * Vocabulary for the further properties *)

(** The string has no occurrence of the character. *)
Fixpoint lacks (sep : ascii) (s : string) : bool :=
match s with
| EmptyString => true
| String c rest => negb (Ascii.eqb c sep) && lacks sep rest
end.

(** The sequence number written at the end of an invoice number, read the
    way [generateInvoiceNumber] reads it. *)
Definition counterOf (invoiceNumber : string) : option Z :=
Js.parseIntAt (Js.split invoiceNumber "-"%char) 3.

(** The part of the calendar round trip that depends on the day within
    the 400-year era only: year of era, month and day are in range, and
    the day of era computed back from them is the one started from. *)
Definition eraCheck (doe : Z) : bool :=
let yoe := (doe - doe / 1460 + doe / 36524 - doe / 146096) / 365 in
let doy := doe - (365 * yoe + yoe / 4 - yoe / 100) in
let mp := (5 * doy + 2) / 153 in
let d := doy - (153 * mp + 2) / 5 + 1 in
let m := if mp <? 10 then mp + 3 else mp - 9 in
let y0 := if m <=? 2 then yoe + 1 else yoe in
let y' := if m <=? 2 then y0 - 1 else y0 in
let mp' := if 2 <? m then m - 3 else m + 9 in
(0 <=? yoe) && (yoe <=? 399) && (1 <=? m) && (m <=? 12) && (1 <=? d) && (d <=? 31)
&& (y' =? yoe)
&& (yoe * 365 + yoe / 4 - yoe / 100 + ((153 * mp' + 2) / 5 + d - 1) =? doe).

Fixpoint checkFrom (rounds : nat) (k : Z) : bool :=
match rounds with
| O => true
| S rounds' => eraCheck k && checkFrom rounds' (k + 1)
end.

(** An invoice at rest: what every save establishes. *)
Definition atRest (now : Js.Date) (i : Invoice.t) : Prop :=
  Invoice.dueAmount i = Invoice.totalAmount i - Invoice.amountPaid i
  /\ status_rule now i.

(** The key of a quantity adjustment. *)
Definition sameKey (customer : Js.ObjectId) (date : Js.Date) (time : TimeSlot)
  (milkType subcategory : Js.ObjectId) (u : QuantityUpdate.t) : bool :=
N.eqb (QuantityUpdate.customer u) customer
&& (QuantityUpdate.date u =? date)
&& TimeSlot_eqb (QuantityUpdate.time u) time
&& N.eqb (QuantityUpdate.milkType u) milkType
&& N.eqb (QuantityUpdate.subcategory u) subcategory.

(** The totals a record or a schedule carries are the sums over its
    lines. *)
Definition deliveryConserved (d : DeliveryTime.t) : Prop :=
  (forall i, In i (DeliveryTime.milkItems d) ->
             MilkItem.totalPrice i = MilkItem.quantity i * MilkItem.pricePerUnit i)
  /\ DeliveryTime.totalQuantity d = sumBy MilkItem.quantity (DeliveryTime.milkItems d)
  /\ DeliveryTime.totalPrice d
     = sumBy (fun i => MilkItem.quantity i * MilkItem.pricePerUnit i)
         (DeliveryTime.milkItems d).

Definition recordConserved (r : Record_.t) : Prop :=
  (forall d, In d (Record_.deliverySchedule r) -> deliveryConserved d)
  /\ Record_.totalDailyQuantity r
     = sumBy DeliveryTime.totalQuantity (Record_.deliverySchedule r)
  /\ Record_.totalDailyPrice r
     = sumBy DeliveryTime.totalPrice (Record_.deliverySchedule r).

(** The transaction ids stored on the invoices of a customer are short:
    no part between two underscores has more than 15 characters.  Every
    number [parseInt] reads off such a part is below 2^53, where adding 1
    to a double is exact. *)
Definition shortSequences (db : DB) (customer : Js.ObjectId) : bool :=
forallb
  (fun inv =>
     negb (N.eqb (Invoice.customer inv) customer)
     || forallb
          (fun payment =>
             match Payment.transactionId payment with
             | Some t =>
                 forallb (fun part => Nat.leb (String.length part) 15)
                   (Js.split t "_"%char)
             | None => true
             end)
          (Invoice.payments inv))
  (invoices db).

(** The sequence number that the scan of [addPaymentToInvoice] reads off
    one payment, if it reads one. *)
Definition sequenceOf (prefix : string) (payment : Payment.t) : option Z :=
match Payment.transactionId payment with
| None => None
| Some t =>
    if String.eqb t "" then None
    else if Js.startsWith t prefix then
      let parts := Js.split t "_"%char in
      if Nat.leb 3 (List.length parts) then Js.parseIntAt parts 2 else None
    else None
end.


(** The store holds a holiday for the calendar day that starts at [day]:
    a one-off holiday dated within that day, or a yearly one with the same
    month and day of month, whatever its year. *)
Definition holidayOn (db : DB) (day : Js.Date) : Prop :=
  exists h, In h (holidays db)
            /\ if Holiday.isRecurringYearly h
               then Js.getMonth (Holiday.date h) = Js.getMonth day
                    /\ Js.getDate (Holiday.date h) = Js.getDate day
               else day <= Holiday.date h < day + Js.msPerDay.

(** What the daily run reads of an adjustment. *)
Definition deliveryView (u : QuantityUpdate.t)
  : Js.ObjectId * Js.Date * TimeSlot * Js.ObjectId * Js.ObjectId * Z :=
(QuantityUpdate.customer u, QuantityUpdate.date u, QuantityUpdate.time u,
 QuantityUpdate.milkType u, QuantityUpdate.subcategory u, QuantityUpdate.newQuantity u).

(** Two stores that the daily run cannot tell apart. *)
Definition sameForDelivery (db1 db2 : DB) : Prop :=
  customers db1 = customers db2
  /\ records db1 = records db2
  /\ holidays db1 = holidays db2
  /\ nextId db1 = nextId db2
  /\ map deliveryView (quantityUpdates db1) = map deliveryView (quantityUpdates db2).

(** The invoices of one customer. *)
Definition ownInvoices (db : DB) (customer : Js.ObjectId) : list Invoice.t :=
filter (fun i => N.eqb (Invoice.customer i) customer) (invoices db).

(** The milkmen on the roster of the configuration. *)
Definition milkmenOf (store : SystemConfigController.Store) : list SystemConfig.Milkman :=
match SystemConfigController.config store with
| Some c => SystemConfig.milkmen c
| None => []
end.

(** A roster in order: no phone number twice, no identifier twice, every
    identifier already handed out, every entry valid. *)
Definition rosterOk (store : SystemConfigController.Store) : Prop :=
  NoDup (map SystemConfig.phoneNumber (milkmenOf store))
  /\ NoDup (map SystemConfig.milkman_id (milkmenOf store))
  /\ (forall m, In m (milkmenOf store) ->
        (SystemConfig.milkman_id m < SystemConfigController.nextMilkmanId store)%N)
  /\ forallb SystemConfig.validMilkman (milkmenOf store) = true.

(** A string of printable ASCII characters other than the space (codes
    33 to 126): it holds no white space of any kind, so that trimming
    leaves it as it is. *)
Fixpoint plain (s : string) : bool :=
match s with
| EmptyString => true
| String c rest =>
    Nat.leb 33 (nat_of_ascii c) && Nat.leb (nat_of_ascii c) 126 && plain rest
end.

(** A phone number of the request that is left out or is a plain string;
    a number is neither. *)
Definition plainText (phoneNumber : SystemConfigController.Field) : bool :=
match phoneNumber with
| SystemConfigController.Absent => true
| SystemConfigController.Text p => plain p
| SystemConfigController.Num _ => false
end.

(** The first instant of the month with index [k], counting months from
    January of year 0: index [12 * y + m - 1] is month [m] of year [y]. *)
Definition monthStart (k : Z) : Js.Date :=
Js.MakeDay (k / 12) (k mod 12) 1 * Js.msPerDay.

(** The year [new Date(year, ...)] takes for its first argument. *)
Definition fullYearOf (year : Z) : Z :=
if (0 <=? year) && (year <=? 99) then 1900 + year else year.

(** An invoice that covers one calendar month, from the first day to
    midnight of the last. *)
Definition monthAligned (i : Invoice.t) : Prop :=
  exists k, Invoice.startDate i = monthStart k
            /\ Invoice.endDate i = monthStart (k + 1) - Js.msPerDay.

(** What the invariant reads of an invoice. *)
Definition periodOf (i : Invoice.t) : Js.ObjectId * Js.ObjectId * Js.Date * Js.Date :=
(Invoice._id i, Invoice.customer i, Invoice.startDate i, Invoice.endDate i).

(** One invoice per customer and month: identifiers are distinct and
    below the counter, every invoice covers one calendar month, and two
    invoices of one customer never share an instant. *)
Definition onePerMonth (db : DB) : Prop :=
  NoDup (map Invoice._id (invoices db))
  /\ (forall i, In i (invoices db) -> (Invoice._id i < nextId db)%N)
  /\ (forall i, In i (invoices db) -> monthAligned i)
  /\ (forall i j, In i (invoices db) -> In j (invoices db) ->
        Invoice.customer i = Invoice.customer j ->
        Invoice._id i <> Invoice._id j ->
        Invoice.endDate i < Invoice.startDate j
        \/ Invoice.endDate j < Invoice.startDate i).

Section Remove.
Context {A : Type} (key : A -> N).

(** The shape shared by [removeInvoice], [removeCustomer] and
    [removeUpdate]. *)
Fixpoint removeByKey (id : N) (l : list A) : list A :=
match l with
| [] => []
| x :: rest => if N.eqb (key x) id then rest else x :: removeByKey id rest
end.

End Remove.

Module Sample2.

(** Two amounts with a fractional part: the doubles nearest to 252.23 and
    to 123.45, which is what the program holds for these decimals. *)
Definition billed : float := 0x1.f875c28f5c28fp+7.

Definition firstPayment : float := 0x1.edccccccccccdp+6.

(** An invoice of 252.23, due on 15 January 2025, as its first save
    stores it. *)
Definition fractionalInvoice : Double.t :=
Double.pre_save Sample.earlier
  (Double.mk billed 0 0 Invoice.pending (Js.newDate 2025 0 15) []).

(** The same invoice after a payment of 123.45. *)
Definition partlyPaid : Double.t :=
fst (Double.settlePayment Sample.earlier fractionalInvoice 0 firstPayment).

(** The sample invoice with one online payment numbered 2025_1_7. *)
Definition paidOnline : Payment.t :=
Payment.mk 500 Sample.earlier Payment.online (Some "2025_1_7") None.

Definition invoiceWithPayment : Invoice.t :=
Invoice.mk 500%N 1%N "INV-25-01-0001" (Js.newDate 2024 11 1) (Js.newDate 2024 12 0)
  50 3000 500 2500 Invoice.partially_paid (Js.newDate 2025 0 15) [] [paidOnline]
  (Js.newDate 2025 0 1).

Definition dbWithPayment : DB :=
set_invoices (set_customers Sample.emptyDB [Sample.customerWith 0]) [invoiceWithPayment].

(** January 2025 billed at 2000 with that payment on it. *)
Definition januaryInvoice : Invoice.t :=
Invoice.mk 501%N 1%N "INV-25-02-0002" (Js.newDate 2025 0 1) (Js.newDate 2025 1 0)
  40 2000 500 1500 Invoice.partially_paid (Js.newDate 2025 1 15) [] [paidOnline]
  (Js.newDate 2025 1 1).

(** A record of 31 January 2025 stamped at 06:00 instead of midnight. *)
Definition lateRecord : Record_.t :=
Record_.mk 701%N 1%N (Js.newDate 2025 0 31 + 6 * 60 * 60 * 1000)
  [Sample.morningDelivery] 2 120.

Definition dbLate : DB :=
mkDB [Sample.customerWith 0] [Sample.januaryRecord; lateRecord] [] [] []
  [10%N] [20%N] 1000%N.

(** Republic Day, entered once for 2020 as a yearly holiday. *)
Definition republicDay : Holiday.t :=
Holiday.mk "Republic Day" (Js.newDate 2020 0 26) true.

Definition dbHoliday : DB :=
mkDB [Sample.customerWith 0] [] [] [] [republicDay] [10%N] [20%N] 1000%N.

(** A second customer whose only line has a negative quantity. *)
Definition brokenCustomer : Customer.t :=
Customer.mk 2%N 2 "Customer Two"
  [DeliveryTime.mk evening [MilkItem.mk 10%N 20%N (-1) 60 (-60)] (-1) (-60)]
  (-1) (-60) true 0.

Definition dbBroken : DB :=
set_customers Sample.emptyDB [Sample.customerWith 0; brokenCustomer].

(** An accepted adjustment of the morning item from 2 to 5. *)
Definition acceptedUpdate : QuantityUpdate.t :=
QuantityUpdate.mk 100%N 1%N Sample.today morning 2 5 3 "guests" 10%N 20%N
  true QuantityUpdate.accepted 2.

Definition dbAccepted : DB := set_quantityUpdates Sample.dbPlain [acceptedUpdate].

(** The December invoice unpaid and the January invoice paid in part. *)
Definition dbTwoInvoices : DB :=
set_invoices (set_customers Sample.emptyDB [Sample.customerWith 250])
  [Sample.decemberInvoice 3000 0; januaryInvoice].

(** A roster of one milkman. *)
Definition roster : SystemConfigController.Store :=
SystemConfigController.mkStore
  (Some (SystemConfig.mk "06:00" "18:00"
           [SystemConfig.mkMilkman 1%N "Ramesh" "9800000001" true]
           "Ramdev Dairy Farm" "info@ramdevdairy.com" ""))
  2%N.

End Sample2.

(** * Properties *)

(** Rewrites a comparison of the code with its value, which [lia] finds. *)
Ltac settle_test b v :=
  assert (b = v) as ->
    by (first [apply Z.eqb_neq | apply Z.ltb_lt | apply Z.ltb_ge
              | apply Z.leb_le | apply Z.leb_gt]; lia).

(** ** Store lemmas *)

Section ReplaceLemmas.
Context {A : Type} (key : A -> N).

Lemma find_replaceByKey_same (d x : A) (l : list A) :
  find (fun c => N.eqb (key c) (key d)) l = Some x ->
  find (fun c => N.eqb (key c) (key d)) (replaceByKey key d l) = Some d.
Proof.
  induction l as [|a l IH]; simpl; [discriminate|].
  destruct (N.eqb (key a) (key d)) eqn:E; simpl.
  - intros _. now rewrite N.eqb_refl.
  - rewrite E. exact IH.
Qed.

Lemma find_replaceByKey_other (d : A) (k : N) (l : list A) :
  k <> key d ->
  find (fun c => N.eqb (key c) k) (replaceByKey key d l) = find (fun c => N.eqb (key c) k) l.
Proof.
  intros Hk. induction l as [|a l IH]; simpl; [reflexivity|].
  destruct (N.eqb (key a) (key d)) eqn:E.
  - apply N.eqb_eq in E.
    assert (N.eqb (key d) k = false) as -> by (apply N.eqb_neq; congruence).
    assert (N.eqb (key a) k = false) as -> by (apply N.eqb_neq; congruence).
    exact IH.
  - destruct (N.eqb (key a) k); [reflexivity | exact IH].
Qed.

End ReplaceLemmas.

Lemma pre_save_id now i : Invoice._id (Invoice.pre_save now i) = Invoice._id i.
Proof.
  unfold Invoice.pre_save.
  repeat match goal with |- context [if ?b then _ else _] => destruct b end; reflexivity.
Qed.

Lemma pre_save_amounts now i :
  Invoice.totalAmount (Invoice.pre_save now i) = Invoice.totalAmount i
  /\ Invoice.amountPaid (Invoice.pre_save now i) = Invoice.amountPaid i
  /\ Invoice.dueDate (Invoice.pre_save now i) = Invoice.dueDate i
  /\ Invoice.payments (Invoice.pre_save now i) = Invoice.payments i
  /\ Invoice.customer (Invoice.pre_save now i) = Invoice.customer i.
Proof.
  unfold Invoice.pre_save.
  repeat match goal with |- context [if ?b then _ else _] => destruct b end;
    repeat split; reflexivity.
Qed.

Lemma pre_save_due now i :
  Invoice.dueAmount (Invoice.pre_save now i) = Invoice.totalAmount i - Invoice.amountPaid i.
Proof.
  unfold Invoice.pre_save.
  repeat match goal with |- context [if ?b then _ else _] => destruct b end; reflexivity.
Qed.

Lemma pre_save_status now i : status_rule now (Invoice.pre_save now i).
Proof.
  unfold status_rule, Invoice.pre_save; simpl.
  destruct (Invoice.totalAmount i - Invoice.amountPaid i <=? 0) eqn:E1;
    [apply Z.leb_le in E1 | apply Z.leb_gt in E1]; simpl.
  { repeat split; intros; try reflexivity; lia. }
  destruct (0 <? Invoice.amountPaid i) eqn:E2;
    [apply Z.ltb_lt in E2 | apply Z.ltb_ge in E2]; simpl.
  { repeat split; intros; try reflexivity; lia. }
  destruct (Invoice.dueDate i <? now) eqn:E3;
    [apply Z.ltb_lt in E3 | apply Z.ltb_ge in E3]; simpl;
    repeat split; intros; try reflexivity; lia.
Qed.

(** The hook is idempotent at one clock reading: the second
    [invoice.save()] after [Invoice.create] changes nothing. *)
Lemma pre_save_idem now i :
  Invoice.pre_save now (Invoice.pre_save now i) = Invoice.pre_save now i.
Proof.
  unfold Invoice.pre_save; simpl.
  destruct (Invoice.totalAmount i - Invoice.amountPaid i <=? 0) eqn:E1; simpl.
  { rewrite E1. reflexivity. }
  destruct (0 <? Invoice.amountPaid i) eqn:E2; simpl.
  { rewrite E1, E2. reflexivity. }
  destruct (Invoice.dueDate i <? now) eqn:E3; simpl; rewrite E1, E2, E3; reflexivity.
Qed.

(** ** Saving documents *)

Lemma customer_pre_save_ok (c : Customer.t) :
  slotsUnique c ->
  exists c', Customer.pre_save c = Some c'
             /\ Customer._id c' = Customer._id c
             /\ Customer.advance c' = Customer.advance c.
Proof.
  intros Hu. unfold Customer.pre_save.
  rewrite (nodup_fixed_point TimeSlot_eq_dec Hu), Nat.eqb_refl. simpl.
  eexists. split; [reflexivity|]. split; reflexivity.
Qed.

Lemma customer_pre_save_fields c c' :
  Customer.pre_save c = Some c' ->
  Customer._id c' = Customer._id c /\ Customer.advance c' = Customer.advance c.
Proof.
  unfold Customer.pre_save. destruct (negb _); [discriminate|].
  intros H. injection H as <-. split; reflexivity.
Qed.

(** After [customer.save()] the stored document with that identifier is
    the saved one; invoices and records are not touched. *)
Lemma Customer_save_stores db c stored db' c' :
  Customer_findById db (Customer._id c) = Some stored ->
  Customer_save db c = Some (db', c') ->
  Customer_findById db' (Customer._id c) = Some c'
  /\ Customer.advance c' = Customer.advance c
  /\ invoices db' = invoices db
  /\ records db' = records db.
Proof.
  unfold Customer_save. intros Hf.
  destruct (Customer.pre_save c) as [c1|] eqn:E; [|discriminate].
  intros H. injection H as <- <-.
  destruct (customer_pre_save_fields _ _ E) as [Hid Hadv].
  repeat split; auto.
  unfold Customer_findById in *; simpl. rewrite <- Hid in *.
  exact (find_replaceByKey_same Customer._id c1 stored (customers db) Hf).
Qed.

Lemma Invoice_findById_id db id inv :
  Invoice_findById db id = Some inv -> Invoice._id inv = id.
Proof.
  unfold Invoice_findById. intros H. apply find_some in H as [_ H].
  now apply N.eqb_eq.
Qed.

Lemma Customer_findById_id db id c :
  Customer_findById db id = Some c -> Customer._id c = id.
Proof.
  unfold Customer_findById. intros H. apply find_some in H as [_ H].
  now apply N.eqb_eq.
Qed.

(** After [invoice.save()] the stored document with that identifier is the
    one the hook produced; customers are not touched. *)
Lemma Invoice_save_stores now db inv stored :
  Invoice_findById db (Invoice._id inv) = Some stored ->
  Invoice_findById (fst (Invoice_save now db inv)) (Invoice._id inv)
  = Some (Invoice.pre_save now inv)
  /\ customers (fst (Invoice_save now db inv)) = customers db.
Proof.
  intros Hf. split; [|reflexivity].
  unfold Invoice_findById in *; simpl.
  rewrite <- (pre_save_id now inv) in *.
  exact (find_replaceByKey_same Invoice._id (Invoice.pre_save now inv) stored (invoices db) Hf).
Qed.

(** ** Invoice at rest *)

(** A created invoice goes through the same hook. *)
Lemma invoice_create_due_and_status now db fields db' created :
  Invoice_create now db fields = Some (db', created) ->
  Invoice.dueAmount created = Invoice.totalAmount created - Invoice.amountPaid created
  /\ status_rule now created
  /\ In created (invoices db').
Proof.
  unfold Invoice_create.
  destruct (existsb _ _); [discriminate|].
  intros H. injection H as <- <-. split; [|split].
  - destruct (pre_save_amounts now (Invoice.set_identity fields (nextId db) now)) as (Ht & Hp & _).
    rewrite pre_save_due, Ht, Hp. reflexivity.
  - apply pre_save_status.
  - simpl. apply in_or_app. right. left. reflexivity.
Qed.

(** C1. Every save of an invoice stores [dueAmount = totalAmount -
    amountPaid] and a status that follows the priority rule: due at most
    zero is paid, else something paid is partially paid, else a due date
    before now is overdue, else pending.  This holds for [invoice.save()]
    on a stored invoice, where the stored document with the saved
    identifier is the one the hook produced, and for [Invoice.create],
    whenever it stores a document. *)
Theorem invoice_save_due_and_status (now : Js.Date) (db : DB) (inv : Invoice.t) :
  let saved := snd (Invoice_save now db inv) in
  let db' := fst (Invoice_save now db inv) in
  (Invoice.dueAmount saved = Invoice.totalAmount saved - Invoice.amountPaid saved
   /\ status_rule now saved
   /\ Invoice.totalAmount saved = Invoice.totalAmount inv
   /\ Invoice.amountPaid saved = Invoice.amountPaid inv
   /\ Invoice.dueDate saved = Invoice.dueDate inv
   /\ (forall j, In j (invoices db') -> Invoice._id j = Invoice._id inv -> j = saved))
  /\ match Invoice_create now db inv with
     | Some (db'', created) =>
         Invoice.dueAmount created
         = Invoice.totalAmount created - Invoice.amountPaid created
         /\ status_rule now created
         /\ Invoice.totalAmount created = Invoice.totalAmount inv
         /\ Invoice.amountPaid created = Invoice.amountPaid inv
         /\ In created (invoices db'')
     | None => True
     end.
Proof.
  simpl. destruct (pre_save_amounts now inv) as (Ht & Hp & Hd & _). split.
  - split; [rewrite pre_save_due, Ht, Hp; reflexivity|].
    split; [apply pre_save_status|].
    repeat split; try assumption.
    intros j Hin Hid. unfold replace_invoice in Hin.
    apply in_map_iff in Hin as (x & Hx & _).
    rewrite pre_save_id in Hx.
    destruct (N.eqb (Invoice._id x) (Invoice._id inv)) eqn:E; [now symmetry|].
    subst j. apply N.eqb_neq in E. contradiction.
  - destruct (Invoice_create now db inv) as [[db'' created]|] eqn:E; [|exact I].
    destruct (invoice_create_due_and_status _ _ _ _ _ E) as (H1 & H2 & H3).
    unfold Invoice_create in E. destruct (existsb _ _); [discriminate|].
    injection E as _ <-.
    destruct (pre_save_amounts now (Invoice.set_identity inv (nextId db) now))
      as (Ht' & Hp' & _).
    repeat split; try apply H2; auto.
Qed.

(** ** The status override *)

(** C4. On an unpaid invoice of 3000 that is not yet overdue, the override
    to [paid] answers 200, yet the stored status is [pending]: the save
    behind the override runs the hook, which derives the status again. *)
Theorem updateInvoiceStatus_override_is_rederived :
  let db := Sample.dbInvoiced 3000 0 0 in
  let req := InvoiceController.mkStatusRequest 500%N (Some Invoice.paid) in
  let '(db', response) := InvoiceController.updateInvoiceStatus Sample.earlier db req in
  InvoiceController.status response = 200
  /\ option_map Invoice.status (Invoice_findById db' 500%N) = Some Invoice.pending.
Proof. vm_compute. split; reflexivity. Qed.

(** Whatever status is requested, the store after the override is the
    same. *)
Lemma updateInvoiceStatus_ignores_request now db id s1 s2 :
  fst (InvoiceController.updateInvoiceStatus now db
         (InvoiceController.mkStatusRequest id (Some s1)))
  = fst (InvoiceController.updateInvoiceStatus now db
           (InvoiceController.mkStatusRequest id (Some s2))).
Proof.
  unfold InvoiceController.updateInvoiceStatus; simpl.
  destruct (Invoice_findById db id) as [i|]; [|reflexivity].
  simpl. unfold Invoice.pre_save; simpl.
  repeat match goal with |- context [if ?b then _ else _] => destruct b end; reflexivity.
Qed.

(** ** The advance ledger *)

(** C9. With a balance of 100, an advance payment of -500 answers 200 and
    stores a balance of -400. *)
Theorem createAdvancePayment_negative_balance :
  let db := set_customers Sample.emptyDB [Sample.customerWith 100] in
  let req := CustomerController.mkAdvancePayment 1%N (-500) in
  let '(db', response) := CustomerController.createAdvancePayment db req in
  CustomerController.status response = 200
  /\ option_map Customer.advance (Customer_findById db' 1%N) = Some (-400).
Proof. vm_compute. split; reflexivity. Qed.

(** In general the handler stores the sum, whatever its sign. *)
Lemma createAdvancePayment_stores_sum db id amount customer :
  Customer_findById db id = Some customer ->
  slotsUnique customer ->
  exists db' stored,
    CustomerController.createAdvancePayment db (CustomerController.mkAdvancePayment id amount)
    = (db', CustomerController.mkResponse 200 (CustomerController.CustomerDoc stored))
    /\ Customer_findById db' id = Some stored
    /\ Customer.advance stored = Customer.advance customer + amount.
Proof.
  intros Hf Hu. unfold CustomerController.createAdvancePayment; simpl. rewrite Hf.
  pose proof (Customer_findById_id _ _ _ Hf) as Hid.
  set (c := Customer.set_advance customer _).
  destruct (customer_pre_save_ok c Hu) as (c' & Hpre & _ & Hadv).
  assert (Hsave : Customer_save db c
                  = Some (set_customers db (replace_customer c' (customers db)), c'))
    by (unfold Customer_save; rewrite Hpre; reflexivity).
  rewrite <- Hid in Hf.
  destruct (Customer_save_stores db c customer _ _ Hf Hsave) as (Hs & _).
  rewrite Hsave. do 2 eexists. split; [reflexivity|]. split.
  - rewrite <- Hid. exact Hs.
  - rewrite Hadv. reflexivity.
Qed.

(** The sibling operation does refuse a negative value and leaves the
    store alone. *)
Lemma updateAdvanceAmount_rejects_negative db id a :
  a < 0 ->
  CustomerController.updateAdvanceAmount db (CustomerController.mkAdvanceAmount id (Some a))
  = (db, CustomerController.mkResponse 400 (CustomerController.Message "Invalid amount")).
Proof.
  intros Ha. unfold CustomerController.updateAdvanceAmount; simpl.
  apply Z.ltb_lt in Ha. rewrite Ha. reflexivity.
Qed.

(** ** Daily records and quantity adjustments *)

(** The guard of line 476 reads [isAccept] on the array of updates, so
    it never fires. *)
Lemma skip_guard_never_fires (updates : list QuantityUpdate.t) :
  Js.strictlyFalse (Js.Array_isAccept updates) = false.
Proof. reflexivity. Qed.

(** The quantity of a line follows the first adjustment found for its key,
    in whatever state that adjustment is. *)
Lemma effectiveQuantity_of_found updates time milkItem update :
  RecordController.findUpdate updates time milkItem = Some update ->
  RecordController.effectiveQuantity updates time milkItem = QuantityUpdate.newQuantity update.
Proof.
  intros H. unfold RecordController.effectiveQuantity. rewrite H. reflexivity.
Qed.

(** C2. The customer has an adjustment for today that is marked not
    accepted (rejected), and no record yet; the generator answers 201 with
    one record created for that customer instead of skipping it. *)
Theorem createDailyRecords_rejected_not_skipped :
  let '(db', response) :=
    RecordController.createDailyRecords Sample.clock Sample.dbRejected in
  QuantityUpdate.isAccept Sample.rejectedUpdate = false
  /\ QuantityUpdate.status Sample.rejectedUpdate = QuantityUpdate.rejected
  /\ countRecords Sample.dbRejected 1%N Sample.today = 0%nat
  /\ RecordController.status response = 201
  /\ countRecords db' 1%N Sample.today = 1%nat
  /\ reportsCustomer response 1%N.
Proof.
  vm_compute. repeat split.
  eexists. split; [left; reflexivity | reflexivity].
Qed.

(** C3. With only a rejected adjustment from 2 to 5 on the morning item,
    the record created for the day carries quantity 5 and price 300, not
    the schedule's 2 and 120. *)
Theorem createDailyRecords_uses_rejected_quantity :
  let db' := fst (RecordController.createDailyRecords Sample.clock Sample.dbRejected) in
  MilkItem.quantity Sample.cowMilk = 2
  /\ QuantityUpdate.status Sample.rejectedUpdate = QuantityUpdate.rejected
  /\ QuantityUpdate.newQuantity Sample.rejectedUpdate = 5
  /\ map (fun r => (map (fun d => map MilkItem.quantity (DeliveryTime.milkItems d))
                      (Record_.deliverySchedule r),
                    Record_.totalDailyPrice r)) (records db')
     = [([[5]], 300)].
Proof. vm_compute. repeat split; reflexivity. Qed.

(** C10. Whatever the request, [updateCustomerQuantity] leaves the stored
    customers, hence every stored standing schedule, as they were; the
    records and the invoices are untouched as well. *)
Theorem updateCustomerQuantity_keeps_schedule (db : DB)
  (req : QuantityUpdateController.QuantityRequest) :
  let db' := fst (QuantityUpdateController.updateCustomerQuantity db req) in
  customers db' = customers db
  /\ (forall id, option_map Customer.deliverySchedule (Customer_findById db' id)
                 = option_map Customer.deliverySchedule (Customer_findById db id))
  /\ records db' = records db
  /\ invoices db' = invoices db.
Proof.
  assert (customers (fst (QuantityUpdateController.updateCustomerQuantity db req)) = customers db
          /\ records (fst (QuantityUpdateController.updateCustomerQuantity db req)) = records db
          /\ invoices (fst (QuantityUpdateController.updateCustomerQuantity db req)) = invoices db)
    as (Hc & Hr & Hi).
  { unfold QuantityUpdateController.updateCustomerQuantity.
    repeat match goal with
           | |- context [match ?x with _ => _ end] =>
               match type of x with
               | option _ => destruct x
               | bool => destruct x
               end
           end; simpl; repeat split; reflexivity. }
  cbv zeta. repeat split; try assumption.
  intros id. unfold Customer_findById. rewrite Hc. reflexivity.
Qed.

(** On success the change is in the ledger. *)
Lemma updateCustomerQuantity_stages db req data schedule :
  snd (QuantityUpdateController.updateCustomerQuantity db req)
  = QuantityUpdateController.mkResponse 200
      (QuantityUpdateController.Staged true data schedule) ->
  In data (quantityUpdates (fst (QuantityUpdateController.updateCustomerQuantity db req)))
  /\ Some (QuantityUpdate.newQuantity data) = QuantityUpdateController.newQuantity req
  /\ QuantityUpdate.status data = QuantityUpdate.pending.
Proof.
  unfold QuantityUpdateController.updateCustomerQuantity.
  destruct req as [c d t m s q r a]; simpl.
  destruct c as [c|], d as [d|], t as [t|], m as [m|], s as [s|], q as [q|], r as [r|];
    simpl; try discriminate.
  destruct (String.eqb r ""); simpl; [discriminate|].
  destruct (Customer_findById db c) as [cust|]; simpl; [|discriminate].
  destruct (find _ (Customer.deliverySchedule cust)) as [delivery|]; simpl; [|discriminate].
  destruct (find _ (DeliveryTime.milkItems delivery)) as [item|]; simpl; [|discriminate].
  destruct (QuantityUpdateController.findExistingUpdate db c d t m s) as [ex|] eqn:E; simpl;
    intros H; injection H as <- <-; simpl.
  - repeat split.
    apply find_some in E as [Hin _].
    unfold QuantityUpdateController.replace_update.
    apply in_map_iff. exists ex. simpl. rewrite N.eqb_refl. auto.
  - repeat split. apply in_or_app. right. left. reflexivity.
Qed.

(** ** Period conflicts *)

Lemma findExistingInvoice_some db id startDate endDate inv :
  In inv (invoices db) ->
  Invoice.customer inv = id ->
  periods_intersect (Invoice.startDate inv) (Invoice.endDate inv) startDate endDate ->
  exists existing,
    InvoiceController.findExistingInvoice db id startDate endDate = Some existing
    /\ In existing (invoices db)
    /\ Invoice.customer existing = id
    /\ Invoice.startDate existing <= endDate
    /\ startDate <= Invoice.endDate existing.
Proof.
  intros Hin Hc (t & Ht1 & Ht2).
  unfold InvoiceController.findExistingInvoice.
  destruct (find (InvoiceController.overlaps id startDate endDate) (invoices db))
    as [existing|] eqn:E.
  - apply find_some in E as [Hex Hov].
    unfold InvoiceController.overlaps in Hov.
    apply andb_prop in Hov as [Hov H3]. apply andb_prop in Hov as [H1 H2].
    exists existing. repeat split; auto.
    + now apply N.eqb_eq.
    + now apply Z.leb_le.
    + now apply Z.leb_le.
  - exfalso. pose proof (find_none _ _ E inv Hin) as Hn.
    unfold InvoiceController.overlaps in Hn.
    assert (N.eqb (Invoice.customer inv) id = true) as H1 by now apply N.eqb_eq.
    assert ((Invoice.startDate inv <=? endDate) = true) as H2 by (apply Z.leb_le; lia).
    assert ((startDate <=? Invoice.endDate inv) = true) as H3 by (apply Z.leb_le; lia).
    rewrite H1, H2, H3 in Hn. discriminate.
Qed.

(** C8. A single-customer request for a valid month with [updateExisting]
    false, for a stored customer one of whose invoices has a period that
    shares an instant with the requested month, is answered with the
    conflict: status 400, the message, and the identifier and number of a
    stored invoice of that customer that overlaps the month; the store is
    returned as it was, so no invoice is created. *)
Theorem generate_refuses_overlapping_period (now : Js.Date) (db : DB) (id : Js.ObjectId)
  (m y : Z) (customer : Customer.t) (inv : Invoice.t) :
  1 <= m <= 12 ->
  y <> 0 ->
  Customer_findById db id = Some customer ->
  In inv (invoices db) ->
  Invoice.customer inv = id ->
  periods_intersect (Invoice.startDate inv) (Invoice.endDate inv)
    (Js.newDate y (m - 1) 1) (Js.newDate y m 0) ->
  exists existing,
    In existing (invoices db)
    /\ Invoice.customer existing = id
    /\ Invoice.startDate existing <= Js.newDate y m 0
    /\ Js.newDate y (m - 1) 1 <= Invoice.endDate existing
    /\ InvoiceController.generateCustomerMonthlyInvoice now db
         (InvoiceController.mkGenerate id (Some m) (Some y) false)
       = (db, InvoiceController.mkResponse 400
                (InvoiceController.ExistingInvoice "Invoice already exists for this period"
                   (Invoice._id existing) (Invoice.invoiceNumber existing))).
Proof.
  intros Hm Hy Hcust Hin Hc Hover.
  destruct (findExistingInvoice_some db id _ _ inv Hin Hc Hover)
    as (existing & Hfind & Hex & Hec & Hs & He).
  exists existing. repeat split; auto.
  unfold InvoiceController.generateCustomerMonthlyInvoice; simpl.
  settle_test (m =? 0) false.
  settle_test (y =? 0) false.
  settle_test (m <? 1) false.
  settle_test (12 <? m) false.
  simpl. rewrite Hcust, Hfind. reflexivity.
Qed.

(** The December invoice of the sample blocks a second one for December. *)
Lemma generate_refuses_overlapping_period_witness :
  exists existing,
    In existing (invoices (Sample.dbInvoiced 3000 0 0))
    /\ Invoice.customer existing = 1%N
    /\ Invoice.startDate existing <= Js.newDate 2024 12 0
    /\ Js.newDate 2024 (12 - 1) 1 <= Invoice.endDate existing
    /\ InvoiceController.generateCustomerMonthlyInvoice Sample.clock
         (Sample.dbInvoiced 3000 0 0)
         (InvoiceController.mkGenerate 1%N (Some 12) (Some 2024) false)
       = (Sample.dbInvoiced 3000 0 0,
          InvoiceController.mkResponse 400
            (InvoiceController.ExistingInvoice "Invoice already exists for this period"
               (Invoice._id existing) (Invoice.invoiceNumber existing))).
Proof.
  apply (generate_refuses_overlapping_period Sample.clock (Sample.dbInvoiced 3000 0 0)
           1%N 12 2024 (Sample.customerWith 0) (Sample.decemberInvoice 3000 0)).
  - lia.
  - lia.
  - reflexivity.
  - simpl. left. reflexivity.
  - reflexivity.
  - exists (Js.newDate 2024 11 15). vm_compute. repeat split; discriminate.
Defined.

(** ** Payments *)

Lemma settlePayment_overpaid now db inv cust a payment :
  Invoice_findById db (Invoice._id inv) = Some inv ->
  Customer_findById db (Invoice.customer inv) = Some cust ->
  slotsUnique cust ->
  Invoice.dueAmount inv = Invoice.totalAmount inv - Invoice.amountPaid inv ->
  0 < Invoice.dueAmount inv < a ->
  exists db' inv' p cust',
    InvoiceController.settlePayment now db inv (Some cust) a payment
    = (db', InvoiceController.mkResponse 200 (InvoiceController.InvoiceDoc inv'))
    /\ Invoice_findById db' (Invoice._id inv) = Some inv'
    /\ Invoice.payments inv' = (Invoice.payments inv ++ [p])%list
    /\ Payment.amount p = Invoice.dueAmount inv
    /\ Invoice.amountPaid inv' = Invoice.amountPaid inv + Invoice.dueAmount inv
    /\ Invoice.dueAmount inv' = 0
    /\ Invoice.status inv' = Invoice.paid
    /\ Customer_findById db' (Invoice.customer inv) = Some cust'
    /\ Customer.advance cust' = Customer.advance cust + (a - Invoice.dueAmount inv).
Proof.
  intros Hinv Hcust Hslots Hrest Hda.
  pose proof (Customer_findById_id _ _ _ Hcust) as Hcid.
  unfold InvoiceController.settlePayment.
  settle_test (Invoice.dueAmount inv <? a) true.
  assert (Z.min a (Invoice.dueAmount inv) = Invoice.dueAmount inv) as -> by lia.
  settle_test (0 <? a - Invoice.dueAmount inv) true.
  set (p := Payment.set_amount payment (Invoice.dueAmount inv)).
  set (pushed := Invoice.pushPayment inv p).
  destruct (Invoice_save_stores now db pushed inv Hinv) as [Hstored Hcs].
  unfold addPayment. fold pushed.
  destruct (Invoice_save now db pushed) as [db1 updated] eqn:Esave.
  assert (Hupd : updated = Invoice.pre_save now pushed)
    by (unfold Invoice_save in Esave; now injection Esave as _ <-).
  simpl fst in Hstored, Hcs.
  assert (Hc1 : Customer_findById db1 (Customer._id cust) = Some cust).
  { unfold Customer_findById in *. rewrite Hcs, Hcid. exact Hcust. }
  rewrite Hc1. cbv zeta.
  set (credited := Customer.set_advance cust _).
  destruct (customer_pre_save_ok credited Hslots) as (c' & Hpre & Hcid' & Hadv').
  assert (Hsave : Customer_save db1 credited
                  = Some (set_customers db1 (replace_customer c' (customers db1)), c')).
  { unfold Customer_save. rewrite Hpre. reflexivity. }
  destruct (Customer_save_stores db1 credited cust _ _ Hc1 Hsave) as (Hf' & _ & Hinvs & _).
  rewrite Hsave.
  exists (set_customers db1 (replace_customer c' (customers db1))), updated, p, c'.
  destruct (pre_save_amounts now pushed) as (Ht & Hp & _ & Hpays & _).
  assert (Hdue0 : Invoice.dueAmount updated = 0).
  { rewrite Hupd, pre_save_due. simpl. lia. }
  repeat split.
  - unfold Invoice_findById in *. simpl. rewrite <- Hupd in Hstored. exact Hstored.
  - rewrite Hupd, Hpays. reflexivity.
  - rewrite Hupd, Hp. reflexivity.
  - exact Hdue0.
  - destruct (pre_save_status now pushed) as (Hpaid & _).
    rewrite Hupd. apply Hpaid. rewrite <- Hupd. lia.
  - rewrite <- Hcid. exact Hf'.
  - rewrite Hadv'. unfold credited. simpl.
    destruct (Customer.advance cust =? 0) eqn:E; [apply Z.eqb_eq in E|]; lia.
Qed.

(** Whole-number amounts, on which the arithmetic of the program is that
    of [Z]: on a stored invoice at rest with due amount [d], a payment of
    [a] with [a > d > 0] is answered 200; the payment recorded is [d],
    [amountPaid] grows by [d], the stored invoice has due amount 0 and
    status paid, and the stored customer's advance grows by [a - d]. *)
Theorem overpayment_applies_due_and_credits_excess (now : Js.Date) (db : DB)
  (id : Js.ObjectId) (a : Z) (method : option Payment.Method)
  (tid notes : option string) (inv : Invoice.t) (cust : Customer.t) :
  Invoice_findById db id = Some inv ->
  Customer_findById db (Invoice.customer inv) = Some cust ->
  slotsUnique cust ->
  Invoice.dueAmount inv = Invoice.totalAmount inv - Invoice.amountPaid inv ->
  0 < Invoice.dueAmount inv < a ->
  exists db' inv' p cust',
    InvoiceController.addPaymentToInvoice now db
      (InvoiceController.mkPaymentRequest id (Some a) method tid notes)
    = (db', InvoiceController.mkResponse 200 (InvoiceController.InvoiceDoc inv'))
    /\ Invoice_findById db' id = Some inv'
    /\ Invoice.payments inv' = (Invoice.payments inv ++ [p])%list
    /\ Payment.amount p = Invoice.dueAmount inv
    /\ Invoice.amountPaid inv' = Invoice.amountPaid inv + Invoice.dueAmount inv
    /\ Invoice.dueAmount inv' = 0
    /\ Invoice.status inv' = Invoice.paid
    /\ Customer_findById db' (Invoice.customer inv) = Some cust'
    /\ Customer.advance cust' = Customer.advance cust + (a - Invoice.dueAmount inv).
Proof.
  intros Hinv Hcust Hslots Hrest Hda.
  pose proof (Invoice_findById_id _ _ _ Hinv) as Hid.
  unfold InvoiceController.addPaymentToInvoice.
  cbn [InvoiceController.pay_amount InvoiceController.pay_params_id
       InvoiceController.pay_transactionId InvoiceController.pay_paymentMethod
       InvoiceController.pay_notes InvoiceController.missing InvoiceController.numberOf].
  settle_test (a =? 0) false.
  settle_test (a <=? 0) false.
  cbn [orb]. rewrite Hinv, Hcust. cbv zeta.
  rewrite <- Hid in Hinv |- *.
  destruct (InvoiceController.blank tid && _);
    apply settlePayment_overpaid; assumption.
Qed.

(** The scenario of the specification: 500 due, 700 paid, 200 credited. *)
Lemma overpayment_applies_due_and_credits_excess_witness :
  exists db' inv' p cust',
    InvoiceController.addPaymentToInvoice Sample.earlier (Sample.dbInvoiced 3000 2500 0)
      (InvoiceController.mkPaymentRequest 500%N (Some 700) (Some Payment.online) None None)
    = (db', InvoiceController.mkResponse 200 (InvoiceController.InvoiceDoc inv'))
    /\ Invoice_findById db' 500%N = Some inv'
    /\ Invoice.payments inv'
       = (Invoice.payments (Sample.decemberInvoice 3000 2500) ++ [p])%list
    /\ Payment.amount p = Invoice.dueAmount (Sample.decemberInvoice 3000 2500)
    /\ Invoice.amountPaid inv'
       = Invoice.amountPaid (Sample.decemberInvoice 3000 2500)
         + Invoice.dueAmount (Sample.decemberInvoice 3000 2500)
    /\ Invoice.dueAmount inv' = 0
    /\ Invoice.status inv' = Invoice.paid
    /\ Customer_findById db' (Invoice.customer (Sample.decemberInvoice 3000 2500))
       = Some cust'
    /\ Customer.advance cust'
       = Customer.advance (Sample.customerWith 0)
         + (700 - Invoice.dueAmount (Sample.decemberInvoice 3000 2500)).
Proof.
  apply (overpayment_applies_due_and_credits_excess Sample.earlier
           (Sample.dbInvoiced 3000 2500 0) 500%N 700 (Some Payment.online) None None
           (Sample.decemberInvoice 3000 2500) (Sample.customerWith 0)).
  - reflexivity.
  - reflexivity.
  - unfold slotsUnique. simpl. constructor; [intros []|constructor].
  - reflexivity.
  - simpl. lia.
Defined.

(** C6. An overpayment does not settle every invoice.  The handler applies
    the due amount [d] and credits the excess, and the hook then recomputes
    the due amount as [totalAmount - (amountPaid + d)] on doubles, which is
    not 0 for every amount.  An invoice of 252.23 on which 123.45 was paid
    has [d = 128.77999999999997]; a payment of 200 records [d], adds [d] to
    the amount paid and credits [200 - d] to the advance, and the invoice is
    stored with an amount due of 2.8e-14 and the status partially paid. *)
Theorem overpayment_leaves_amount_due :
  let d := Double.dueAmount Sample2.partlyPaid in
  let result := Double.settlePayment Sample.earlier Sample2.partlyPaid 0 200 in
  PrimFloat.ltb 0 d = true
  /\ PrimFloat.ltb d 200 = true
  /\ Double.payments (fst result) = [Sample2.firstPayment; d]
  /\ Double.amountPaid (fst result) = PrimFloat.add Sample2.firstPayment d
  /\ snd result = PrimFloat.sub 200 d
  /\ Double.dueAmount (fst result)
     = PrimFloat.sub Sample2.billed
         (PrimFloat.add Sample2.firstPayment
            (PrimFloat.sub Sample2.billed Sample2.firstPayment))
  /\ PrimFloat.ltb 0 (Double.dueAmount (fst result)) = true
  /\ Double.status (fst result) = Invoice.partially_paid.
Proof.
  vm_compute. repeat split; reflexivity.
Qed.

(** ** Advance applied to a new invoice *)

Lemma in_replace_invoice d x l :
  In x l -> Invoice._id x = Invoice._id d -> In d (replace_invoice d l).
Proof.
  intros Hin Hid. unfold replace_invoice. apply in_map_iff.
  exists x. split; [|exact Hin]. rewrite Hid, N.eqb_refl. reflexivity.
Qed.

Lemma Invoice_create_result now db fields db' inv :
  Invoice_create now db fields = Some (db', inv) ->
  inv = Invoice.pre_save now (Invoice.set_identity fields (nextId db) now)
  /\ db' = push_invoice db inv.
Proof.
  unfold Invoice_create. destruct (existsb _ _); [discriminate|].
  intros H. injection H as <- <-. split; reflexivity.
Qed.

(** What the creation branch does with a positive advance [c] and a total
    [t], whenever it succeeds. *)
Lemma createNewInvoice_applies_advance now db customer ref s e q t items db' inv used :
  Customer_findById db (Customer._id customer) = Some customer ->
  0 < Customer.advance customer ->
  InvoiceController.createNewInvoice now db customer ref s e q t items
  = (db', inr (inv, used)) ->
  Invoice.totalAmount inv = t
  /\ In inv (invoices db')
  /\ exists stored,
       Customer_findById db' (Customer._id customer) = Some stored
       /\ (t <= Customer.advance customer ->
           Invoice.dueAmount inv = 0
           /\ Invoice.status inv = Invoice.paid
           /\ Invoice.payments inv
              = [Payment.mk t now Payment.advance None (Some InvoiceController.advanceNote)]
           /\ used = t
           /\ Customer.advance stored = Customer.advance customer - t)
       /\ (Customer.advance customer < t ->
           Invoice.payments inv
           = [Payment.mk (Customer.advance customer) now Payment.advance None
                (Some InvoiceController.advanceNote)]
           /\ Invoice.dueAmount inv = t - Customer.advance customer
           /\ 0 < Invoice.dueAmount inv
           /\ Invoice.status inv = Invoice.partially_paid
           /\ used = Customer.advance customer
           /\ Customer.advance stored = 0).
Proof.
  intros Hstored Hpos.
  unfold InvoiceController.createNewInvoice, InvoiceController.applyAdvance.
  settle_test (Customer.advance customer =? 0) false.
  settle_test (0 <? Customer.advance customer) true.
  cbn [negb andb].
  destruct (t <=? Customer.advance customer) eqn:Et;
    [apply Z.leb_le in Et | apply Z.leb_gt in Et];
    cbn [InvoiceController.app_saved InvoiceController.app_customer
         InvoiceController.app_amountPaid InvoiceController.app_dueAmount
         InvoiceController.app_payments InvoiceController.app_advanceUsed].
  - (* the advance covers the total *)
    destruct (Customer_save db (Customer.set_advance customer (Customer.advance customer - t)))
      as [[db1 c1]|] eqn:Esave; cbn [option_map fst]; [|discriminate].
    destruct (Customer_save_stores db
                (Customer.set_advance customer (Customer.advance customer - t))
                customer db1 c1 Hstored Esave) as (Hf & Hadv & _).
    settle_test (t <=? t) true.
    match goal with
    | |- context [Invoice_create now db1 ?f] =>
        destruct (Invoice_create now db1 f) as [[db2 created]|] eqn:Ecreate; [|discriminate]
    end.
    apply Invoice_create_result in Ecreate as [Hcreated ->].
    unfold Invoice_save. intros H. injection H as <- <- <-.
    rewrite Hcreated, pre_save_idem.
    match goal with |- context [Invoice.pre_save now ?f] => set (fields := f) end.
    destruct (pre_save_amounts now fields) as (Ht & Hp & _ & Hpays & _).
    assert (Hdue : Invoice.dueAmount (Invoice.pre_save now fields) = 0)
      by (rewrite pre_save_due; simpl; lia).
    split; [exact Ht|]. split.
    { simpl. apply in_replace_invoice with (x := Invoice.pre_save now fields);
        [apply in_or_app; right; left|]; reflexivity. }
    exists c1. split; [exact Hf|]. split; [|intros; lia].
    intros _. repeat split; auto.
    destruct (pre_save_status now fields) as (Hpaid & _). apply Hpaid. lia.
  - (* the advance covers a part *)
    destruct (Customer_save db (Customer.set_advance customer 0))
      as [[db1 c1]|] eqn:Esave; cbn [option_map fst]; [|discriminate].
    destruct (Customer_save_stores db (Customer.set_advance customer 0)
                customer db1 c1 Hstored Esave) as (Hf & Hadv & _).
    settle_test (t <=? Customer.advance customer) false.
    settle_test (0 <? Customer.advance customer) true.
    match goal with
    | |- context [Invoice_create now db1 ?f] =>
        destruct (Invoice_create now db1 f) as [[db2 created]|] eqn:Ecreate; [|discriminate]
    end.
    apply Invoice_create_result in Ecreate as [Hcreated ->].
    unfold Invoice_save. intros H. injection H as <- <- <-.
    rewrite Hcreated, pre_save_idem.
    match goal with |- context [Invoice.pre_save now ?f] => set (fields := f) end.
    destruct (pre_save_amounts now fields) as (Ht & Hp & _ & Hpays & _).
    assert (Hdue : Invoice.dueAmount (Invoice.pre_save now fields)
                   = t - Customer.advance customer)
      by (rewrite pre_save_due; reflexivity).
    split; [exact Ht|]. split.
    { simpl. apply in_replace_invoice with (x := Invoice.pre_save now fields);
        [apply in_or_app; right; left|]; reflexivity. }
    exists c1. split; [exact Hf|]. split; [intros; lia|].
    intros _. repeat split; auto; try lia.
    destruct (pre_save_status now fields) as (_ & Hpart & _).
    apply Hpart; [lia|]. rewrite Hp. simpl. lia.
Qed.

Lemma pre_save_number now i :
  Invoice.invoiceNumber (Invoice.pre_save now i) = Invoice.invoiceNumber i.
Proof.
  unfold Invoice.pre_save.
  repeat match goal with |- context [if ?b then _ else _] => destruct b end; reflexivity.
Qed.

(** The creation branch succeeds for a customer the pre-save hook accepts
    when the generated number is not taken. *)
Lemma createNewInvoice_succeeds now db customer ref s e q t items :
  slotsUnique customer ->
  (forall j, In j (invoices db) ->
             Invoice.invoiceNumber j <> InvoiceController.generateInvoiceNumber now db) ->
  exists db' inv used,
    InvoiceController.createNewInvoice now db customer ref s e q t items
    = (db', inr (inv, used)).
Proof.
  intros Hu Hfresh. unfold InvoiceController.createNewInvoice.
  set (app := InvoiceController.applyAdvance now customer t).
  assert (Hsaved : exists db1,
             (if InvoiceController.app_saved app
              then option_map fst (Customer_save db (InvoiceController.app_customer app))
              else Some db) = Some db1
             /\ invoices db1 = invoices db).
  { assert (Hu' : slotsUnique (InvoiceController.app_customer app)).
    { unfold app, InvoiceController.applyAdvance.
      destruct (negb _ && _); [destruct (t <=? _)|]; exact Hu. }
    destruct (InvoiceController.app_saved app); [|now exists db].
    destruct (customer_pre_save_ok _ Hu') as (c' & Hpre & _).
    unfold Customer_save. rewrite Hpre. simpl. eexists. split; reflexivity. }
  destruct Hsaved as (db1 & -> & Hinvs).
  unfold Invoice_create.
  match goal with
  | |- context [existsb ?f (invoices db1)] => destruct (existsb f (invoices db1)) eqn:Ex
  end.
  - exfalso. apply existsb_exists in Ex as (j & Hj & Heq).
    apply String.eqb_eq in Heq. rewrite pre_save_number in Heq. simpl in Heq.
    rewrite Hinvs in Hj. exact (Hfresh j Hj Heq).
  - do 3 eexists. reflexivity.
Qed.

(** With a valid period, a stored customer, no overlapping invoice, some
    record in the month and a free number, the handler answers 201. *)
Lemma generate_creates_when_clear now db id m y upd customer :
  1 <= m <= 12 ->
  y <> 0 ->
  Customer_findById db id = Some customer ->
  slotsUnique customer ->
  InvoiceController.findExistingInvoice db id (Js.newDate y (m - 1) 1) (Js.newDate y m 0)
  = None ->
  InvoiceController.findRecordsBefore db id (Js.newDate y (m - 1) 1) (Js.newDate y m 1)
  <> [] ->
  (forall j, In j (invoices db) ->
             Invoice.invoiceNumber j <> InvoiceController.generateInvoiceNumber now db) ->
  exists db' inv used,
    InvoiceController.generateCustomerMonthlyInvoice now db
      (InvoiceController.mkGenerate id (Some m) (Some y) upd)
    = (db', InvoiceController.mkResponse 201
              (InvoiceController.InvoiceResult inv used "Invoice created successfully")).
Proof.
  intros Hm Hy Hcust Hu Hnone Hrecs Hfresh.
  unfold InvoiceController.generateCustomerMonthlyInvoice.
  cbn [InvoiceController.month InvoiceController.year InvoiceController.params_id
       InvoiceController.updateExisting InvoiceController.missing
       InvoiceController.numberOf].
  settle_test (m =? 0) false.
  settle_test (y =? 0) false.
  settle_test (m <? 1) false.
  settle_test (12 <? m) false.
  cbn [orb]. cbv zeta. rewrite Hcust, Hnone.
  destruct (InvoiceController.findRecordsBefore db id _ _) as [|r rs] eqn:Er;
    [contradiction|].
  destruct (createNewInvoice_succeeds now db customer id
              (Js.newDate y (m - 1) 1) (Js.newDate y m 0)
              (sumBy Record_.totalDailyQuantity (r :: rs))
              (sumBy Record_.totalDailyPrice (r :: rs))
              (map InvoiceController.itemOf (r :: rs)) Hu Hfresh)
    as (db' & inv & used & Hblock).
  exists db', inv, used.
  destruct upd; cbn [List.length Nat.eqb]; rewrite Hblock; reflexivity.
Qed.

(** C5. When the single-customer handler answers 201 with a new invoice
    of total [t] for a stored customer whose advance [c] is positive: if
    [c >= t] the invoice has due amount 0, status paid and the one payment
    of [t] by method advance, and the stored customer's advance is [c - t];
    if [c < t] the one payment is [c] by method advance, the due amount is
    [t - c], which is positive, and the stored advance is 0.  In both
    cases the customer read back from the store carries the new advance. *)
Theorem new_invoice_consumes_advance (now : Js.Date) (db db' : DB)
  (req : InvoiceController.GenerateRequest) (customer : Customer.t)
  (inv : Invoice.t) (used : Z) (msg : string) :
  Customer_findById db (InvoiceController.params_id req) = Some customer ->
  0 < Customer.advance customer ->
  InvoiceController.generateCustomerMonthlyInvoice now db req
  = (db', InvoiceController.mkResponse 201 (InvoiceController.InvoiceResult inv used msg)) ->
  In inv (invoices db')
  /\ exists stored,
       Customer_findById db' (InvoiceController.params_id req) = Some stored
       /\ (Invoice.totalAmount inv <= Customer.advance customer ->
           Invoice.dueAmount inv = 0
           /\ Invoice.status inv = Invoice.paid
           /\ Invoice.payments inv
              = [Payment.mk (Invoice.totalAmount inv) now Payment.advance None
                   (Some InvoiceController.advanceNote)]
           /\ Customer.advance stored = Customer.advance customer - Invoice.totalAmount inv)
       /\ (Customer.advance customer < Invoice.totalAmount inv ->
           Invoice.payments inv
           = [Payment.mk (Customer.advance customer) now Payment.advance None
                (Some InvoiceController.advanceNote)]
           /\ Invoice.dueAmount inv = Invoice.totalAmount inv - Customer.advance customer
           /\ 0 < Invoice.dueAmount inv
           /\ Customer.advance stored = 0).
Proof.
  intros Hcust Hpos.
  pose proof (Customer_findById_id _ _ _ Hcust) as Hid.
  unfold InvoiceController.generateCustomerMonthlyInvoice.
  destruct (InvoiceController.missing _ || InvoiceController.missing _); [discriminate|].
  destruct ((_ <? 1) || (12 <? _)); [discriminate|].
  cbv zeta. rewrite Hcust.
  set (startDate := Js.newDate _ (_ - 1) 1). set (endDate := Js.newDate _ _ 0).
  assert (Hcreate : forall records,
    (let '(db2, r) :=
       InvoiceController.createNewInvoice now db customer (InvoiceController.params_id req)
         startDate endDate (sumBy Record_.totalDailyQuantity records)
         (sumBy Record_.totalDailyPrice records) (map InvoiceController.itemOf records) in
     match r with
     | inl e => (db2, InvoiceController.mkResponse 500 (InvoiceController.ServerError e))
     | inr (invoice, advanceUsed) =>
         (db2, InvoiceController.mkResponse 201
                 (InvoiceController.InvoiceResult invoice advanceUsed
                    "Invoice created successfully"))
     end)
    = (db', InvoiceController.mkResponse 201 (InvoiceController.InvoiceResult inv used msg)) ->
    InvoiceController.createNewInvoice now db customer (InvoiceController.params_id req)
      startDate endDate (sumBy Record_.totalDailyQuantity records)
      (sumBy Record_.totalDailyPrice records) (map InvoiceController.itemOf records)
    = (db', inr (inv, used))).
  { intros records.
    destruct (InvoiceController.createNewInvoice _ _ _ _ _ _ _ _ _) as [db2 [e0|[i0 u0]]];
      [discriminate|].
    intros H. injection H as <- <- <- _. reflexivity. }
  intros H.
  assert (exists records,
            InvoiceController.createNewInvoice now db customer
              (InvoiceController.params_id req) startDate endDate
              (sumBy Record_.totalDailyQuantity records)
              (sumBy Record_.totalDailyPrice records) (map InvoiceController.itemOf records)
            = (db', inr (inv, used))) as (records & Hblock).
  { revert H.
    destruct (InvoiceController.findExistingInvoice db _ startDate endDate) as [existing|];
      destruct (InvoiceController.updateExisting req);
      try discriminate;
      destruct (Nat.eqb _ 0); try discriminate.
    all: intros H; eexists; apply Hcreate; exact H. }
  rewrite <- Hid in Hcust.
  destruct (createNewInvoice_applies_advance _ _ _ _ _ _ _ _ _ _ _ _ Hcust Hpos Hblock)
    as (Ht & Hin & stored & Hf & Hfull & Hpart).
  split; [exact Hin|]. exists stored. rewrite <- Hid. split; [exact Hf|].
  rewrite Ht. split.
  - intros Hle. destruct (Hfull Hle) as (H1 & H2 & H3 & _ & H5). auto.
  - intros Hlt. destruct (Hpart Hlt) as (H1 & H2 & H3 & _ & _ & H6). auto.
Qed.

(** The scenario of the specification: a total of 3000 against an
    advance of 3500. *)
Lemma new_invoice_consumes_advance_witness :
  exists db' inv,
    InvoiceController.generateCustomerMonthlyInvoice Sample.clock (Sample.dbRecorded 3500)
      (InvoiceController.mkGenerate 1%N (Some 1) (Some 2025) false)
    = (db', InvoiceController.mkResponse 201
              (InvoiceController.InvoiceResult inv 3000 "Invoice created successfully"))
    /\ Invoice.totalAmount inv = 3000
    /\ Invoice.dueAmount inv = 0
    /\ Invoice.status inv = Invoice.paid
    /\ Invoice.payments inv
       = [Payment.mk 3000 Sample.clock Payment.advance None
            (Some InvoiceController.advanceNote)]
    /\ option_map Customer.advance (Customer_findById db' 1%N) = Some 500.
Proof.
  destruct (InvoiceController.generateCustomerMonthlyInvoice Sample.clock
              (Sample.dbRecorded 3500)
              (InvoiceController.mkGenerate 1%N (Some 1) (Some 2025) false))
    as [db' response] eqn:E.
  assert (Hresp : exists inv,
             response = InvoiceController.mkResponse 201
                          (InvoiceController.InvoiceResult inv 3000
                             "Invoice created successfully")
             /\ Invoice.totalAmount inv = 3000).
  { vm_compute in E. injection E as _ <-. eexists. split; reflexivity. }
  destruct Hresp as (inv & -> & Ht).
  destruct (new_invoice_consumes_advance Sample.clock (Sample.dbRecorded 3500) db'
              (InvoiceController.mkGenerate 1%N (Some 1) (Some 2025) false)
              (Sample.customerWith 3500) inv 3000 "Invoice created successfully")
    as (_ & stored & Hf & Hfull & _).
  - reflexivity.
  - simpl. lia.
  - exact E.
  - exists db', inv. split; [reflexivity|]. split; [exact Ht|].
    destruct Hfull as (H1 & H2 & H3 & H4); [rewrite Ht; simpl; lia|].
    rewrite Ht in H3, H4. simpl in Hf. repeat split; auto.
    rewrite Hf. simpl. rewrite H4. reflexivity.
Defined.

(** The batch loop creates through the same branch: when it records a
    created invoice for a stored customer with a positive advance, the
    advance was applied in the same way. *)
Lemma batchStep_created_consumes_advance now s e upd db results customer db' results' :
  Customer_findById db (Customer._id customer) = Some customer ->
  0 < Customer.advance customer ->
  InvoiceController.batchStep now s e upd (db, results) customer = (db', results') ->
  List.length (InvoiceController.created results')
  = S (List.length (InvoiceController.created results)) ->
  exists inv stored,
    In inv (invoices db')
    /\ Customer_findById db' (Customer._id customer) = Some stored
    /\ (Invoice.totalAmount inv <= Customer.advance customer ->
        Invoice.dueAmount inv = 0
        /\ Invoice.status inv = Invoice.paid
        /\ Invoice.payments inv
           = [Payment.mk (Invoice.totalAmount inv) now Payment.advance None
                (Some InvoiceController.advanceNote)]
        /\ Customer.advance stored = Customer.advance customer - Invoice.totalAmount inv)
    /\ (Customer.advance customer < Invoice.totalAmount inv ->
        Invoice.payments inv
        = [Payment.mk (Customer.advance customer) now Payment.advance None
             (Some InvoiceController.advanceNote)]
        /\ Invoice.dueAmount inv = Invoice.totalAmount inv - Customer.advance customer
        /\ 0 < Invoice.dueAmount inv
        /\ Customer.advance stored = 0).
Proof.
  intros Hcust Hpos. unfold InvoiceController.batchStep.
  set (records := InvoiceController.findRecordsUpTo db (Customer._id customer) s e).
  assert (Hsame : forall (l : list InvoiceController.BatchEntry),
                    List.length l = S (List.length l) -> False) by (intros; lia).
  destruct (InvoiceController.findExistingInvoice db _ s e) as [existing|];
    destruct upd; cbv zeta.
  1-4: try (intros H; injection H as <- <-; simpl; intros Hlen; exfalso; now apply Hsame in Hlen).
  all: destruct (Nat.eqb (List.length records) 0);
    [intros H; injection H as <- <-; simpl; intros Hlen; exfalso; now apply Hsame in Hlen|].
  1: { destruct (InvoiceController.updateExistingInvoice _ _ _ _ _ _ _).
       intros H; injection H as <- <-; simpl; intros Hlen; exfalso; now apply Hsame in Hlen. }
  all: destruct (InvoiceController.createNewInvoice now db customer (Customer._id customer)
                   s e _ _ _) as [db2 [e0|[inv used]]] eqn:Hblock;
    [intros H; injection H as <- <-; simpl; intros Hlen; exfalso; now apply Hsame in Hlen|].
  all: intros H; injection H as <- <-; intros _.
  all: destruct (createNewInvoice_applies_advance _ _ _ _ _ _ _ _ _ _ _ _ Hcust Hpos Hblock)
      as (Ht & Hin & stored & Hf & Hfull & Hpart).
  all: exists inv, stored; split; [exact Hin|]; split; [exact Hf|]; rewrite Ht; split.
  all: try (intros Hle; destruct (Hfull Hle) as (H1 & H2 & H3 & _ & H5); now auto).
  all: intros Hlt; destruct (Hpart Hlt) as (H1 & H2 & H3 & _ & _ & H6); now auto.
Qed.

(** ** Idempotence of the daily generator *)

Lemma findRecord_none_count db k d :
  RecordController.findRecord db k d = None <-> countRecords db k d = 0%nat.
Proof.
  unfold RecordController.findRecord, countRecords.
  induction (records db) as [|r rs IH]; simpl; [tauto|].
  destruct (N.eqb (Record_.customer r) k && (Record_.date r =? d)); simpl.
  - split; discriminate.
  - exact IH.
Qed.

Lemma findRecord_some_count db k d r :
  RecordController.findRecord db k d = Some r -> (1 <= countRecords db k d)%nat.
Proof.
  intros H. destruct (countRecords db k d) eqn:E; [|lia].
  apply findRecord_none_count in E. congruence.
Qed.

Lemma Record_create_effect db fields db' r :
  Record_create db fields = Some (db', r) ->
  records db' = (records db ++ [r])%list
  /\ customers db' = customers db
  /\ holidays db' = holidays db
  /\ quantityUpdates db' = quantityUpdates db
  /\ Record_.customer r = Record_.customer fields
  /\ Record_.date r = Record_.date fields
  /\ RecordController.findRecord db (Record_.customer fields) (Record_.date fields) = None.
Proof.
  unfold Record_create.
  destruct (negb _); [discriminate|].
  destruct (existsb _ (records db)) eqn:E; [discriminate|].
  intros H. injection H as <- <-. repeat split.
  unfold RecordController.findRecord.
  destruct (find _ (records db)) as [q|] eqn:F; [|reflexivity].
  apply find_some in F as [Hin Hq].
  assert (existsb (fun q => N.eqb (Record_.customer q) (Record_.customer fields)
                            && (Record_.date q =? Record_.date fields)) (records db) = true)
    as Hex by (apply existsb_exists; eauto).
  simpl in E. congruence.
Qed.

Lemma countRecords_push db db' r k d :
  records db' = (records db ++ [r])%list ->
  countRecords db' k d
  = (countRecords db k d
     + (if N.eqb (Record_.customer r) k && (Record_.date r =? d)%Z then 1 else 0))%nat.
Proof.
  unfold countRecords. intros ->.
  rewrite filter_app, length_app. simpl.
  destruct (N.eqb (Record_.customer r) k && (Record_.date r =? d)); reflexivity.
Qed.

Section Loop.
Variables today startOfDay endOfDay : Js.Date.

(** The loop only appends records. *)
Lemma createLoop_frame cs db recs db' out :
  RecordController.createLoop today startOfDay endOfDay cs db recs = (db', out) ->
  customers db' = customers db
  /\ holidays db' = holidays db
  /\ quantityUpdates db' = quantityUpdates db
  /\ exists extra, records db' = (records db ++ extra)%list.
Proof.
  revert db recs.
  induction cs as [|c cs IH]; intros db recs; simpl.
  - intros H. injection H as <- _. repeat split. exists []. now rewrite app_nil_r.
  - destruct (RecordController.findRecord db (Customer._id c) today); [apply IH|].
    destruct (Record_create db _) as [[db1 r]|] eqn:E.
    + intros H. apply IH in H as (Hc & Hh & Hq & extra & He).
      apply Record_create_effect in E as (Hr & Hc1 & Hh1 & Hq1 & _).
      repeat split; try congruence.
      exists (r :: extra). rewrite He, Hr, <- app_assoc. reflexivity.
    + intros H. injection H as <- _. repeat split. exists []. now rewrite app_nil_r.
Qed.

(** Where every customer already has today's record, the loop does
    nothing. *)
Lemma createLoop_existing cs db recs :
  (forall c, In c cs -> RecordController.findRecord db (Customer._id c) today <> None) ->
  RecordController.createLoop today startOfDay endOfDay cs db recs = (db, Some recs).
Proof.
  induction cs as [|c cs IH]; intros Hall; simpl; [reflexivity|].
  destruct (RecordController.findRecord db (Customer._id c) today) eqn:E.
  - apply IH. intros c' Hc'. apply Hall. now right.
  - exfalso. apply (Hall c); [now left | exact E].
Qed.

Lemma findRecord_extend db db' k extra :
  records db' = (records db ++ extra)%list ->
  RecordController.findRecord db k today <> None ->
  RecordController.findRecord db' k today <> None.
Proof.
  unfold RecordController.findRecord. intros -> H.
  destruct (find _ (records db)) as [r|] eqn:E; [|contradiction].
  apply find_some in E as [Hin Hp].
  intros Hnone.
  pose proof (find_none _ _ Hnone r (in_or_app _ _ _ (or_introl Hin))) as Hf.
  simpl in Hf. congruence.
Qed.

(** After a run that ended without an exception every customer of the
    loop has a record for today. *)
Lemma createLoop_covers cs db recs db' recs' :
  RecordController.createLoop today startOfDay endOfDay cs db recs = (db', Some recs') ->
  forall c, In c cs -> RecordController.findRecord db' (Customer._id c) today <> None.
Proof.
  revert db recs.
  induction cs as [|c cs IH]; intros db recs; simpl; [intros _ ? []|].
  destruct (RecordController.findRecord db (Customer._id c) today) as [ex|] eqn:E.
  - intros H c' [<-|Hc']; [|now apply (IH _ _ H)].
    destruct (createLoop_frame _ _ _ _ _ H) as (_ & _ & _ & extra & He).
    apply (findRecord_extend db db' _ extra He). congruence.
  - destruct (Record_create db _) as [[db1 r]|] eqn:Ec; [|discriminate].
    intros H c' [<-|Hc']; [|now apply (IH _ _ H)].
    destruct (createLoop_frame _ _ _ _ _ H) as (_ & _ & _ & extra & He).
    apply (findRecord_extend db1 db' _ extra He).
    apply Record_create_effect in Ec as (Hr & _ & _ & _ & Hrc & Hrd & _).
    simpl in Hrc, Hrd.
    intros Hn. apply findRecord_none_count in Hn.
    rewrite (countRecords_push db db1 r _ _ Hr), Hrc, Hrd, N.eqb_refl, Z.eqb_refl in Hn.
    simpl in Hn. lia.
Qed.

(** The loop never makes a second record for a customer and today. *)
Lemma createLoop_count cs db recs db' out k :
  RecordController.createLoop today startOfDay endOfDay cs db recs = (db', out) ->
  (countRecords db' k today <= Nat.max (countRecords db k today) 1)%nat.
Proof.
  revert db recs.
  induction cs as [|c cs IH]; intros db recs; simpl.
  - intros H. injection H as <- _. lia.
  - destruct (RecordController.findRecord db (Customer._id c) today) as [ex|] eqn:E;
      [apply IH|].
    destruct (Record_create db _) as [[db1 r]|] eqn:Ec.
    + intros H. apply IH in H.
      apply Record_create_effect in Ec as (Hr & _ & _ & _ & Hrc & Hrd & Hnone).
      simpl in Hrc, Hrd, Hnone.
      rewrite (countRecords_push db db1 r k today Hr), Hrc, Hrd, Z.eqb_refl in H.
      destruct (N.eqb (Customer._id c) k) eqn:Ek; simpl in H; [|lia].
      apply N.eqb_eq in Ek. subst k. apply findRecord_none_count in Hnone. lia.
    + intros H. injection H as <- _. lia.
Qed.

End Loop.

Lemma checkIfHoliday_holidays db db' d :
  holidays db' = holidays db ->
  RecordController.checkIfHoliday db' d = RecordController.checkIfHoliday db d.
Proof. unfold RecordController.checkIfHoliday. intros ->. reflexivity. Qed.

(** C7, as the code has it.  When a run of the generator answers 201, a
    second run on the same calendar day changes nothing in the store and
    answers 201 with success true, count 0 and no record listed: the
    existing records are passed over without an error and without any
    mention.  Every active customer that had at most one record for the
    day before the first run has exactly one after both. *)
Theorem daily_generation_twice_creates_once (now now' : Js.Date) (db db1 : DB)
  (r1 : RecordController.Response) :
  Js.startOfDay now' = Js.startOfDay now ->
  RecordController.createDailyRecords now db = (db1, r1) ->
  RecordController.status r1 = 201 ->
  RecordController.createDailyRecords now' db1
  = (db1, RecordController.mkResponse 201 (RecordController.Created true 0 []))
  /\ forall c, In c (customers db) -> Customer.isActive c = true ->
       (countRecords db (Customer._id c) (Js.startOfDay now) <= 1)%nat ->
       countRecords db1 (Customer._id c) (Js.startOfDay now) = 1%nat.
Proof.
  intros Hday. unfold RecordController.createDailyRecords. rewrite Hday.
  set (today := Js.startOfDay now).
  destruct (RecordController.isHoliday (RecordController.checkIfHoliday db today)) eqn:Hh.
  { intros H. injection H as _ <-. discriminate. }
  destruct (RecordController.createLoop today (Js.startOfDay today) (Js.endOfDay today)
              (filter Customer.isActive (customers db)) db []) as [db2 [recs|]] eqn:Hloop.
  2: { intros H. injection H as _ <-. discriminate. }
  intros H. injection H as <- <-. intros _.
  destruct (createLoop_frame _ _ _ _ _ _ _ _ Hloop) as (Hc & Hhol & _ & _).
  pose proof (createLoop_covers _ _ _ _ _ _ _ _ Hloop) as Hcov.
  split.
  - rewrite (checkIfHoliday_holidays db db2 today Hhol), Hh, Hc.
    rewrite (createLoop_existing today _ _ _ db2 [] Hcov). reflexivity.
  - intros c Hin Hact Hone.
    assert (Hc' : In c (filter Customer.isActive (customers db)))
      by (apply filter_In; auto).
    specialize (Hcov c Hc').
    destruct (RecordController.findRecord db2 (Customer._id c) today) as [r|] eqn:Hf;
      [|contradiction].
    apply findRecord_some_count in Hf.
    pose proof (createLoop_count _ _ _ _ _ _ _ _ (Customer._id c) Hloop). lia.
Qed.

(** One customer, nothing stored for the day: two runs leave one record. *)
Lemma daily_generation_twice_creates_once_witness :
  let db1 := fst (RecordController.createDailyRecords Sample.clock Sample.dbPlain) in
  RecordController.createDailyRecords (Sample.clock + 1000) db1
  = (db1, RecordController.mkResponse 201 (RecordController.Created true 0 []))
  /\ countRecords db1 1%N (Js.startOfDay Sample.clock) = 1%nat.
Proof.
  destruct (daily_generation_twice_creates_once Sample.clock (Sample.clock + 1000)
              Sample.dbPlain
              (fst (RecordController.createDailyRecords Sample.clock Sample.dbPlain))
              (snd (RecordController.createDailyRecords Sample.clock Sample.dbPlain)))
    as [H2 Hone].
  - vm_compute. reflexivity.
  - apply surjective_pairing.
  - vm_compute. reflexivity.
  - split; [exact H2|].
    apply (Hone (Sample.customerWith 0)).
    + simpl. left. reflexivity.
    + reflexivity.
    + vm_compute. lia.
Defined.

(** C7, as the specification words it, fails: after the first run the
    customer has a record, and the answer of the second run does not
    report that customer; it is the answer the generator gives on a store
    without any customer. *)
Lemma second_run_does_not_report_existing :
  let db1 := fst (RecordController.createDailyRecords Sample.clock Sample.dbPlain) in
  let r2 := snd (RecordController.createDailyRecords Sample.clock db1) in
  countRecords db1 1%N Sample.today = 1%nat
  /\ ~ reportsCustomer r2 1%N
  /\ r2 = snd (RecordController.createDailyRecords Sample.clock Sample.emptyDB).
Proof.
  vm_compute. split; [reflexivity|]. split; [|reflexivity].
  intros (record & [] & _).
Qed.

(** * Further properties *)

(** ** Decimal strings *)

(** Evaluates [digit_of] on the literal characters of the goal. *)
Ltac eval_digits :=
  repeat match goal with
         | |- context [Js.digit_of ?c] =>
             let v := eval vm_compute in (Js.digit_of c) in
             change (Js.digit_of c) with v
         end.

Lemma read_digits_acc d : forall acc,
  Js.read_digits (Some (Z.pos acc)) (NilEmpty.string_of_uint d)
  = Some (Z.pos (Pos.of_uint_acc d acc)).
Proof.
  induction d; intros acc; cbn -[Z.mul Z.add Pos.mul Pos.add Js.digit_of];
    try reflexivity; eval_digits; cbv iota beta;
    rewrite <- IHd; do 2 f_equal; lia.
Qed.

Lemma read_digits_zero d :
  Js.read_digits (Some 0) (NilEmpty.string_of_uint d) = Some (Z.of_N (Pos.of_uint d)).
Proof.
  induction d; cbn -[Z.mul Z.add Pos.mul Pos.add Js.digit_of];
    try reflexivity; eval_digits; cbv iota beta;
    first [exact IHd | exact (read_digits_acc d _)].
Qed.

Lemma read_digits_none d :
  d <> Decimal.Nil ->
  Js.read_digits None (NilEmpty.string_of_uint d) = Some (Z.of_N (Pos.of_uint d)).
Proof.
  destruct d; intros Hd; [contradiction|..];
    cbn -[Z.mul Z.add Pos.mul Pos.add Js.digit_of]; eval_digits; cbv iota beta;
    first [exact (read_digits_zero d) | exact (read_digits_acc d _)].
Qed.

(** A string of digits starts with no space and no sign. *)
Lemma parseInt_digits d :
  d <> Decimal.Nil ->
  Js.parseInt (NilEmpty.string_of_uint d) = Js.read_digits None (NilEmpty.string_of_uint d).
Proof. destruct d; intros Hd; [contradiction|..]; reflexivity. Qed.

Lemma string_of_uint_nonnil d :
  d <> Decimal.Nil -> NilZero.string_of_uint d = NilEmpty.string_of_uint d.
Proof. destruct d; intros Hd; [contradiction|..]; reflexivity. Qed.

Lemma toString_pos p : Js.toString (Z.pos p) = NilEmpty.string_of_uint (Pos.to_uint p).
Proof.
  unfold Js.toString. cbn [Z.to_int NilZero.string_of_int].
  apply string_of_uint_nonnil, DecimalPos.Unsigned.to_uint_nonnil.
Qed.

Lemma toString_neg p :
  Js.toString (Z.neg p) = String "-"%char (NilEmpty.string_of_uint (Pos.to_uint p)).
Proof.
  unfold Js.toString. cbn [Z.to_int NilZero.string_of_int]. f_equal.
  apply string_of_uint_nonnil, DecimalPos.Unsigned.to_uint_nonnil.
Qed.

(** [parseInt(n.toString())] is [n]. *)
Lemma parseInt_toString (n : Z) : Js.parseInt (Js.toString n) = Some n.
Proof.
  destruct n as [|p|p].
  - reflexivity.
  - pose proof (DecimalPos.Unsigned.to_uint_nonnil p) as Hn.
    rewrite toString_pos, (parseInt_digits _ Hn), (read_digits_none _ Hn),
      DecimalPos.Unsigned.of_to. reflexivity.
  - pose proof (DecimalPos.Unsigned.to_uint_nonnil p) as Hn.
    rewrite toString_neg. unfold Js.parseInt.
    cbn [Js.skip_spaces]. change (Js.is_space "-"%char) with false. cbv iota.
    rewrite (read_digits_none _ Hn), DecimalPos.Unsigned.of_to. reflexivity.
Qed.

(** ** Splitting *)

Lemma append_assoc_char acc c s :
  String.append (String.append acc (String c EmptyString)) s
  = String.append acc (String c s).
Proof. induction acc as [|a acc IH]; simpl; [reflexivity | now rewrite IH]. Qed.

Lemma append_assoc s1 s2 s3 :
  String.append (String.append s1 s2) s3 = String.append s1 (String.append s2 s3).
Proof. induction s1 as [|a s1 IH]; simpl; [reflexivity | now rewrite IH]. Qed.

Lemma append_empty s : String.append s EmptyString = s.
Proof. induction s as [|a s IH]; simpl; [reflexivity | now rewrite IH]. Qed.

(** A piece without the separator stays in one part. *)
Lemma split_aux_lacks sep s : forall acc,
  lacks sep s = true -> Js.split_aux sep acc s = [String.append acc s].
Proof.
  induction s as [|c s IH]; intros acc; simpl.
  - now rewrite append_empty.
  - intros H. apply andb_prop in H as [Hc Hs].
    destruct (Ascii.eqb c sep); [discriminate|].
    rewrite (IH _ Hs), append_assoc_char. reflexivity.
Qed.

(** The first separator ends the first part. *)
Lemma split_aux_app sep s1 s2 : forall acc,
  lacks sep s1 = true ->
  Js.split_aux sep acc (String.append s1 (String sep s2))
  = String.append acc s1 :: Js.split_aux sep EmptyString s2.
Proof.
  induction s1 as [|c s1 IH]; intros acc; simpl.
  - intros _. now rewrite Ascii.eqb_refl, append_empty.
  - intros H. apply andb_prop in H as [Hc Hs].
    destruct (Ascii.eqb c sep); [discriminate|].
    rewrite (IH _ Hs), append_assoc_char. reflexivity.
Qed.

(** Every part of a split is free of the separator. *)
Lemma split_aux_parts sep s : forall acc p,
  lacks sep acc = true -> In p (Js.split_aux sep acc s) -> lacks sep p = true.
Proof.
  induction s as [|c s IH]; intros acc p Hacc; simpl.
  - intros [<-|[]]. exact Hacc.
  - destruct (Ascii.eqb c sep) eqn:E.
    + intros [<-|Hin]; [exact Hacc|]. now apply (IH EmptyString).
    + apply IH. clear IH. induction acc as [|a acc IHa]; simpl in *.
      * now rewrite E.
      * apply andb_prop in Hacc as [Ha Hr]. rewrite Ha. simpl. auto.
Qed.

Lemma lacks_append sep s1 s2 :
  lacks sep (String.append s1 s2) = lacks sep s1 && lacks sep s2.
Proof.
  induction s1 as [|c s1 IH]; simpl; [reflexivity|].
  rewrite IH. now rewrite andb_assoc.
Qed.

(** Decimal digits contain no character that is not a digit. *)
Lemma lacks_uint sep d :
  Js.digit_of sep = None -> lacks sep (NilEmpty.string_of_uint d) = true.
Proof.
  intros Hsep.
  induction d; cbn [NilEmpty.string_of_uint lacks]; [reflexivity|..];
    rewrite IHd, andb_true_r; apply negb_true_iff;
    match goal with
    | |- Ascii.eqb ?c sep = false =>
        destruct (Ascii.eqb_spec c sep) as [<-|]; [discriminate Hsep | reflexivity]
    end.
Qed.

Lemma lacks_toString sep n :
  Js.digit_of sep = None -> sep <> "-"%char -> lacks sep (Js.toString n) = true.
Proof.
  intros Hd Hm. destruct n as [|p|p].
  - change (Js.toString 0) with (NilEmpty.string_of_uint (Decimal.D0 Decimal.Nil)).
    now apply lacks_uint.
  - rewrite toString_pos. now apply lacks_uint.
  - rewrite toString_neg. cbn [lacks]. rewrite (lacks_uint _ _ Hd), andb_true_r.
    apply negb_true_iff.
    destruct (Ascii.eqb_spec "-"%char sep) as [<-|]; [contradiction | reflexivity].
Qed.

Lemma lacks_toString_nonneg sep n :
  Js.digit_of sep = None -> 0 <= n -> lacks sep (Js.toString n) = true.
Proof.
  intros Hd Hn. destruct n as [|p|p]; [| |lia].
  - change (Js.toString 0) with (NilEmpty.string_of_uint (Decimal.D0 Decimal.Nil)).
    now apply lacks_uint.
  - rewrite toString_pos. now apply lacks_uint.
Qed.

Lemma prefix_append p s : String.prefix p (String.append p s) = true.
Proof.
  induction p as [|c p IH]; simpl; [now destruct s|].
  destruct (ascii_dec c c); [exact IH | contradiction].
Qed.

(** ** Transaction ids *)

Lemma scanPayment_max prefix m payment :
  InvoiceController.scanPayment prefix m payment
  = match sequenceOf prefix payment with
    | Some s => Z.max m s
    | None => m
    end.
Proof.
  unfold InvoiceController.scanPayment, sequenceOf, InvoiceController.blank.
  destruct (Payment.transactionId payment) as [t|]; [|reflexivity].
  destruct (String.eqb t ""); [reflexivity|]. cbn [negb].
  destruct (Js.startsWith t prefix); [|reflexivity].
  destruct (Nat.leb 3 _); [|reflexivity].
  destruct (Js.parseIntAt _ 2) as [s|]; [|reflexivity].
  destruct (m <? s) eqn:E; [apply Z.ltb_lt in E | apply Z.ltb_ge in E]; lia.
Qed.

Lemma scan_payments_bounds prefix payments : forall m,
  m <= fold_left (InvoiceController.scanPayment prefix) payments m
  /\ forall p s, In p payments -> sequenceOf prefix p = Some s ->
       s <= fold_left (InvoiceController.scanPayment prefix) payments m.
Proof.
  induction payments as [|q qs IH]; intros m; simpl.
  - split; [lia | intros ? ? []].
  - destruct (IH (InvoiceController.scanPayment prefix m q)) as [Hm Hs].
    pose proof (scanPayment_max prefix m q) as Hq. split.
    + destruct (sequenceOf prefix q); lia.
    + intros p s [<-|Hin] Hseq; [|now apply (Hs p s)].
      rewrite Hseq in Hq. lia.
Qed.

Lemma scan_invoices_bounds prefix invs : forall m,
  m <= fold_left (fun m inv =>
                    fold_left (InvoiceController.scanPayment prefix) (Invoice.payments inv) m)
         invs m
  /\ forall inv p s, In inv invs -> In p (Invoice.payments inv) ->
       sequenceOf prefix p = Some s ->
       s <= fold_left (fun m inv =>
                         fold_left (InvoiceController.scanPayment prefix)
                           (Invoice.payments inv) m)
              invs m.
Proof.
  induction invs as [|i is_ IH]; intros m; simpl.
  - split; [lia | intros ? ? ? []].
  - destruct (IH (fold_left (InvoiceController.scanPayment prefix) (Invoice.payments i) m))
      as [Hm Hs].
    destruct (scan_payments_bounds prefix (Invoice.payments i) m) as [Hm' Hs'].
    split; [lia|].
    intros inv p s [<-|Hin] Hp Hseq; [|now apply (Hs inv p s)].
    specialize (Hs' p s Hp Hseq). lia.
Qed.

(** The id built from a prefix [year_customerNo_] and a number is read
    back as that number. *)
Lemma sequenceOf_generated year customerNo k p :
  Payment.transactionId p
  = Some (String.append
            (String.concat "_" [Js.toString year; Js.toString customerNo; ""])
            (Js.toString k)) ->
  sequenceOf (String.concat "_" [Js.toString year; Js.toString customerNo; ""]) p = Some k.
Proof.
  intros Ht. unfold sequenceOf. rewrite Ht.
  set (prefix := String.concat "_" _).
  assert (Hprefix : prefix
                    = String.append (Js.toString year)
                        (String "_"%char
                           (String.append (Js.toString customerNo)
                              (String "_"%char EmptyString)))) by reflexivity.
  assert (Hu : forall n, lacks "_"%char (Js.toString n) = true)
    by (intros n; apply lacks_toString; [reflexivity | discriminate]).
  assert (Hne : String.eqb (String.append prefix (Js.toString k)) "" = false).
  { rewrite Hprefix. destruct (Js.toString year); reflexivity. }
  rewrite Hne. unfold Js.startsWith. rewrite prefix_append.
  assert (Hsplit : Js.split (String.append prefix (Js.toString k)) "_"%char
                   = [Js.toString year; Js.toString customerNo; Js.toString k]).
  { unfold Js.split. rewrite Hprefix, append_assoc. cbn [String.append].
    rewrite (split_aux_app _ _ _ _ (Hu year)). cbn [String.append].
    rewrite append_assoc. cbn [String.append].
    rewrite (split_aux_app _ _ _ _ (Hu customerNo)). cbn [String.append].
    rewrite (split_aux_lacks _ _ _ (Hu k)). reflexivity. }
  rewrite Hsplit. cbn [List.length Nat.leb]. unfold Js.parseIntAt. cbn [nth_error].
  apply parseInt_toString.
Qed.

(** *** Sequence numbers stay in the range where doubles are exact *)

Lemma digit_of_range c d : Js.digit_of c = Some d -> 0 <= d <= 9.
Proof.
  unfold Js.digit_of.
  destruct (Nat.leb 48 (nat_of_ascii c)) eqn:E1; simpl; [|discriminate].
  destruct (Nat.leb (nat_of_ascii c) 57) eqn:E2; [|discriminate].
  apply Nat.leb_le in E1. apply Nat.leb_le in E2.
  intros H. injection H as <-. lia.
Qed.

Lemma read_digits_below s : forall acc k n,
  (forall a, acc = Some a -> 0 <= a < 10 ^ Z.of_nat n) ->
  Js.read_digits acc s = Some k ->
  0 <= k < 10 ^ Z.of_nat (n + String.length s).
Proof.
  induction s as [|c s IH]; intros acc k n Hacc; cbn [Js.read_digits String.length].
  - intros H. rewrite Nat.add_0_r. now apply Hacc.
  - assert (Hstep : 10 ^ Z.of_nat (S n) = 10 * 10 ^ Z.of_nat n).
    { rewrite Nat2Z.inj_succ, Z.pow_succ_r by lia. reflexivity. }
    destruct (Js.digit_of c) as [d|] eqn:E.
    + intros H. replace (n + S (String.length s))%nat with (S n + String.length s)%nat by lia.
      refine (IH _ k (S n) _ H).
      intros a Ha.
      assert (Ha' : a = 10 * match acc with Some a => a | None => 0 end + d)
        by congruence.
      pose proof (digit_of_range _ _ E) as Hd.
      assert (Hpos : 0 < 10 ^ Z.of_nat n) by (apply Z.pow_pos_nonneg; lia).
      rewrite Hstep.
      destruct acc as [a0|]; [specialize (Hacc a0 eq_refl)|]; lia.
    + intros H. specialize (Hacc k H).
      assert (Hle : 10 ^ Z.of_nat n <= 10 ^ Z.of_nat (n + S (String.length s)))
        by (apply Z.pow_le_mono_r; lia).
      lia.
Qed.

Lemma skip_spaces_length s :
  (String.length (Js.skip_spaces s) <= String.length s)%nat.
Proof.
  induction s as [|c s IH]; simpl; [lia|].
  destruct (Js.is_space c); simpl; lia.
Qed.

(** A string of at most [n] characters parses to a number below [10 ^ n]. *)
Lemma parseInt_below s k n :
  (String.length s <= n)%nat -> Js.parseInt s = Some k -> k < 10 ^ Z.of_nat n.
Proof.
  intros Hlen. pose proof (skip_spaces_length s) as Hskip. unfold Js.parseInt.
  assert (Hnone : forall a : Z, @None Z = Some a -> 0 <= a < 10 ^ Z.of_nat 0)
    by discriminate.
  assert (Hmono : forall m, (m <= n)%nat -> 10 ^ Z.of_nat m <= 10 ^ Z.of_nat n)
    by (intros m Hm; apply Z.pow_le_mono_r; lia).
  assert (Hread : forall t v, (String.length t <= n)%nat ->
                    Js.read_digits None t = Some v -> 0 <= v < 10 ^ Z.of_nat n).
  { intros t v Ht Hv.
    pose proof (read_digits_below t None v 0 Hnone Hv) as Hb. cbn [Nat.add] in Hb.
    specialize (Hmono _ Ht). lia. }
  destruct (Js.skip_spaces s) as [|c t] eqn:Es.
  - simpl. discriminate.
  - cbn [String.length] in Hskip.
    destruct (Ascii.eqb_spec c "-"%char) as [->|Hminus].
    + destruct (Js.read_digits None t) as [v|] eqn:Ev; [|discriminate].
      intros H. injection H as <-.
      assert (0 <= v < 10 ^ Z.of_nat n) by (apply (Hread t); [lia | exact Ev]). lia.
    + destruct (Ascii.eqb_spec c "+"%char) as [->|Hplus].
      * intros H. apply (Hread t); [lia | exact H].
      * assert (Hsame : match String c t with
                        | String "-"%char rest => option_map Z.opp (Js.read_digits None rest)
                        | String "+"%char rest => Js.read_digits None rest
                        | u => Js.read_digits None u
                        end = Js.read_digits None (String c t)).
        { destruct c as [[] [] [] [] [] [] [] []]; try reflexivity; congruence. }
        rewrite Hsame. intros H. apply (Hread (String c t)); [cbn [String.length]; lia | exact H].
Qed.

Lemma sequenceOf_below prefix p s :
  match Payment.transactionId p with
  | Some t => forallb (fun part => Nat.leb (String.length part) 15) (Js.split t "_"%char)
  | None => true
  end = true ->
  sequenceOf prefix p = Some s -> s < 10 ^ 15.
Proof.
  unfold sequenceOf. destruct (Payment.transactionId p) as [t|]; [|discriminate].
  intros Hshort.
  destruct (String.eqb t ""); [discriminate|].
  destruct (Js.startsWith t prefix); [|discriminate]. cbv zeta.
  destruct (Nat.leb 3 _); [|discriminate].
  unfold Js.parseIntAt. destruct (nth_error _ 2) as [part|] eqn:Enth; [|discriminate].
  intros Hparse. apply nth_error_In in Enth.
  rewrite forallb_forall in Hshort. specialize (Hshort part Enth).
  apply Nat.leb_le in Hshort.
  exact (parseInt_below part s 15 Hshort Hparse).
Qed.

Lemma scan_payments_below prefix B payments : forall m,
  m <= B ->
  (forall p s, In p payments -> sequenceOf prefix p = Some s -> s <= B) ->
  fold_left (InvoiceController.scanPayment prefix) payments m <= B.
Proof.
  induction payments as [|q qs IH]; intros m Hm Hall; simpl; [exact Hm|].
  apply IH.
  - rewrite scanPayment_max. destruct (sequenceOf prefix q) as [s|] eqn:E; [|exact Hm].
    specialize (Hall q s (or_introl eq_refl) E). lia.
  - intros p s Hin. apply Hall. now right.
Qed.

Lemma scan_invoices_below prefix B invs : forall m,
  m <= B ->
  (forall inv p s, In inv invs -> In p (Invoice.payments inv) ->
     sequenceOf prefix p = Some s -> s <= B) ->
  fold_left (fun m inv =>
               fold_left (InvoiceController.scanPayment prefix) (Invoice.payments inv) m)
    invs m <= B.
Proof.
  induction invs as [|i is_ IH]; intros m Hm Hall; simpl; [exact Hm|].
  apply IH.
  - apply scan_payments_below; [exact Hm|].
    intros p s Hp. apply (Hall i p s); [now left | exact Hp].
  - intros inv p s Hin. apply Hall. now right.
Qed.

(** X1. As long as the transaction ids stored for a customer are short
    (no part of more than 15 characters), the sequence number of a
    generated transaction id lies between 1 and 2^53, the range in which
    the doubles of the program count exactly, and the generated id is
    carried by no payment on any invoice of that customer. *)
Theorem generated_transaction_id_is_new (now : Js.Date) (db : DB) (customer : Customer.t) :
  shortSequences db (Customer._id customer) = true ->
  exists sequence,
    1 <= sequence <= 2 ^ 53
    /\ InvoiceController.generateTransactionId now db customer
       = String.append
           (String.concat "_" [Js.toString (Js.getFullYear now);
                               Js.toString (Customer.customerNo customer); ""])
           (Js.toString sequence)
    /\ forall inv p,
         In inv (invoices db) ->
         Invoice.customer inv = Customer._id customer ->
         In p (Invoice.payments inv) ->
         Payment.transactionId p
         <> Some (InvoiceController.generateTransactionId now db customer).
Proof.
  intros Hshort.
  unfold InvoiceController.generateTransactionId.
  set (prefix := String.concat "_" _).
  set (own := filter _ (invoices db)).
  set (M := fold_left _ own 0).
  destruct (scan_invoices_bounds prefix own 0) as [Hlow Hbound]. fold M in Hlow, Hbound.
  assert (Hhigh : M <= 10 ^ 15 - 1).
  { apply scan_invoices_below; [lia|].
    intros inv p s Hown Hp Hseq.
    apply filter_In in Hown as [Hin Hc].
    unfold shortSequences in Hshort. rewrite forallb_forall in Hshort.
    specialize (Hshort inv Hin). rewrite Hc in Hshort. cbn [negb orb] in Hshort.
    rewrite forallb_forall in Hshort. specialize (Hshort p Hp).
    pose proof (sequenceOf_below prefix p s Hshort Hseq). lia. }
  assert (Hrange : 10 ^ 15 <= 2 ^ 53) by (vm_compute; discriminate).
  exists (M + 1). split; [lia|]. split; [reflexivity|].
  intros inv p Hinv Hc Hp Heq.
  pose proof (sequenceOf_generated _ _ _ _ Heq) as Hseq. fold prefix in Hseq.
  assert (Hown : In inv own).
  { apply filter_In. split; [exact Hinv|]. now apply N.eqb_eq. }
  specialize (Hbound inv p (M + 1) Hown Hp Hseq). lia.
Qed.

Lemma generated_transaction_id_is_new_witness :
  InvoiceController.generateTransactionId Sample.clock Sample2.dbWithPayment
    (Sample.customerWith 0) = "2025_1_8"
  /\ Payment.transactionId Sample2.paidOnline
     <> Some (InvoiceController.generateTransactionId Sample.clock Sample2.dbWithPayment
                (Sample.customerWith 0)).
Proof.
  split; [vm_compute; reflexivity|].
  destruct (generated_transaction_id_is_new Sample.clock Sample2.dbWithPayment
              (Sample.customerWith 0)) as (sequence & _ & _ & Hnew).
  - reflexivity.
  - apply (Hnew Sample2.invoiceWithPayment Sample2.paidOnline).
    + simpl. left. reflexivity.
    + reflexivity.
    + simpl. left. reflexivity.
Defined.

(** ** The calendar *)

Lemma checkFrom_spec rounds : forall k,
  checkFrom rounds k = true ->
  forall j, k <= j < k + Z.of_nat rounds -> eraCheck j = true.
Proof.
  induction rounds as [|n IH]; simpl; intros k H j Hj; [lia|].
  apply andb_prop in H as [H1 H2].
  destruct (Z.eq_dec j k) as [->|]; [exact H1|].
  apply (IH (k + 1)); [exact H2 | lia].
Qed.

(** Every day of the 400-year era passes the check. *)
Lemma era_checked : checkFrom (Z.to_nat 146097) 0 = true.
Proof. vm_compute. reflexivity. Qed.

Lemma eraCheck_all doe : 0 <= doe < 146097 -> eraCheck doe = true.
Proof.
  intros H. apply (checkFrom_spec _ 0 era_checked). rewrite Z2Nat.id; lia.
Qed.

(** Day number to date and back. *)
Lemma civil_roundtrip z :
  let '(y, m, d) := Js.civil_from_days z in
  Js.days_from_civil y m d = z /\ 1 <= m <= 12 /\ 1 <= d <= 31.
Proof.
  unfold Js.civil_from_days.
  set (z' := z + 719468). set (era := z' / 146097).
  set (doe := z' - era * 146097).
  assert (Hdoe : 0 <= doe < 146097).
  { unfold doe, era. pose proof (Z.mod_pos_bound z' 146097 ltac:(lia)) as Hb.
    rewrite Z.mod_eq in Hb by lia. lia. }
  pose proof (eraCheck_all doe Hdoe) as Hc. unfold eraCheck in Hc.
  cbv zeta in Hc |- *.
  set (yoe := (doe - doe / 1460 + doe / 36524 - doe / 146096) / 365) in *.
  set (doy := doe - (365 * yoe + yoe / 4 - yoe / 100)) in *.
  set (mp := (5 * doy + 2) / 153) in *.
  set (d := doy - (153 * mp + 2) / 5 + 1) in *.
  set (m := if mp <? 10 then mp + 3 else mp - 9) in *.
  repeat (apply andb_prop in Hc as [Hc ?]).
  repeat match goal with
         | H : (_ <=? _) = true |- _ => apply Z.leb_le in H
         | H : (_ =? _) = true |- _ => apply Z.eqb_eq in H
         end.
  split; [|lia].
  unfold Js.days_from_civil.
  assert (Hy : (if m <=? 2
                then (if m <=? 2 then yoe + era * 400 + 1 else yoe + era * 400) - 1
                else (if m <=? 2 then yoe + era * 400 + 1 else yoe + era * 400))
               = yoe + era * 400)
    by (destruct (m <=? 2); lia).
  rewrite Hy.
  assert (Hera : (yoe + era * 400) / 400 = era)
    by (rewrite Z.div_add by lia; rewrite Z.div_small by lia; lia).
  rewrite Hera.
  replace (yoe + era * 400 - era * 400) with yoe by lia.
  unfold z' in doe. lia.
Qed.

Lemma getMonth_range t : 0 <= Js.getMonth t <= 11.
Proof.
  unfold Js.getMonth. pose proof (civil_roundtrip (Js.Day t)) as H.
  destruct (Js.civil_from_days (Js.Day t)) as [[y m] d]. simpl. lia.
Qed.

Lemma getDate_range t : 1 <= Js.getDate t <= 31.
Proof.
  unfold Js.getDate. pose proof (civil_roundtrip (Js.Day t)) as H.
  destruct (Js.civil_from_days (Js.Day t)) as [[y m] d]. simpl. lia.
Qed.

(** [MakeDay] on the components of a time value, the day shifted by [k]. *)
Lemma MakeDay_components t k :
  Js.MakeDay (Js.getFullYear t) (Js.getMonth t) (Js.getDate t + k) = Js.Day t + k.
Proof.
  unfold Js.MakeDay, Js.getFullYear, Js.getMonth, Js.getDate.
  pose proof (civil_roundtrip (Js.Day t)) as H.
  destruct (Js.civil_from_days (Js.Day t)) as [[y m] d]. simpl fst. simpl snd.
  destruct H as (Hr & Hm & Hd).
  assert ((m - 1) / 12 = 0) as -> by (apply Z.div_small; lia).
  assert ((m - 1) mod 12 = m - 1) as -> by (apply Z.mod_small; lia).
  replace (y + 0) with y by lia. replace (m - 1 + 1) with m by lia.
  assert (Hlin : forall dd, Js.days_from_civil y m dd = Js.days_from_civil y m 1 + dd - 1)
    by (intros dd; unfold Js.days_from_civil; lia).
  rewrite (Hlin d) in Hr. lia.
Qed.

(** [d.setDate(d.getDate() + k)] moves the time value by [k] days. *)
Lemma setDate_shift t k :
  Js.setDate t (Js.getDate t + k) = t + k * Js.msPerDay.
Proof.
  unfold Js.setDate. rewrite MakeDay_components.
  unfold Js.Day, Js.TimeWithinDay, Js.msPerDay.
  pose proof (Z.div_mod t 86400000 ltac:(lia)). lia.
Qed.

(** ** Invoices: creation and update *)

Lemma pre_save_keeps now i :
  Invoice._id (Invoice.pre_save now i) = Invoice._id i
  /\ Invoice.customer (Invoice.pre_save now i) = Invoice.customer i
  /\ Invoice.invoiceNumber (Invoice.pre_save now i) = Invoice.invoiceNumber i
  /\ Invoice.startDate (Invoice.pre_save now i) = Invoice.startDate i
  /\ Invoice.endDate (Invoice.pre_save now i) = Invoice.endDate i
  /\ Invoice.totalQuantity (Invoice.pre_save now i) = Invoice.totalQuantity i
  /\ Invoice.totalAmount (Invoice.pre_save now i) = Invoice.totalAmount i
  /\ Invoice.amountPaid (Invoice.pre_save now i) = Invoice.amountPaid i
  /\ Invoice.dueDate (Invoice.pre_save now i) = Invoice.dueDate i
  /\ Invoice.items (Invoice.pre_save now i) = Invoice.items i
  /\ Invoice.payments (Invoice.pre_save now i) = Invoice.payments i
  /\ Invoice.createdAt (Invoice.pre_save now i) = Invoice.createdAt i.
Proof.
  unfold Invoice.pre_save.
  repeat match goal with |- context [if ?b then _ else _] => destruct b end;
    repeat split; reflexivity.
Qed.

(** The fields of an invoice that the creation branch produced. *)
Lemma createNewInvoice_fields now db customer ref s e q t items db' inv used :
  InvoiceController.createNewInvoice now db customer ref s e q t items
  = (db', inr (inv, used)) ->
  Invoice.customer inv = ref
  /\ Invoice.startDate inv = s
  /\ Invoice.endDate inv = e
  /\ Invoice.dueDate inv = Js.setDate e (Js.getDate e + 15)
  /\ Invoice.totalQuantity inv = q
  /\ Invoice.totalAmount inv = t
  /\ Invoice.items inv = items
  /\ Invoice.invoiceNumber inv = InvoiceController.generateInvoiceNumber now db
  /\ Invoice.createdAt inv = now
  /\ records db' = records db
  /\ quantityUpdates db' = quantityUpdates db
  /\ Invoice.dueAmount inv = Invoice.totalAmount inv - Invoice.amountPaid inv.
Proof.
  unfold InvoiceController.createNewInvoice.
  set (app := InvoiceController.applyAdvance now customer t).
  assert (Hsaved : forall db1,
             (if InvoiceController.app_saved app
              then option_map fst (Customer_save db (InvoiceController.app_customer app))
              else Some db) = Some db1 ->
             records db1 = records db /\ quantityUpdates db1 = quantityUpdates db).
  { intros db1. destruct (InvoiceController.app_saved app).
    - unfold Customer_save. destruct (Customer.pre_save _); [|discriminate].
      simpl. intros H. injection H as <-. split; reflexivity.
    - intros H. injection H as <-. split; reflexivity. }
  destruct (if InvoiceController.app_saved app then _ else _) as [db1|]; [|discriminate].
  destruct (Hsaved db1 eq_refl) as [Hr Hq].
  match goal with
  | |- context [Invoice_create now db1 ?f] =>
      destruct (Invoice_create now db1 f) as [[db2 created]|] eqn:Ecreate; [|discriminate]
  end.
  apply Invoice_create_result in Ecreate as [Hcreated ->].
  unfold Invoice_save. intros H. injection H as <- <- _.
  rewrite Hcreated, pre_save_idem.
  match goal with |- context [Invoice.pre_save now ?f] => set (fields := f) end.
  pose proof (pre_save_keeps now fields) as K. simpl in K.
  destruct K as (_ & K1 & K2 & K3 & K4 & K5 & K6 & K7 & K8 & K9 & _ & K11).
  assert (Hdue : Invoice.dueAmount (Invoice.pre_save now fields)
                 = Invoice.totalAmount (Invoice.pre_save now fields)
                   - Invoice.amountPaid (Invoice.pre_save now fields)).
  { destruct (pre_save_amounts now fields) as (Ht & Hp & _).
    rewrite pre_save_due, Ht, Hp. reflexivity. }
  simpl. repeat split; auto.
Qed.

(** What stands behind a 201 of the single-customer handler. *)
Lemma generate_201_inversion now db req db' inv used msg :
  InvoiceController.generateCustomerMonthlyInvoice now db req
  = (db', InvoiceController.mkResponse 201 (InvoiceController.InvoiceResult inv used msg)) ->
  let id := InvoiceController.params_id req in
  let m := InvoiceController.numberOf (InvoiceController.month req) in
  let y := InvoiceController.numberOf (InvoiceController.year req) in
  exists customer,
    1 <= m <= 12
    /\ Customer_findById db id = Some customer
    /\ InvoiceController.findExistingInvoice db id (Js.newDate y (m - 1) 1) (Js.newDate y m 0)
       = None
    /\ InvoiceController.createNewInvoice now db customer id
         (Js.newDate y (m - 1) 1) (Js.newDate y m 0)
         (sumBy Record_.totalDailyQuantity
            (InvoiceController.findRecordsBefore db id (Js.newDate y (m - 1) 1)
               (Js.newDate y m 1)))
         (sumBy Record_.totalDailyPrice
            (InvoiceController.findRecordsBefore db id (Js.newDate y (m - 1) 1)
               (Js.newDate y m 1)))
         (map InvoiceController.itemOf
            (InvoiceController.findRecordsBefore db id (Js.newDate y (m - 1) 1)
               (Js.newDate y m 1)))
       = (db', inr (inv, used)).
Proof.
  unfold InvoiceController.generateCustomerMonthlyInvoice.
  destruct (InvoiceController.missing _ || InvoiceController.missing _); [discriminate|].
  destruct ((_ <? 1) || (12 <? _)) eqn:Em; [discriminate|].
  apply orb_false_elim in Em as [Em1 Em2].
  apply Z.ltb_ge in Em1, Em2.
  cbv zeta.
  destruct (Customer_findById db _) as [customer|]; [|discriminate].
  destruct (InvoiceController.findExistingInvoice db _ _ _) as [existing|] eqn:Ef.
  - destruct (InvoiceController.updateExisting req); [|discriminate].
    destruct (Nat.eqb _ 0); [discriminate|].
    destruct (InvoiceController.updateExistingInvoice _ _ _ _ _ _ _); discriminate.
  - intros H. exists customer. split; [lia|]. split; [reflexivity|]. split; [reflexivity|].
    revert H.
    destruct (InvoiceController.updateExisting req);
      (destruct (Nat.eqb _ 0); [discriminate|]);
      (destruct (InvoiceController.createNewInvoice _ _ _ _ _ _ _ _ _)
         as [db2 [e0|[i0 u0]]]; [discriminate|]);
      intros H; injection H as <- <- <- _; reflexivity.
Qed.

(** X2. The invoice of a 201 covers exactly the requested month, falls due
    fifteen days after the period ends, and its period meets that of no
    invoice the customer already had. *)
Theorem created_invoice_period (now : Js.Date) (db db' : DB)
  (req : InvoiceController.GenerateRequest) (inv : Invoice.t) (used : Z) (msg : string) :
  InvoiceController.generateCustomerMonthlyInvoice now db req
  = (db', InvoiceController.mkResponse 201 (InvoiceController.InvoiceResult inv used msg)) ->
  let m := InvoiceController.numberOf (InvoiceController.month req) in
  let y := InvoiceController.numberOf (InvoiceController.year req) in
  Invoice.customer inv = InvoiceController.params_id req
  /\ Invoice.startDate inv = Js.newDate y (m - 1) 1
  /\ Invoice.endDate inv = Js.newDate y m 0
  /\ Invoice.dueDate inv = Invoice.endDate inv + 15 * Js.msPerDay
  /\ forall other, In other (invoices db) ->
       Invoice.customer other = Invoice.customer inv ->
       Invoice.endDate inv < Invoice.startDate other
       \/ Invoice.endDate other < Invoice.startDate inv.
Proof.
  intros H. apply generate_201_inversion in H as (customer & Hm & Hc & Hnone & Hblock).
  apply createNewInvoice_fields in Hblock as (K1 & K2 & K3 & K4 & _).
  cbv zeta. rewrite K1, K2, K3, K4, setDate_shift.
  repeat split; auto.
  intros other Hin Hcust.
  unfold InvoiceController.findExistingInvoice in Hnone.
  pose proof (find_none _ _ Hnone other Hin) as Hn.
  unfold InvoiceController.overlaps in Hn.
  apply N.eqb_eq in Hcust. rewrite Hcust in Hn. simpl in Hn.
  apply andb_false_iff in Hn as [Hn|Hn]; apply Z.leb_gt in Hn; lia.
Qed.

Lemma created_invoice_period_witness :
  exists db' inv,
    InvoiceController.generateCustomerMonthlyInvoice Sample.clock (Sample.dbRecorded 3500)
      (InvoiceController.mkGenerate 1%N (Some 1) (Some 2025) false)
    = (db', InvoiceController.mkResponse 201
              (InvoiceController.InvoiceResult inv 3000 "Invoice created successfully"))
    /\ Invoice.startDate inv = Js.newDate 2025 0 1
    /\ Invoice.endDate inv = Js.newDate 2025 1 0
    /\ Invoice.dueDate inv = Js.newDate 2025 1 15.
Proof.
  destruct (InvoiceController.generateCustomerMonthlyInvoice Sample.clock
              (Sample.dbRecorded 3500)
              (InvoiceController.mkGenerate 1%N (Some 1) (Some 2025) false))
    as [db' response] eqn:E.
  assert (Hresp : exists inv,
             response = InvoiceController.mkResponse 201
                          (InvoiceController.InvoiceResult inv 3000
                             "Invoice created successfully")).
  { vm_compute in E. injection E as _ <-. eexists. reflexivity. }
  destruct Hresp as (inv & ->).
  destruct (created_invoice_period Sample.clock (Sample.dbRecorded 3500) db'
              (InvoiceController.mkGenerate 1%N (Some 1) (Some 2025) false)
              inv 3000 "Invoice created successfully" E)
    as (_ & Hs & He & Hd & _).
  exists db', inv. split; [reflexivity|]. split; [exact Hs|]. split; [exact He|].
  rewrite Hd, He. vm_compute. reflexivity.
Defined.

(** *** Sums *)

Lemma sumBy_fold {A : Type} (f : A -> Z) (l : list A) : forall a,
  fold_left (fun sum x => sum + f x) l a = a + sumBy f l.
Proof.
  unfold sumBy. induction l as [|x l IH]; intros a; simpl; [lia|].
  rewrite (IH (a + f x)). first [rewrite (IH (0 + f x)) | rewrite (IH (f x))]. lia.
Qed.

Lemma sumBy_nil {A : Type} (f : A -> Z) : sumBy f [] = 0.
Proof. reflexivity. Qed.

Lemma sumBy_cons {A : Type} (f : A -> Z) x l : sumBy f (x :: l) = f x + sumBy f l.
Proof. unfold sumBy at 1. simpl. rewrite sumBy_fold. lia. Qed.

Lemma sumBy_app {A : Type} (f : A -> Z) l1 l2 :
  sumBy f (l1 ++ l2) = sumBy f l1 + sumBy f l2.
Proof.
  induction l1 as [|x l1 IH]; cbn [app]; [rewrite sumBy_nil; lia|].
  rewrite !sumBy_cons, IH. lia.
Qed.

Lemma sumBy_map {A B : Type} (f : B -> Z) (g : A -> B) l :
  sumBy f (map g l) = sumBy (fun x => f (g x)) l.
Proof.
  induction l as [|x l IH]; cbn [map]; [reflexivity|].
  rewrite !sumBy_cons, IH. reflexivity.
Qed.

Lemma sumBy_ext {A : Type} (f g : A -> Z) l :
  (forall x, In x l -> f x = g x) -> sumBy f l = sumBy g l.
Proof.
  induction l as [|x l IH]; intros H; [reflexivity|].
  rewrite !sumBy_cons, (H x (or_introl eq_refl)), IH; [reflexivity|].
  intros y Hy. apply H. now right.
Qed.

Lemma sumBy_minus {A : Type} (f g : A -> Z) l :
  sumBy (fun x => f x - g x) l = sumBy f l - sumBy g l.
Proof.
  induction l as [|x l IH]; [reflexivity|].
  rewrite !sumBy_cons, IH. lia.
Qed.

Lemma sumBy_nonneg {A : Type} (f : A -> Z) l :
  (forall x, In x l -> 0 <= f x) -> 0 <= sumBy f l.
Proof.
  induction l as [|x l IH]; intros H; [rewrite sumBy_nil; lia|].
  rewrite sumBy_cons. pose proof (H x (or_introl eq_refl)).
  assert (0 <= sumBy f l) by (apply IH; intros y Hy; apply H; now right). lia.
Qed.

(** What stands behind a 200 of the single-customer handler. *)
Lemma generate_200_inversion now db req db' inv used msg :
  InvoiceController.generateCustomerMonthlyInvoice now db req
  = (db', InvoiceController.mkResponse 200 (InvoiceController.InvoiceResult inv used msg)) ->
  let id := InvoiceController.params_id req in
  let m := InvoiceController.numberOf (InvoiceController.month req) in
  let y := InvoiceController.numberOf (InvoiceController.year req) in
  let records :=
    InvoiceController.findRecordsBefore db id (Js.newDate y (m - 1) 1) (Js.newDate y m 1) in
  exists existing,
    InvoiceController.findExistingInvoice db id (Js.newDate y (m - 1) 1) (Js.newDate y m 0)
    = Some existing
    /\ InvoiceController.updateExisting req = true
    /\ used = 0
    /\ InvoiceController.updateExistingInvoice now db existing (Js.newDate y m 0)
         (sumBy Record_.totalDailyQuantity records) (sumBy Record_.totalDailyPrice records)
         (map InvoiceController.itemOf records)
       = (db', inv).
Proof.
  unfold InvoiceController.generateCustomerMonthlyInvoice.
  destruct (InvoiceController.missing _ || InvoiceController.missing _); [discriminate|].
  destruct ((_ <? 1) || (12 <? _)); [discriminate|].
  cbv zeta.
  destruct (Customer_findById db _) as [customer|]; [|discriminate].
  destruct (InvoiceController.findExistingInvoice db _ _ _) as [existing|] eqn:Ef.
  - destruct (InvoiceController.updateExisting req); [|discriminate].
    destruct (Nat.eqb _ 0); [discriminate|].
    destruct (InvoiceController.updateExistingInvoice _ _ _ _ _ _ _) as [db2 i2] eqn:Eu.
    intros H. injection H as <- <- <- _. exists existing. auto.
  - destruct (InvoiceController.updateExisting req);
      (destruct (Nat.eqb _ 0); [discriminate|]);
      (destruct (InvoiceController.createNewInvoice _ _ _ _ _ _ _ _ _)
         as [db2 [e0|[i0 u0]]]; discriminate).
Qed.

(** X3. Updating an existing invoice recomputes its totals from the
    records and sets the period end, and leaves everything about money
    received alone: payments, amount paid, number and every customer's
    advance stay as they were, and no invoice is added. *)
Theorem update_keeps_payments_and_advance (now : Js.Date) (db db' : DB)
  (req : InvoiceController.GenerateRequest) (inv : Invoice.t) (used : Z) (msg : string) :
  InvoiceController.generateCustomerMonthlyInvoice now db req
  = (db', InvoiceController.mkResponse 200 (InvoiceController.InvoiceResult inv used msg)) ->
  used = 0
  /\ customers db' = customers db
  /\ List.length (invoices db') = List.length (invoices db)
  /\ exists existing,
       In existing (invoices db)
       /\ Invoice._id inv = Invoice._id existing
       /\ Invoice.invoiceNumber inv = Invoice.invoiceNumber existing
       /\ Invoice.payments inv = Invoice.payments existing
       /\ Invoice.amountPaid inv = Invoice.amountPaid existing
       /\ Invoice.startDate inv = Invoice.startDate existing
       /\ Invoice.dueDate inv = Invoice.dueDate existing
       /\ Invoice.endDate inv
          = Js.newDate (InvoiceController.numberOf (InvoiceController.year req))
              (InvoiceController.numberOf (InvoiceController.month req)) 0
       /\ Invoice.dueAmount inv = Invoice.totalAmount inv - Invoice.amountPaid existing.
Proof.
  intros H. apply generate_200_inversion in H as (existing & Hf & _ & Hu & Hup).
  unfold InvoiceController.updateExistingInvoice, Invoice_save in Hup.
  injection Hup as <- <-.
  split; [exact Hu|]. split; [reflexivity|]. split.
  { simpl. unfold replace_invoice. apply length_map. }
  exists existing.
  unfold InvoiceController.findExistingInvoice in Hf. apply find_some in Hf as [Hin _].
  match goal with |- context [Invoice.pre_save now ?f] => set (fields := f) end.
  pose proof (pre_save_keeps now fields) as K. simpl in K.
  destruct K as (K0 & _ & K2 & K3 & K4 & _ & K6 & K7 & K8 & _ & K10 & _).
  repeat split; auto.
  rewrite pre_save_due, K6. reflexivity.
Qed.

Lemma update_keeps_payments_and_advance_witness :
  let db := set_invoices (Sample.dbRecorded 700) [Sample2.januaryInvoice] in
  let req := InvoiceController.mkGenerate 1%N (Some 1) (Some 2025) true in
  let '(db', response) :=
    InvoiceController.generateCustomerMonthlyInvoice Sample.clock db req in
  exists inv,
    response = InvoiceController.mkResponse 200
                 (InvoiceController.InvoiceResult inv 0 "Invoice updated successfully")
    /\ customers db' = customers db
    /\ Invoice.payments inv = [Sample2.paidOnline]
    /\ Invoice.amountPaid inv = 500.
Proof.
  cbv zeta.
  destruct (InvoiceController.generateCustomerMonthlyInvoice Sample.clock
              (set_invoices (Sample.dbRecorded 700) [Sample2.januaryInvoice])
              (InvoiceController.mkGenerate 1%N (Some 1) (Some 2025) true))
    as [db' response] eqn:E.
  assert (Hresp : exists inv,
             response = InvoiceController.mkResponse 200
                          (InvoiceController.InvoiceResult inv 0
                             "Invoice updated successfully")).
  { vm_compute in E. injection E as _ <-. eexists. reflexivity. }
  destruct Hresp as (inv & ->).
  destruct (update_keeps_payments_and_advance Sample.clock _ db' _ inv 0 _ E)
    as (_ & Hc & _ & existing & Hin & _ & _ & Hp & Ha & _).
  exists inv. split; [reflexivity|]. split; [exact Hc|].
  destruct Hin as [<-|[]]. split; [exact Hp | exact Ha].
Defined.

Lemma insertByDate_In r x rs :
  In x (InvoiceController.insertByDate r rs) <-> x = r \/ In x rs.
Proof.
  induction rs as [|q rs IH]; simpl; [intuition|].
  destruct (Record_.date r <? Record_.date q); simpl; [intuition|].
  rewrite IH. intuition.
Qed.

Lemma sortByDate_In x rs : In x (InvoiceController.sortByDate rs) <-> In x rs.
Proof.
  unfold InvoiceController.sortByDate.
  assert (H : forall acc, In x (fold_left (fun acc r => InvoiceController.insertByDate r acc)
                                   rs acc) <-> In x acc \/ In x rs).
  { induction rs as [|r rs IH]; intros acc; simpl; [intuition|].
    rewrite IH, insertByDate_In. intuition. }
  rewrite H. simpl. intuition.
Qed.

Lemma findRecordsBefore_In db id s e r :
  In r (InvoiceController.findRecordsBefore db id s e) <->
  In r (records db) /\ Record_.customer r = id /\ s <= Record_.date r < e.
Proof.
  unfold InvoiceController.findRecordsBefore. rewrite sortByDate_In, filter_In.
  rewrite !andb_true_iff, N.eqb_eq, Z.leb_le, Z.ltb_lt. intuition.
Qed.

Lemma item_sums records :
  sumBy Invoice.item_totalDailyPrice (map InvoiceController.itemOf records)
  = sumBy Record_.totalDailyPrice records
  /\ sumBy Invoice.item_totalDailyQuantity (map InvoiceController.itemOf records)
     = sumBy Record_.totalDailyQuantity records.
Proof. rewrite !sumBy_map. split; reflexivity. Qed.

(** X4. Whether it was created or updated, the invoice the handler answers
    with carries as totals the sums over its items, as due amount the
    total less what was paid, and as items the stored daily records of
    that customer dated from the first day of the month to before the
    first day of the next. *)
Theorem invoice_totals_are_item_sums (now : Js.Date) (db db' : DB)
  (req : InvoiceController.GenerateRequest) (st : Z) (inv : Invoice.t) (used : Z)
  (msg : string) :
  InvoiceController.generateCustomerMonthlyInvoice now db req
  = (db', InvoiceController.mkResponse st (InvoiceController.InvoiceResult inv used msg)) ->
  let id := InvoiceController.params_id req in
  let m := InvoiceController.numberOf (InvoiceController.month req) in
  let y := InvoiceController.numberOf (InvoiceController.year req) in
  Invoice.totalAmount inv = sumBy Invoice.item_totalDailyPrice (Invoice.items inv)
  /\ Invoice.totalQuantity inv = sumBy Invoice.item_totalDailyQuantity (Invoice.items inv)
  /\ Invoice.dueAmount inv = Invoice.totalAmount inv - Invoice.amountPaid inv
  /\ Invoice.items inv <> []
  /\ forall item, In item (Invoice.items inv) ->
       exists r, In r (records db)
                 /\ item = InvoiceController.itemOf r
                 /\ Record_.customer r = id
                 /\ Js.newDate y (m - 1) 1 <= Record_.date r < Js.newDate y m 1.
Proof.
  intros H. cbv zeta.
  set (records :=
         InvoiceController.findRecordsBefore db (InvoiceController.params_id req)
           (Js.newDate (InvoiceController.numberOf (InvoiceController.year req))
              (InvoiceController.numberOf (InvoiceController.month req) - 1) 1)
           (Js.newDate (InvoiceController.numberOf (InvoiceController.year req))
              (InvoiceController.numberOf (InvoiceController.month req)) 1)).
  assert (Hcore : Invoice.items inv = map InvoiceController.itemOf records
                  /\ Invoice.totalAmount inv = sumBy Record_.totalDailyPrice records
                  /\ Invoice.totalQuantity inv = sumBy Record_.totalDailyQuantity records
                  /\ Invoice.dueAmount inv = Invoice.totalAmount inv - Invoice.amountPaid inv
                  /\ records <> []).
  { revert H. unfold InvoiceController.generateCustomerMonthlyInvoice.
    destruct (InvoiceController.missing _ || InvoiceController.missing _); [discriminate|].
    destruct ((_ <? 1) || (12 <? _)); [discriminate|].
    cbv zeta. fold records.
    destruct (Customer_findById db _) as [customer|]; [|discriminate].
    assert (Hne : Nat.eqb (List.length records) 0 = false -> records <> [])
      by (destruct records; [discriminate | intros _; discriminate]).
    assert (Hcreate :
      (let '(db2, r) :=
         InvoiceController.createNewInvoice now db customer (InvoiceController.params_id req)
           (Js.newDate (InvoiceController.numberOf (InvoiceController.year req))
              (InvoiceController.numberOf (InvoiceController.month req) - 1) 1)
           (Js.newDate (InvoiceController.numberOf (InvoiceController.year req))
              (InvoiceController.numberOf (InvoiceController.month req)) 0)
           (sumBy Record_.totalDailyQuantity records)
           (sumBy Record_.totalDailyPrice records) (map InvoiceController.itemOf records) in
       match r with
       | inl e => (db2, InvoiceController.mkResponse 500 (InvoiceController.ServerError e))
       | inr (invoice, advanceUsed) =>
           (db2, InvoiceController.mkResponse 201
                   (InvoiceController.InvoiceResult invoice advanceUsed
                      "Invoice created successfully"))
       end)
      = (db', InvoiceController.mkResponse st (InvoiceController.InvoiceResult inv used msg)) ->
      records <> [] ->
      Invoice.items inv = map InvoiceController.itemOf records
      /\ Invoice.totalAmount inv = sumBy Record_.totalDailyPrice records
      /\ Invoice.totalQuantity inv = sumBy Record_.totalDailyQuantity records
      /\ Invoice.dueAmount inv = Invoice.totalAmount inv - Invoice.amountPaid inv
      /\ records <> []).
    { destruct (InvoiceController.createNewInvoice _ _ _ _ _ _ _ _ _)
        as [db2 [e0|[i0 u0]]] eqn:Eb; [discriminate|].
      intros H Hr. injection H as <- _ <- _ _.
      pose proof (createNewInvoice_fields _ _ _ _ _ _ _ _ _ _ _ _ Eb)
        as (_ & _ & _ & _ & K5 & K6 & K7 & _ & _ & _ & _ & K11).
      repeat split; auto. }
    destruct (InvoiceController.findExistingInvoice db _ _ _) as [existing|].
    - destruct (InvoiceController.updateExisting req); [|discriminate].
      destruct (Nat.eqb _ 0) eqn:En; [discriminate|].
      unfold InvoiceController.updateExistingInvoice, Invoice_save.
      intros H. injection H as <- _ <- _ _.
      match goal with |- context [Invoice.pre_save now ?f] => set (fields := f) end.
      pose proof (pre_save_keeps now fields) as K. simpl in K.
      destruct K as (_ & _ & _ & _ & _ & K5 & K6 & K7 & _ & K9 & _).
      rewrite K5, K6, K7, K9, pre_save_due. repeat split; auto.
    - destruct (InvoiceController.updateExisting req);
        (destruct (Nat.eqb _ 0) eqn:En; [discriminate|]);
        intros H; apply Hcreate; auto. }
  destruct Hcore as (Hi & Ht & Hq & Hd & Hne).
  destruct (item_sums records) as [S1 S2].
  rewrite Hi, S1, S2. repeat split; auto.
  - destruct records; [contradiction | discriminate].
  - intros item Hin. apply in_map_iff in Hin as (r & <- & Hr).
    apply findRecordsBefore_In in Hr as (H1 & H2 & H3). exists r. auto.
Qed.

Lemma invoice_totals_are_item_sums_witness :
  exists db' inv,
    InvoiceController.generateCustomerMonthlyInvoice Sample.clock (Sample.dbRecorded 3500)
      (InvoiceController.mkGenerate 1%N (Some 1) (Some 2025) false)
    = (db', InvoiceController.mkResponse 201
              (InvoiceController.InvoiceResult inv 3000 "Invoice created successfully"))
    /\ Invoice.totalAmount inv = sumBy Invoice.item_totalDailyPrice (Invoice.items inv)
    /\ Invoice.items inv = [InvoiceController.itemOf Sample.januaryRecord].
Proof.
  destruct (InvoiceController.generateCustomerMonthlyInvoice Sample.clock
              (Sample.dbRecorded 3500)
              (InvoiceController.mkGenerate 1%N (Some 1) (Some 2025) false))
    as [db' response] eqn:E.
  assert (Hresp : exists inv,
             response = InvoiceController.mkResponse 201
                          (InvoiceController.InvoiceResult inv 3000
                             "Invoice created successfully")
             /\ Invoice.items inv = [InvoiceController.itemOf Sample.januaryRecord]).
  { vm_compute in E. injection E as _ <-. eexists. split; reflexivity. }
  destruct Hresp as (inv & -> & Hitems).
  destruct (invoice_totals_are_item_sums Sample.clock (Sample.dbRecorded 3500) db'
              (InvoiceController.mkGenerate 1%N (Some 1) (Some 2025) false)
              201 inv 3000 "Invoice created successfully" E) as (Ht & _).
  exists db', inv. split; [reflexivity|]. split; [exact Ht | exact Hitems].
Defined.

(** *** The batch *)





(** ** Payments on an invoice *)







(** ** Deleting documents *)

Section RemoveLemmas.
Context {A : Type} (key : A -> N).

Lemma find_removeByKey_same id (l : list A) :
  NoDup (map key l) ->
  find (fun x => N.eqb (key x) id) (removeByKey key id l) = None.
Proof.
  induction l as [|x l IH]; intros Hnd; simpl; [reflexivity|].
  inversion Hnd as [|k ks Hnotin Hnd']; subst.
  destruct (N.eqb (key x) id) eqn:E.
  - apply N.eqb_eq in E. subst id.
    destruct (find (fun y => N.eqb (key y) (key x)) l) as [y|] eqn:F; [|reflexivity].
    apply find_some in F as [Hin Hk]. apply N.eqb_eq in Hk.
    exfalso. apply Hnotin. rewrite <- Hk. now apply in_map.
  - simpl. rewrite E. now apply IH.
Qed.

Lemma find_removeByKey_other id j (l : list A) :
  j <> id ->
  find (fun x => N.eqb (key x) j) (removeByKey key id l)
  = find (fun x => N.eqb (key x) j) l.
Proof.
  intros Hne. induction l as [|x l IH]; simpl; [reflexivity|].
  destruct (N.eqb (key x) id) eqn:E.
  - apply N.eqb_eq in E.
    destruct (N.eqb (key x) j) eqn:F; [|reflexivity].
    apply N.eqb_eq in F. congruence.
  - simpl. destruct (N.eqb (key x) j); [reflexivity | exact IH].
Qed.

Lemma length_removeByKey id (l : list A) x :
  find (fun x => N.eqb (key x) id) l = Some x ->
  S (List.length (removeByKey key id l)) = List.length l.
Proof.
  induction l as [|y l IH]; simpl; [discriminate|].
  destruct (N.eqb (key y) id); [reflexivity|].
  intros H. simpl. now rewrite IH.
Qed.

End RemoveLemmas.

(** X8. Whether an invoice can be deleted depends on its payments and on
    nothing else.  With a payment recorded the handler refuses with 400
    and leaves the store as it is; with none it removes that invoice,
    whatever its status, and no other document. *)
Theorem deleteInvoice_depends_on_payments_only (db : DB) (id : Js.ObjectId)
  (inv : Invoice.t) :
  NoDup (map Invoice._id (invoices db)) ->
  Invoice_findById db id = Some inv ->
  (Invoice.payments inv <> [] ->
   exists msg,
     InvoiceController.deleteInvoice db id
     = (db, InvoiceController.mkResponse 400 (InvoiceController.Message msg)))
  /\ (Invoice.payments inv = [] ->
      exists db',
        InvoiceController.deleteInvoice db id
        = (db', InvoiceController.mkResponse 200 (InvoiceController.Message "Invoice removed"))
        /\ Invoice_findById db' id = None
        /\ (forall j, j <> id -> Invoice_findById db' j = Invoice_findById db j)
        /\ S (List.length (invoices db')) = List.length (invoices db)
        /\ customers db' = customers db
        /\ records db' = records db).
Proof.
  intros Hnd Hinv.
  pose proof (Invoice_findById_id _ _ _ Hinv) as Hid.
  unfold InvoiceController.deleteInvoice. rewrite Hinv. split.
  - intros Hpay. destruct (Invoice.payments inv) as [|p ps]; [contradiction|].
    simpl. eexists. reflexivity.
  - intros Hpay. rewrite Hpay. simpl. rewrite Hid.
    eexists. split; [reflexivity|].
    change (InvoiceController.removeInvoice id (invoices db))
      with (removeByKey Invoice._id id (invoices db)).
    unfold Invoice_findById in *. simpl.
    repeat split.
    + now apply find_removeByKey_same.
    + intros j Hj. now apply find_removeByKey_other.
    + now apply length_removeByKey with (x := inv).
Qed.

Lemma deleteInvoice_depends_on_payments_only_witness :
  (exists msg,
     InvoiceController.deleteInvoice Sample2.dbWithPayment 500%N
     = (Sample2.dbWithPayment,
        InvoiceController.mkResponse 400 (InvoiceController.Message msg)))
  /\ (exists db',
        InvoiceController.deleteInvoice (Sample.dbInvoiced 0 0 0) 500%N
        = (db', InvoiceController.mkResponse 200 (InvoiceController.Message "Invoice removed"))
        /\ Invoice_findById db' 500%N = None).
Proof.
  split.
  - apply (deleteInvoice_depends_on_payments_only Sample2.dbWithPayment 500%N
             Sample2.invoiceWithPayment).
    + repeat constructor; simpl; intuition discriminate.
    + reflexivity.
    + simpl. discriminate.
  - destruct (deleteInvoice_depends_on_payments_only (Sample.dbInvoiced 0 0 0) 500%N
                (Sample.decemberInvoice 0 0)) as [_ H].
    + repeat constructor; simpl; intuition discriminate.
    + reflexivity.
    + destruct (H eq_refl) as (db' & Hrun & Hgone & _).
      exists db'. split; assumption.
Defined.

(** X9. Deleting a customer removes that customer and nothing else: the
    customer is no longer found, every other customer is found as before,
    and the invoices, records and adjustments of the deleted customer stay
    in the store. *)
Theorem deleteCustomer_does_not_cascade (db : DB) (id : Js.ObjectId) (c : Customer.t) :
  NoDup (map Customer._id (customers db)) ->
  Customer_findById db id = Some c ->
  exists db' msg,
    CustomerController.deleteCustomer db id
    = (db', (200, CustomerController.Deleted msg id))
    /\ Customer_findById db' id = None
    /\ (forall j, j <> id -> Customer_findById db' j = Customer_findById db j)
    /\ invoices db' = invoices db
    /\ records db' = records db
    /\ quantityUpdates db' = quantityUpdates db.
Proof.
  intros Hnd Hc.
  pose proof (Customer_findById_id _ _ _ Hc) as Hid.
  unfold CustomerController.deleteCustomer. rewrite Hc, Hid.
  eexists. eexists. split; [reflexivity|].
  change (CustomerController.removeCustomer id (customers db))
    with (removeByKey Customer._id id (customers db)).
  unfold Customer_findById. simpl.
  repeat split.
  - now apply find_removeByKey_same.
  - intros j Hj. now apply find_removeByKey_other.
Qed.

Lemma deleteCustomer_does_not_cascade_witness :
  exists db' msg,
    CustomerController.deleteCustomer (Sample.dbInvoiced 3000 0 0) 1%N
    = (db', (200, CustomerController.Deleted msg 1%N))
    /\ Customer_findById db' 1%N = None
    /\ invoices db' = [Sample.decemberInvoice 3000 0].
Proof.
  destruct (deleteCustomer_does_not_cascade (Sample.dbInvoiced 3000 0 0) 1%N
              (Sample.customerWith 0))
    as (db' & msg & Hrun & Hgone & _ & Hinvs & _).
  - repeat constructor; simpl; intuition discriminate.
  - reflexivity.
  - exists db', msg. repeat split; assumption.
Defined.

(** ** The check before generating *)

(** X10. For a stored customer, a month in 1..12 and a year other than 0,
    the check endpoint and the generator agree: when the check finds an
    invoice, generating without [updateExisting] is refused with 400 and
    names the same invoice; when the check finds none, generating is never
    refused on account of an existing invoice. *)
Theorem check_predicts_generation_conflict (now : Js.Date) (db : DB)
  (id : Js.ObjectId) (m y : Z) (customer : Customer.t) :
  Customer_findById db id = Some customer ->
  1 <= m <= 12 ->
  y <> 0 ->
  let check :=
    InvoiceController.checkExistingInvoice db
      (InvoiceController.mkCheckRequest (Some id) (Some m) (Some y)) in
  let run :=
    InvoiceController.generateCustomerMonthlyInvoice now db
      (InvoiceController.mkGenerate id (Some m) (Some y) false) in
  (forall number st total paid due iid,
     check = (200, InvoiceController.CheckFound true number st total paid due iid) ->
     run = (db, InvoiceController.mkResponse 400
                  (InvoiceController.ExistingInvoice
                     "Invoice already exists for this period" iid number)))
  /\ (fst check = 404 ->
      forall msg iid number,
        InvoiceController.body (snd run) <> InvoiceController.ExistingInvoice msg iid number)
  /\ (fst check = 200 \/ fst check = 404).
Proof.
  intros Hc Hm Hy check run. subst check run.
  unfold InvoiceController.checkExistingInvoice,
    InvoiceController.generateCustomerMonthlyInvoice.
  cbn [InvoiceController.check_customerId InvoiceController.check_month
       InvoiceController.check_year InvoiceController.month InvoiceController.year
       InvoiceController.params_id InvoiceController.updateExisting
       InvoiceController.missing InvoiceController.numberOf].
  settle_test (m =? 0) false. settle_test (y =? 0) false.
  settle_test (m <? 1) false. settle_test (12 <? m) false.
  cbn [orb]. cbv zeta. rewrite Hc.
  destruct (InvoiceController.findExistingInvoice db id _ _) as [existing|].
  - repeat split.
    + intros number st total paid due iid H. injection H as <- _ _ _ _ <-. reflexivity.
    + cbn [fst]. discriminate.
    + left. reflexivity.
  - repeat split.
    + intros number st total paid due iid H. discriminate.
    + intros _ msg iid number.
      destruct (Nat.eqb _ 0); [cbn; discriminate|].
      destruct (InvoiceController.createNewInvoice _ _ _ _ _ _ _ _ _) as [db' [e|[inv used]]];
        cbn; discriminate.
    + right. reflexivity.
Qed.

Lemma check_predicts_generation_conflict_witness :
  InvoiceController.generateCustomerMonthlyInvoice Sample.clock (Sample.dbInvoiced 3000 0 0)
    (InvoiceController.mkGenerate 1%N (Some 12) (Some 2024) false)
  = (Sample.dbInvoiced 3000 0 0,
     InvoiceController.mkResponse 400
       (InvoiceController.ExistingInvoice "Invoice already exists for this period"
          500%N "INV-25-01-0001")).
Proof.
  destruct (check_predicts_generation_conflict Sample.clock (Sample.dbInvoiced 3000 0 0)
              1%N 12 2024 (Sample.customerWith 0)) as (Hfound & _ & _).
  - reflexivity.
  - lia.
  - lia.
  - apply (Hfound "INV-25-01-0001" Invoice.pending 3000 0 3000 500%N). reflexivity.
Defined.

(** ** Invoice numbers *)

Lemma digit_of_nonneg c d : Js.digit_of c = Some d -> 0 <= d.
Proof.
  unfold Js.digit_of.
  destruct (Nat.leb 48 (nat_of_ascii c)) eqn:E; simpl; [|discriminate].
  destruct (Nat.leb (nat_of_ascii c) 57); [|discriminate].
  apply Nat.leb_le in E. intros H. injection H as <-. lia.
Qed.

Lemma read_digits_nonneg s : forall acc k,
  (forall a, acc = Some a -> 0 <= a) ->
  Js.read_digits acc s = Some k -> 0 <= k.
Proof.
  induction s as [|c s IH]; intros acc k Hacc; cbn [Js.read_digits].
  - intros H. now apply Hacc.
  - destruct (Js.digit_of c) as [d|] eqn:E.
    + apply IH. intros a Ha.
      assert (Ha' : a = 10 * match acc with Some a => a | None => 0 end + d)
        by congruence.
      pose proof (digit_of_nonneg _ _ E).
      destruct acc as [a0|]; [specialize (Hacc a0 eq_refl)|]; lia.
    + intros H. now apply Hacc.
Qed.

Lemma lacks_skip_spaces sep s : lacks sep s = true -> lacks sep (Js.skip_spaces s) = true.
Proof.
  induction s as [|c s IH]; simpl; [reflexivity|].
  intros H. destruct (Js.is_space c); [|exact H].
  apply andb_true_iff in H as [_ H]. now apply IH.
Qed.

(** A string without a minus sign never parses to a negative number. *)
Lemma parseInt_nonneg s k :
  lacks "-"%char s = true -> Js.parseInt s = Some k -> 0 <= k.
Proof.
  intros Hl. apply lacks_skip_spaces in Hl. unfold Js.parseInt.
  destruct (Js.skip_spaces s) as [|c t].
  - simpl. discriminate.
  - assert (Hnone : forall a : Z, @None Z = Some a -> 0 <= a) by discriminate.
    destruct (Ascii.eqb_spec c "-"%char) as [->|Hc].
    + simpl in Hl. discriminate.
    + destruct (Ascii.eqb_spec c "+"%char) as [->|Hp].
      * apply read_digits_nonneg. exact Hnone.
      * intros H.
        assert (Hrd : Js.read_digits None (String c t) = Some k).
        { destruct c as [[] [] [] [] [] [] [] []]; try exact H;
            exfalso; first [now apply Hc | now apply Hp]. }
        revert Hrd. apply read_digits_nonneg. exact Hnone.
Qed.

Lemma lacks_repeat sep c n : c <> sep -> lacks sep (Js.repeat_char c n) = true.
Proof.
  intros Hc. induction n as [|n IH]; simpl; [reflexivity|].
  rewrite IH, andb_true_r. apply negb_true_iff.
  destruct (Ascii.eqb_spec c sep); [contradiction | reflexivity].
Qed.

Lemma lacks_padStart sep s n :
  "0"%char <> sep -> lacks sep s = true -> lacks sep (Js.padStart s n) = true.
Proof.
  intros Hz Hs. unfold Js.padStart. rewrite lacks_append, Hs, lacks_repeat by assumption.
  reflexivity.
Qed.

Lemma lacks_substring sep s : forall n m,
  lacks sep s = true -> lacks sep (substring n m s) = true.
Proof.
  induction s as [|c s IH]; intros n m Hs.
  - destruct n, m; reflexivity.
  - simpl in Hs. apply andb_true_iff in Hs as [Hc Hs].
    destruct n as [|n].
    + destruct m as [|m]; simpl; [reflexivity|].
      rewrite Hc. simpl. now apply IH.
    + simpl. now apply IH.
Qed.

Lemma read_digits_zeros k s :
  Js.read_digits (Some 0) (String.append (Js.repeat_char "0"%char k) s)
  = Js.read_digits (Some 0) s.
Proof.
  induction k as [|k IH]; [reflexivity|].
  cbn [Js.repeat_char String.append Js.read_digits].
  change (Js.digit_of "0"%char) with (Some 0). cbv iota beta.
  change (10 * 0 + 0) with 0. exact IH.
Qed.

Lemma read_digits_zero_toString n :
  0 <= n -> Js.read_digits (Some 0) (Js.toString n) = Some n.
Proof.
  intros Hn. destruct n as [|p|p]; [reflexivity| |lia].
  rewrite toString_pos, read_digits_zero, DecimalPos.Unsigned.of_to. reflexivity.
Qed.

(** Padding with zeros does not change what [parseInt] reads. *)
Lemma parseInt_padStart n k :
  0 <= n -> Js.parseInt (Js.padStart (Js.toString n) k) = Some n.
Proof.
  intros Hn. unfold Js.padStart.
  destruct (k - String.length (Js.toString n))%nat as [|j].
  - apply parseInt_toString.
  - change (Js.parseInt (String.append (Js.repeat_char "0"%char (S j)) (Js.toString n)))
      with (Js.read_digits (Some 0)
              (String.append (Js.repeat_char "0"%char j) (Js.toString n))).
    rewrite read_digits_zeros. now apply read_digits_zero_toString.
Qed.

Lemma split_four a b c d :
  lacks "-"%char a = true -> lacks "-"%char b = true ->
  lacks "-"%char c = true -> lacks "-"%char d = true ->
  Js.split (String.concat "-" [a; b; c; d]) "-"%char = [a; b; c; d].
Proof.
  intros Ha Hb Hc Hd. unfold Js.split. cbn [String.concat].
  change (String.append "-" ?x) with (String "-"%char x).
  rewrite (split_aux_app _ _ _ _ Ha). cbn [String.append].
  rewrite (split_aux_app _ _ _ _ Hb). cbn [String.append].
  rewrite (split_aux_app _ _ _ _ Hc). cbn [String.append].
  rewrite (split_aux_lacks _ _ _ Hd). reflexivity.
Qed.

Lemma counterOf_nonneg number k : counterOf number = Some k -> 0 <= k.
Proof.
  unfold counterOf, Js.parseIntAt.
  destruct (nth_error (Js.split number "-"%char) 3) as [p|] eqn:E; [|discriminate].
  apply nth_error_In in E.
  apply parseInt_nonneg.
  exact (split_aux_parts "-"%char number EmptyString p eq_refl E).
Qed.

(** X11. The sequence number written into a generated invoice number reads
    back, by the very parse the generator applies to the latest invoice, as
    the number it was made from: 1 on an empty store or after a latest
    invoice whose number has no readable fourth part, else the latest
    invoice's sequence number plus one.  It is at least 1 and is not reset
    by a change of month or year. *)
Theorem invoice_number_reads_back (now : Js.Date) (db : DB) :
  0 <= Js.getFullYear now ->
  let next :=
    match InvoiceController.latestInvoice db with
    | Some latest =>
        match counterOf (Invoice.invoiceNumber latest) with
        | Some lastCounter => lastCounter + 1
        | None => 1
        end
    | None => 1
    end in
  counterOf (InvoiceController.generateInvoiceNumber now db) = Some next
  /\ 1 <= next.
Proof.
  intros Hy next.
  assert (Hnext : 1 <= next).
  { subst next. destruct (InvoiceController.latestInvoice db) as [latest|]; [|lia].
    destruct (counterOf (Invoice.invoiceNumber latest)) as [k|] eqn:E; [|lia].
    apply counterOf_nonneg in E. lia. }
  split; [|exact Hnext].
  unfold InvoiceController.generateInvoiceNumber.
  fold (counterOf).
  change (match InvoiceController.latestInvoice db with
          | Some latest =>
              match Js.parseIntAt (Js.split (Invoice.invoiceNumber latest) "-"%char) 3 with
              | Some lastCounter => lastCounter + 1
              | None => 1
              end
          | None => 1
          end) with next.
  cbv zeta. unfold counterOf.
  pose proof (getMonth_range now) as Hm.
  rewrite split_four.
  - unfold Js.parseIntAt. cbn [nth_error]. apply parseInt_padStart. lia.
  - reflexivity.
  - unfold Js.sliceLast. apply lacks_substring.
    apply lacks_toString_nonneg; [reflexivity | exact Hy].
  - apply lacks_padStart; [discriminate|].
    apply lacks_toString_nonneg; [reflexivity | lia].
  - apply lacks_padStart; [discriminate|].
    apply lacks_toString_nonneg; [reflexivity | lia].
Qed.

Lemma invoice_number_reads_back_witness :
  InvoiceController.generateInvoiceNumber Sample.clock (Sample.dbInvoiced 3000 0 0)
  = "INV-25-01-0002"
  /\ counterOf (InvoiceController.generateInvoiceNumber Sample.clock
                  (Sample.dbInvoiced 3000 0 0)) = Some 2.
Proof.
  split; [vm_compute; reflexivity|].
  apply (invoice_number_reads_back Sample.clock (Sample.dbInvoiced 3000 0 0)).
  vm_compute. discriminate.
Defined.

(** ** The record windows of the two generators *)

Lemma newDate_next_day y m d : Js.newDate y m (d + 1) = Js.newDate y m d + Js.msPerDay.
Proof. unfold Js.newDate, Js.MakeDay. lia. Qed.

Lemma newDate_midnight y m d : Js.newDate y m d mod Js.msPerDay = 0.
Proof. unfold Js.newDate. apply Z.mod_mul. discriminate. Qed.

Lemma findRecordsUpTo_In db id s e r :
  In r (InvoiceController.findRecordsUpTo db id s e) <->
  In r (records db) /\ Record_.customer r = id /\ s <= Record_.date r <= e.
Proof.
  unfold InvoiceController.findRecordsUpTo. rewrite sortByDate_In, filter_In.
  rewrite !andb_true_iff, N.eqb_eq, !Z.leb_le. intuition.
Qed.

(** Between two midnights one day apart there is no third. *)
Lemma midnight_between d e :
  d mod Js.msPerDay = 0 -> e mod Js.msPerDay = 0 ->
  (d <? e + Js.msPerDay) = (d <=? e).
Proof.
  intros Hd He.
  pose proof (Z.div_mod d Js.msPerDay ltac:(discriminate)) as H1.
  pose proof (Z.div_mod e Js.msPerDay ltac:(discriminate)) as H2.
  rewrite Hd in H1. rewrite He in H2.
  revert H1 H2. generalize (d / Js.msPerDay) (e / Js.msPerDay). intros a b H1 H2.
  unfold Js.msPerDay in *.
  destruct (d <=? e) eqn:E; [apply Z.leb_le in E; apply Z.ltb_lt
                            | apply Z.leb_gt in E; apply Z.ltb_ge]; lia.
Qed.

(** X12. The single-customer generator bills the records dated before the
    first day of the next month, the batch generator those dated up to
    midnight of the last day.  Every record the batch bills the single
    generator bills too; the records only the single generator bills are
    those of the last day of the month stamped after midnight; when every
    record is stamped at midnight the two generators bill the same records
    in the same order. *)
Theorem batch_window_within_single_window (db : DB) (id : Js.ObjectId) (y m : Z) :
  let s := Js.newDate y (m - 1) 1 in
  let e := Js.newDate y m 0 in
  let single := InvoiceController.findRecordsBefore db id s (Js.newDate y m 1) in
  let batch := InvoiceController.findRecordsUpTo db id s e in
  (forall r, In r batch -> In r single)
  /\ (forall r, In r single -> (In r batch <-> Record_.date r <= e))
  /\ (forall r, In r single -> ~ In r batch ->
        e < Record_.date r < e + Js.msPerDay)
  /\ ((forall r, In r (records db) -> Record_.date r mod Js.msPerDay = 0) ->
      single = batch).
Proof.
  intros s e single batch. subst single batch.
  assert (Hnext : Js.newDate y m 1 = e + Js.msPerDay)
    by (subst e; apply (newDate_next_day y m 0)).
  rewrite Hnext.
  assert (Hday : 0 < Js.msPerDay) by reflexivity.
  split; [|split; [|split]].
  - intros r H. rewrite findRecordsUpTo_In in H. rewrite findRecordsBefore_In.
    intuition lia.
  - intros r H. rewrite findRecordsBefore_In in H. rewrite findRecordsUpTo_In.
    intuition lia.
  - intros r H H0. rewrite findRecordsBefore_In in H. rewrite findRecordsUpTo_In in H0.
    destruct (Z.le_gt_cases (Record_.date r) e); [|lia].
    exfalso. apply H0. intuition lia.
  - intros H.
    unfold InvoiceController.findRecordsBefore, InvoiceController.findRecordsUpTo.
    f_equal. apply filter_ext_in. intros r Hr.
    rewrite (midnight_between (Record_.date r) e (H r Hr)); [reflexivity|].
    subst e. apply newDate_midnight.
Qed.

(** January 2025 with a record stamped 06:00 on the 31st: the single
    generator bills it, the batch generator does not. *)
Lemma batch_window_within_single_window_witness :
  In Sample2.lateRecord
    (InvoiceController.findRecordsBefore Sample2.dbLate 1%N
       (Js.newDate 2025 0 1) (Js.newDate 2025 1 1))
  /\ ~ In Sample2.lateRecord
       (InvoiceController.findRecordsUpTo Sample2.dbLate 1%N
          (Js.newDate 2025 0 1) (Js.newDate 2025 1 0)).
Proof.
  assert (Hin : In Sample2.lateRecord
                  (InvoiceController.findRecordsBefore Sample2.dbLate 1%N
                     (Js.newDate 2025 0 1) (Js.newDate 2025 1 1))).
  { vm_compute. right. left. reflexivity. }
  split; [exact Hin|].
  destruct (batch_window_within_single_window Sample2.dbLate 1%N 2025 1)
    as (_ & Hiff & _).
  intros Hbatch. apply (Hiff Sample2.lateRecord Hin) in Hbatch.
  vm_compute in Hbatch. apply Hbatch. reflexivity.
Defined.

(** ** The daily run *)

Lemma recordDelivery_conserved updates d :
  deliveryConserved (RecordController.recordDelivery updates d).
Proof.
  unfold deliveryConserved, RecordController.recordDelivery. cbn [DeliveryTime.milkItems
    DeliveryTime.totalQuantity DeliveryTime.totalPrice].
  split; [|split].
  - intros i Hi. apply in_map_iff in Hi as (j & <- & _). reflexivity.
  - reflexivity.
  - apply sumBy_ext. intros i Hi. apply in_map_iff in Hi as (j & <- & _). reflexivity.
Qed.

Lemma buildRecord_conserved customer today updates id :
  recordConserved (Record_.set_id (RecordController.buildRecord customer today updates) id).
Proof.
  unfold recordConserved, RecordController.buildRecord, Record_.set_id.
  cbn [Record_.deliverySchedule Record_.totalDailyQuantity Record_.totalDailyPrice].
  split; [|split; reflexivity].
  intros d Hd. apply in_map_iff in Hd as (d0 & <- & _). apply recordDelivery_conserved.
Qed.

Lemma Record_create_result db fields db' r :
  Record_create db fields = Some (db', r) ->
  r = Record_.set_id fields (nextId db)
  /\ records db' = (records db ++ [r])%list
  /\ customers db' = customers db
  /\ invoices db' = invoices db
  /\ holidays db' = holidays db
  /\ quantityUpdates db' = quantityUpdates db
  /\ forallb DeliveryTime.valid (Record_.deliverySchedule fields) = true.
Proof.
  unfold Record_create.
  destruct (forallb DeliveryTime.valid _) eqn:Ev; [|discriminate]. cbn [negb].
  destruct (existsb _ _); [discriminate|].
  intros H. injection H as <- <-. repeat split.
Qed.

(** What one pass of the loop leaves behind, whether it ends or breaks. *)
Lemma createLoop_appends today sod eod cs : forall db recs db' out,
  RecordController.createLoop today sod eod cs db recs = (db', out) ->
  customers db' = customers db
  /\ invoices db' = invoices db
  /\ holidays db' = holidays db
  /\ quantityUpdates db' = quantityUpdates db
  /\ exists extra,
       records db' = (records db ++ extra)%list
       /\ (forall recs', out = Some recs' -> recs' = (recs ++ extra)%list)
       /\ forall r, In r extra ->
            Record_.date r = today
            /\ recordConserved r
            /\ forallb DeliveryTime.valid (Record_.deliverySchedule r) = true
            /\ exists c, In c cs /\ Record_.customer r = Customer._id c.
Proof.
  induction cs as [|c cs IH]; intros db recs db' out; cbn [RecordController.createLoop].
  - intros H. injection H as <- <-.
    do 4 (split; [reflexivity|]).
    exists []. split; [now rewrite app_nil_r|]. split.
    + intros recs' H. injection H as <-. now rewrite app_nil_r.
    + intros r [].
  - assert (Hweaken : forall db0 recs0,
               RecordController.createLoop today sod eod cs db0 recs0 = (db', out) ->
               customers db' = customers db0
               /\ invoices db' = invoices db0
               /\ holidays db' = holidays db0
               /\ quantityUpdates db' = quantityUpdates db0
               /\ exists extra,
                    records db' = (records db0 ++ extra)%list
                    /\ (forall recs', out = Some recs' -> recs' = (recs0 ++ extra)%list)
                    /\ forall r, In r extra ->
                         Record_.date r = today
                         /\ recordConserved r
                         /\ forallb DeliveryTime.valid (Record_.deliverySchedule r) = true
                         /\ exists c0, In c0 (c :: cs)
                                       /\ Record_.customer r = Customer._id c0).
    { intros db0 recs0 H.
      destruct (IH _ _ _ _ H) as (Hc' & Hi' & Hh' & Hq' & extra & Hrec & Hout & Hall).
      do 4 (split; [assumption|]).
      exists extra. split; [assumption|]. split; [assumption|].
      intros r Hr. destruct (Hall r Hr) as (Hd & Hcons & Hv & c0 & Hin & Hid).
      do 3 (split; [assumption|]).
      exists c0. split; [now right | exact Hid]. }
    destruct (RecordController.findRecord db (Customer._id c) today) as [existing|].
    { apply Hweaken. }
    rewrite skip_guard_never_fires.
    destruct (Record_create db _) as [[db1 record]|] eqn:Ecreate.
    + intros H.
      destruct (Record_create_result _ _ _ _ Ecreate)
        as (Hrec & Hrecs & Hc & Hi & Hh & Hq & Hvalid).
      destruct (Hweaken _ _ H) as (Hc' & Hi' & Hh' & Hq' & extra & Hrec' & Hout & Hall).
      split; [congruence|]. split; [congruence|]. split; [congruence|].
      split; [congruence|].
      exists (record :: extra). split; [|split].
      * rewrite Hrec', Hrecs, <- app_assoc. reflexivity.
      * intros recs' Ho. rewrite (Hout _ Ho), <- app_assoc. reflexivity.
      * intros r [<-|Hin]; [|now apply Hall].
        rewrite Hrec. split; [reflexivity|]. split; [apply buildRecord_conserved|].
        split; [exact Hvalid|]. exists c. split; [now left | reflexivity].
    + intros H. injection H as <- <-.
      do 4 (split; [reflexivity|]).
      exists []. split; [now rewrite app_nil_r|]. split.
      * discriminate.
      * intros r [].
Qed.

(** X13. The daily run writes records and nothing else, and reports
    exactly what it wrote: customers, invoices, adjustments and holidays are
    as before; the stored records are the old ones followed by the new; a
    201 lists precisely the new records and their number, a holiday notice
    means none was written, and after a 500 the records written before the
    failure stay.  Every new record is dated today at midnight, belongs to
    an active customer, passed the validators and carries as totals the
    sums over its lines. *)
Theorem daily_run_reports_what_it_writes (now : Js.Date) (db : DB) :
  let db' := fst (RecordController.createDailyRecords now db) in
  let response := snd (RecordController.createDailyRecords now db) in
  customers db' = customers db
  /\ invoices db' = invoices db
  /\ holidays db' = holidays db
  /\ quantityUpdates db' = quantityUpdates db
  /\ exists extra,
       records db' = (records db ++ extra)%list
       /\ match RecordController.body response with
          | RecordController.Created _ count data =>
              RecordController.status response = 201
              /\ data = extra /\ count = List.length extra
          | RecordController.HolidayNotice _ _ _ =>
              RecordController.status response = 200 /\ extra = []
          | RecordController.Failure _ => RecordController.status response = 500
          end
       /\ forall r, In r extra ->
            Record_.date r = Js.startOfDay now
            /\ recordConserved r
            /\ forallb DeliveryTime.valid (Record_.deliverySchedule r) = true
            /\ exists c, In c (customers db) /\ Customer.isActive c = true
                         /\ Record_.customer r = Customer._id c.
Proof.
  unfold RecordController.createDailyRecords. cbv zeta.
  destruct (RecordController.isHoliday _).
  - cbn [fst snd RecordController.body RecordController.status].
    do 4 (split; [reflexivity|]).
    exists []. split; [now rewrite app_nil_r|]. split; [split; reflexivity|].
    intros r [].
  - destruct (RecordController.createLoop _ _ _ _ db []) as [db' out] eqn:E.
    destruct (createLoop_appends _ _ _ _ _ _ _ _ E)
      as (Hc & Hi & Hh & Hq & extra & Hrec & Hout & Hall).
    assert (Hextra : forall r, In r extra ->
              Record_.date r = Js.startOfDay now
              /\ recordConserved r
              /\ forallb DeliveryTime.valid (Record_.deliverySchedule r) = true
              /\ exists c, In c (customers db) /\ Customer.isActive c = true
                           /\ Record_.customer r = Customer._id c).
    { intros r Hr. destruct (Hall r Hr) as (Hd & Hcons & Hv & c & Hin & Hid).
      apply filter_In in Hin as [Hin Hact].
      do 3 (split; [assumption|]). exists c. auto. }
    destruct out as [recs|]; cbn [fst snd RecordController.body RecordController.status];
      do 4 (split; [assumption|]); exists extra; (split; [assumption|]);
      (split; [|assumption]).
    + specialize (Hout recs eq_refl). simpl in Hout. subst recs. auto.
    + reflexivity.
Qed.

(** *** Holidays *)

Lemma startOfDay_idem t : Js.startOfDay (Js.startOfDay t) = Js.startOfDay t.
Proof.
  unfold Js.startOfDay, Js.Day. rewrite Z.div_mul by discriminate. reflexivity.
Qed.

Lemma checkIfHoliday_spec db d :
  RecordController.isHoliday (RecordController.checkIfHoliday db d) = true
  <-> holidayOn db (Js.startOfDay d).
Proof.
  unfold RecordController.checkIfHoliday, holidayOn. cbv zeta.
  change (24 * 60 * 60 * 1000) with Js.msPerDay.
  set (day := Js.startOfDay d).
  destruct (find _ (holidays db)) as [h|] eqn:F1.
  - split; [intros _ | reflexivity].
    apply find_some in F1 as [Hin Hp].
    apply andb_true_iff in Hp as [Hp Hrec]. apply andb_true_iff in Hp as [H1 H2].
    apply negb_true_iff in Hrec. apply Z.leb_le in H1. apply Z.ltb_lt in H2.
    exists h. rewrite Hrec. auto.
  - destruct (find _ (filter Holiday.isRecurringYearly (holidays db))) as [h|] eqn:F2.
    + split; [intros _ | reflexivity].
      apply find_some in F2 as [Hin Hp]. apply filter_In in Hin as [Hin Hrec].
      apply andb_true_iff in Hp as [H1 H2]. apply Z.eqb_eq in H1, H2.
      exists h. rewrite Hrec. auto.
    + split; [discriminate|]. intros (h & Hin & Hh). exfalso.
      destruct (Holiday.isRecurringYearly h) eqn:Hrec.
      * assert (Hf : In h (filter Holiday.isRecurringYearly (holidays db)))
          by (apply filter_In; auto).
        pose proof (find_none _ _ F2 h Hf) as Hp. cbv beta in Hp.
        destruct Hh as [E1 E2]. rewrite E1, E2, !Z.eqb_refl in Hp. discriminate.
      * pose proof (find_none _ _ F1 h Hin) as Hp. cbv beta in Hp.
        rewrite Hrec in Hp. destruct Hh as [H1 H2].
        apply Z.leb_le in H1. apply Z.ltb_lt in H2. rewrite H1, H2 in Hp. discriminate.
Qed.

(** The helper of the customer controller decides the same question. *)
Lemma customer_checkIfHoliday_spec db d :
  CustomerController.checkIfHoliday db d
  = RecordController.isHoliday (RecordController.checkIfHoliday db d).
Proof.
  unfold CustomerController.checkIfHoliday, RecordController.checkIfHoliday. cbv zeta.
  destruct (find _ (holidays db)); [reflexivity|].
  destruct (find _ (filter Holiday.isRecurringYearly (holidays db))); reflexivity.
Qed.

(** X14. The daily run is answered 200 exactly when the store holds a
    holiday for today: a one-off holiday dated today, or a yearly holiday
    with today's month and day of month entered for any year.  On such a
    day the run reports no success and leaves the store as it is; on any
    other day it answers 201 or 500. *)
Theorem daily_run_holiday_gate (now : Js.Date) (db : DB) :
  let db' := fst (RecordController.createDailyRecords now db) in
  let response := snd (RecordController.createDailyRecords now db) in
  (holidayOn db (Js.startOfDay now) <-> RecordController.status response = 200)
  /\ (holidayOn db (Js.startOfDay now) ->
      db' = db
      /\ exists message holiday,
           RecordController.body response
           = RecordController.HolidayNotice false message holiday)
  /\ (~ holidayOn db (Js.startOfDay now) ->
      RecordController.status response = 201 \/ RecordController.status response = 500).
Proof.
  cbv zeta.
  pose proof (checkIfHoliday_spec db (Js.startOfDay now)) as Hspec.
  rewrite startOfDay_idem in Hspec.
  unfold RecordController.createDailyRecords. cbv zeta.
  destruct (RecordController.isHoliday _).
  - cbn [fst snd RecordController.status RecordController.body].
    split; [|split].
    + split; [reflexivity | intros _; now apply Hspec].
    + intros _. split; [reflexivity|]. eexists. eexists. reflexivity.
    + intros Hn. exfalso. apply Hn. now apply Hspec.
  - assert (Hno : ~ holidayOn db (Js.startOfDay now)).
    { intros H. apply Hspec in H. discriminate. }
    destruct (RecordController.createLoop _ _ _ _ db []) as [db' [recs|]];
      cbn [fst snd RecordController.status RecordController.body];
      (split; [|split]).
    + split; [intros H; contradiction | discriminate].
    + intros H. contradiction.
    + intros _. left. reflexivity.
    + split; [intros H; contradiction | discriminate].
    + intros H. contradiction.
    + intros _. right. reflexivity.
Qed.

(** 26 January 2025 with Republic Day entered for 2020 as yearly. *)
Lemma daily_run_holiday_gate_witness :
  fst (RecordController.createDailyRecords (Js.newDate 2025 0 26 + 1000) Sample2.dbHoliday)
  = Sample2.dbHoliday
  /\ RecordController.status
       (snd (RecordController.createDailyRecords (Js.newDate 2025 0 26 + 1000)
               Sample2.dbHoliday)) = 200.
Proof.
  destruct (daily_run_holiday_gate (Js.newDate 2025 0 26 + 1000) Sample2.dbHoliday)
    as (Hiff & Hkeep & _).
  assert (Hh : holidayOn Sample2.dbHoliday (Js.startOfDay (Js.newDate 2025 0 26 + 1000))).
  { exists Sample2.republicDay. split; [now left|]. vm_compute. split; reflexivity. }
  split.
  - exact (proj1 (Hkeep Hh)).
  - exact (proj1 Hiff Hh).
Defined.

(** *** A record that fails validation *)

Lemma find_app_none {A : Type} (p : A -> bool) l1 l2 :
  find p l1 = None -> find p l2 = None -> find p (l1 ++ l2) = None.
Proof.
  induction l1 as [|x l1 IH]; simpl; [auto|].
  destruct (p x); [discriminate | exact IH].
Qed.

Lemma createLoop_breaks today sod eod (quantityUpdates0 : list QuantityUpdate.t)
  (c : Customer.t) cs :
  forall db recs,
  In c cs ->
  NoDup (map Customer._id cs) ->
  quantityUpdates db = quantityUpdates0 ->
  RecordController.findRecord db (Customer._id c) today = None ->
  (forall db0, quantityUpdates db0 = quantityUpdates0 ->
     forallb DeliveryTime.valid
       (Record_.deliverySchedule
          (RecordController.buildRecord c today
             (RecordController.findUpdates db0 (Customer._id c) sod eod))) = false) ->
  exists db',
    RecordController.createLoop today sod eod cs db recs = (db', None)
    /\ RecordController.findRecord db' (Customer._id c) today = None.
Proof.
  induction cs as [|x cs IH]; intros db recs Hin Hnd Hq Hnone Hbad; [destruct Hin|].
  cbn [map] in Hnd. inversion Hnd as [|k ks Hnotin Hnd']; subst k ks.
  cbn [RecordController.createLoop].
  destruct Hin as [->|Hin].
  - rewrite Hnone, skip_guard_never_fires.
    unfold Record_create. cbn [Record_.set_id Record_.deliverySchedule].
    change (Record_.deliverySchedule
              (Record_.mk ?i ?cu ?d ?s ?q ?p)) with s.
    pose proof (Hbad db Hq) as Hb.
    unfold RecordController.buildRecord in Hb |- *.
    cbn [Record_.deliverySchedule] in Hb |- *. rewrite Hb. cbn [negb].
    exists db. split; [reflexivity | exact Hnone].
  - assert (Hne : Customer._id x <> Customer._id c).
    { intros E. apply Hnotin. rewrite E. now apply in_map. }
    destruct (RecordController.findRecord db (Customer._id x) today) as [existing|].
    { now apply IH. }
    rewrite skip_guard_never_fires.
    destruct (Record_create db _) as [[db1 record]|] eqn:Ecreate.
    + destruct (Record_create_result _ _ _ _ Ecreate)
        as (Hrec & Hrecs & _ & _ & _ & Hq1 & _).
      assert (Hnone1 : RecordController.findRecord db1 (Customer._id c) today = None).
      { unfold RecordController.findRecord in *. rewrite Hrecs.
        apply find_app_none; [exact Hnone|].
        cbn [find]. rewrite Hrec. cbn [Record_.set_id Record_.customer
          RecordController.buildRecord].
        destruct (N.eqb_spec (Customer._id x) (Customer._id c)); [contradiction|].
        reflexivity. }
      apply (IH db1 (recs ++ [record])%list Hin Hnd' (eq_trans Hq1 Hq) Hnone1 Hbad).
    + exists db. split; [reflexivity | exact Hnone].
Qed.

(** X15. One active customer whose record for today fails the validators
    (a negative quantity, price or line total) makes the whole daily run
    answer 500, whatever the other customers are: that customer gets no
    record, and the response lists none of the records written for the
    customers handled before. *)
Theorem one_invalid_schedule_fails_the_run (now : Js.Date) (db : DB) (c : Customer.t) :
  ~ holidayOn db (Js.startOfDay now) ->
  NoDup (map Customer._id (customers db)) ->
  In c (customers db) ->
  Customer.isActive c = true ->
  RecordController.findRecord db (Customer._id c) (Js.startOfDay now) = None ->
  forallb DeliveryTime.valid
    (Record_.deliverySchedule
       (RecordController.buildRecord c (Js.startOfDay now)
          (RecordController.findUpdates db (Customer._id c)
             (Js.startOfDay (Js.startOfDay now)) (Js.endOfDay (Js.startOfDay now)))))
  = false ->
  let db' := fst (RecordController.createDailyRecords now db) in
  let response := snd (RecordController.createDailyRecords now db) in
  response = RecordController.mkResponse 500 (RecordController.Failure false)
  /\ RecordController.findRecord db' (Customer._id c) (Js.startOfDay now) = None.
Proof.
  intros Hno Hnd Hin Hact Hnone Hbad. cbv zeta.
  pose proof (checkIfHoliday_spec db (Js.startOfDay now)) as Hspec.
  rewrite startOfDay_idem in Hspec.
  unfold RecordController.createDailyRecords. cbv zeta.
  destruct (RecordController.isHoliday _).
  { exfalso. apply Hno. now apply Hspec. }
  destruct (createLoop_breaks (Js.startOfDay now) (Js.startOfDay (Js.startOfDay now))
              (Js.endOfDay (Js.startOfDay now)) (quantityUpdates db) c
              (filter Customer.isActive (customers db)) db [])
    as (db' & Hrun & Hnone').
  - apply filter_In. auto.
  - clear - Hnd. induction (customers db) as [|x l IH]; simpl; [constructor|].
    inversion Hnd as [|k ks Hnotin Hnd']; subst.
    destruct (Customer.isActive x); [|now apply IH].
    simpl. constructor; [|now apply IH].
    intros Hx. apply Hnotin. apply in_map_iff in Hx as (y & Hy & Hf).
    apply filter_In in Hf as [Hf _]. rewrite <- Hy. now apply in_map.
  - reflexivity.
  - exact Hnone.
  - intros db0 Hq0. unfold RecordController.findUpdates in *. rewrite Hq0. exact Hbad.
  - rewrite Hrun. split; [reflexivity | exact Hnone'].
Qed.

(** Customer One is served and Customer Two has a negative quantity: the
    run answers 500 although the record of Customer One was written. *)
Lemma one_invalid_schedule_fails_the_run_witness :
  snd (RecordController.createDailyRecords Sample.clock Sample2.dbBroken)
  = RecordController.mkResponse 500 (RecordController.Failure false)
  /\ countRecords (fst (RecordController.createDailyRecords Sample.clock Sample2.dbBroken))
       1%N Sample.today = 1%nat.
Proof.
  split; [|vm_compute; reflexivity].
  apply (one_invalid_schedule_fails_the_run Sample.clock Sample2.dbBroken
           Sample2.brokenCustomer).
  - intros (h & Hin & _). destruct Hin.
  - repeat constructor; simpl; intuition discriminate.
  - right. left. reflexivity.
  - reflexivity.
  - reflexivity.
  - vm_compute. reflexivity.
Defined.

(** ** Records for the days before a customer was entered *)

Lemma yesterday_end now :
  Js.endOfDay (Js.setDate now (Js.getDate now - 1)) = Js.startOfDay now - 1.
Proof.
  replace (Js.getDate now - 1) with (Js.getDate now + -1) by lia.
  rewrite setDate_shift. unfold Js.endOfDay, Js.startOfDay, Js.Day.
  rewrite Z.div_add by discriminate. unfold Js.msPerDay. lia.
Qed.

Lemma next_day t : Js.setDate t (Js.getDate t + 1) = t + Js.msPerDay.
Proof. rewrite setDate_shift. lia. Qed.

Lemma startOfDay_midnight t : t mod Js.msPerDay = 0 -> Js.startOfDay t = t.
Proof.
  intros H. unfold Js.startOfDay, Js.Day.
  pose proof (Z.div_mod t Js.msPerDay ltac:(discriminate)). lia.
Qed.

Lemma historicalRecord_conserved customer date id :
  recordConserved (Record_.set_id (CustomerController.historicalRecord customer date) id).
Proof.
  unfold recordConserved, CustomerController.historicalRecord, Record_.set_id.
  cbn [Record_.deliverySchedule Record_.totalDailyQuantity Record_.totalDailyPrice].
  split; [|split; reflexivity].
  intros d Hd. apply in_map_iff in Hd as (d0 & <- & _).
  unfold deliveryConserved.
  cbn [DeliveryTime.milkItems DeliveryTime.totalQuantity DeliveryTime.totalPrice].
  split; [|split].
  - intros i Hi. apply in_map_iff in Hi as (j & <- & _). reflexivity.
  - reflexivity.
  - apply sumBy_ext. intros i Hi. apply in_map_iff in Hi as (j & <- & _). reflexivity.
Qed.

(** With one round per day left and one to spare the loop ends; what it
    appends lies between the day it started from and yesterday. *)
Lemma historicalLoop_runs customer yesterday fuel : forall db currentDate recs,
  currentDate mod Js.msPerDay = 0 ->
  currentDate <= yesterday + Js.msPerDay ->
  (yesterday - currentDate) / Js.msPerDay + 2 <= Z.of_nat fuel ->
  exists db' out,
    CustomerController.historicalLoop fuel db customer yesterday currentDate recs
    = Some (db', out)
    /\ customers db' = customers db
    /\ invoices db' = invoices db
    /\ holidays db' = holidays db
    /\ quantityUpdates db' = quantityUpdates db
    /\ exists extra,
         records db' = (records db ++ extra)%list
         /\ (forall recs', out = Some recs' -> recs' = (recs ++ extra)%list)
         /\ forall r, In r extra ->
              Record_.customer r = Customer._id customer
              /\ currentDate <= Record_.date r <= yesterday
              /\ Record_.date r mod Js.msPerDay = 0
              /\ recordConserved r.
Proof.
  induction fuel as [|fuel IH]; intros db cur recs Hmid Hle Hfuel.
  - exfalso.
    assert (-1 <= (yesterday - cur) / Js.msPerDay).
    { apply Z.div_le_lower_bound; [reflexivity | lia]. }
    simpl in Hfuel. lia.
  - cbn [CustomerController.historicalLoop].
    destruct (cur <=? yesterday) eqn:Ecur;
      [apply Z.leb_le in Ecur | apply Z.leb_gt in Ecur].
    + rewrite next_day.
      assert (Hmid' : (cur + Js.msPerDay) mod Js.msPerDay = 0).
      { replace (cur + Js.msPerDay) with (cur + 1 * Js.msPerDay) by lia.
        rewrite Z.mod_add by discriminate. exact Hmid. }
      assert (Hle' : cur + Js.msPerDay <= yesterday + Js.msPerDay) by lia.
      assert (Hfuel' : (yesterday - (cur + Js.msPerDay)) / Js.msPerDay + 2 <= Z.of_nat fuel).
      { replace (yesterday - (cur + Js.msPerDay))
          with (yesterday - cur + (-1) * Js.msPerDay) by lia.
        rewrite Z.div_add by discriminate. lia. }
      assert (Hday : 0 < Js.msPerDay) by reflexivity.
      assert (Hskip : forall recs0,
                 exists db' out,
                   CustomerController.historicalLoop fuel db customer yesterday
                     (cur + Js.msPerDay) recs0 = Some (db', out)
                   /\ customers db' = customers db
                   /\ invoices db' = invoices db
                   /\ holidays db' = holidays db
                   /\ quantityUpdates db' = quantityUpdates db
                   /\ exists extra,
                        records db' = (records db ++ extra)%list
                        /\ (forall recs', out = Some recs' -> recs' = (recs0 ++ extra)%list)
                        /\ forall r, In r extra ->
                             Record_.customer r = Customer._id customer
                             /\ cur <= Record_.date r <= yesterday
                             /\ Record_.date r mod Js.msPerDay = 0
                             /\ recordConserved r).
      { intros recs0.
        destruct (IH db (cur + Js.msPerDay) recs0 Hmid' Hle' Hfuel')
          as (db' & out & Hrun & Hc & Hi & Hh & Hq & extra & Hrec & Hout & Hall).
        exists db', out. do 5 (split; [assumption|]).
        exists extra. do 2 (split; [assumption|]).
        intros r Hr. destruct (Hall r Hr) as (H1 & H2 & H3 & H4).
        split; [exact H1|]. split; [lia|]. split; [exact H3 | exact H4]. }
      destruct (find _ (records db)) as [existing|]; [apply Hskip|].
      destruct (CustomerController.checkIfHoliday db cur); [apply Hskip|].
      destruct (Record_create db _) as [[db1 record]|] eqn:Ecreate.
      * destruct (Record_create_result _ _ _ _ Ecreate)
          as (Hrec & Hrecs & Hc & Hi & Hh & Hq & _).
        destruct (IH db1 (cur + Js.msPerDay) (recs ++ [record])%list Hmid' Hle' Hfuel')
          as (db' & out & Hrun & Hc' & Hi' & Hh' & Hq' & extra & Hrec' & Hout & Hall).
        exists db', out. split; [exact Hrun|].
        do 4 (split; [congruence|]).
        exists (record :: extra). split; [|split].
        -- rewrite Hrec', Hrecs, <- app_assoc. reflexivity.
        -- intros recs' Ho. rewrite (Hout _ Ho), <- app_assoc. reflexivity.
        -- intros r [<-|Hin].
           ++ rewrite Hrec. split; [reflexivity|].
              cbn [Record_.set_id Record_.date CustomerController.historicalRecord].
              split; [lia|]. split; [exact Hmid|]. apply historicalRecord_conserved.
           ++ destruct (Hall r Hin) as (H1 & H2 & H3 & H4).
              split; [exact H1|]. split; [lia|]. split; [exact H3 | exact H4].
      * exists db, None. split; [reflexivity|]. do 4 (split; [reflexivity|]).
        exists []. split; [now rewrite app_nil_r|]. split; [discriminate|].
        intros r [].
    + exists db, (Some recs). split; [reflexivity|]. do 4 (split; [reflexivity|]).
      exists []. split; [now rewrite app_nil_r|]. split.
      * intros recs' H. injection H as <-. now rewrite app_nil_r.
      * intros r [].
Qed.

Lemma parseJoinedDate_midnight parts start :
  CustomerController.parseJoinedDate parts = Some start -> start mod Js.msPerDay = 0.
Proof.
  unfold CustomerController.parseJoinedDate.
  destruct (Js.parseIntAt parts 2); [|discriminate].
  destruct (Js.parseIntAt parts 1); [|discriminate].
  destruct (Js.parseIntAt parts 0); [|discriminate].
  intros H. injection H as <-. unfold Js.startOfDay. apply Z.mod_mul. discriminate.
Qed.

Lemma historical_rounds_suffice now start :
  start <= Js.startOfDay now ->
  let yesterday := Js.endOfDay (Js.setDate now (Js.getDate now - 1)) in
  start <= yesterday + Js.msPerDay
  /\ (yesterday - start) / Js.msPerDay + 2
     <= Z.of_nat (Z.to_nat ((yesterday - start) / Js.msPerDay + 2)).
Proof.
  intros Hle yesterday. subst yesterday. rewrite yesterday_end.
  assert (Hday : Js.msPerDay = 86400000) by reflexivity.
  split; [lia|].
  assert (-1 <= (Js.startOfDay now - 1 - start) / Js.msPerDay).
  { apply Z.div_le_lower_bound; lia. }
  rewrite Z2Nat.id; lia.
Qed.

(** X16. Entering a customer with a join date creates records for past
    days only and always comes to an end.  The store afterwards holds the
    old records followed by the new ones and is otherwise unchanged; every
    new record belongs to the customer, is dated at a midnight before today
    (today itself is left to the daily run) and carries as totals the sums
    over its lines; a success reports how many were written. *)
Theorem historical_records_stop_before_today (now : Js.Date) (db : DB)
  (customer : Customer.t) (joinedDate : string) :
  let db' := fst (CustomerController.createHistoricalRecords now db customer joinedDate) in
  let result := snd (CustomerController.createHistoricalRecords now db customer joinedDate) in
  result <> CustomerController.HistoricalFailure false CustomerController.RoundsExhausted
  /\ customers db' = customers db
  /\ invoices db' = invoices db
  /\ holidays db' = holidays db
  /\ exists extra,
       records db' = (records db ++ extra)%list
       /\ (forall success count message,
             result = CustomerController.Historical success count message ->
             success = true /\ count = List.length extra)
       /\ forall r, In r extra ->
            Record_.customer r = Customer._id customer
            /\ Record_.date r < Js.startOfDay now
            /\ Record_.date r mod Js.msPerDay = 0
            /\ recordConserved r.
Proof.
  cbv zeta. unfold CustomerController.createHistoricalRecords. cbv zeta.
  assert (Hnothing : forall message,
            let db' := fst (db, CustomerController.Historical true 0 message) in
            let result := snd (db, CustomerController.Historical true 0 message) in
            result <> CustomerController.HistoricalFailure false
                        CustomerController.RoundsExhausted
            /\ customers db' = customers db
            /\ invoices db' = invoices db
            /\ holidays db' = holidays db
            /\ exists extra,
                 records db' = (records db ++ extra)%list
                 /\ (forall success count message0,
                       result = CustomerController.Historical success count message0 ->
                       success = true /\ count = List.length extra)
                 /\ forall r, In r extra ->
                      Record_.customer r = Customer._id customer
                      /\ Record_.date r < Js.startOfDay now
                      /\ Record_.date r mod Js.msPerDay = 0
                      /\ recordConserved r).
  { intros message. cbn [fst snd]. split; [discriminate|].
    do 3 (split; [reflexivity|]).
    exists []. split; [now rewrite app_nil_r|]. split.
    - intros success count message0 H. injection H as <- <- _. split; reflexivity.
    - intros r []. }
  destruct (negb _).
  { cbn [fst snd]. split; [discriminate|]. do 3 (split; [reflexivity|]).
    exists []. split; [now rewrite app_nil_r|]. split; [discriminate|]. intros r []. }
  destruct (CustomerController.parseJoinedDate _) as [start|] eqn:Eparse;
    [|apply Hnothing].
  destruct (Js.startOfDay now <? start) eqn:Efuture; [apply Hnothing|].
  apply Z.ltb_ge in Efuture.
  destruct (historical_rounds_suffice now start Efuture) as [Hle Hfuel].
  destruct (historicalLoop_runs customer _ _ db start []
              (parseJoinedDate_midnight _ _ Eparse) Hle Hfuel)
    as (db' & out & Hrun & Hc & Hi & Hh & Hq & extra & Hrec & Hout & Hall).
  rewrite Hrun.
  assert (Hextra : forall r, In r extra ->
            Record_.customer r = Customer._id customer
            /\ Record_.date r < Js.startOfDay now
            /\ Record_.date r mod Js.msPerDay = 0
            /\ recordConserved r).
  { intros r Hr. destruct (Hall r Hr) as (H1 & H2 & H3 & H4).
    rewrite yesterday_end in H2. split; [exact H1|]. split; [lia|]. split; [exact H3 | exact H4]. }
  destruct out as [recs|]; cbn [fst snd]; (split; [discriminate|]);
    do 3 (split; [assumption|]); exists extra; (split; [assumption|]);
    (split; [|assumption]).
  - intros success count message H. injection H as <- <- _.
    rewrite (Hout recs eq_refl). split; reflexivity.
  - discriminate.
Qed.

Lemma holidayOn_holidays db db' day :
  holidays db' = holidays db -> holidayOn db' day -> holidayOn db day.
Proof. unfold holidayOn. intros ->. auto. Qed.

Lemma historicalLoop_frame customer yesterday fuel : forall db currentDate recs db' out,
  CustomerController.historicalLoop fuel db customer yesterday currentDate recs
  = Some (db', out) ->
  holidays db' = holidays db
  /\ exists extra, records db' = (records db ++ extra)%list.
Proof.
  induction fuel as [|fuel IH]; intros db cur recs db' out; [discriminate|].
  cbn [CustomerController.historicalLoop].
  destruct (cur <=? yesterday).
  - destruct (find _ (records db)) as [existing|]; [apply IH|].
    destruct (CustomerController.checkIfHoliday db cur); [apply IH|].
    destruct (Record_create db _) as [[db1 record]|] eqn:Ecreate.
    + intros H. apply IH in H as (Hh & extra & Hrec).
      destruct (Record_create_result _ _ _ _ Ecreate) as (_ & Hrecs & _ & _ & Hh1 & _).
      split; [congruence|]. exists (record :: extra).
      rewrite Hrec, Hrecs, <- app_assoc. reflexivity.
    + intros H. injection H as <- _. split; [reflexivity|].
      exists []. now rewrite app_nil_r.
  - intros H. injection H as <- _. split; [reflexivity|].
    exists []. now rewrite app_nil_r.
Qed.

(** A loop that ends without an exception leaves no day uncovered. *)
Lemma historicalLoop_covers customer yesterday fuel : forall db currentDate recs db' recs',
  currentDate mod Js.msPerDay = 0 ->
  CustomerController.historicalLoop fuel db customer yesterday currentDate recs
  = Some (db', Some recs') ->
  forall k, 0 <= k -> currentDate + k * Js.msPerDay <= yesterday ->
    RecordController.findRecord db' (Customer._id customer)
      (currentDate + k * Js.msPerDay) <> None
    \/ holidayOn db (currentDate + k * Js.msPerDay).
Proof.
  induction fuel as [|fuel IH]; intros db cur recs db' recs' Hmid; [discriminate|].
  cbn [CustomerController.historicalLoop].
  assert (Hday : 0 < Js.msPerDay) by reflexivity.
  destruct (cur <=? yesterday) eqn:Ecur;
    [apply Z.leb_le in Ecur | apply Z.leb_gt in Ecur].
  2:{ intros _ k Hk Hle. exfalso. nia. }
  rewrite next_day.
  assert (Hmid' : (cur + Js.msPerDay) mod Js.msPerDay = 0).
  { replace (cur + Js.msPerDay) with (cur + 1 * Js.msPerDay) by lia.
    rewrite Z.mod_add by discriminate. exact Hmid. }
  assert (Hlater : forall db1 recs1,
             holidays db1 = holidays db ->
             CustomerController.historicalLoop fuel db1 customer yesterday
               (cur + Js.msPerDay) recs1 = Some (db', Some recs') ->
             forall k, 1 <= k -> cur + k * Js.msPerDay <= yesterday ->
               RecordController.findRecord db' (Customer._id customer)
                 (cur + k * Js.msPerDay) <> None
               \/ holidayOn db (cur + k * Js.msPerDay)).
  { intros db1 recs1 Hh Hrun k Hk Hle.
    replace (cur + k * Js.msPerDay) with (cur + Js.msPerDay + (k - 1) * Js.msPerDay) by lia.
    destruct (IH db1 (cur + Js.msPerDay) recs1 db' recs' Hmid' Hrun (k - 1)) as [H|H];
      [lia | lia | now left | right; exact (holidayOn_holidays _ _ _ Hh H)]. }
  destruct (find _ (records db)) as [existing|] eqn:Efind.
  { intros Hrun k Hk Hle.
    destruct (Z.eq_dec k 0) as [->|Hk0]; [|apply (Hlater db recs eq_refl Hrun); lia].
    left. replace (cur + 0 * Js.msPerDay) with cur by lia.
    destruct (historicalLoop_frame _ _ _ _ _ _ _ _ Hrun) as (_ & extra & Hrec).
    apply (findRecord_extend cur db db' _ extra Hrec).
    unfold RecordController.findRecord. rewrite Efind. discriminate. }
  destruct (CustomerController.checkIfHoliday db cur) eqn:Eholiday.
  { intros Hrun k Hk Hle.
    destruct (Z.eq_dec k 0) as [->|Hk0]; [|apply (Hlater db recs eq_refl Hrun); lia].
    right. replace (cur + 0 * Js.msPerDay) with cur by lia.
    rewrite customer_checkIfHoliday_spec in Eholiday.
    apply checkIfHoliday_spec in Eholiday.
    now rewrite (startOfDay_midnight _ Hmid) in Eholiday. }
  destruct (Record_create db _) as [[db1 record]|] eqn:Ecreate; [|discriminate].
  intros Hrun k Hk Hle.
  destruct (Record_create_result _ _ _ _ Ecreate) as (Hrec & Hrecs & _ & _ & Hh & _).
  destruct (Z.eq_dec k 0) as [->|Hk0]; [|apply (Hlater db1 _ Hh Hrun); lia].
  left. replace (cur + 0 * Js.msPerDay) with cur by lia.
  destruct (historicalLoop_frame _ _ _ _ _ _ _ _ Hrun) as (_ & extra & Hrec').
  apply (findRecord_extend cur db1 db' _ extra Hrec').
  unfold RecordController.findRecord. intros Hnone.
  assert (Hin : In record (records db1)) by (rewrite Hrecs; apply in_or_app; right; now left).
  pose proof (find_none _ _ Hnone record Hin) as Hp. cbv beta in Hp.
  rewrite Hrec in Hp.
  cbn [Record_.set_id Record_.customer Record_.date CustomerController.historicalRecord] in Hp.
  rewrite N.eqb_refl, Z.eqb_refl in Hp. discriminate.
Qed.

(** X17. When the creation of past records succeeds, no day from the join
    date to yesterday is left out: for each of them the customer has a
    record afterwards, or the store holds a holiday for that day. *)
Theorem historical_records_cover_every_day (now : Js.Date) (db : DB)
  (customer : Customer.t) (joinedDate : string) (start : Js.Date)
  (success : bool) (count : nat) (message : string) :
  List.length (Js.split joinedDate "/"%char) = 3%nat ->
  CustomerController.parseJoinedDate (Js.split joinedDate "/"%char) = Some start ->
  snd (CustomerController.createHistoricalRecords now db customer joinedDate)
  = CustomerController.Historical success count message ->
  let db' := fst (CustomerController.createHistoricalRecords now db customer joinedDate) in
  forall k, 0 <= k -> start + k * Js.msPerDay < Js.startOfDay now ->
    RecordController.findRecord db' (Customer._id customer) (start + k * Js.msPerDay)
    <> None
    \/ holidayOn db (start + k * Js.msPerDay).
Proof.
  intros Hlen Hparse. unfold CustomerController.createHistoricalRecords. cbv zeta.
  rewrite Hlen, Hparse. cbn [Nat.eqb negb].
  assert (Hday : 0 < Js.msPerDay) by reflexivity.
  destruct (Js.startOfDay now <? start) eqn:Efuture;
    [apply Z.ltb_lt in Efuture | apply Z.ltb_ge in Efuture].
  { intros _ k Hk Hlt. exfalso. nia. }
  destruct (CustomerController.historicalLoop _ db customer _ start [])
    as [[db' [recs|]]|] eqn:Erun; cbn [fst snd]; try discriminate.
  intros _ k Hk Hlt.
  apply (historicalLoop_covers _ _ _ _ _ _ _ _ (parseJoinedDate_midnight _ _ Hparse) Erun k Hk).
  rewrite yesterday_end. lia.
Qed.

(** Entered on 15 January 2025 with join date 13 January: the 13th and
    the 14th get their records. *)
Lemma historical_records_cover_every_day_witness :
  let db' :=
    fst (CustomerController.createHistoricalRecords Sample.clock Sample.dbPlain
           (Sample.customerWith 0) "13/01/2025") in
  List.length (records db') = 2%nat
  /\ RecordController.findRecord db' 1%N (Js.newDate 2025 0 14) <> None.
Proof.
  cbv zeta. split; [vm_compute; reflexivity|].
  destruct (historical_records_cover_every_day Sample.clock Sample.dbPlain
              (Sample.customerWith 0) "13/01/2025" (Js.newDate 2025 0 13)
              true 2 "Created 2 historical records") with (k := 1) as [H|H].
  - vm_compute. reflexivity.
  - vm_compute. reflexivity.
  - vm_compute. reflexivity.
  - lia.
  - vm_compute. reflexivity.
  - exact H.
  - destruct H as (h & Hin & _). destruct Hin.
Defined.

(** ** Quantity adjustments *)

Lemma NoDup_key_unique {A : Type} (key : A -> N) (l : list A) a b :
  NoDup (map key l) -> In a l -> In b l -> key a = key b -> a = b.
Proof.
  induction l as [|x l IH]; intros Hnd Ha Hb Hk; [destruct Ha|].
  cbn [map] in Hnd. inversion Hnd as [|k ks Hnotin Hnd']; subst k ks.
  destruct Ha as [->|Ha], Hb as [->|Hb].
  - reflexivity.
  - exfalso. apply Hnotin. rewrite Hk. now apply in_map.
  - exfalso. apply Hnotin. rewrite <- Hk. now apply in_map.
  - now apply IH.
Qed.

Lemma findById_replace_update (d stored : QuantityUpdate.t) us :
  find (fun u => N.eqb (QuantityUpdate._id u) (QuantityUpdate._id d)) us = Some stored ->
  find (fun u => N.eqb (QuantityUpdate._id u) (QuantityUpdate._id d))
    (QuantityUpdateController.replace_update d us) = Some d.
Proof.
  exact (find_replaceByKey_same QuantityUpdate._id d stored us).
Qed.

Lemma findById_replace_update_other (d : QuantityUpdate.t) j us :
  j <> QuantityUpdate._id d ->
  find (fun u => N.eqb (QuantityUpdate._id u) j)
    (QuantityUpdateController.replace_update d us)
  = find (fun u => N.eqb (QuantityUpdate._id u) j) us.
Proof.
  intros Hj. unfold QuantityUpdateController.replace_update.
  induction us as [|u us IH]; [reflexivity|]. cbn [map find].
  destruct (N.eqb_spec (QuantityUpdate._id u) (QuantityUpdate._id d)) as [E|E].
  - rewrite <- E in Hj.
    destruct (N.eqb_spec (QuantityUpdate._id d) j) as [E1|E1]; [congruence|].
    destruct (N.eqb_spec (QuantityUpdate._id u) j) as [E2|E2]; [congruence|].
    exact IH.
  - destruct (N.eqb (QuantityUpdate._id u) j); [reflexivity | exact IH].
Qed.

(** Replacing a document by one with the same key fields leaves the first
    match of the key where it was. *)
Lemma find_key_replace_update c d t m s (e u : QuantityUpdate.t) us :
  NoDup (map QuantityUpdate._id us) ->
  find (sameKey c d t m s) us = Some e ->
  QuantityUpdate._id u = QuantityUpdate._id e ->
  sameKey c d t m s u = true ->
  find (sameKey c d t m s) (QuantityUpdateController.replace_update u us) = Some u.
Proof.
  intros Hnd Hfind Hid Hkey. unfold QuantityUpdateController.replace_update.
  induction us as [|x us IH]; [discriminate|].
  cbn [map] in Hnd. inversion Hnd as [|k ks Hnotin Hnd']; subst k ks.
  cbn [find map] in Hfind |- *.
  destruct (sameKey c d t m s x) eqn:Ex.
  - injection Hfind as ->. rewrite Hid, N.eqb_refl, Hkey. reflexivity.
  - destruct (N.eqb_spec (QuantityUpdate._id x) (QuantityUpdate._id u)) as [E|E].
    + exfalso. apply Hnotin. apply find_some in Hfind as [Hin _].
      rewrite E, Hid. now apply in_map.
    + rewrite Ex. now apply IH.
Qed.

(** X18. A request for an item that already has an adjustment for the same
    customer, instant, slot and item adds no second one: the stored
    adjustment keeps its identifier and is overwritten with the new
    quantity, is pending and unaccepted again whatever had been decided on
    it, and records as old quantity the quantity of the standing schedule;
    every other adjustment is as before. *)
Theorem repeated_adjustment_overwrites (db db' : DB) (cid : Js.ObjectId) (date : Js.Date)
  (time : TimeSlot) (mt sub : Js.ObjectId) (q : Z) (reason : string) (acc : option bool)
  (e u : QuantityUpdate.t) (sched : list DeliveryTime.t) :
  NoDup (map QuantityUpdate._id (quantityUpdates db)) ->
  QuantityUpdateController.findExistingUpdate db cid date time mt sub = Some e ->
  QuantityUpdateController.updateCustomerQuantity db
    (QuantityUpdateController.mkQuantityRequest (Some cid) (Some date) (Some time)
       (Some mt) (Some sub) (Some q) (Some reason) acc)
  = (db', QuantityUpdateController.mkResponse 200
            (QuantityUpdateController.Staged true u sched)) ->
  QuantityUpdate._id u = QuantityUpdate._id e
  /\ QuantityUpdate.newQuantity u = q
  /\ QuantityUpdate.difference u = q - QuantityUpdate.oldQuantity u
  /\ QuantityUpdate.status u = QuantityUpdate.pending
  /\ QuantityUpdate.isAccept u = false
  /\ QuantityUpdate.lastQuantity u = QuantityUpdate.lastQuantity e
  /\ (exists customer delivery item,
        Customer_findById db cid = Some customer
        /\ In delivery (Customer.deliverySchedule customer)
        /\ DeliveryTime.time delivery = time
        /\ In item (DeliveryTime.milkItems delivery)
        /\ QuantityUpdate.oldQuantity u = MilkItem.quantity item)
  /\ List.length (quantityUpdates db') = List.length (quantityUpdates db)
  /\ QuantityUpdateController.findExistingUpdate db' cid date time mt sub = Some u
  /\ QuantityUpdateController.QuantityUpdate_findById db' (QuantityUpdate._id e) = Some u
  /\ forall j, j <> QuantityUpdate._id e ->
       QuantityUpdateController.QuantityUpdate_findById db' j
       = QuantityUpdateController.QuantityUpdate_findById db j.
Proof.
  intros Hnd Hexisting.
  unfold QuantityUpdateController.updateCustomerQuantity.
  cbn [QuantityUpdateController.customerId QuantityUpdateController.date
       QuantityUpdateController.time QuantityUpdateController.milkType
       QuantityUpdateController.subcategory QuantityUpdateController.newQuantity
       QuantityUpdateController.reason QuantityUpdateController.isAccept].
  destruct (String.eqb reason ""); [discriminate|].
  destruct (Customer_findById db cid) as [customer|] eqn:Ecust; [|discriminate].
  destruct (find _ (Customer.deliverySchedule customer)) as [delivery|] eqn:Edel;
    [|discriminate].
  destruct (find _ (DeliveryTime.milkItems delivery)) as [item|] eqn:Eitem; [|discriminate].
  rewrite Hexisting. cbv zeta.
  intros H. injection H as <- <- _.
  pose proof Hexisting as Hfound.
  unfold QuantityUpdateController.findExistingUpdate in Hfound.
  change (find (sameKey cid date time mt sub) (quantityUpdates db) = Some e) in Hfound.
  pose proof (find_some _ _ Hfound) as [Hin Hkey].
  apply find_some in Edel as [Hdin Hdt]. apply find_some in Eitem as [Hiin _].
  unfold TimeSlot_eqb in Hdt.
  destruct (TimeSlot_eq_dec (DeliveryTime.time delivery) time) as [Htime|]; [|discriminate].
  cbn [QuantityUpdate._id QuantityUpdate.newQuantity QuantityUpdate.difference
       QuantityUpdate.oldQuantity QuantityUpdate.status QuantityUpdate.isAccept
       QuantityUpdate.lastQuantity].
  do 6 (split; [reflexivity|]).
  split; [exists customer, delivery, item; auto|].
  unfold QuantityUpdateController.findExistingUpdate,
    QuantityUpdateController.QuantityUpdate_findById.
  cbn [quantityUpdates set_quantityUpdates].
  match goal with
  | |- context [QuantityUpdateController.replace_update ?d _] => set (u := d)
  end.
  assert (Hid : QuantityUpdate._id u = QuantityUpdate._id e) by reflexivity.
  split; [|split; [|split]].
  - unfold QuantityUpdateController.replace_update. apply length_map.
  - change (find (sameKey cid date time mt sub)
              (QuantityUpdateController.replace_update u (quantityUpdates db)) = Some u).
    apply (find_key_replace_update _ _ _ _ _ e); auto.
  - rewrite <- Hid. apply findById_replace_update with (stored := e).
    rewrite Hid. unfold sameKey in Hkey.
    destruct (find (fun u0 => N.eqb (QuantityUpdate._id u0) (QuantityUpdate._id e))
                (quantityUpdates db)) as [x|] eqn:Ex.
    + apply find_some in Ex as [Hxin Hxid]. apply N.eqb_eq in Hxid.
      now rewrite (NoDup_key_unique QuantityUpdate._id _ x e Hnd Hxin Hin Hxid).
    + pose proof (find_none _ _ Ex e Hin) as Hn. cbv beta in Hn.
      rewrite N.eqb_refl in Hn. discriminate.
  - intros j Hj. apply findById_replace_update_other. now rewrite Hid.
Qed.

Lemma repeated_adjustment_overwrites_witness :
  exists db' u sched,
    QuantityUpdateController.updateCustomerQuantity Sample2.dbAccepted
      (QuantityUpdateController.mkQuantityRequest (Some 1%N) (Some Sample.today)
         (Some morning) (Some 10%N) (Some 20%N) (Some 7) (Some "more guests") None)
    = (db', QuantityUpdateController.mkResponse 200
              (QuantityUpdateController.Staged true u sched))
    /\ QuantityUpdate._id u = 100%N
    /\ QuantityUpdate.status u = QuantityUpdate.pending
    /\ QuantityUpdate.isAccept u = false
    /\ List.length (quantityUpdates db') = 1%nat.
Proof.
  destruct (QuantityUpdateController.updateCustomerQuantity Sample2.dbAccepted
              (QuantityUpdateController.mkQuantityRequest (Some 1%N) (Some Sample.today)
                 (Some morning) (Some 10%N) (Some 20%N) (Some 7) (Some "more guests") None))
    as [db' response] eqn:E.
  assert (Hresp : exists u sched,
             response = QuantityUpdateController.mkResponse 200
                          (QuantityUpdateController.Staged true u sched)).
  { vm_compute in E. injection E as _ <-. eexists. eexists. reflexivity. }
  destruct Hresp as (u & sched & ->).
  destruct (repeated_adjustment_overwrites Sample2.dbAccepted db' 1%N Sample.today morning
              10%N 20%N 7 "more guests" None Sample2.acceptedUpdate u sched)
    as (Hid & _ & _ & Hst & Hacc & _ & _ & Hlen & _).
  - repeat constructor; simpl; intuition discriminate.
  - vm_compute. reflexivity.
  - exact E.
  - exists db', u, sched. repeat split; assumption.
Defined.

(** *** Decisions and the daily run *)

Lemma filter_view {A V : Type} (view : A -> V) (p : A -> bool) :
  (forall a b, view a = view b -> p a = p b) ->
  forall l1 l2, map view l1 = map view l2 ->
    map view (filter p l1) = map view (filter p l2).
Proof.
  intros Hp. induction l1 as [|a l1 IH]; intros [|b l2] H; try discriminate; [reflexivity|].
  cbn [map] in H. injection H as Hab Hrest. cbn [filter].
  rewrite (Hp a b Hab). destruct (p b); cbn [map]; [rewrite Hab; f_equal|]; now apply IH.
Qed.

Lemma deliveryView_inj a b :
  deliveryView a = deliveryView b ->
  QuantityUpdate.customer a = QuantityUpdate.customer b
  /\ QuantityUpdate.date a = QuantityUpdate.date b
  /\ QuantityUpdate.time a = QuantityUpdate.time b
  /\ QuantityUpdate.milkType a = QuantityUpdate.milkType b
  /\ QuantityUpdate.subcategory a = QuantityUpdate.subcategory b
  /\ QuantityUpdate.newQuantity a = QuantityUpdate.newQuantity b.
Proof.
  unfold deliveryView. intros H. injection H. intros. repeat split; assumption.
Qed.

Lemma findUpdates_view db1 db2 customer sod eod :
  map deliveryView (quantityUpdates db1) = map deliveryView (quantityUpdates db2) ->
  map deliveryView (RecordController.findUpdates db1 customer sod eod)
  = map deliveryView (RecordController.findUpdates db2 customer sod eod).
Proof.
  unfold RecordController.findUpdates. apply filter_view.
  intros a b H. apply deliveryView_inj in H as (Hc & Hd & _). now rewrite Hc, Hd.
Qed.

Lemma effectiveQuantity_view us1 : forall us2 time item,
  map deliveryView us1 = map deliveryView us2 ->
  RecordController.effectiveQuantity us1 time item
  = RecordController.effectiveQuantity us2 time item.
Proof.
  unfold RecordController.effectiveQuantity, RecordController.findUpdate.
  induction us1 as [|a us1 IH]; intros [|b us2] time item H; try discriminate;
    [reflexivity|].
  cbn [map] in H.
  assert (Hab : deliveryView a = deliveryView b)
    by exact (f_equal (fun l => hd (deliveryView a) l) H).
  assert (Hrest : map deliveryView us1 = map deliveryView us2)
    by exact (f_equal (@tl _) H).
  cbn [find]. apply deliveryView_inj in Hab as (_ & _ & Ht & Hm & Hs & Hq).
  rewrite Hs, Hm, Ht.
  destruct (_ && _); [exact Hq | now apply IH].
Qed.

Lemma buildRecord_view customer today us1 us2 :
  map deliveryView us1 = map deliveryView us2 ->
  RecordController.buildRecord customer today us1
  = RecordController.buildRecord customer today us2.
Proof.
  intros H.
  assert (Hsched : map (RecordController.recordDelivery us1) (Customer.deliverySchedule customer)
                   = map (RecordController.recordDelivery us2)
                       (Customer.deliverySchedule customer)).
  { apply map_ext. intros d. unfold RecordController.recordDelivery.
    assert (Hitems : map (RecordController.recordMilkItem us1 (DeliveryTime.time d))
                       (DeliveryTime.milkItems d)
                     = map (RecordController.recordMilkItem us2 (DeliveryTime.time d))
                         (DeliveryTime.milkItems d)).
    { apply map_ext. intros i. unfold RecordController.recordMilkItem.
      now rewrite (effectiveQuantity_view us1 us2 _ _ H). }
    cbv zeta. now rewrite Hitems. }
  unfold RecordController.buildRecord. cbv zeta. now rewrite Hsched.
Qed.

Lemma Record_create_same db1 db2 fields :
  nextId db1 = nextId db2 -> records db1 = records db2 ->
  match Record_create db1 fields, Record_create db2 fields with
  | Some (db1', r1), Some (db2', r2) =>
      r1 = r2 /\ nextId db1' = nextId db2' /\ records db1' = records db2'
      /\ customers db1' = customers db1 /\ customers db2' = customers db2
      /\ holidays db1' = holidays db1 /\ holidays db2' = holidays db2
      /\ quantityUpdates db1' = quantityUpdates db1
      /\ quantityUpdates db2' = quantityUpdates db2
  | None, None => True
  | _, _ => False
  end.
Proof.
  intros Hn Hr. unfold Record_create. rewrite Hn, Hr.
  destruct (negb _); [exact I|].
  destruct (existsb _ _); [exact I|].
  cbn [push_record nextId records customers holidays quantityUpdates].
  rewrite Hn, Hr. repeat split; reflexivity.
Qed.

(** The loop runs in step on two stores it cannot tell apart. *)
Lemma createLoop_same today sod eod cs : forall db1 db2 recs,
  sameForDelivery db1 db2 ->
  let run1 := RecordController.createLoop today sod eod cs db1 recs in
  let run2 := RecordController.createLoop today sod eod cs db2 recs in
  snd run1 = snd run2 /\ records (fst run1) = records (fst run2).
Proof.
  induction cs as [|c cs IH]; intros db1 db2 recs Hsame; cbv zeta.
  - cbn [RecordController.createLoop fst snd]. split; [reflexivity | apply Hsame].
  - destruct Hsame as (Hc & Hr & Hh & Hn & Hq).
    cbn [RecordController.createLoop].
    unfold RecordController.findRecord. rewrite <- Hr.
    destruct (find _ (records db1)) as [existing|].
    { apply IH. repeat split; assumption. }
    rewrite !skip_guard_never_fires.
    rewrite (buildRecord_view c today _ _ (findUpdates_view db1 db2 _ sod eod Hq)).
    pose proof (Record_create_same db1 db2
                  (RecordController.buildRecord c today
                     (RecordController.findUpdates db2 (Customer._id c) sod eod)) Hn Hr)
      as Hcreate.
    destruct (Record_create db1 _) as [[db1' r1]|];
      destruct (Record_create db2 _) as [[db2' r2]|]; try contradiction.
    + destruct Hcreate as (-> & Hn' & Hr' & Hc1 & Hc2 & Hh1 & Hh2 & Hq1 & Hq2).
      apply IH. repeat split; congruence.
    + cbn [fst snd]. split; [reflexivity | exact Hr].
Qed.

Lemma createDailyRecords_same now db1 db2 :
  sameForDelivery db1 db2 ->
  snd (RecordController.createDailyRecords now db1)
  = snd (RecordController.createDailyRecords now db2)
  /\ records (fst (RecordController.createDailyRecords now db1))
     = records (fst (RecordController.createDailyRecords now db2)).
Proof.
  intros Hsame. pose proof Hsame as (Hc & Hr & Hh & Hn & Hq).
  unfold RecordController.createDailyRecords. cbv zeta.
  rewrite (checkIfHoliday_holidays db2 db1 _ Hh), Hc.
  destruct (RecordController.isHoliday _).
  - cbn [fst snd]. split; [reflexivity | exact Hr].
  - pose proof (createLoop_same (Js.startOfDay now) (Js.startOfDay (Js.startOfDay now))
                  (Js.endOfDay (Js.startOfDay now))
                  (filter Customer.isActive (customers db2)) db1 db2 [] Hsame) as Hrun.
    cbv zeta in Hrun.
    destruct (RecordController.createLoop _ _ _ _ db1 []) as [db1' out1].
    destruct (RecordController.createLoop _ _ _ _ db2 []) as [db2' out2].
    cbn [fst snd] in Hrun. destruct Hrun as [-> Hrecs].
    destruct out2; cbn [fst snd]; split; [reflexivity | exact Hrecs | reflexivity | exact Hrecs].
Qed.

Lemma replace_update_view (d stored : QuantityUpdate.t) us :
  NoDup (map QuantityUpdate._id us) ->
  In stored us ->
  QuantityUpdate._id d = QuantityUpdate._id stored ->
  deliveryView d = deliveryView stored ->
  map deliveryView (QuantityUpdateController.replace_update d us) = map deliveryView us.
Proof.
  intros Hnd Hin Hid Hview. unfold QuantityUpdateController.replace_update.
  rewrite map_map. apply map_ext_in. intros u Hu.
  destruct (N.eqb_spec (QuantityUpdate._id u) (QuantityUpdate._id d)) as [E|E]; [|reflexivity].
  rewrite Hid in E.
  now rewrite (NoDup_key_unique QuantityUpdate._id _ u stored Hnd Hu Hin E).
Qed.

Lemma accept_sameForDelivery db id lastUpdated :
  NoDup (map QuantityUpdate._id (quantityUpdates db)) ->
  sameForDelivery (fst (QuantityUpdateController.acceptQuantityUpdate db id lastUpdated)) db.
Proof.
  intros Hnd. unfold QuantityUpdateController.acceptQuantityUpdate.
  destruct (QuantityUpdateController.QuantityUpdate_findById db id) as [u|] eqn:E;
    cbn [fst]; [|repeat split; reflexivity].
  apply find_some in E as [Hin _].
  repeat split; try reflexivity.
  cbn [quantityUpdates set_quantityUpdates].
  now apply replace_update_view with (stored := u).
Qed.

Lemma reject_sameForDelivery db id reason :
  NoDup (map QuantityUpdate._id (quantityUpdates db)) ->
  sameForDelivery (fst (QuantityUpdateController.rejectQuantityUpdate db id reason)) db.
Proof.
  intros Hnd. unfold QuantityUpdateController.rejectQuantityUpdate.
  destruct (QuantityUpdateController.QuantityUpdate_findById db id) as [u|] eqn:E;
    cbn [fst]; [|repeat split; reflexivity].
  apply find_some in E as [Hin _].
  repeat split; try reflexivity.
  cbn [quantityUpdates set_quantityUpdates].
  now apply replace_update_view with (stored := u).
Qed.

(** X19. The decision taken on an adjustment does not reach the daily run.
    Whether an adjustment has been accepted, rejected or left undecided, the
    daily run gives the same response and leaves the same records: the
    adjusted quantity is delivered in all three cases. *)
Theorem decision_does_not_reach_daily_run (now : Js.Date) (db : DB) (id : Js.ObjectId)
  (lastUpdated : Z) (reason : option string) :
  NoDup (map QuantityUpdate._id (quantityUpdates db)) ->
  let accepted := fst (QuantityUpdateController.acceptQuantityUpdate db id lastUpdated) in
  let rejected := fst (QuantityUpdateController.rejectQuantityUpdate db id reason) in
  let undecided := RecordController.createDailyRecords now db in
  snd (RecordController.createDailyRecords now accepted) = snd undecided
  /\ records (fst (RecordController.createDailyRecords now accepted))
     = records (fst undecided)
  /\ snd (RecordController.createDailyRecords now rejected) = snd undecided
  /\ records (fst (RecordController.createDailyRecords now rejected))
     = records (fst undecided).
Proof.
  intros Hnd. cbv zeta.
  destruct (createDailyRecords_same now _ _ (accept_sameForDelivery db id lastUpdated Hnd))
    as [Ha1 Ha2].
  destruct (createDailyRecords_same now _ _ (reject_sameForDelivery db id reason Hnd))
    as [Hr1 Hr2].
  auto.
Qed.

(** The accepted adjustment of the sample, rejected: the record of the
    day still carries the adjusted quantity 5. *)
Lemma decision_does_not_reach_daily_run_witness :
  let rejected :=
    fst (QuantityUpdateController.rejectQuantityUpdate Sample2.dbAccepted 100%N None) in
  option_map QuantityUpdate.status
    (QuantityUpdateController.QuantityUpdate_findById rejected 100%N)
  = Some QuantityUpdate.rejected
  /\ records (fst (RecordController.createDailyRecords Sample.clock rejected))
     = records (fst (RecordController.createDailyRecords Sample.clock Sample2.dbAccepted))
  /\ map Record_.totalDailyQuantity
       (records (fst (RecordController.createDailyRecords Sample.clock rejected))) = [5].
Proof.
  cbv zeta. split; [vm_compute; reflexivity|]. split; [|vm_compute; reflexivity].
  apply (decision_does_not_reach_daily_run Sample.clock Sample2.dbAccepted 100%N 0 None).
  repeat constructor; simpl; intuition discriminate.
Defined.

(** ** The figures printed and reported *)

Lemma orZero_id x : InvoiceController.orZero x = x.
Proof.
  unfold InvoiceController.orZero.
  destruct (Z.eqb_spec x 0) as [->|]; reflexivity.
Qed.

Lemma sumBy_filter {A : Type} (f : A -> Z) (p : A -> bool) l :
  sumBy f (filter p l) = sumBy (fun x => if p x then f x else 0) l.
Proof.
  induction l as [|x l IH]; [reflexivity|].
  cbn [filter]. rewrite sumBy_cons. destruct (p x); [rewrite sumBy_cons|]; lia.
Qed.

Lemma sumBy_le {A : Type} (f g : A -> Z) l :
  (forall x, In x l -> f x <= g x) -> sumBy f l <= sumBy g l.
Proof.
  induction l as [|x l IH]; intros H; [reflexivity|].
  rewrite !sumBy_cons.
  pose proof (H x (or_introl eq_refl)).
  assert (sumBy f l <= sumBy g l) by (apply IH; intros y Hy; apply H; now right).
  lia.
Qed.

Lemma sumBy_In_le {A : Type} (f : A -> Z) l x :
  (forall y, In y l -> 0 <= f y) -> In x l -> f x <= sumBy f l.
Proof.
  induction l as [|y l IH]; intros Hpos Hin; [destruct Hin|].
  rewrite sumBy_cons.
  assert (Hrest : 0 <= sumBy f l)
    by (apply sumBy_nonneg; intros z Hz; apply Hpos; now right).
  destruct Hin as [->|Hin].
  - lia.
  - pose proof (Hpos y (or_introl eq_refl)).
    assert (f x <= sumBy f l) by (apply IH; [intros z Hz; apply Hpos; now right | exact Hin]).
    lia.
Qed.

(** X20. The invoice PDF is never answered with 404, although the handler
    has two such branches: a missing invoice and an invoice whose customer
    is gone both end in 500.  When the document is produced, the total due
    it prints is the sum of the due amounts of all invoices of the
    customer, the printed invoice included, and the remaining due is that
    total less the due amount of the printed invoice; when no invoice of
    the customer has a negative due amount, the remaining due lies between
    0 and the total. *)
Theorem pdf_figures_and_failures (db : DB) (id : Js.ObjectId) :
  match InvoiceController.generateModernInvoicePDF db id with
  | inl response =>
      response = InvoiceController.mkResponse 500
                   (InvoiceController.ServerError InvoiceController.TypeError)
      /\ (Invoice_findById db id = None
          \/ exists inv, Invoice_findById db id = Some inv
                         /\ Customer_findById db (Invoice.customer inv) = None)
  | inr figures =>
      let printed := InvoiceController.pdf_invoice figures in
      let own := ownInvoices db (Invoice.customer printed) in
      Invoice_findById db id = Some printed
      /\ Customer_findById db (Invoice.customer printed)
         = Some (InvoiceController.pdf_customer figures)
      /\ In printed own
      /\ InvoiceController.pdf_totalCustomerDue figures = sumBy Invoice.dueAmount own
      /\ InvoiceController.pdf_remainingDueExcludingCurrent figures
         = InvoiceController.pdf_totalCustomerDue figures - Invoice.dueAmount printed
      /\ ((forall i, In i own -> 0 <= Invoice.dueAmount i) ->
          0 <= InvoiceController.pdf_remainingDueExcludingCurrent figures
            <= InvoiceController.pdf_totalCustomerDue figures)
  end.
Proof.
  unfold InvoiceController.generateModernInvoicePDF.
  destruct (Invoice_findById db id) as [inv|] eqn:Einv; [|split; [reflexivity | now left]].
  destruct (Customer_findById db (Invoice.customer inv)) as [populated|] eqn:Ecust.
  2:{ split; [reflexivity|]. right. exists inv. auto. }
  pose proof (Customer_findById_id _ _ _ Ecust) as Hcid.
  rewrite Hcid, Ecust.
  unfold InvoiceController.pdfSummary.
  cbn [InvoiceController.pdf_invoice InvoiceController.pdf_customer
       InvoiceController.pdf_totalCustomerDue
       InvoiceController.pdf_remainingDueExcludingCurrent].
  assert (Htotal : fold_left (fun sum i => sum + InvoiceController.orZero (Invoice.dueAmount i))
                     (filter (fun i => N.eqb (Invoice.customer i) (Invoice.customer inv))
                        (invoices db)) 0
                   = sumBy Invoice.dueAmount (ownInvoices db (Invoice.customer inv))).
  { unfold ownInvoices, sumBy.
    generalize 0. induction (filter _ (invoices db)) as [|x l IH]; intros a; [reflexivity|].
    cbn [fold_left]. rewrite orZero_id. apply IH. }
  rewrite Htotal, orZero_id.
  assert (Hin : In inv (ownInvoices db (Invoice.customer inv))).
  { unfold ownInvoices. apply filter_In. unfold Invoice_findById in Einv.
    apply find_some in Einv as [Hin _]. split; [exact Hin | apply N.eqb_refl]. }
  cbv zeta.
  split; [reflexivity|]. split; [exact Ecust|]. split; [exact Hin|].
  split; [reflexivity|]. split; [reflexivity|].
  intros Hpos.
  pose proof (sumBy_In_le Invoice.dueAmount _ inv Hpos Hin) as Hle.
  specialize (Hpos inv Hin). lia.
Qed.

(** Two invoices of one customer, 3000 and 1500 due: printed on the
    December invoice are 4500 in total and 1500 remaining. *)
Lemma pdf_figures_and_failures_witness :
  exists figures,
    InvoiceController.generateModernInvoicePDF Sample2.dbTwoInvoices 500%N = inr figures
    /\ InvoiceController.pdf_totalCustomerDue figures = 4500
    /\ InvoiceController.pdf_remainingDueExcludingCurrent figures = 1500.
Proof.
  pose proof (pdf_figures_and_failures Sample2.dbTwoInvoices 500%N) as H.
  destruct (InvoiceController.generateModernInvoicePDF Sample2.dbTwoInvoices 500%N)
    as [response|figures] eqn:E.
  - vm_compute in E. discriminate.
  - exists figures. split; [reflexivity|].
    cbv zeta in H. destruct H as (_ & _ & _ & Htotal & Hrest & _).
    assert (Hsum : InvoiceController.pdf_totalCustomerDue figures = 4500).
    { rewrite Htotal. vm_compute in E. injection E as <-. vm_compute. reflexivity. }
    split; [exact Hsum|].
    rewrite Hrest, Hsum. vm_compute in E. injection E as <-. vm_compute. reflexivity.
Defined.

(** X21. The Gujarati-numeral conversion used for every figure of the PDF
    changes no character: the table it maps the digits through holds the
    ten ASCII digits, so a number is printed as its plain decimal string. *)
Theorem toGujaratiNumber_is_decimal (num : Z) :
  InvoiceController.toGujaratiNumber num = Js.toString num.
Proof.
  unfold InvoiceController.toGujaratiNumber.
  induction (Js.toString num) as [|c s IH]; [reflexivity|].
  cbn [InvoiceController.mapChars]. rewrite IH. f_equal.
  destruct c as [[] [] [] [] [] [] [] []]; reflexivity.
Qed.

(** *** The summary and the balance of a customer *)

Lemma insertByCreatedDesc_In i x invs :
  In x (InvoiceController.insertByCreatedDesc i invs) <-> x = i \/ In x invs.
Proof.
  induction invs as [|j invs IH]; cbn [InvoiceController.insertByCreatedDesc].
  - simpl. intuition.
  - destruct (Invoice.createdAt j <? Invoice.createdAt i); simpl in *; rewrite ?IH;
      intuition.
Qed.

Lemma insertByCreatedDesc_length i invs :
  List.length (InvoiceController.insertByCreatedDesc i invs) = S (List.length invs).
Proof.
  induction invs as [|j invs IH]; cbn [InvoiceController.insertByCreatedDesc];
    [reflexivity|].
  destruct (Invoice.createdAt j <? Invoice.createdAt i); simpl; [reflexivity|].
  now rewrite IH.
Qed.

Lemma insertByCreatedDesc_sorted i invs :
  StronglySorted (fun a b => Invoice.createdAt b <= Invoice.createdAt a) invs ->
  StronglySorted (fun a b => Invoice.createdAt b <= Invoice.createdAt a)
    (InvoiceController.insertByCreatedDesc i invs).
Proof.
  induction invs as [|j invs IH]; intros Hs; cbn [InvoiceController.insertByCreatedDesc].
  - constructor; constructor.
  - inversion Hs as [|a l Hs' Hall]; subst a l.
    destruct (Invoice.createdAt j <? Invoice.createdAt i) eqn:E;
      [apply Z.ltb_lt in E | apply Z.ltb_ge in E].
    + constructor; [exact Hs|].
      constructor; [lia|].
      rewrite Forall_forall in Hall |- *. intros x Hx. specialize (Hall x Hx). lia.
    + constructor; [now apply IH|].
      rewrite Forall_forall in Hall |- *. intros x Hx.
      apply insertByCreatedDesc_In in Hx as [->|Hx]; [exact E | now apply Hall].
Qed.

Lemma sortByCreatedDesc_facts invs :
  (forall x, In x (InvoiceController.sortByCreatedDesc invs) <-> In x invs)
  /\ List.length (InvoiceController.sortByCreatedDesc invs) = List.length invs
  /\ StronglySorted (fun a b => Invoice.createdAt b <= Invoice.createdAt a)
       (InvoiceController.sortByCreatedDesc invs).
Proof.
  unfold InvoiceController.sortByCreatedDesc.
  assert (H : forall acc,
             StronglySorted (fun a b => Invoice.createdAt b <= Invoice.createdAt a) acc ->
             (forall x, In x (fold_left (fun acc i => InvoiceController.insertByCreatedDesc i acc)
                                invs acc) <-> In x invs \/ In x acc)
             /\ List.length (fold_left (fun acc i => InvoiceController.insertByCreatedDesc i acc)
                               invs acc) = (List.length invs + List.length acc)%nat
             /\ StronglySorted (fun a b => Invoice.createdAt b <= Invoice.createdAt a)
                  (fold_left (fun acc i => InvoiceController.insertByCreatedDesc i acc)
                     invs acc)).
  { induction invs as [|i invs IH]; intros acc Hs; cbn [fold_left].
    - split; [intros x; simpl; intuition|]. split; [reflexivity | exact Hs].
    - destruct (IH _ (insertByCreatedDesc_sorted i acc Hs)) as (Hin & Hlen & Hsorted).
      split; [|split; [|exact Hsorted]].
      + intros x. rewrite Hin, insertByCreatedDesc_In. simpl. intuition.
      + rewrite Hlen, insertByCreatedDesc_length. simpl. lia. }
  destruct (H [] (SSorted_nil _)) as (Hin & Hlen & Hsorted).
  split; [|split; [|exact Hsorted]].
  - intros x. rewrite Hin. simpl. intuition.
  - rewrite Hlen. simpl. lia.
Qed.

Lemma sorted_firstn_skipn {A : Type} (R : A -> A -> Prop) (l : list A) :
  StronglySorted R l ->
  forall n a b, In a (firstn n l) -> In b (skipn n l) -> R a b.
Proof.
  induction 1 as [|x l Hs IH Hall]; intros n a b Ha Hb.
  - destruct n; destruct Ha.
  - destruct n as [|n]; [destruct Ha|].
    cbn [firstn skipn] in Ha, Hb. destruct Ha as [<-|Ha].
    + rewrite Forall_forall in Hall. apply Hall.
      rewrite <- (firstn_skipn n l). apply in_or_app. now right.
    + now apply (IH n).
Qed.

(** X22. The invoice summary of a stored customer is answered 200 and is
    consistent: it counts the customer's invoices, its pending and overdue
    counts together do not exceed that number, and the recent invoices are
    five invoices of that customer, or all of them when there are fewer,
    none of the others being newer than any of them. *)
Theorem customer_summary_is_consistent (db : DB) (id : Js.ObjectId) (c : Customer.t) :
  Customer_findById db id = Some c ->
  exists summary recent,
    InvoiceController.getCustomerInvoiceSummary db id
    = (200, InvoiceController.SummaryResult summary recent id
              (Customer.name c) (Customer.customerNo c))
    /\ InvoiceController.totalInvoices summary = List.length (ownInvoices db id)
    /\ (InvoiceController.pendingInvoices summary
        + InvoiceController.overdueInvoices summary
        <= InvoiceController.totalInvoices summary)%nat
    /\ List.length recent = Nat.min 5 (List.length (ownInvoices db id))
    /\ (forall i, In i recent -> In i (ownInvoices db id))
    /\ (forall i j, In i recent -> In j (ownInvoices db id) -> ~ In j recent ->
          Invoice.createdAt j <= Invoice.createdAt i).
Proof.
  intros Hc. pose proof (Customer_findById_id _ _ _ Hc) as Hid.
  unfold InvoiceController.getCustomerInvoiceSummary. rewrite Hc, Hid. cbv zeta.
  fold (ownInvoices db id). set (own := ownInvoices db id).
  destruct (sortByCreatedDesc_facts own) as (Hin & Hlen & Hsorted).
  eexists. eexists. split; [reflexivity|].
  split; [|split; [|split; [|split]]].
  - destruct own; reflexivity.
  - destruct own as [|x own']; [simpl; lia|].
    change (Nat.ltb 0 (List.length (x :: own'))) with true. cbv iota.
    unfold InvoiceController.groupSummary.
    cbn [InvoiceController.pendingInvoices InvoiceController.overdueInvoices
         InvoiceController.totalInvoices].
    generalize (x :: own'). intros l. induction l as [|y l IH]; [simpl; lia|].
    cbn [filter]. unfold InvoiceController.isPending, InvoiceController.isOverdue in *.
    destruct (Invoice.status y); simpl in *; lia.
  - rewrite length_firstn, Hlen. reflexivity.
  - intros i Hi. apply Hin. rewrite <- (firstn_skipn 5). apply in_or_app. now left.
  - intros i j Hi Hj Hnot.
    apply (sorted_firstn_skipn _ _ Hsorted 5 i j Hi).
    apply Hin in Hj. rewrite <- (firstn_skipn 5) in Hj.
    apply in_app_or in Hj as [Hj|Hj]; [contradiction | exact Hj].
Qed.

Lemma customer_summary_is_consistent_witness :
  exists summary recent,
    InvoiceController.getCustomerInvoiceSummary Sample2.dbTwoInvoices 1%N
    = (200, InvoiceController.SummaryResult summary recent 1%N "Customer One" 1)
    /\ InvoiceController.totalInvoices summary = 2%nat
    /\ List.length recent = 2%nat.
Proof.
  destruct (customer_summary_is_consistent Sample2.dbTwoInvoices 1%N
              (Sample.customerWith 250) eq_refl)
    as (summary & recent & Hrun & Hcount & _ & Hlen & _).
  exists summary, recent. split; [exact Hrun|]. split; [exact Hcount | exact Hlen].
Defined.

Lemma status_rule_paid now i :
  status_rule now i -> (Invoice.dueAmount i <= 0 <-> Invoice.status i = Invoice.paid).
Proof.
  intros (H1 & H2 & H3 & H4). split; [exact H1|].
  intros Hpaid.
  destruct (Z.le_gt_cases (Invoice.dueAmount i) 0) as [|Hpos]; [assumption|].
  exfalso.
  destruct (Z.lt_ge_cases 0 (Invoice.amountPaid i)) as [Hp|Hp].
  - rewrite (H2 ltac:(lia) Hp) in Hpaid. discriminate.
  - destruct (Z.lt_ge_cases (Invoice.dueDate i) now) as [Hd|Hd].
    + rewrite (H3 ltac:(lia) Hp Hd) in Hpaid. discriminate.
    + rewrite (H4 ltac:(lia) Hp Hd) in Hpaid. discriminate.
Qed.

(** X23. The pending amount in the financial summary of a customer whose
    invoices have all gone through a save is the sum of the positive due
    amounts of that customer's invoices: it is never negative, an invoice
    paid beyond its total does not reduce it, it is at least the total due
    of the invoice summary, and the net balance is the advance less that
    amount. *)
Theorem financials_count_positive_dues_only (db : DB) (id : Js.ObjectId) (c : Customer.t) :
  Customer_findById db id = Some c ->
  (forall i, In i (ownInvoices db id) -> exists now, status_rule now i) ->
  exists financials,
    CustomerController.getCustomerFinancials db id = Some financials
    /\ CustomerController.advanceAmount financials = Customer.advance c
    /\ CustomerController.pendingAmount financials
       = sumBy (fun i => Z.max 0 (Invoice.dueAmount i)) (ownInvoices db id)
    /\ 0 <= CustomerController.pendingAmount financials
    /\ sumBy Invoice.dueAmount (ownInvoices db id)
       <= CustomerController.pendingAmount financials
    /\ CustomerController.netBalance financials
       = Customer.advance c - CustomerController.pendingAmount financials.
Proof.
  intros Hc Hrule. pose proof (Customer_findById_id _ _ _ Hc) as Hid.
  unfold CustomerController.getCustomerFinancials. rewrite Hc, Hid. cbv zeta.
  eexists. split; [reflexivity|].
  cbn [CustomerController.advanceAmount CustomerController.pendingAmount
       CustomerController.netBalance].
  assert (Hpending :
            sumBy Invoice.dueAmount
              (filter (fun i => N.eqb (Invoice.customer i) id
                                && CustomerController.isUnsettled i) (invoices db))
            = sumBy (fun i => Z.max 0 (Invoice.dueAmount i)) (ownInvoices db id)).
  { assert (Hfilter : filter (fun i => N.eqb (Invoice.customer i) id
                                       && CustomerController.isUnsettled i) (invoices db)
                      = filter CustomerController.isUnsettled (ownInvoices db id)).
    { unfold ownInvoices. induction (invoices db) as [|x l IH]; [reflexivity|].
      cbn [filter]. destruct (N.eqb (Invoice.customer x) id); cbn [andb filter];
        [destruct (CustomerController.isUnsettled x)|]; now rewrite IH. }
    rewrite Hfilter, sumBy_filter. apply sumBy_ext. intros i Hi.
    destruct (Hrule i Hi) as [now Hnow]. apply status_rule_paid in Hnow.
    unfold CustomerController.isUnsettled.
    destruct (Invoice.status i) eqn:Es.
    - assert (0 < Invoice.dueAmount i).
      { destruct (Z.le_gt_cases (Invoice.dueAmount i) 0) as [Hle|]; [|lia].
        apply Hnow in Hle. discriminate. }
      lia.
    - assert (0 < Invoice.dueAmount i).
      { destruct (Z.le_gt_cases (Invoice.dueAmount i) 0) as [Hle|]; [|lia].
        apply Hnow in Hle. discriminate. }
      lia.
    - assert (Invoice.dueAmount i <= 0) by now apply Hnow.
      lia.
    - assert (0 < Invoice.dueAmount i).
      { destruct (Z.le_gt_cases (Invoice.dueAmount i) 0) as [Hle|]; [|lia].
        apply Hnow in Hle. discriminate. }
      lia. }
  rewrite Hpending.
  split; [reflexivity|]. split; [reflexivity|]. split; [|split; [|reflexivity]].
  - apply sumBy_nonneg. intros i _. lia.
  - apply sumBy_le. intros i _. lia.
Qed.

(** Advance 250, dues of 3000 and 1500: pending 4500, net balance -4250. *)
Lemma financials_count_positive_dues_only_witness :
  exists financials,
    CustomerController.getCustomerFinancials Sample2.dbTwoInvoices 1%N = Some financials
    /\ CustomerController.pendingAmount financials = 4500
    /\ CustomerController.netBalance financials = -4250.
Proof.
  destruct (financials_count_positive_dues_only Sample2.dbTwoInvoices 1%N
              (Sample.customerWith 250) eq_refl)
    as (financials & Hrun & _ & Hpending & _ & _ & Hnet).
  - intros i Hi. exists (Js.newDate 2025 0 1).
    destruct Hi as [<-|[<-|[]]];
      unfold status_rule; simpl; repeat split; intros; try reflexivity; exfalso;
      first [lia | match goal with H : _ < _ |- _ => vm_compute in H; discriminate end].
  - exists financials. split; [exact Hrun|]. split.
    + rewrite Hpending. vm_compute. reflexivity.
    + rewrite Hnet, Hpending. vm_compute. reflexivity.
Defined.

(** ** Saving a customer *)

Lemma nodup_length_le (l : list TimeSlot) :
  (List.length (nodup TimeSlot_eq_dec l) <= List.length l)%nat.
Proof.
  induction l as [|x l IH]; [reflexivity|].
  cbn [nodup]. destruct (in_dec TimeSlot_eq_dec x l); simpl; lia.
Qed.

Lemma nodup_length_NoDup (l : list TimeSlot) :
  List.length l = List.length (nodup TimeSlot_eq_dec l) -> NoDup l.
Proof.
  induction l as [|x l IH]; [constructor|].
  cbn [nodup]. destruct (in_dec TimeSlot_eq_dec x l) as [Hin|Hnot]; simpl; intros H.
  - pose proof (nodup_length_le l). lia.
  - constructor; [exact Hnot | apply IH; lia].
Qed.

Lemma recalc_item_idem i : Customer.recalc_item (Customer.recalc_item i) = Customer.recalc_item i.
Proof. reflexivity. Qed.

Lemma recalc_delivery_idem d :
  Customer.recalc_delivery (Customer.recalc_delivery d) = Customer.recalc_delivery d.
Proof.
  unfold Customer.recalc_delivery. cbn [DeliveryTime.milkItems DeliveryTime.time].
  rewrite map_map.
  rewrite (map_ext (fun x => Customer.recalc_item (Customer.recalc_item x))
             Customer.recalc_item recalc_item_idem).
  reflexivity.
Qed.

Lemma recalc_delivery_conserved d : deliveryConserved (Customer.recalc_delivery d).
Proof.
  unfold deliveryConserved, Customer.recalc_delivery.
  cbn [DeliveryTime.milkItems DeliveryTime.totalQuantity DeliveryTime.totalPrice].
  split; [|split].
  - intros i Hi. apply in_map_iff in Hi as (j & <- & _). reflexivity.
  - reflexivity.
  - apply sumBy_ext. intros i Hi. apply in_map_iff in Hi as (j & <- & _). reflexivity.
Qed.

(** X24. Saving a customer is refused exactly when two deliveries of the
    schedule share a slot.  Otherwise the saved document keeps identity,
    activity, advance, the slots and every line's type, quantity and unit
    price, and carries recomputed totals at every level: each line's price
    is quantity times unit price, each delivery sums its lines and the
    customer sums the deliveries.  Saving the saved document again changes
    nothing. *)
Theorem customer_save_recomputes_totals (c : Customer.t) :
  (Customer.pre_save c = None <-> ~ slotsUnique c)
  /\ forall c', Customer.pre_save c = Some c' ->
       Customer._id c' = Customer._id c
       /\ Customer.isActive c' = Customer.isActive c
       /\ Customer.advance c' = Customer.advance c
       /\ map DeliveryTime.time (Customer.deliverySchedule c')
          = map DeliveryTime.time (Customer.deliverySchedule c)
       /\ map (fun d => map (fun i => (MilkItem.milkType i, MilkItem.subcategory i,
                                       MilkItem.quantity i, MilkItem.pricePerUnit i))
                          (DeliveryTime.milkItems d)) (Customer.deliverySchedule c')
          = map (fun d => map (fun i => (MilkItem.milkType i, MilkItem.subcategory i,
                                         MilkItem.quantity i, MilkItem.pricePerUnit i))
                            (DeliveryTime.milkItems d)) (Customer.deliverySchedule c)
       /\ (forall d, In d (Customer.deliverySchedule c') -> deliveryConserved d)
       /\ Customer.totalDailyQuantity c'
          = sumBy DeliveryTime.totalQuantity (Customer.deliverySchedule c')
       /\ Customer.totalDailyPrice c'
          = sumBy DeliveryTime.totalPrice (Customer.deliverySchedule c')
       /\ Customer.pre_save c' = Some c'.
Proof.
  unfold Customer.pre_save, slotsUnique. cbv zeta.
  destruct (Nat.eqb_spec (List.length (map DeliveryTime.time (Customer.deliverySchedule c)))
              (List.length (nodup TimeSlot_eq_dec
                              (map DeliveryTime.time (Customer.deliverySchedule c)))))
    as [E|E]; cbn [negb].
  - pose proof (nodup_length_NoDup _ E) as Hnd.
    split; [split; [discriminate | intros H; contradiction]|].
    intros c' H. injection H as <-.
    cbn [Customer._id Customer.isActive Customer.advance Customer.deliverySchedule
         Customer.totalDailyQuantity Customer.totalDailyPrice].
    assert (Htimes : map DeliveryTime.time
                       (map Customer.recalc_delivery (Customer.deliverySchedule c))
                     = map DeliveryTime.time (Customer.deliverySchedule c)).
    { rewrite map_map. apply map_ext. reflexivity. }
    do 3 (split; [reflexivity|]). split; [exact Htimes|].
    split; [|split; [|split; [reflexivity|split; [reflexivity|]]]].
    + rewrite map_map. apply map_ext. intros d.
      unfold Customer.recalc_delivery. cbn [DeliveryTime.milkItems].
      rewrite map_map. apply map_ext. reflexivity.
    + intros d Hd. apply in_map_iff in Hd as (d0 & <- & _). apply recalc_delivery_conserved.
    + rewrite Htimes, (nodup_fixed_point TimeSlot_eq_dec Hnd), Nat.eqb_refl. cbn [negb].
      rewrite map_map.
      rewrite (map_ext (fun x => Customer.recalc_delivery (Customer.recalc_delivery x))
                 Customer.recalc_delivery recalc_delivery_idem).
      reflexivity.
  - split; [|discriminate].
    split; [|reflexivity]. intros _ Hnd. apply E.
    now rewrite (nodup_fixed_point TimeSlot_eq_dec Hnd).
Qed.

(** *** Setting and clearing the advance *)

Lemma set_advance_saved db id c a :
  Customer_findById db id = Some c ->
  slotsUnique c ->
  exists db' stored,
    Customer_save db (Customer.set_advance c a) = Some (db', stored)
    /\ Customer_findById db' id = Some stored
    /\ Customer._id stored = id
    /\ Customer.advance stored = a
    /\ invoices db' = invoices db
    /\ records db' = records db.
Proof.
  intros Hc Hu. pose proof (Customer_findById_id _ _ _ Hc) as Hid.
  set (c1 := Customer.set_advance c a).
  destruct (customer_pre_save_ok c1 Hu) as (c' & Hpre & Hid' & Hadv).
  assert (Hsave : Customer_save db c1
                  = Some (set_customers db (replace_customer c' (customers db)), c'))
    by (unfold Customer_save; rewrite Hpre; reflexivity).
  rewrite <- Hid in Hc.
  destruct (Customer_save_stores db c1 c _ _ Hc Hsave) as (Hs & _ & Hinv & Hrec).
  exists (set_customers db (replace_customer c' (customers db))), c'.
  split; [exact Hsave|]. split; [rewrite <- Hid; exact Hs|].
  split; [rewrite Hid'; exact Hid|]. split; [rewrite Hadv; reflexivity|].
  split; assumption.
Qed.

Lemma financials_after_save db db' id stored f :
  CustomerController.getCustomerFinancials db id = Some f ->
  Customer_findById db' id = Some stored ->
  Customer._id stored = id ->
  invoices db' = invoices db ->
  exists f',
    CustomerController.getCustomerFinancials db' id = Some f'
    /\ CustomerController.advanceAmount f' = Customer.advance stored
    /\ CustomerController.pendingAmount f' = CustomerController.pendingAmount f
    /\ CustomerController.netBalance f'
       = Customer.advance stored - CustomerController.pendingAmount f.
Proof.
  unfold CustomerController.getCustomerFinancials.
  destruct (Customer_findById db id) as [c|] eqn:Ec; [|discriminate].
  pose proof (Customer_findById_id _ _ _ Ec) as Hcid.
  intros H Hs Hid Hinv. injection H as <-. rewrite Hs, Hinv, Hid, Hcid. cbv zeta.
  eexists. split; [reflexivity|]. repeat split.
Qed.

(** X25. Setting the advance of a stored customer to a non-negative amount,
    or clearing it, is answered 200 and shows in the financial summary at
    once: the advance reported is the amount set (0 after clearing), the
    pending amount is what it was, and the net balance is their difference.
    A negative amount is refused with 400 before the customer is looked
    up. *)
Theorem advance_update_shows_in_financials (db : DB) (id : Js.ObjectId) (a : Z)
  (c : Customer.t) (f : CustomerController.Financials) :
  Customer_findById db id = Some c ->
  slotsUnique c ->
  CustomerController.getCustomerFinancials db id = Some f ->
  (0 <= a ->
   exists db' stored f',
     CustomerController.updateAdvanceAmount db (CustomerController.mkAdvanceAmount id (Some a))
     = (db', CustomerController.mkResponse 200 (CustomerController.CustomerDoc stored))
     /\ CustomerController.getCustomerFinancials db' id = Some f'
     /\ CustomerController.advanceAmount f' = a
     /\ CustomerController.pendingAmount f' = CustomerController.pendingAmount f
     /\ CustomerController.netBalance f' = a - CustomerController.pendingAmount f)
  /\ (a < 0 ->
      forall other,
        CustomerController.updateAdvanceAmount db
          (CustomerController.mkAdvanceAmount other (Some a))
        = (db, CustomerController.mkResponse 400 (CustomerController.Message "Invalid amount")))
  /\ exists db' stored f',
       CustomerController.clearAdvanceAmount db id
       = (db', CustomerController.mkResponse 200 (CustomerController.CustomerDoc stored))
       /\ CustomerController.getCustomerFinancials db' id = Some f'
       /\ CustomerController.advanceAmount f' = 0
       /\ CustomerController.pendingAmount f' = CustomerController.pendingAmount f
       /\ CustomerController.netBalance f' = - CustomerController.pendingAmount f.
Proof.
  intros Hc Hu Hf. split; [|split].
  - intros Ha.
    destruct (set_advance_saved db id c a Hc Hu)
      as (db' & stored & Hsave & Hs & Hid & Hadv & Hinv & _).
    destruct (financials_after_save db db' id stored f Hf Hs Hid Hinv)
      as (f' & Hf' & H1 & H2 & H3).
    exists db', stored, f'.
    unfold CustomerController.updateAdvanceAmount.
    cbn [CustomerController.numericAmount CustomerController.params_id].
    settle_test (a <? 0) false. rewrite Hc. cbv zeta. rewrite Hsave.
    split; [reflexivity|]. split; [exact Hf'|]. rewrite H1, H3, Hadv. auto.
  - intros Ha other. unfold CustomerController.updateAdvanceAmount.
    cbn [CustomerController.numericAmount]. settle_test (a <? 0) true. reflexivity.
  - destruct (set_advance_saved db id c 0 Hc Hu)
      as (db' & stored & Hsave & Hs & Hid & Hadv & Hinv & _).
    destruct (financials_after_save db db' id stored f Hf Hs Hid Hinv)
      as (f' & Hf' & H1 & H2 & H3).
    exists db', stored, f'.
    unfold CustomerController.clearAdvanceAmount. rewrite Hc. cbv zeta. rewrite Hsave.
    split; [reflexivity|]. split; [exact Hf'|]. rewrite H1, H3, Hadv.
    split; [reflexivity|]. split; [exact H2 | lia].
Qed.

Lemma advance_update_shows_in_financials_witness :
  exists db' stored f',
    CustomerController.updateAdvanceAmount Sample2.dbTwoInvoices
      (CustomerController.mkAdvanceAmount 1%N (Some 1000))
    = (db', CustomerController.mkResponse 200 (CustomerController.CustomerDoc stored))
    /\ CustomerController.getCustomerFinancials db' 1%N = Some f'
    /\ CustomerController.advanceAmount f' = 1000
    /\ CustomerController.netBalance f' = -3500.
Proof.
  destruct (advance_update_shows_in_financials Sample2.dbTwoInvoices 1%N 1000
              (Sample.customerWith 250)
              (CustomerController.mkFinancials 1%N 250 4500 (-4250)))
    as (Hset & _ & _).
  - reflexivity.
  - repeat constructor; simpl; intuition discriminate.
  - vm_compute. reflexivity.
  - destruct Hset as (db' & stored & f' & Hrun & Hf' & Hadv & _ & Hnet); [lia|].
    exists db', stored, f'. repeat split; assumption.
Defined.

(** ** Dashboard and due list *)

(** X26. The dashboard counts every invoice under exactly one status: the
    pending, paid, partially paid and overdue counters add up to the total
    it reports, which is the number of stored invoices. *)
Theorem dashboard_counters_partition (db : DB) :
  let d := InvoiceController.dashboardSummary db in
  (InvoiceController.pendingCount d + InvoiceController.paidCount d
   + InvoiceController.partiallyPaidCount d + InvoiceController.overdueCount d
   = InvoiceController.dash_totalInvoices d)%nat
  /\ InvoiceController.dash_totalInvoices d = List.length (invoices db).
Proof.
  unfold InvoiceController.dashboardSummary. cbv zeta.
  destruct (invoices db) as [|x l] eqn:E.
  - simpl. split; reflexivity.
  - change (Nat.ltb 0 (List.length (x :: l))) with true. cbv iota.
    cbn [InvoiceController.pendingCount InvoiceController.paidCount
         InvoiceController.partiallyPaidCount InvoiceController.overdueCount
         InvoiceController.dash_totalInvoices].
    split; [|reflexivity].
    unfold InvoiceController.countStatus.
    generalize (x :: l). intros invs. induction invs as [|i invs IH]; [reflexivity|].
    cbn [filter]. destruct (Invoice.status i); cbn [List.length]; lia.
Qed.

Lemma addToGroup_positive i groups :
  0 < Invoice.dueAmount i ->
  (forall g, In g groups -> 0 < InvoiceController.group_totalDue g) ->
  forall g, In g (InvoiceController.addToGroup i groups) ->
    0 < InvoiceController.group_totalDue g.
Proof.
  intros Hi. induction groups as [|h groups IH]; intros Hall g;
    cbn [InvoiceController.addToGroup].
  - intros [<-|[]]. exact Hi.
  - destruct (N.eqb (InvoiceController.group_customer h) (Invoice.customer i)).
    + intros [<-|Hg]; [|apply Hall; now right].
      cbn [InvoiceController.group_totalDue].
      pose proof (Hall h (or_introl eq_refl)). lia.
    + intros [<-|Hg]; [apply Hall; now left|].
      apply IH; [|exact Hg]. intros g0 Hg0. apply Hall. now right.
Qed.

Lemma groupDue_positive invs :
  forall g, In g (InvoiceController.groupDue invs) ->
    0 < InvoiceController.group_totalDue g.
Proof.
  unfold InvoiceController.groupDue.
  assert (H : forall l groups,
             (forall i, In i l -> 0 < Invoice.dueAmount i) ->
             (forall g, In g groups -> 0 < InvoiceController.group_totalDue g) ->
             forall g,
               In g (fold_left (fun groups i => InvoiceController.addToGroup i groups)
                       l groups) ->
               0 < InvoiceController.group_totalDue g).
  { induction l as [|i l IH]; intros groups Hl Hg; cbn [fold_left]; [exact Hg|].
    apply IH.
    - intros j Hj. apply Hl. now right.
    - apply addToGroup_positive; [apply Hl; now left | exact Hg]. }
  apply H.
  - intros i Hi. apply filter_In in Hi as [_ Hi]. now apply Z.ltb_lt.
  - intros g [].
Qed.

Lemma basePipeline_facts db :
  forall c, In c (InvoiceController.basePipeline db) ->
    0 < InvoiceController.due_totalDue c
    /\ Customer_findById db (InvoiceController.due_customerId c) <> None.
Proof.
  unfold InvoiceController.basePipeline.
  intros c Hc. apply in_flat_map in Hc as (g & Hg & Hc).
  unfold InvoiceController.lookupCustomer in Hc.
  destruct (Customer_findById db (InvoiceController.group_customer g)) eqn:E; [|destruct Hc].
  destruct Hc as [<-|[]]. cbn [InvoiceController.due_totalDue InvoiceController.due_customerId].
  split; [now apply (groupDue_positive (invoices db)) | rewrite E; discriminate].
Qed.

Lemma insertByDueDesc_In c x cs :
  In x (InvoiceController.insertByDueDesc c cs) <-> x = c \/ In x cs.
Proof.
  induction cs as [|d cs IH]; cbn [InvoiceController.insertByDueDesc].
  - simpl. intuition.
  - destruct (InvoiceController.due_totalDue d <? InvoiceController.due_totalDue c);
      simpl in *; rewrite ?IH; intuition.
Qed.

Lemma sortByDueDesc_In x cs : In x (InvoiceController.sortByDueDesc cs) <-> In x cs.
Proof.
  unfold InvoiceController.sortByDueDesc.
  assert (H : forall acc,
             In x (fold_left (fun acc c => InvoiceController.insertByDueDesc c acc) cs acc)
             <-> In x cs \/ In x acc).
  { induction cs as [|c cs IH]; intros acc; cbn [fold_left]; [simpl; intuition|].
    rewrite IH, insertByDueDesc_In. simpl. intuition. }
  rewrite H. simpl. intuition.
Qed.

(** X27. The list of customers with dues is answered 200 for every page
    from 1 on and every positive page size, with totals that do not depend
    on the page: the number of customers the pipeline yields and the sum of
    their totals.  A page holds at most [limit] of these customers, each
    stored and with a positive total that does not exceed the grand total;
    the grand total is positive exactly when there is such a customer, and
    the pages reported are the least number that holds them all.  Page 0
    and a page size of 0 are answered 500. *)
Theorem due_list_totals (db : DB) (page limit : Z) :
  (1 <= page -> 1 <= limit ->
   exists listed grandTotalDue totalPages,
     InvoiceController.getCustomersWithDueAmounts db (Some page) (Some limit)
     = (200, InvoiceController.DueList listed
               (List.length (InvoiceController.basePipeline db))
               grandTotalDue page totalPages)
     /\ grandTotalDue
        = sumBy InvoiceController.due_totalDue (InvoiceController.basePipeline db)
     /\ (0 < grandTotalDue <-> InvoiceController.basePipeline db <> [])
     /\ (Z.of_nat (List.length listed) <= limit)
     /\ (totalPages - 1) * limit < Z.of_nat (List.length (InvoiceController.basePipeline db))
        <= totalPages * limit
     /\ forall c, In c listed ->
          In c (InvoiceController.basePipeline db)
          /\ 0 < InvoiceController.due_totalDue c <= grandTotalDue
          /\ Customer_findById db (InvoiceController.due_customerId c) <> None)
  /\ (page <= 0 -> 1 <= limit ->
      InvoiceController.getCustomersWithDueAmounts db (Some page) (Some limit)
      = (500, InvoiceController.DueError))
  /\ (limit <= 0 ->
      InvoiceController.getCustomersWithDueAmounts db (Some page) (Some limit)
      = (500, InvoiceController.DueError)).
Proof.
  pose proof (basePipeline_facts db) as Hall.
  assert (Hnonneg : forall c, In c (InvoiceController.basePipeline db) ->
                      0 <= InvoiceController.due_totalDue c)
    by (intros c Hc; destruct (Hall c Hc); lia).
  unfold InvoiceController.getCustomersWithDueAmounts. cbv zeta.
  split; [|split].
  - intros Hp Hl.
    assert (((page - 1) * limit <? 0) = false) as -> by (apply Z.ltb_ge; nia).
    settle_test (limit <=? 0) false. cbn [orb].
    eexists. eexists. eexists. split; [reflexivity|].
    split; [reflexivity|].
    split; [|split; [|split]].
    + destruct (InvoiceController.basePipeline db) as [|c cs] eqn:E.
      * rewrite sumBy_nil. split; [lia | intros H; now contradiction H].
      * split; [discriminate|]. intros _.
        pose proof (sumBy_In_le InvoiceController.due_totalDue (c :: cs) c Hnonneg
                      (or_introl eq_refl)) as Hle.
        destruct (Hall c (or_introl eq_refl)). lia.
    + rewrite length_firstn. lia.
    + set (n := Z.of_nat (List.length (InvoiceController.basePipeline db))).
      assert (Hn : 0 <= n) by (subst n; lia).
      pose proof (Z.div_mod (n + limit - 1) limit ltac:(lia)) as Hdiv.
      pose proof (Z.mod_pos_bound (n + limit - 1) limit ltac:(lia)) as Hmod.
      nia.
    + intros c Hc.
      assert (Hin : In c (InvoiceController.basePipeline db)).
      { apply sortByDueDesc_In.
        rewrite <- (firstn_skipn (Z.to_nat ((page - 1) * limit))
                      (InvoiceController.sortByDueDesc (InvoiceController.basePipeline db))).
        apply in_or_app. right.
        rewrite <- (firstn_skipn (Z.to_nat limit)
                      (skipn _ (InvoiceController.sortByDueDesc _))).
        apply in_or_app. left. exact Hc. }
      destruct (Hall c Hin) as [Hpos Hstored].
      pose proof (sumBy_In_le InvoiceController.due_totalDue _ c Hnonneg Hin).
      split; [exact Hin|]. split; [lia | exact Hstored].
  - intros Hp Hl.
    assert (((page - 1) * limit <? 0) = true) as -> by (apply Z.ltb_lt; nia). reflexivity.
  - intros Hl.
    settle_test (limit <=? 0) true. rewrite orb_true_r. reflexivity.
Qed.

(** Two invoices of Customer One with 3000 and 1500 due: one entry of
    4500 on the only page. *)
Lemma due_list_totals_witness :
  exists listed totalPages,
    InvoiceController.getCustomersWithDueAmounts Sample2.dbTwoInvoices (Some 1) (Some 10)
    = (200, InvoiceController.DueList listed 1 4500 1 totalPages)
    /\ Z.of_nat (List.length listed) <= 10.
Proof.
  destruct (due_list_totals Sample2.dbTwoInvoices 1 10) as (Hok & _ & _).
  destruct Hok as (listed & grandTotalDue & totalPages & Hrun & Htotal & _ & Hlen & _);
    [lia | lia |].
  exists listed, totalPages. split; [|exact Hlen].
  rewrite Hrun, Htotal. reflexivity.
Defined.

(** ** The roster of milkmen *)

Lemma saveConfig_result store c next store' :
  SystemConfigController.saveConfig store c next = Some store' ->
  store' = SystemConfigController.mkStore (Some c) next
  /\ forallb SystemConfig.validMilkman (SystemConfig.milkmen c) = true.
Proof.
  unfold SystemConfigController.saveConfig.
  destruct (forallb _ _); [|discriminate].
  intros H. injection H as <-. split; reflexivity.
Qed.

Lemma replaceFirst_In id u ms y :
  In y (SystemConfigController.replaceFirst id u ms) -> y = u \/ In y ms.
Proof.
  induction ms as [|x ms IH]; cbn [SystemConfigController.replaceFirst]; [intros []|].
  destruct (N.eqb (SystemConfig.milkman_id x) id); simpl; intuition.
Qed.

Lemma replaceFirst_ids id u ms m :
  find (fun m => N.eqb (SystemConfig.milkman_id m) id) ms = Some m ->
  SystemConfig.milkman_id u = id ->
  map SystemConfig.milkman_id (SystemConfigController.replaceFirst id u ms)
  = map SystemConfig.milkman_id ms.
Proof.
  intros Hfind Hu. induction ms as [|x ms IH]; [discriminate|].
  cbn [find SystemConfigController.replaceFirst] in *.
  destruct (N.eqb_spec (SystemConfig.milkman_id x) id) as [E|E].
  - cbn [map]. now rewrite Hu, E.
  - cbn [map]. f_equal. now apply IH.
Qed.

Lemma replaceFirst_phones id u ms m :
  NoDup (map SystemConfig.phoneNumber ms) ->
  find (fun m => N.eqb (SystemConfig.milkman_id m) id) ms = Some m ->
  SystemConfig.phoneNumber u = SystemConfig.phoneNumber m
  \/ ~ In (SystemConfig.phoneNumber u) (map SystemConfig.phoneNumber ms) ->
  NoDup (map SystemConfig.phoneNumber (SystemConfigController.replaceFirst id u ms)).
Proof.
  induction ms as [|x ms IH]; intros Hnd Hfind Hu; [discriminate|].
  cbn [map] in Hnd. inversion Hnd as [|k ks Hnotin Hnd']; subst k ks.
  cbn [find SystemConfigController.replaceFirst] in *.
  destruct (N.eqb (SystemConfig.milkman_id x) id).
  - injection Hfind as <-. cbn [map]. constructor; [|exact Hnd'].
    destruct Hu as [->|Hu]; [exact Hnotin|].
    intros Hin. apply Hu. now right.
  - cbn [map]. constructor.
    + intros Hin. apply in_map_iff in Hin as (y & Hy & Hin).
      apply replaceFirst_In in Hin as [->|Hin].
      * destruct Hu as [Hu|Hu].
        -- apply Hnotin. rewrite <- Hy, Hu. apply in_map.
           apply find_some in Hfind as [Hm _]. exact Hm.
        -- apply Hu. left. now symmetry.
      * apply Hnotin. rewrite <- Hy. now apply in_map.
    + apply IH; [exact Hnd' | exact Hfind|].
      destruct Hu as [Hu|Hu]; [now left|].
      right. intros Hin. apply Hu. now right.
Qed.

Lemma removeFirst_In id ms y :
  In y (SystemConfigController.removeFirst id ms) -> In y ms.
Proof.
  induction ms as [|x ms IH]; cbn [SystemConfigController.removeFirst]; [intros []|].
  destruct (N.eqb (SystemConfig.milkman_id x) id); simpl; intuition.
Qed.

Lemma removeFirst_NoDup {B : Type} (f : SystemConfig.Milkman -> B) id ms :
  NoDup (map f ms) -> NoDup (map f (SystemConfigController.removeFirst id ms)).
Proof.
  induction ms as [|x ms IH]; intros Hnd; [constructor|].
  cbn [map] in Hnd. inversion Hnd as [|k ks Hnotin Hnd']; subst k ks.
  cbn [SystemConfigController.removeFirst].
  destruct (N.eqb (SystemConfig.milkman_id x) id); [exact Hnd'|].
  cbn [map]. constructor; [|now apply IH].
  intros Hin. apply Hnotin. apply in_map_iff in Hin as (y & Hy & Hin).
  rewrite <- Hy. apply in_map. now apply removeFirst_In in Hin.
Qed.

Lemma NoDup_snoc {B : Type} (l : list B) x : NoDup l -> ~ In x l -> NoDup (l ++ [x]).
Proof.
  induction l as [|y l IH]; intros Hnd Hx; simpl.
  - constructor; [intros [] | constructor].
  - inversion Hnd as [|k ks Hnotin Hnd']; subst k ks.
    constructor.
    + intros Hin. apply in_app_or in Hin as [Hin|[<-|[]]]; [contradiction|].
      apply Hx. now left.
    + apply IH; [exact Hnd'|]. intros Hin. apply Hx. now right.
Qed.

(** Trimming leaves a plain string as it is. *)
Lemma skip_spaces_plain s : plain s = true -> Js.skip_spaces s = s.
Proof.
  destruct s as [|c s]; [reflexivity|]. cbn [plain Js.skip_spaces].
  intros H. apply andb_true_iff in H as [H _]. apply andb_true_iff in H as [Hlow _].
  apply Nat.leb_le in Hlow. unfold Js.is_space. cbv zeta.
  repeat match goal with
         | |- context [Nat.eqb ?n ?k] => destruct (Nat.eqb_spec n k); [lia|]
         end.
  reflexivity.
Qed.

Lemma trimEnd_plain s : plain s = true -> Js.trimEnd s = s.
Proof.
  induction s as [|c s IH]; [reflexivity|]. cbn [plain Js.trimEnd].
  intros H. apply andb_true_iff in H as [H Hrest]. apply andb_true_iff in H as [Hlow _].
  apply Nat.leb_le in Hlow. rewrite (IH Hrest).
  destruct s; [|reflexivity].
  unfold Js.is_space. cbv zeta.
  repeat match goal with
         | |- context [Nat.eqb ?n ?k] => destruct (Nat.eqb_spec n k); [lia|]
         end.
  reflexivity.
Qed.

Lemma castString_plain p :
  plain p = true -> SystemConfigController.castString (SystemConfigController.Text p) = p.
Proof.
  intros H. cbn [SystemConfigController.castString]. unfold Js.trim.
  now rewrite (skip_spaces_plain p H), (trimEnd_plain p H).
Qed.

Lemma addMilkman_keeps_roster store name phoneNumber :
  rosterOk store ->
  plainText phoneNumber = true ->
  rosterOk (fst (SystemConfigController.addMilkman store name phoneNumber)).
Proof.
  intros Hok Hplain. unfold SystemConfigController.addMilkman.
  destruct (_ || _) eqn:Eblank; [exact Hok|]. cbv zeta.
  destruct phoneNumber as [|phone|n]; [| |discriminate].
  { rewrite orb_true_r in Eblank. discriminate. }
  cbn [plainText] in Hplain.
  destruct Hok as (Hphones & Hids & Hbound & Hvalid).
  unfold milkmenOf in Hphones, Hids, Hbound, Hvalid.
  destruct (SystemConfigController.config store) as [c|] eqn:Ec.
  - destruct (find _ (SystemConfig.milkmen c)) as [existing|] eqn:Efind; cbn [fst].
    { unfold rosterOk, milkmenOf. rewrite Ec. auto. }
    destruct (SystemConfigController.saveConfig store _ _) as [store'|] eqn:Esave; cbn [fst].
    2:{ unfold rosterOk, milkmenOf. rewrite Ec. auto. }
    apply saveConfig_result in Esave as [-> Hv].
    unfold rosterOk, milkmenOf.
    cbn [SystemConfigController.config SystemConfigController.nextMilkmanId
         SystemConfig.milkmen SystemConfig.set_milkmen] in *.
    split; [|split; [|split; [|exact Hv]]].
    + rewrite map_app. apply NoDup_snoc; [exact Hphones|].
      cbn [map SystemConfigController.newMilkman SystemConfig.phoneNumber].
      rewrite (castString_plain phone Hplain).
      intros Hin. apply in_map_iff in Hin as (m & Hm & Hin).
      pose proof (find_none _ _ Efind m Hin) as Hn. cbv beta in Hn.
      cbn [SystemConfigController.strictEq] in Hn.
      rewrite Hm, String.eqb_refl in Hn. discriminate.
    + rewrite map_app. apply NoDup_snoc; [exact Hids|].
      cbn [map SystemConfigController.newMilkman SystemConfig.milkman_id].
      intros Hin. apply in_map_iff in Hin as (m & Hm & Hin).
      specialize (Hbound m Hin). lia.
    + intros m Hin. apply in_app_or in Hin as [Hin|[<-|[]]].
      * specialize (Hbound m Hin). lia.
      * cbn [SystemConfigController.newMilkman SystemConfig.milkman_id]. lia.
  - destruct (SystemConfigController.saveConfig store _ _) as [store'|] eqn:Esave; cbn [fst].
    2:{ unfold rosterOk, milkmenOf. rewrite Ec. auto. }
    apply saveConfig_result in Esave as [-> Hv].
    unfold rosterOk, milkmenOf.
    cbn [SystemConfigController.config SystemConfigController.nextMilkmanId
         SystemConfig.milkmen] in *.
    split; [|split; [|split; [|exact Hv]]].
    + repeat constructor. intros [].
    + repeat constructor. intros [].
    + intros m [<-|[]].
      cbn [SystemConfigController.newMilkman SystemConfig.milkman_id]. lia.
Qed.

Lemma updateMilkman_keeps_roster store id name phoneNumber isActive :
  rosterOk store ->
  plainText phoneNumber = true ->
  rosterOk (fst (SystemConfigController.updateMilkman store id name phoneNumber isActive)).
Proof.
  intros Hok Hplain. unfold SystemConfigController.updateMilkman.
  destruct (SystemConfigController.config store) as [c|] eqn:Ec; [|exact Hok].
  destruct (find _ (SystemConfig.milkmen c)) as [milkman|] eqn:Efind; [|exact Hok].
  cbv zeta.
  match goal with |- context [if ?b then _ else _] => destruct b eqn:Econflict end;
    [exact Hok|].
  destruct (SystemConfigController.saveConfig store _ _) as [store'|] eqn:Esave;
    cbn [fst]; [|exact Hok].
  apply saveConfig_result in Esave as [-> Hv].
  destruct Hok as (Hphones & Hids & Hbound & Hvalid).
  unfold rosterOk, milkmenOf in *. rewrite Ec in Hphones, Hids, Hbound, Hvalid.
  cbn [SystemConfigController.config SystemConfigController.nextMilkmanId
       SystemConfig.milkmen SystemConfig.set_milkmen] in *.
  pose proof (find_some _ _ Efind) as [Hmin Hmid]. apply N.eqb_eq in Hmid.
  split; [|split; [|split; [|exact Hv]]].
  - apply replaceFirst_phones with (m := milkman); [exact Hphones | exact Efind|].
    cbn [SystemConfig.phoneNumber].
    destruct phoneNumber as [|p|n]; [now left | | discriminate].
    cbn [plainText] in Hplain.
    cbn [SystemConfigController.blank SystemConfigController.strictEq] in Econflict |- *.
    destruct (String.eqb_spec p "") as [Hp|Hp]; [now left|].
    rewrite (castString_plain p Hplain).
    destruct (String.eqb_spec (SystemConfig.phoneNumber milkman) p) as [Hown|Hown];
      [left; now symmetry|].
    right. cbn [negb andb] in Econflict.
    destruct (find (fun m => String.eqb (SystemConfig.phoneNumber m) p
                             && negb (N.eqb (SystemConfig.milkman_id m) id))
                (SystemConfig.milkmen c)) as [other|] eqn:Eother; [discriminate|].
    intros Hin. apply in_map_iff in Hin as (m & Hm & Hin).
    pose proof (find_none _ _ Eother m Hin) as Hn. cbv beta in Hn.
    rewrite Hm, String.eqb_refl in Hn. cbn [andb] in Hn.
    apply negb_false_iff in Hn. apply N.eqb_eq in Hn.
    assert (m = milkman).
    { apply (NoDup_key_unique SystemConfig.milkman_id (SystemConfig.milkmen c));
        auto. congruence. }
    subst m. congruence.
  - rewrite (replaceFirst_ids id _ _ milkman Efind); [exact Hids | exact Hmid].
  - intros m Hin. apply replaceFirst_In in Hin as [->|Hin]; [|now apply Hbound].
    cbn [SystemConfig.milkman_id]. now apply Hbound.
Qed.

Lemma deleteMilkman_keeps_roster store id :
  rosterOk store -> rosterOk (fst (SystemConfigController.deleteMilkman store id)).
Proof.
  intros Hok. unfold SystemConfigController.deleteMilkman.
  destruct (SystemConfigController.config store) as [c|] eqn:Ec; [|exact Hok].
  destruct (find _ (SystemConfig.milkmen c)) as [milkman|] eqn:Efind; [|exact Hok].
  destruct (SystemConfigController.saveConfig store _ _) as [store'|] eqn:Esave;
    cbn [fst]; [|exact Hok].
  apply saveConfig_result in Esave as [-> Hv].
  destruct Hok as (Hphones & Hids & Hbound & Hvalid).
  unfold rosterOk, milkmenOf in *. rewrite Ec in Hphones, Hids, Hbound, Hvalid.
  cbn [SystemConfigController.config SystemConfigController.nextMilkmanId
       SystemConfig.milkmen SystemConfig.set_milkmen] in *.
  split; [|split; [|split; [|exact Hv]]].
  - now apply removeFirst_NoDup.
  - now apply removeFirst_NoDup.
  - intros m Hin. apply Hbound. now apply removeFirst_In in Hin.
Qed.

(** X28. The roster of milkmen never holds a phone number twice, as long
    as phone numbers arrive as plain strings: strings of printable ASCII
    characters without a space.  Starting from a roster in order (phone
    numbers and identifiers pairwise distinct, every entry valid), adding,
    updating and deleting milkmen leaves it in order, whatever the handlers
    answer; and a milkman that was added is on the roster under the number
    given. *)
Theorem milkmen_phones_stay_distinct (store : SystemConfigController.Store) :
  rosterOk store ->
  (forall name phoneNumber,
     plainText phoneNumber = true ->
     rosterOk (fst (SystemConfigController.addMilkman store name phoneNumber)))
  /\ (forall name phoneNumber store',
        plain phoneNumber = true ->
        SystemConfigController.addMilkman store name (SystemConfigController.Text phoneNumber)
        = (store', SystemConfigController.mkResponse 200 "Milkman added successfully") ->
        In phoneNumber (map SystemConfig.phoneNumber (milkmenOf store'))
        /\ List.length (milkmenOf store') = S (List.length (milkmenOf store)))
  /\ (forall id name phoneNumber isActive,
        plainText phoneNumber = true ->
        rosterOk (fst (SystemConfigController.updateMilkman store id name phoneNumber
                         isActive)))
  /\ (forall id, rosterOk (fst (SystemConfigController.deleteMilkman store id))).
Proof.
  intros Hok. split; [|split; [|split]].
  - intros name phoneNumber Ht. now apply addMilkman_keeps_roster.
  - intros name phone store' Ht.
    unfold SystemConfigController.addMilkman.
    destruct (_ || _); [discriminate|]. cbv zeta.
    unfold milkmenOf at 3.
    destruct (SystemConfigController.config store) as [c|] eqn:Ec.
    + destruct (find _ (SystemConfig.milkmen c)); [discriminate|].
      destruct (SystemConfigController.saveConfig store _ _) as [s1|] eqn:Esave;
        [|discriminate].
      apply saveConfig_result in Esave as [-> _].
      intros H. injection H as <-. unfold milkmenOf.
      cbn [SystemConfigController.config SystemConfig.milkmen SystemConfig.set_milkmen].
      split.
      * rewrite map_app. apply in_or_app. right. left.
        cbn [SystemConfigController.newMilkman SystemConfig.phoneNumber].
        now apply castString_plain.
      * rewrite length_app. simpl. lia.
    + destruct (SystemConfigController.saveConfig store _ _) as [s1|] eqn:Esave;
        [|discriminate].
      apply saveConfig_result in Esave as [-> _].
      intros H. injection H as <-. unfold milkmenOf.
      cbn [SystemConfigController.config SystemConfig.milkmen].
      split; [|reflexivity].
      left. cbn [SystemConfigController.newMilkman SystemConfig.phoneNumber].
      now apply castString_plain.
  - intros id name phoneNumber isActive Ht. now apply updateMilkman_keeps_roster.
  - intros id. now apply deleteMilkman_keeps_roster.
Qed.

Lemma milkmen_phones_stay_distinct_witness :
  rosterOk (fst (SystemConfigController.addMilkman Sample2.roster
                   (SystemConfigController.Text "Suresh")
                   (SystemConfigController.Text "9800000002")))
  /\ SystemConfigController.status
       (snd (SystemConfigController.addMilkman Sample2.roster
               (SystemConfigController.Text "Suresh")
               (SystemConfigController.Text "9800000001"))) = 400.
Proof.
  split; [|vm_compute; reflexivity].
  destruct (milkmen_phones_stay_distinct Sample2.roster) as (Hadd & _).
  - unfold rosterOk. simpl. repeat split.
    + repeat constructor; simpl; intuition discriminate.
    + repeat constructor; simpl; intuition discriminate.
    + intros m [<-|[]]. reflexivity.
  - apply Hadd. reflexivity.
Defined.

(** The restriction to strings is needed: a phone number sent as a JSON
    number is never strictly equal to a stored string, passes the test for
    an existing milkman and is then stored as the string of its digits.
    The roster of one milkman with the number 9800000001 holds that number
    twice afterwards. *)
Lemma number_passes_the_duplicate_test :
  let store' := fst (SystemConfigController.addMilkman Sample2.roster
                       (SystemConfigController.Text "Suresh")
                       (SystemConfigController.Num 9800000001)) in
  map SystemConfig.phoneNumber (milkmenOf store') = ["9800000001"; "9800000001"]
  /\ ~ rosterOk store'.
Proof.
  cbv zeta. split; [vm_compute; reflexivity|].
  intros (Hphones & _).
  assert (E : map SystemConfig.phoneNumber
                (milkmenOf (fst (SystemConfigController.addMilkman Sample2.roster
                                   (SystemConfigController.Text "Suresh")
                                   (SystemConfigController.Num 9800000001))))
              = ["9800000001"; "9800000001"]) by (vm_compute; reflexivity).
  rewrite E in Hphones. inversion Hphones as [|x l Hnotin _]; subst.
  apply Hnotin. now left.
Qed.

(** ** One invoice per customer and month *)

(** *** Months on the time line *)

Lemma yoe_step r :
  1 <= r < 400 ->
  365 <= (r * 365 + r / 4 - r / 100) - ((r - 1) * 365 + (r - 1) / 4 - (r - 1) / 100) <= 366.
Proof.
  intros Hr.
  pose proof (Z.div_mod r 4 ltac:(lia)). pose proof (Z.mod_pos_bound r 4 ltac:(lia)).
  pose proof (Z.div_mod (r - 1) 4 ltac:(lia)).
  pose proof (Z.mod_pos_bound (r - 1) 4 ltac:(lia)).
  pose proof (Z.div_mod r 100 ltac:(lia)). pose proof (Z.mod_pos_bound r 100 ltac:(lia)).
  pose proof (Z.div_mod (r - 1) 100 ltac:(lia)).
  pose proof (Z.mod_pos_bound (r - 1) 100 ltac:(lia)).
  lia.
Qed.

(** From 1 March of one year to 1 March of the next, as
    [days_from_civil] counts the days. *)
Lemma year_length y :
  365 <= (y / 400 * 146097 + ((y - y / 400 * 400) * 365 + (y - y / 400 * 400) / 4
                              - (y - y / 400 * 400) / 100))
         - ((y - 1) / 400 * 146097
            + ((y - 1 - (y - 1) / 400 * 400) * 365 + (y - 1 - (y - 1) / 400 * 400) / 4
               - (y - 1 - (y - 1) / 400 * 400) / 100)) <= 366.
Proof.
  pose proof (Z.div_mod y 400 ltac:(lia)) as H1.
  pose proof (Z.mod_pos_bound y 400 ltac:(lia)) as H2.
  pose proof (Z.div_mod (y - 1) 400 ltac:(lia)) as H3.
  pose proof (Z.mod_pos_bound (y - 1) 400 ltac:(lia)) as H4.
  assert (E1 : y - y / 400 * 400 = y mod 400) by lia.
  assert (E2 : y - 1 - (y - 1) / 400 * 400 = (y - 1) mod 400) by lia.
  rewrite E1, E2.
  assert (Hc : ((y - 1) / 400 = y / 400 /\ (y - 1) mod 400 = y mod 400 - 1)
               \/ ((y - 1) / 400 = y / 400 - 1 /\ y mod 400 = 0 /\ (y - 1) mod 400 = 399))
    by lia.
  destruct Hc as [[Eq Er]|(Eq & Er & Er')].
  - rewrite Eq, Er. pose proof (yoe_step (y mod 400) ltac:(lia)). lia.
  - rewrite Eq, Er, Er'.
    change (399 / 4) with 99. change (399 / 100) with 3.
    change (0 / 4) with 0. change (0 / 100) with 0. lia.
Qed.

Ltac eval_closed Y :=
  repeat match goal with
         | |- context [?a / 12] =>
             lazymatch a with context [Y] => fail | _ => idtac end;
             let v := eval vm_compute in (a / 12) in change (a / 12) with v
         | |- context [?a mod 12] =>
             lazymatch a with context [Y] => fail | _ => idtac end;
             let v := eval vm_compute in (a mod 12) in change (a mod 12) with v
         end;
  repeat match goal with
         | |- context [?a <=? 2] =>
             lazymatch a with context [Y] => fail | _ => idtac end;
             let v := eval vm_compute in (a <=? 2) in change (a <=? 2) with v
         | |- context [2 <? ?a] =>
             lazymatch a with context [Y] => fail | _ => idtac end;
             let v := eval vm_compute in (2 <? a) in change (2 <? a) with v
         end;
  cbv iota;
  repeat match goal with
         | |- context [(153 * ?a + 2) / 5] =>
             let v := eval vm_compute in ((153 * a + 2) / 5) in
             change ((153 * a + 2) / 5) with v
         end.

(** A month has 28 to 31 days. *)
Lemma month_start_step Y m :
  0 <= m <= 11 ->
  28 <= Js.MakeDay Y (m + 1) 1 - Js.MakeDay Y m 1 <= 31.
Proof.
  intros Hm. unfold Js.MakeDay, Js.days_from_civil.
  assert (Hcases : m = 0 \/ m = 1 \/ m = 2 \/ m = 3 \/ m = 4 \/ m = 5 \/ m = 6 \/ m = 7
                   \/ m = 8 \/ m = 9 \/ m = 10 \/ m = 11) by lia.
  pose proof (year_length Y) as HY. pose proof (year_length (Y + 1)) as HY1.
  replace (Y + 1 - 1) with Y in HY1 by lia.
  repeat (destruct Hcases as [->|Hcases]); [..|subst m].
  all: eval_closed Y.
  all: rewrite ?Z.add_0_r.
  all: try replace (Y + 1 - 1) with Y by lia.
  all: lia.
Qed.

Lemma MakeDay_december Y d : Js.MakeDay Y 12 d = Js.MakeDay (Y + 1) 0 d.
Proof.
  unfold Js.MakeDay. change (12 / 12) with 1. change (12 mod 12) with 0.
  change (0 / 12) with 0. change (0 mod 12) with 0. now rewrite Z.add_0_r.
Qed.

Lemma monthStart_step k :
  28 * Js.msPerDay <= monthStart (k + 1) - monthStart k <= 31 * Js.msPerDay.
Proof.
  unfold monthStart.
  pose proof (Z.div_mod k 12 ltac:(lia)) as Hk.
  pose proof (Z.mod_pos_bound k 12 ltac:(lia)) as Hm.
  assert (Hday : Js.msPerDay = 86400000) by reflexivity.
  destruct (Z.eq_dec (k mod 12) 11) as [E|E].
  - assert (E1 : (k + 1) / 12 = k / 12 + 1).
    { symmetry. apply (Z.div_unique (k + 1) 12 (k / 12 + 1) 0); lia. }
    assert (E2 : (k + 1) mod 12 = 0).
    { symmetry. apply (Z.mod_unique (k + 1) 12 (k / 12 + 1) 0); lia. }
    rewrite E1, E2, E, <- MakeDay_december.
    pose proof (month_start_step (k / 12) 11 ltac:(lia)) as H.
    change (11 + 1) with 12 in H. lia.
  - assert (E1 : (k + 1) / 12 = k / 12).
    { symmetry. apply (Z.div_unique (k + 1) 12 (k / 12) (k mod 12 + 1)); lia. }
    assert (E2 : (k + 1) mod 12 = k mod 12 + 1).
    { symmetry. apply (Z.mod_unique (k + 1) 12 (k / 12) (k mod 12 + 1)); lia. }
    rewrite E1, E2.
    pose proof (month_start_step (k / 12) (k mod 12) ltac:(lia)) as H. lia.
Qed.

Lemma monthStart_mono a b : a <= b -> monthStart a <= monthStart b.
Proof.
  intros Hab. replace b with (a + (b - a)) by lia.
  assert (H : 0 <= b - a) by lia. revert H. generalize (b - a). clear.
  assert (Hday : 0 < Js.msPerDay) by reflexivity.
  apply natlike_ind.
  - rewrite Z.add_0_r. lia.
  - intros n Hn IH. pose proof (monthStart_step (a + n)).
    replace (a + Z.succ n) with (a + n + 1) by lia. lia.
Qed.

(** Two calendar months that share an instant are the same month. *)
Lemma months_overlap_equal a b :
  monthStart a <= monthStart (b + 1) - Js.msPerDay ->
  monthStart b <= monthStart (a + 1) - Js.msPerDay ->
  a = b.
Proof.
  intros H1 H2. assert (Hday : 0 < Js.msPerDay) by reflexivity.
  destruct (Z.lt_trichotomy a b) as [Hlt|[->|Hlt]]; [|reflexivity|].
  - pose proof (monthStart_mono (a + 1) b ltac:(lia)). lia.
  - pose proof (monthStart_mono (b + 1) a ltac:(lia)). lia.
Qed.

Lemma newDate_month_start y m :
  1 <= m <= 12 -> Js.newDate y (m - 1) 1 = monthStart (12 * fullYearOf y + m - 1).
Proof.
  intros Hm. unfold Js.newDate, monthStart. fold (fullYearOf y). cbv zeta.
  assert (E1 : (12 * fullYearOf y + m - 1) / 12 = fullYearOf y).
  { symmetry. apply (Z.div_unique _ 12 (fullYearOf y) (m - 1)); lia. }
  assert (E2 : (12 * fullYearOf y + m - 1) mod 12 = m - 1).
  { symmetry. apply (Z.mod_unique _ 12 (fullYearOf y) (m - 1)); lia. }
  now rewrite E1, E2.
Qed.

Lemma newDate_month_end y m :
  1 <= m <= 12 ->
  Js.newDate y m 0 = monthStart (12 * fullYearOf y + m - 1 + 1) - Js.msPerDay.
Proof.
  intros Hm. unfold Js.newDate, monthStart. fold (fullYearOf y). cbv zeta.
  replace (12 * fullYearOf y + m - 1 + 1) with (12 * fullYearOf y + m) by lia.
  destruct (Z.eq_dec m 12) as [->|Hne].
  - assert (E1 : (12 * fullYearOf y + 12) / 12 = fullYearOf y + 1).
    { symmetry. apply (Z.div_unique _ 12 (fullYearOf y + 1) 0); lia. }
    assert (E2 : (12 * fullYearOf y + 12) mod 12 = 0).
    { symmetry. apply (Z.mod_unique _ 12 (fullYearOf y + 1) 0); lia. }
    rewrite E1, E2, MakeDay_december. unfold Js.MakeDay. lia.
  - assert (E1 : (12 * fullYearOf y + m) / 12 = fullYearOf y).
    { symmetry. apply (Z.div_unique _ 12 (fullYearOf y) m); lia. }
    assert (E2 : (12 * fullYearOf y + m) mod 12 = m).
    { symmetry. apply (Z.mod_unique _ 12 (fullYearOf y) m); lia. }
    rewrite E1, E2. unfold Js.MakeDay. lia.
Qed.

(** *** The invariant under the writes of the invoice handlers *)

Lemma periodOf_pre_save now i : periodOf (Invoice.pre_save now i) = periodOf i.
Proof.
  unfold periodOf.
  destruct (pre_save_keeps now i) as (H1 & H2 & _ & H3 & H4 & _).
  now rewrite H1, H2, H3, H4.
Qed.

Lemma periodOf_fields i j :
  periodOf i = periodOf j ->
  Invoice._id i = Invoice._id j /\ Invoice.customer i = Invoice.customer j
  /\ Invoice.startDate i = Invoice.startDate j /\ Invoice.endDate i = Invoice.endDate j.
Proof.
  unfold periodOf. intros H. injection H. intros. repeat split; assumption.
Qed.

(** The invariant reads the periods and the counter only. *)
Lemma onePerMonth_same_periods db db' :
  map periodOf (invoices db') = map periodOf (invoices db) ->
  nextId db' = nextId db ->
  onePerMonth db -> onePerMonth db'.
Proof.
  intros Hmap Hnext (Hnd & Hbound & Haligned & Hdisjoint).
  assert (Hback : forall i, In i (invoices db') ->
                    exists j, In j (invoices db) /\ periodOf j = periodOf i).
  { intros i Hi. apply (in_map periodOf) in Hi. rewrite Hmap in Hi.
    apply in_map_iff in Hi as (j & Hj & Hin). exists j. auto. }
  unfold onePerMonth. split; [|split; [|split]].
  - assert (E : forall l, map Invoice._id l = map (fun p => fst (fst (fst p))) (map periodOf l)).
    { intros l. rewrite map_map. reflexivity. }
    rewrite E, Hmap, <- E. exact Hnd.
  - intros i Hi. destruct (Hback i Hi) as (j & Hj & Hp).
    apply periodOf_fields in Hp as (Hid & _). rewrite Hnext, <- Hid. now apply Hbound.
  - intros i Hi. destruct (Hback i Hi) as (j & Hj & Hp).
    apply periodOf_fields in Hp as (_ & _ & Hs & He).
    destruct (Haligned j Hj) as (k & Hk1 & Hk2). exists k. rewrite <- Hs, <- He. auto.
  - intros i1 i2 H1 H2 Hc Hne.
    destruct (Hback i1 H1) as (j1 & Hj1 & Hp1).
    destruct (Hback i2 H2) as (j2 & Hj2 & Hp2).
    apply periodOf_fields in Hp1 as (Hid1 & Hc1 & Hs1 & He1).
    apply periodOf_fields in Hp2 as (Hid2 & Hc2 & Hs2 & He2).
    rewrite <- Hs1, <- He1, <- Hs2, <- He2.
    apply Hdisjoint; auto; congruence.
Qed.

Lemma replace_invoice_periods i' stored l :
  NoDup (map Invoice._id l) ->
  In stored l ->
  periodOf i' = periodOf stored ->
  map periodOf (replace_invoice i' l) = map periodOf l.
Proof.
  intros Hnd Hin Hp. unfold replace_invoice. rewrite map_map. apply map_ext_in.
  intros x Hx.
  destruct (N.eqb_spec (Invoice._id x) (Invoice._id i')) as [E|E]; [|reflexivity].
  pose proof (periodOf_fields _ _ Hp) as (Hid & _).
  rewrite Hid in E.
  now rewrite (NoDup_key_unique Invoice._id l x stored Hnd Hx Hin E).
Qed.

Lemma Invoice_save_keeps now db i stored :
  onePerMonth db ->
  In stored (invoices db) ->
  periodOf i = periodOf stored ->
  onePerMonth (fst (Invoice_save now db i)).
Proof.
  intros Hok Hin Hp. apply (onePerMonth_same_periods db); [|reflexivity | exact Hok].
  unfold Invoice_save. cbn [fst invoices set_invoices].
  apply replace_invoice_periods with (stored := stored); [apply Hok | exact Hin|].
  now rewrite periodOf_pre_save.
Qed.

Lemma Customer_save_keeps db c db' c' :
  Customer_save db c = Some (db', c') -> onePerMonth db -> onePerMonth db'.
Proof.
  unfold Customer_save. destruct (Customer.pre_save c); [|discriminate].
  intros H. injection H as <- _.
  apply onePerMonth_same_periods; reflexivity.
Qed.

Lemma push_invoice_keeps db i :
  onePerMonth db ->
  Invoice._id i = nextId db ->
  monthAligned i ->
  (forall j, In j (invoices db) -> Invoice.customer j = Invoice.customer i ->
     Invoice.endDate i < Invoice.startDate j \/ Invoice.endDate j < Invoice.startDate i) ->
  onePerMonth (push_invoice db i).
Proof.
  intros (Hnd & Hbound & Haligned & Hdisjoint) Hid Hal Hfree.
  unfold onePerMonth. cbn [invoices nextId push_invoice].
  split; [|split; [|split]].
  - rewrite map_app. apply NoDup_snoc; [exact Hnd|].
    cbn [map]. intros Hin. apply in_map_iff in Hin as (j & Hj & Hin).
    specialize (Hbound j Hin). rewrite Hj, Hid in Hbound. lia.
  - intros j Hin. apply in_app_or in Hin as [Hin|[<-|[]]].
    + specialize (Hbound j Hin). lia.
    + rewrite Hid. lia.
  - intros j Hin. apply in_app_or in Hin as [Hin|[<-|[]]]; [now apply Haligned | exact Hal].
  - intros j1 j2 H1 H2 Hc Hne.
    apply in_app_or in H1 as [H1|[<-|[]]]; apply in_app_or in H2 as [H2|[<-|[]]].
    + now apply Hdisjoint.
    + destruct (Hfree j1 H1 Hc); auto.
    + apply Hfree; auto.
    + contradiction.
Qed.

Lemma findExistingInvoice_none_free db ref s e :
  InvoiceController.findExistingInvoice db ref s e = None ->
  forall j, In j (invoices db) -> Invoice.customer j = ref ->
    e < Invoice.startDate j \/ Invoice.endDate j < s.
Proof.
  unfold InvoiceController.findExistingInvoice. intros Hnone j Hin Hc.
  pose proof (find_none _ _ Hnone j Hin) as Hp. unfold InvoiceController.overlaps in Hp.
  rewrite Hc, N.eqb_refl in Hp. cbn [andb] in Hp.
  destruct (Z.leb_spec (Invoice.startDate j) e); [|now left].
  destruct (Z.leb_spec s (Invoice.endDate j)); [discriminate | now right].
Qed.

Lemma createNewInvoice_keeps now db customer ref s e q t items k :
  onePerMonth db ->
  s = monthStart k -> e = monthStart (k + 1) - Js.msPerDay ->
  InvoiceController.findExistingInvoice db ref s e = None ->
  onePerMonth (fst (InvoiceController.createNewInvoice now db customer ref s e q t items)).
Proof.
  intros Hok Hs He Hnone. unfold InvoiceController.createNewInvoice. cbv zeta.
  set (app := InvoiceController.applyAdvance now customer t).
  assert (Hdb1 : forall db1,
             (if InvoiceController.app_saved app
              then option_map fst (Customer_save db (InvoiceController.app_customer app))
              else Some db) = Some db1 ->
             onePerMonth db1 /\ invoices db1 = invoices db /\ nextId db1 = nextId db).
  { intros db1. destruct (InvoiceController.app_saved app).
    - destruct (Customer_save db _) as [[db0 c0]|] eqn:Esave; [|discriminate].
      cbn [option_map fst]. intros H. injection H as <-.
      split; [exact (Customer_save_keeps _ _ _ _ Esave Hok)|].
      unfold Customer_save in Esave. destruct (Customer.pre_save _); [|discriminate].
      injection Esave as <- _. split; reflexivity.
    - intros H. injection H as <-. auto. }
  destruct (if InvoiceController.app_saved app then _ else _) as [db1|]; [|exact Hok].
  destruct (Hdb1 db1 eq_refl) as (Hok1 & Hinv1 & Hnext1).
  unfold Invoice_create. cbv zeta.
  destruct (existsb _ (invoices db1)); [exact Hok1|].
  match goal with
  | |- context [push_invoice db1 ?i] => set (created := i)
  end.
  assert (Hp : periodOf created = (nextId db1, ref, s, e)).
  { unfold created. rewrite periodOf_pre_save. reflexivity. }
  pose proof (periodOf_fields created
                (Invoice.mk (nextId db1) ref "" s e 0 0 0 0 Invoice.pending 0 [] [] 0) Hp)
    as (Hcid & Hcc & Hcs & Hce).
  cbn [Invoice._id Invoice.customer Invoice.startDate Invoice.endDate] in Hcid, Hcc, Hcs, Hce.
  assert (Hpushed : onePerMonth (push_invoice db1 created)).
  { apply push_invoice_keeps; [exact Hok1 | exact Hcid | |].
    - exists k. rewrite Hcs, Hce. auto.
    - intros j Hj Hc. rewrite Hcs, Hce. rewrite Hinv1 in Hj.
      apply (findExistingInvoice_none_free db ref s e Hnone j Hj). congruence. }
  destruct (Invoice_save now (push_invoice db1 created) created) as [db3 saved] eqn:Esave.
  cbn [fst].
  replace db3 with (fst (Invoice_save now (push_invoice db1 created) created))
    by (rewrite Esave; reflexivity).
  apply Invoice_save_keeps with (stored := created); [exact Hpushed | | reflexivity].
  cbn [invoices push_invoice]. apply in_or_app. right. now left.
Qed.

Lemma updateExistingInvoice_keeps now db existing e q t items k :
  onePerMonth db ->
  InvoiceController.findExistingInvoice db (Invoice.customer existing)
    (monthStart k) e = Some existing ->
  e = monthStart (k + 1) - Js.msPerDay ->
  onePerMonth (fst (InvoiceController.updateExistingInvoice now db existing e q t items)).
Proof.
  intros Hok Hfind He. unfold InvoiceController.updateExistingInvoice. cbv zeta.
  unfold InvoiceController.findExistingInvoice in Hfind.
  apply find_some in Hfind as [Hin Hov]. unfold InvoiceController.overlaps in Hov.
  apply andb_true_iff in Hov as [Hov H2]. apply andb_true_iff in Hov as [_ H1].
  apply Z.leb_le in H1, H2.
  destruct Hok as (Hnd & Hbound & Haligned & Hdisjoint).
  destruct (Haligned existing Hin) as (k0 & Hs0 & He0).
  assert (k0 = k).
  { apply months_overlap_equal; [rewrite <- Hs0, <- He; exact H1|].
    rewrite <- He0. exact H2. }
  subst k0.
  apply Invoice_save_keeps with (stored := existing);
    [repeat split; assumption | exact Hin|].
  unfold periodOf. cbn [Invoice._id Invoice.customer Invoice.startDate Invoice.endDate].
  now rewrite He0, He.
Qed.

Lemma findExistingInvoice_customer db ref s e existing :
  InvoiceController.findExistingInvoice db ref s e = Some existing ->
  Invoice.customer existing = ref.
Proof.
  unfold InvoiceController.findExistingInvoice. intros H.
  apply find_some in H as [_ H]. unfold InvoiceController.overlaps in H.
  apply andb_true_iff in H as [H _]. apply andb_true_iff in H as [H _].
  now apply N.eqb_eq.
Qed.

Lemma generate_keeps now db req :
  onePerMonth db ->
  onePerMonth (fst (InvoiceController.generateCustomerMonthlyInvoice now db req)).
Proof.
  intros Hok. unfold InvoiceController.generateCustomerMonthlyInvoice. cbv zeta.
  destruct (InvoiceController.missing _ || InvoiceController.missing _); [exact Hok|].
  destruct ((_ <? 1) || (12 <? _)) eqn:Erange; [exact Hok|].
  apply orb_false_iff in Erange as [E1 E2]. apply Z.ltb_ge in E1, E2.
  set (m := InvoiceController.numberOf (InvoiceController.month req)) in *.
  set (y := InvoiceController.numberOf (InvoiceController.year req)) in *.
  pose proof (newDate_month_start y m ltac:(lia)) as Hs.
  pose proof (newDate_month_end y m ltac:(lia)) as He.
  set (k := 12 * fullYearOf y + m - 1) in *.
  destruct (Customer_findById db _) as [customer|]; [|exact Hok].
  destruct (InvoiceController.findExistingInvoice db _ _ _) as [existing|] eqn:Efind.
  - destruct (InvoiceController.updateExisting req); [|exact Hok].
    destruct (Nat.eqb _ 0); [exact Hok|].
    destruct (InvoiceController.updateExistingInvoice now db existing _ _ _ _)
      as [db' inv] eqn:Eupd. cbn [fst].
    replace db' with (fst (InvoiceController.updateExistingInvoice now db existing
                             (Js.newDate y m 0)
                             (sumBy Record_.totalDailyQuantity
                                (InvoiceController.findRecordsBefore db
                                   (InvoiceController.params_id req)
                                   (Js.newDate y (m - 1) 1) (Js.newDate y m 1)))
                             (sumBy Record_.totalDailyPrice
                                (InvoiceController.findRecordsBefore db
                                   (InvoiceController.params_id req)
                                   (Js.newDate y (m - 1) 1) (Js.newDate y m 1)))
                             (map InvoiceController.itemOf
                                (InvoiceController.findRecordsBefore db
                                   (InvoiceController.params_id req)
                                   (Js.newDate y (m - 1) 1) (Js.newDate y m 1)))))
      by (rewrite Eupd; reflexivity).
    apply updateExistingInvoice_keeps with (k := k); [exact Hok | | exact He].
    rewrite (findExistingInvoice_customer _ _ _ _ _ Efind), <- Hs. exact Efind.
  - destruct (Nat.eqb _ 0); [exact Hok|].
    pose proof (createNewInvoice_keeps now db customer (InvoiceController.params_id req)
                  (Js.newDate y (m - 1) 1) (Js.newDate y m 0)
                  (sumBy Record_.totalDailyQuantity
                     (InvoiceController.findRecordsBefore db
                        (InvoiceController.params_id req)
                        (Js.newDate y (m - 1) 1) (Js.newDate y m 1)))
                  (sumBy Record_.totalDailyPrice
                     (InvoiceController.findRecordsBefore db
                        (InvoiceController.params_id req)
                        (Js.newDate y (m - 1) 1) (Js.newDate y m 1)))
                  (map InvoiceController.itemOf
                     (InvoiceController.findRecordsBefore db
                        (InvoiceController.params_id req)
                        (Js.newDate y (m - 1) 1) (Js.newDate y m 1)))
                  k Hok Hs He Efind) as Hcreate.
    destruct (InvoiceController.createNewInvoice _ _ _ _ _ _ _ _ _) as [db' [err|[inv used]]];
      exact Hcreate.
Qed.

Lemma batchStep_keeps now k upd db results c :
  onePerMonth db ->
  onePerMonth (fst (InvoiceController.batchStep now (monthStart k)
                      (monthStart (k + 1) - Js.msPerDay) upd (db, results) c)).
Proof.
  intros Hok. unfold InvoiceController.batchStep. cbv zeta.
  destruct (InvoiceController.findExistingInvoice db _ _ _) as [existing|] eqn:Efind.
  - destruct upd; [|exact Hok].
    destruct (Nat.eqb _ 0); [exact Hok|].
    pose proof (updateExistingInvoice_keeps now db existing
                  (monthStart (k + 1) - Js.msPerDay)
                  (sumBy Record_.totalDailyQuantity
                     (InvoiceController.findRecordsUpTo db (Customer._id c) (monthStart k)
                        (monthStart (k + 1) - Js.msPerDay)))
                  (sumBy Record_.totalDailyPrice
                     (InvoiceController.findRecordsUpTo db (Customer._id c) (monthStart k)
                        (monthStart (k + 1) - Js.msPerDay)))
                  (map InvoiceController.itemOf
                     (InvoiceController.findRecordsUpTo db (Customer._id c) (monthStart k)
                        (monthStart (k + 1) - Js.msPerDay)))
                  k Hok) as Hupd.
    rewrite (findExistingInvoice_customer _ _ _ _ _ Efind) in Hupd.
    specialize (Hupd Efind eq_refl).
    destruct (InvoiceController.updateExistingInvoice _ _ _ _ _ _ _) as [db' inv].
    exact Hupd.
  - assert (Hcreate : forall q t items,
              onePerMonth (fst (InvoiceController.createNewInvoice now db c (Customer._id c)
                                  (monthStart k) (monthStart (k + 1) - Js.msPerDay)
                                  q t items))).
    { intros q t items. now apply createNewInvoice_keeps with (k := k). }
    destruct upd; (destruct (Nat.eqb _ 0); [exact Hok|]);
      match goal with
      | |- context [InvoiceController.createNewInvoice ?a ?b ?c ?d ?e ?f ?q ?t ?items] =>
          specialize (Hcreate q t items);
          destruct (InvoiceController.createNewInvoice a b c d e f q t items)
            as [db' [err|[inv used]]]
      end; exact Hcreate.
Qed.

Lemma batch_keeps now db req :
  onePerMonth db ->
  onePerMonth (fst (InvoiceController.generateBatchMonthlyInvoices now db req)).
Proof.
  intros Hok. unfold InvoiceController.generateBatchMonthlyInvoices. cbv zeta.
  destruct (InvoiceController.missing _ || InvoiceController.missing _); [exact Hok|].
  destruct (_ && (_ <? _ - 2)); [exact Hok|].
  destruct ((_ <? 1) || (12 <? _)) eqn:Erange; [exact Hok|].
  apply orb_false_iff in Erange as [E1 E2]. apply Z.ltb_ge in E1, E2.
  set (m := InvoiceController.numberOf (InvoiceController.batch_month req)) in *.
  set (y := InvoiceController.numberOf (InvoiceController.batch_year req)) in *.
  rewrite (newDate_month_start y m ltac:(lia)), (newDate_month_end y m ltac:(lia)).
  set (k := 12 * fullYearOf y + m - 1).
  assert (Hfold : forall cs db0 results,
             onePerMonth db0 ->
             onePerMonth
               (fst (fold_left
                       (InvoiceController.batchStep now (monthStart k)
                          (monthStart (k + 1) - Js.msPerDay)
                          (InvoiceController.batch_updateExisting req))
                       cs (db0, results)))).
  { induction cs as [|c cs IH]; intros db0 results H0; cbn [fold_left]; [exact H0|].
    pose proof (batchStep_keeps now k (InvoiceController.batch_updateExisting req)
                  db0 results c H0) as Hstep.
    destruct (InvoiceController.batchStep _ _ _ _ (db0, results) c) as [db1 r1].
    now apply IH. }
  specialize (Hfold (filter Customer.isActive (customers db)) db
                (InvoiceController.mkResults [] [] []) Hok).
  destruct (fold_left _ _ _) as [db' results]. exact Hfold.
Qed.

Lemma payment_keeps now db req :
  onePerMonth db ->
  onePerMonth (fst (InvoiceController.addPaymentToInvoice now db req)).
Proof.
  intros Hok. unfold InvoiceController.addPaymentToInvoice.
  destruct (_ || _); [exact Hok|]. cbv zeta.
  destruct (Invoice_findById db _) as [inv|] eqn:Einv; [|exact Hok].
  assert (Hin : In inv (invoices db)).
  { unfold Invoice_findById in Einv. now apply find_some in Einv as [Hin _]. }
  assert (Hsettle : forall populated a payment,
             onePerMonth (fst (InvoiceController.settlePayment now db inv populated
                                 a payment))).
  { intros populated a payment. unfold InvoiceController.settlePayment, addPayment. cbv zeta.
    pose proof (Invoice_save_keeps now db
                  (Invoice.pushPayment inv
                     (Payment.set_amount payment (Z.min a (Invoice.dueAmount inv))))
                  inv Hok Hin eq_refl) as Hsaved.
    destruct (Invoice_save now db _) as [db1 updated]. cbn [fst] in Hsaved.
    destruct (0 <? _); [|exact Hsaved].
    destruct populated as [populatedCustomer|]; [|exact Hsaved].
    destruct (Customer_findById db1 _) as [customer|]; [|exact Hsaved].
    cbv zeta.
    destruct (Customer_save db1 _) as [[db2 c2]|] eqn:Esave; [|exact Hsaved].
    exact (Customer_save_keeps _ _ _ _ Esave Hsaved). }
  destruct (_ && _); destruct (Customer_findById db (Invoice.customer inv));
    try exact Hok; apply Hsettle.
Qed.

Lemma status_keeps now db req :
  onePerMonth db ->
  onePerMonth (fst (InvoiceController.updateInvoiceStatus now db req)).
Proof.
  intros Hok. unfold InvoiceController.updateInvoiceStatus.
  destruct (InvoiceController.status_body req) as [status|]; [|exact Hok].
  destruct (Invoice_findById db _) as [inv|] eqn:Einv; [|exact Hok].
  assert (Hin : In inv (invoices db)).
  { unfold Invoice_findById in Einv. now apply find_some in Einv as [Hin _]. }
  cbv zeta.
  pose proof (Invoice_save_keeps now db (Invoice.set_status inv status) inv Hok Hin eq_refl)
    as Hsaved.
  destruct (Invoice_save now db _) as [db1 updated]. exact Hsaved.
Qed.

Lemma removeByKey_In {A : Type} (key : A -> N) id (l : list A) x :
  In x (removeByKey key id l) -> In x l.
Proof.
  induction l as [|y l IH]; simpl; [intros []|].
  destruct (N.eqb (key y) id); simpl; intuition.
Qed.

Lemma removeByKey_NoDup {A : Type} (key : A -> N) id (l : list A) :
  NoDup (map key l) -> NoDup (map key (removeByKey key id l)).
Proof.
  induction l as [|y l IH]; intros Hnd; [constructor|].
  cbn [map] in Hnd. inversion Hnd as [|k ks Hnotin Hnd']; subst k ks.
  cbn [removeByKey]. destruct (N.eqb (key y) id); [exact Hnd'|].
  cbn [map]. constructor; [|now apply IH].
  intros Hin. apply Hnotin. apply in_map_iff in Hin as (z & Hz & Hin).
  rewrite <- Hz. apply in_map. now apply removeByKey_In in Hin.
Qed.

Lemma delete_keeps db id :
  onePerMonth db -> onePerMonth (fst (InvoiceController.deleteInvoice db id)).
Proof.
  intros Hok. unfold InvoiceController.deleteInvoice.
  destruct (Invoice_findById db id) as [inv|]; [|exact Hok].
  destruct (Nat.ltb 0 _); [exact Hok|].
  destruct Hok as (Hnd & Hbound & Haligned & Hdisjoint).
  unfold onePerMonth. cbn [fst invoices nextId set_invoices].
  change (InvoiceController.removeInvoice (Invoice._id inv) (invoices db))
    with (removeByKey Invoice._id (Invoice._id inv) (invoices db)).
  split; [|split; [|split]].
  - now apply removeByKey_NoDup.
  - intros i Hi. apply Hbound. now apply removeByKey_In in Hi.
  - intros i Hi. apply Haligned. now apply removeByKey_In in Hi.
  - intros i j Hi Hj. apply Hdisjoint; now apply removeByKey_In with (key := Invoice._id)
                                               (id := Invoice._id inv).
Qed.

(** X29. A customer never has two invoices for one month.  Starting from
    a store in which every invoice covers one calendar month and no two
    invoices of a customer share an instant, every handler that writes
    invoices leaves such a store, whatever the request and whatever it
    answers: single and batch generation (creating or updating), payments,
    status changes and deletion. *)
Theorem one_invoice_per_customer_and_month (now : Js.Date) (db : DB) :
  onePerMonth db ->
  (forall req, onePerMonth (fst (InvoiceController.generateCustomerMonthlyInvoice now db req)))
  /\ (forall req, onePerMonth (fst (InvoiceController.generateBatchMonthlyInvoices now db req)))
  /\ (forall req, onePerMonth (fst (InvoiceController.addPaymentToInvoice now db req)))
  /\ (forall req, onePerMonth (fst (InvoiceController.updateInvoiceStatus now db req)))
  /\ (forall id, onePerMonth (fst (InvoiceController.deleteInvoice db id))).
Proof.
  intros Hok. split; [|split; [|split; [|split]]].
  - intros req. now apply generate_keeps.
  - intros req. now apply batch_keeps.
  - intros req. now apply payment_keeps.
  - intros req. now apply status_keeps.
  - intros id. now apply delete_keeps.
Qed.

(** From the store with one January record and no invoice: after
    generating January 2025 the store is in order, and so it is after a
    second request for the same month with [updateExisting]. *)
Lemma one_invoice_per_customer_and_month_witness :
  let db1 :=
    fst (InvoiceController.generateCustomerMonthlyInvoice Sample.clock
           (Sample.dbRecorded 0)
           (InvoiceController.mkGenerate 1%N (Some 1) (Some 2025) false)) in
  List.length (invoices db1) = 1%nat
  /\ onePerMonth db1
  /\ onePerMonth
       (fst (InvoiceController.generateCustomerMonthlyInvoice Sample.clock db1
               (InvoiceController.mkGenerate 1%N (Some 1) (Some 2025) true))).
Proof.
  cbv zeta.
  assert (H0 : onePerMonth (Sample.dbRecorded 0)).
  { unfold onePerMonth. simpl. split; [apply NoDup_nil|].
    split; [intros i []|]. split; [intros i [] | intros i j []]. }
  destruct (one_invoice_per_customer_and_month Sample.clock (Sample.dbRecorded 0) H0)
    as (Hgen & _).
  pose proof (Hgen (InvoiceController.mkGenerate 1%N (Some 1) (Some 2025) false)) as H1.
  split; [vm_compute; reflexivity|]. split; [exact H1|].
  destruct (one_invoice_per_customer_and_month Sample.clock _ H1) as (Hgen' & _).
  apply Hgen'.
Defined.

(** ** From the join date to today *)

Lemma createHistoricalRecords_success now db customer joinedDate start success count message :
  List.length (Js.split joinedDate "/"%char) = 3%nat ->
  CustomerController.parseJoinedDate (Js.split joinedDate "/"%char) = Some start ->
  snd (CustomerController.createHistoricalRecords now db customer joinedDate)
  = CustomerController.Historical success count message ->
  let db' := fst (CustomerController.createHistoricalRecords now db customer joinedDate) in
  customers db' = customers db
  /\ holidays db' = holidays db
  /\ start mod Js.msPerDay = 0
  /\ forall k, 0 <= k -> start + k * Js.msPerDay < Js.startOfDay now ->
       RecordController.findRecord db' (Customer._id customer) (start + k * Js.msPerDay)
       <> None
       \/ holidayOn db (start + k * Js.msPerDay).
Proof.
  intros Hlen Hparse. unfold CustomerController.createHistoricalRecords. cbv zeta.
  rewrite Hlen, Hparse. cbn [Nat.eqb negb].
  assert (Hday : 0 < Js.msPerDay) by reflexivity.
  pose proof (parseJoinedDate_midnight _ _ Hparse) as Hmid.
  destruct (Js.startOfDay now <? start) eqn:Efuture;
    [apply Z.ltb_lt in Efuture | apply Z.ltb_ge in Efuture].
  { intros _. cbn [fst]. do 3 (split; [auto|]). intros k Hk Hlt. exfalso. nia. }
  destruct (historical_rounds_suffice now start Efuture) as [Hle Hfuel].
  destruct (historicalLoop_runs customer _ _ db start [] Hmid Hle Hfuel)
    as (db' & out & Hrun & Hc & _ & Hh & _).
  rewrite Hrun. destruct out as [recs|]; cbn [fst snd]; [|discriminate].
  intros _. do 3 (split; [assumption|]).
  intros k Hk Hlt.
  apply (historicalLoop_covers _ _ _ _ _ _ _ _ Hmid Hrun k Hk).
  rewrite yesterday_end. lia.
Qed.

(** X30. The fill of past days and the daily run leave no gap.  When a
    customer of the store is entered with a join date, the past records are
    created with success and the daily run of the same day answers 201,
    then for every day from the join date up to and including today the
    active customer has a record, or the store holds a holiday for that
    day. *)
Theorem no_gap_between_history_and_daily_run (now : Js.Date) (db : DB)
  (customer : Customer.t) (joinedDate : string) (start : Js.Date)
  (success : bool) (count : nat) (message : string) :
  In customer (customers db) ->
  Customer.isActive customer = true ->
  List.length (Js.split joinedDate "/"%char) = 3%nat ->
  CustomerController.parseJoinedDate (Js.split joinedDate "/"%char) = Some start ->
  snd (CustomerController.createHistoricalRecords now db customer joinedDate)
  = CustomerController.Historical success count message ->
  let db1 := fst (CustomerController.createHistoricalRecords now db customer joinedDate) in
  RecordController.status (snd (RecordController.createDailyRecords now db1)) = 201 ->
  let db2 := fst (RecordController.createDailyRecords now db1) in
  forall k, 0 <= k -> start + k * Js.msPerDay <= Js.startOfDay now ->
    RecordController.findRecord db2 (Customer._id customer) (start + k * Js.msPerDay)
    <> None
    \/ holidayOn db (start + k * Js.msPerDay).
Proof.
  intros Hin Hact Hlen Hparse Hres db1 Hdaily db2 k Hk Hle.
  destruct (createHistoricalRecords_success now db customer joinedDate start success count
              message Hlen Hparse Hres) as (Hc & Hh & Hmid & Hcover).
  fold db1 in Hc, Hh, Hcover.
  subst db2. revert Hdaily. unfold RecordController.createDailyRecords. cbv zeta.
  destruct (RecordController.isHoliday _); [cbn; discriminate|].
  destruct (RecordController.createLoop _ _ _ _ db1 []) as [db2 [recs|]] eqn:Eloop;
    [|cbn; discriminate].
  intros _. cbn [fst].
  destruct (createLoop_appends _ _ _ _ _ _ _ _ Eloop) as (_ & _ & _ & _ & extra & Hrec & _).
  destruct (Z.eq_dec (start + k * Js.msPerDay) (Js.startOfDay now)) as [E|E].
  - left. rewrite E.
    apply (createLoop_covers _ _ _ _ _ _ _ _ Eloop customer).
    apply filter_In. rewrite Hc. auto.
  - destruct (Hcover k Hk ltac:(lia)) as [Hfound|Hholiday]; [left | now right].
    apply (findRecord_extend _ db1 db2 _ extra Hrec Hfound).
Qed.

(** Entered on 15 January 2025 with join date 13 January and followed by
    the daily run: records for the 13th, 14th and 15th. *)
Lemma no_gap_between_history_and_daily_run_witness :
  let db1 :=
    fst (CustomerController.createHistoricalRecords Sample.clock Sample.dbPlain
           (Sample.customerWith 0) "13/01/2025") in
  let db2 := fst (RecordController.createDailyRecords Sample.clock db1) in
  List.length (records db2) = 3%nat
  /\ RecordController.findRecord db2 1%N (Js.newDate 2025 0 15) <> None.
Proof.
  cbv zeta. split; [vm_compute; reflexivity|].
  destruct (no_gap_between_history_and_daily_run Sample.clock Sample.dbPlain
              (Sample.customerWith 0) "13/01/2025" (Js.newDate 2025 0 13)
              true 2 "Created 2 historical records") with (k := 2) as [H|H].
  - left. reflexivity.
  - reflexivity.
  - vm_compute. reflexivity.
  - vm_compute. reflexivity.
  - vm_compute. reflexivity.
  - vm_compute. reflexivity.
  - lia.
  - vm_compute. discriminate.
  - exact H.
  - destruct H as (h & Hin & _). destruct Hin.
Defined.
